(* ===== verification/_CoqProject ===== *)
-Q . S2P
Prelude.v
Python.v
Encoder.v
Planner.v
Ingestion.v
Renderer.v
Assembly.v
Styling.v
Builder.v
Narrative.v
Instructions.v
Lifecycle.v
Endpoints.v
Concurrency.v
Startup.v
Routing.v
