(* ===== verification/Prelude.v ===== *)
(** * DocuAgent: a verification development of rohith-2809/DocuAgent

    ** The program

    Three Flask services cooperate to produce a technical report:
    - [src/Service/AiAgent.py] (the narrative service): [POST /generate-doc]
      asks a language model for a Markdown report and returns it as
      Markdown, PDF, DOCX or a saved text file.
    - [src/Service/Uml.py] (the diagram service): [POST /generate-uml-image]
      asks the language model for a bulleted list of UML diagram types
      (the planner), then, for each planned type, for PlantUML source,
      extracts every fenced [plantuml] block, encodes it for the public
      PlantUML server ([plantuml_encode]), fetches the PNG, stores it in
      its static directory and pushes it to the document builder.
    - [src/Service/Docbuilder.py] (the document builder): [POST
      /ingest-diagram] stores a pushed image under a per-build directory;
      [POST /build-document] draws a fresh build id, fetches the Markdown
      from the narrative service, triggers the diagram service with that
      build id, assembles a DOCX from the Markdown and the diagram records
      the diagram service reported (reading back the images pushed under
      the build id), converts it to PDF and writes an empty PPTX.

    ** Files, in dependency order

    - [Prelude] (this file): the scope [py_scope] of the notations
      ([⟪"..."⟫] for a Python string literal), the hint database
      [docuagent], the tactics ([zlia], [bits_arith], [stm_simpl]), the
      generic lemmas on lists, options and bytes, and the small
      state-and-exception monad [stm S A := S -> option A * S] in which
      every handler is written: [None] is an exception that escapes the
      handler (Flask's 500), and the state keeps the effects made before
      it.  [stm_sim R] relates two computations that give the same result
      from [R]-related states; it carries the relational theorems.
    - [Python]: the parts of the Python runtime the code calls: character
      classes, [str.strip], [splitlines], [startswith], [in], [replace],
      [title] and the case mappings (CPython's on ASCII; other characters
      unchanged), [str(n)], negative slices, [range], [enumerate], JSON
      values with [dict.get] and truthiness, [repr], and [posixpath]'s
      [join], [split] and [splitext].  Strings are lists of Latin-1 code
      points.  These model the language, not the repository, and are not
      in the map.
    - [Encoder]: [plantuml_encode] (Uml.py 43-54).  zlib's raw deflate is
      the class [Deflate]; the zlib frame (header, Adler-32) is computed.
      Theorems: the loop equals a structural reference, the output uses
      the alphabet only and has four characters per group, the [2:-4]
      slice leaves the raw stream, and the PlantUML decoder gives the
      stream back.
    - [Planner]: phase 1 of [generate_uml_image] (Uml.py 67-88, 95): the
      regular expression of line 83 as a backtracking matcher (greedy
      [\s*] giving back, lazy [(.+?)], [$] before a final newline), proved
      equal to a direct reading; the type sanitiser of line 95.
    - [Ingestion]: [ingest_diagram] (Docbuilder.py 84-101) over the
      builder's file store [fsys]; the class [IngestEndpoint] is the
      contract the renderer relies on, discharged by [docbuilder_ingest].
    - [Renderer]: [generate_uml_image] (Uml.py 57-160), on the state
      [uml_world] made of the diagram service's static directory and the
      document builder's disk (shared: the pushes write into it).  The
      model's answers, the image fetches and the delivery of pushes are the
      class [UmlEnv], indexed by the call that asks for them so that any
      sequence of outcomes is expressible.  Theorems: refinement of the
      handler by an abstract specification [uml_spec], growth of the
      builder's store, the naming contract with the ingestion endpoint,
      bounds, outage behaviour, termination of [findall], and findings.
    - [Assembly]: the document part of [build_document] (Docbuilder.py
      43-56, 173-256) as a sequence of blocks; Pillow and [add_picture]
      are the class [ImageLib].  Theorems: the markdown loop equals its
      fence-parity reference, the shape of the narrative blocks, heading
      order of the diagram section, missing images.
    - [Styling]: the Word document python-docx builds (Docbuilder.py
      58-65, 151-256): the style table and the three style definitions
      ([define_styles]), [set_shading_for_paragraph], the footer with its
      [PAGE] field ([set_footer]), the paragraph each block becomes
      ([para_of_block]: style, alignment, spacing, [w:pPr] elements and
      runs) and their composition [styled_docx].  python-docx's own
      operations ([add_paragraph], [add_heading], [add_run], [p.text],
      lxml's [set]) are modelled from their documented behaviour: a
      style looked up by name raises [KeyError] when the template lacks
      it ([add_para]); [font.name] writes [w:ascii] and leaves a
      template's [w:asciiTheme], which Word shows instead
      ([run_font_shown]).  Theorems: the document is built exactly when
      the template has every style the code names, and its body reads
      back as the block sequence of [Assembly] (so the block model loses
      nothing); exactly the code lines are shaded; code is in Courier
      New, text and the first two heading levels in Poppins only where
      the template's style has no theme font.
    - [Builder]: [build_document] (Docbuilder.py 104-297) against the
      interfaces [NarrativeService] and [UmlService]; [renderer_service]
      plugs in the diagram service of [Renderer], so the end-to-end
      theorem [build_document_system] is about the composed system.
      python-docx, docx2pdf and python-pptx are the class [ExportLib];
      the build id, the save second and the date are arguments.
    - [Narrative]: [generate_doc] (AiAgent.py 85-235) with its PDF and
      DOCX generators and the prompt f-string of [call_gemini]
      ([full_prompt]); Gemini and [ast.parse] are the class
      [NarrativeEnv]; [aiagent_service] is the [NarrativeService] the
      builder calls, and the last theorems compose the two.  The prompt
      determines its fields when they hold no triple quote, and does not
      when they do; any file of the service's disk can be read as code;
      text exports of one second share one file, the last write wins.
      The markdown answer reaches the builder as [markdown_transfer]:
      its UTF-8 bytes read as ISO-8859-1, since its [Content-Type] names
      no charset; it arrives unchanged exactly when it is ASCII.
    - [Instructions]: [DEFAULT_INSTRUCTIONS] (AiAgent.py 32-82) line by
      line.  Its two characters outside Latin-1, the en dash (U+2013) of
      line 35 and the em space (U+2003) indenting the subsections, are
      parameters standing for their representation (UTF-8 in the prompt
      sent to the model).  Theorems: a request without instructions
      sends the stripped default text, for every representation; the
      table of contents has one numbering gap (4.2 to 4.4).
    - [Lifecycle]: the build lifecycle of the specification (section
      4.4) as the step relation [lc_step] on [phase], and
      [build_document] cut at those phases: [bd_next] runs one block of
      the handler on a state [bstate] and the two stores, [bd_step] is
      its graph.  Theorems: every final state the machine reaches is the
      answer of [build_document] (refinement), the machine reaches a
      final state from any state within six steps (liveness, by the rank
      [bd_rank]), each step is an arrow of [lc_step] or an exception
      after the narrative phase (by rule induction with [rtc]) and, with
      the diagram service of [Renderer], an exception leaves only from
      NarrativeReady, DiagramsReady or Assembling, never from the guarded
      diagram request; a failed
      narrative leaves both stores untouched, and with the diagram
      service of [Renderer] a build with a narrative always ends
      [Completed] or [AssemblyFailed].
    - [Endpoints]: [proxy_uml] (Docbuilder.py 67-80) and [download_file]
      (Docbuilder.py 299-305, with Flask's path-segment routing).
      Theorems: the proxy is transparent with respect to a direct call,
      a proxied request without build id shares the build id
      [default], every file a build names can be downloaded with the
      stored bytes, and a download reads one file directly in the export
      directory.
    - [Concurrency]: two builds interleaved step by step ([inter_step])
      over the shared stores, with the diagram service of [Renderer].  A
      build owns its diagram directory and its three exports ([owned]);
      each block of the handler reads and writes only files it owns
      (relational lemmas [stm_sim] on agreeing disks, frame lemmas
      [stm_keeps]), and builds with distinct one-segment ids saving in
      distinct seconds own disjoint files.  Theorems: whatever the
      interleaving, each build answers and leaves its files as when it
      runs alone (section 5 of the specification); and, against any
      services, every interleaving stops within the sum of the two ranks
      and stops only when both builds are final.
    - [Startup]: what each module does at import and start-up:
      [load_dotenv()] (the [.env] entries under the process environment,
      [override=False]), the URLs and directories it then reads, the key
      checks, [genai.configure] with the key and the diagram service's
      model, [int()] of [PORT], the directories it makes; [uml_boot],
      [builder_boot] and [agent_boot] compose the two.  The diagram
      service's start-up is modelled as the lines it would run if its
      module imported (see line 42 below).  Theorems: when each service
      starts; the narrative service's key and port are the process's
      when set, the [.env] file's otherwise, so an empty key in the shell
      stops it; the builder's port; the narrative service and
      the builder read the same [PORT]; the default URLs do not connect
      three locally run services.
    - [Routing]: the URL maps the [@app.route] decorators build, the
      addresses [app.run] binds, Werkzeug's matching of a path (404 and
      405 included) and the split of an absolute URL.  Theorems: Flask's
      dispatch of a download URL is the [download_route] of [Endpoints];
      the URLs the services call each other with reach the handlers
      meant, and with the default environment only the push reaches a
      locally run service.

    ** Bounds and fuel

    [findall] over a model answer is [findall_blocks] with fuel: each
    match consumes at least one character, so fuel [length s] is enough
    ([fenced_blocks_fuel]).  [splitlines] and the regular expression are
    structural.  The PDF layout keeps [y] as its integer part, which
    decides [y < 50] exactly (see [Narrative]).  The lifecycle machine
    needs no fuel bound beyond its rank: [bd_run] with fuel 6 reaches the
    final state from a new request, since each block lowers the rank; two
    interleaved builds take at most twelve steps together.  The style
    chain of [Styling] is followed with fuel [size] of the style table.

    ** What is not modelled

    Logging (it only writes logs), the Flask objects and [CORS(app)]
    (it only adds response headers, which the replies of the model do
    not carry); the parsing of a [.env] file (python-dotenv's; the model
    takes its entries as a map); the code points of the two characters of
    [DEFAULT_INSTRUCTIONS] outside Latin-1 (kept as parameters); the
    serialisation of the Word document to bytes and python-docx's
    template (its styles and footer are parameters); the attachment
    headers of [send_file]; floats in JSON (the [duration]
    field); directories as objects of the file store (a [makedirs] is
    folded into the disk predicate of the write that follows it); the
    libraries behind the classes above.  Uml.py line 42
    ([// Send data in chunks]) is not Python and makes the module fail to
    import; the model reads it as the comment it is meant to be.
*)

From Stdlib Require Export Ascii String ZArith Lia.
From stdpp Require Export base list option strings gmap.

(** ** Notations *)

Declare Scope py_scope.
Delimit Scope py_scope with py.

(** Python [str] values are lists of characters; a character is a code
    point below 256 (Latin-1), which covers every text the theorems
    consider. *)
Abbreviation pystr := (list ascii) (only parsing).

(** A Python string literal, written [⟪"abc"⟫]. *)
Notation "⟪ s ⟫" := (list_ascii_of_string s%string) (format "⟪ s ⟫") : py_scope.

(** Python [bytes] are lists of integers, each in [0, 256). *)
Abbreviation bytes := (list Z) (only parsing).

(** A file system: a finite map from paths to file contents. *)
Abbreviation fsys := (gmap (list ascii) (list Z)) (only parsing).

(** ** Bytes *)

Definition byte_ok (b : Z) : Prop := (0 <= b < 256)%Z.
#[export] Instance byte_ok_dec b : Decision (byte_ok b) := _.

Definition bytes_ok (l : list Z) : Prop := Forall byte_ok l.

Create HintDb docuagent discriminated.

Lemma bytes_ok_app l1 l2 : bytes_ok l1 -> bytes_ok l2 -> bytes_ok (l1 ++ l2).
Proof. unfold bytes_ok. rewrite Forall_app. tauto. Qed.

Lemma bytes_ok_take n l : bytes_ok l -> bytes_ok (take n l).
Proof. apply Forall_take. Qed.

Lemma bytes_ok_drop n l : bytes_ok l -> bytes_ok (drop n l).
Proof. apply Forall_drop. Qed.

Lemma bytes_ok_replicate n : bytes_ok (replicate n 0%Z).
Proof. apply Forall_replicate. unfold byte_ok. lia. Qed.

#[export] Hint Resolve bytes_ok_app bytes_ok_take bytes_ok_drop
  bytes_ok_replicate : docuagent.

(** ** Generic list lemmas *)

Lemma Forall_flat_map {A B} (P : B -> Prop) (f : A -> list B) (l : list A) :
  Forall (fun x => Forall P (f x)) l -> Forall P (flat_map f l).
Proof. induction 1; simpl; [constructor|]. by apply Forall_app. Qed.

Lemma length_flat_map_const {A B} (k : nat) (f : A -> list B) (l : list A) :
  (forall x, length (f x) = k) -> length (flat_map f l) = k * length l.
Proof. intros Hk. induction l; simpl; [lia|]. rewrite length_app, Hk. lia. Qed.

(** ** Tactics *)

(** Case on every boolean or decision test in the goal, innermost first. *)
Ltac case_tests :=
  repeat match goal with
  | |- context [if decide ?P then _ else _] => destruct (decide P)
  | |- context [if ?b then _ else _] =>
      lazymatch b with
      | context [if _ then _ else _] => fail
      | _ => destruct b eqn:?
      end
  end.

(** [lia] with the division and modulo by constants turned into
    equations first. *)
Ltac zlia := Z.div_mod_to_equations; lia.

(** ** Integers as the code's bit operations see them *)

Lemma lor_mul_small (a b k : Z) :
  (0 <= k -> 0 <= b < 2 ^ k -> Z.lor (a * 2 ^ k) b = a * 2 ^ k + b)%Z.
Proof.
  intros Hk Hb.
  assert (Hdis : Z.land (a * 2 ^ k) b = 0%Z).
  { apply Z.bits_inj'; intros n Hn. rewrite Z.land_spec, Z.bits_0.
    destruct (Z.lt_ge_cases n k) as [Hlt|Hge].
    - by rewrite Z.mul_pow2_bits_low.
    - destruct (Z.eq_dec b 0%Z) as [->|Hb0]; [by rewrite Z.bits_0, andb_false_r|].
      rewrite (Z.bits_above_log2 b n); [by rewrite andb_false_r|lia|].
      assert (Z.log2 b < k)%Z by (apply Z.log2_lt_pow2; lia). lia. }
  by rewrite <- Z.lxor_lor, <- Z.add_nocarry_lxor.
Qed.

Lemma land_3 a : Z.land a 3 = (a mod 4)%Z.
Proof. exact (Z.land_ones a 2 ltac:(lia)). Qed.
Lemma land_15 a : Z.land a 15 = (a mod 16)%Z.
Proof. exact (Z.land_ones a 4 ltac:(lia)). Qed.
Lemma land_63 a : Z.land a 63 = (a mod 64)%Z.
Proof. exact (Z.land_ones a 6 ltac:(lia)). Qed.

(** Replace each [2 ^ k] with a literal [k] by its value. *)
Ltac pow_lits :=
  repeat match goal with
  | |- context [(2 ^ ?k)%Z] =>
      let v := eval vm_compute in (2 ^ k)%Z in change (2 ^ k)%Z with v
  end.

(** Turn shifts, masks with [2^k - 1] and [lor] of disjoint bit ranges
    into arithmetic on literals. *)
Ltac bits_arith :=
  rewrite ?land_3, ?land_15, ?land_63, ?Z.shiftr_div_pow2, ?Z.shiftl_mul_pow2 by lia;
  repeat (rewrite lor_mul_small by (pow_lits; zlia));
  pow_lits.

(** ** Lists consumed three elements at a time *)

Lemma list_triple_ind {A} (P : list A -> Prop) :
  P [] -> (forall a, P [a]) -> (forall a b, P [a; b]) ->
  (forall a b c l, P l -> P (a :: b :: c :: l)) -> forall l, P l.
Proof.
  intros H0 H1 H2 H3. fix IH 1. intros [|a [|b [|c l]]].
  - exact H0.
  - apply H1.
  - apply H2.
  - apply H3, IH.
Qed.

Lemma foldl_ext_pointwise {A B} (f g : A -> B -> A) (acc : A) (l : list B) :
  (forall a x, f a x = g a x) -> foldl f acc l = foldl g acc l.
Proof. intros Hfg. revert acc. induction l; intros acc; simpl; [done|]. by rewrite Hfg. Qed.

Lemma foldl_map' {A B C} (f : A -> B -> A) (h : C -> B) (acc : A) (l : list C) :
  foldl f acc (map h l) = foldl (fun a x => f a (h x)) acc l.
Proof. revert acc. induction l; intros acc; simpl; auto. Qed.

Lemma length_omap_le {A B} (f : A -> option B) (l : list A) : length (omap f l) <= length l.
Proof. induction l as [|x l IH]; csimpl; [done|]. destruct (f x); simpl; lia. Qed.

Lemma omap_none {A B} (f : A -> option B) (l : list A) : (forall x, f x = None) -> omap f l = [].
Proof. intros Hf. induction l as [|x l IH]; csimpl; [done|]. by rewrite Hf. Qed.

Lemma foldl_invariant {A B} (P : A -> Prop) (f : A -> B -> A) (a : A) (l : list B) :
  (forall a x, P a -> P (f a x)) -> P a -> P (foldl f a l).
Proof. intros Hf. revert a. induction l as [|x l IH]; intros a Ha; simpl; auto. Qed.

Lemma foldl_trace {A B C} (g : A -> list C) (h : B -> C) (f : A -> B -> A) (a : A) (l : list B) :
  (forall a x, g (f a x) = g a ++ [h x]) -> g (foldl f a l) = g a ++ map h l.
Proof.
  intros Hf. revert a. induction l as [|x l IH]; intros a; simpl; [by rewrite app_nil_r|].
  by rewrite IH, Hf, <- app_assoc.
Qed.

Lemma omap_ext_elem {A B} (f g : A -> option B) (l : list A) :
  (forall x, x ∈ l -> f x = g x) -> omap f l = omap g l.
Proof.
  induction l as [|x l IH]; intros Hfg; [done|]. csimpl.
  rewrite (Hfg x) by by left. rewrite IH by (intros; apply Hfg; by right). done.
Qed.

(** ** A state monad with uncaught exceptions

    A handler of a Flask service runs as [stm S A]: it threads the state
    [S] (files, stores) and ends with [Some] result, or with [None] when
    an exception escapes it (Flask then answers 500); the state then keeps
    every effect made before the exception. *)
Definition stm (S A : Type) : Type := S -> option A * S.

#[export] Instance stm_ret {S} : MRet (stm S) := fun A x s => (Some x, s).
#[export] Instance stm_bind {S} : MBind (stm S) :=
  fun A B f m s => match m s with (Some x, s') => f x s' | (None, s') => (None, s') end.

(** An exception escapes. *)
Definition throw {S A} : stm S A := fun s => (None, s).
(** Read and update the state. *)
Definition get_st {S} : stm S S := fun s => (Some s, s).
Definition modify_st {S} (f : S -> S) : stm S unit := fun s => (Some tt, f s).

Lemma stm_bind_ret {S A B} (x : A) (f : A -> stm S B) s : (mret x ≫= f) s = f x s.
Proof. done. Qed.

Lemma stm_bind_run {S A B} (m : stm S A) (f : A -> stm S B) s :
  (m ≫= f) s = match m s with (Some x, s') => f x s' | (None, s') => (None, s') end.
Proof. done. Qed.

(** Run the binds of an [stm] computation whose first steps are known. *)
Ltac stm_simpl :=
  repeat first
    [ rewrite stm_bind_run
    | progress (unfold mret, stm_ret, throw, modify_st, get_st; cbv beta iota zeta) ].

(** Two computations are related by [stm_sim R] when, from [R]-related
    states, they give the same result and [R]-related states. *)
Definition stm_sim {S A} (R : S -> S -> Prop) (m1 m2 : stm S A) : Prop :=
  forall s1 s2, R s1 s2 -> (m1 s1).1 = (m2 s2).1 /\ R (m1 s1).2 (m2 s2).2.

Lemma stm_sim_ret {S A} (R : S -> S -> Prop) (x : A) : stm_sim R (mret x) (mret x).
Proof. by intros s1 s2 HR. Qed.

Lemma stm_sim_bind {S A B} (R : S -> S -> Prop) (m1 m2 : stm S A) (f1 f2 : A -> stm S B) :
  stm_sim R m1 m2 -> (forall x, stm_sim R (f1 x) (f2 x)) -> stm_sim R (m1 ≫= f1) (m2 ≫= f2).
Proof.
  intros Hm Hf s1 s2 HR. rewrite !stm_bind_run.
  destruct (Hm s1 s2 HR) as [E1 E2].
  destruct (m1 s1) as [[x|] t1], (m2 s2) as [[y|] t2]; simpl in *; try done.
  injection E1 as <-. by apply Hf.
Qed.

Lemma stm_sim_throw {S A} (R : S -> S -> Prop) : stm_sim R (@throw S A) throw.
Proof. by intros s1 s2 HR. Qed.

#[export] Hint Resolve stm_sim_ret stm_sim_bind stm_sim_throw : docuagent.

(** [stm_keeps P m]: every run of [m] relates its start and end states
    by [P] (a frame condition when [P] is a preorder). *)
Definition stm_keeps {S A} (P : S -> S -> Prop) (m : stm S A) : Prop := forall s, P s (m s).2.

Section Keeps.
Context {S : Type} (P : S -> S -> Prop) `{!Reflexive P} `{!Transitive P}.

Lemma stm_keeps_ret {A} (x : A) : stm_keeps P (mret x).
Proof. intros s. simpl. reflexivity. Qed.

Lemma stm_keeps_throw {A} : stm_keeps P (@throw S A).
Proof. intros s. simpl. reflexivity. Qed.

Lemma stm_keeps_bind {A B} (m : stm S A) (f : A -> stm S B) :
  stm_keeps P m -> (forall x, stm_keeps P (f x)) -> stm_keeps P (m ≫= f).
Proof.
  intros Hm Hf s. rewrite stm_bind_run. specialize (Hm s).
  destruct (m s) as [[x|] s']; simpl in *; [|done]. etrans; [exact Hm|apply Hf].
Qed.

End Keeps.

#[export] Hint Resolve stm_keeps_ret stm_keeps_throw stm_keeps_bind : docuagent.
