(* ===== verification/Python.v ===== *)
(** * The Python runtime the services rely on

    Executable models of the built-in string, slicing, JSON and path
    operations that the three services call.  They follow CPython's
    definitions (Objects/unicodeobject.c, Lib/posixpath.py,
    Lib/genericpath.py) on code points below 256, the range of a Rocq
    [ascii]; [str.title] and the case mappings are CPython's on ASCII,
    and leave the other characters unchanged. *)

From S2P Require Import Prelude.
From Stdlib Require Import DecimalString DecimalNat.
Local Open Scope py_scope.

Definition code (c : ascii) : N := N_of_ascii c.

(** ** Character classes *)

Local Open Scope N_scope.

(** [str.isspace], which is also the class [\s] of [re] on [str]
    patterns: [\t \n \v \f \r], [\x1c-\x1f], space, [\x85] and [\xa0]. *)
Definition is_space (c : ascii) : bool :=
  let n := code c in
  ((9 <=? n) && (n <=? 13)) || ((28 <=? n) && (n <=? 32))
  || (n =? 133)%N || (n =? 160)%N.

(** The line boundaries of [str.splitlines]: [\n \v \f \r],
    [\x1c \x1d \x1e] and [\x85] ([\r\n] is one boundary). *)
Definition is_line_break (c : ascii) : bool :=
  let n := code c in
  ((10 <=? n) && (n <=? 13)) || ((28 <=? n) && (n <=? 30)) || (n =? 133)%N.

Definition is_digit (c : ascii) : bool := let n := code c in (48 <=? n) && (n <=? 57).
Definition is_upper (c : ascii) : bool := let n := code c in (65 <=? n) && (n <=? 90).
Definition is_lower (c : ascii) : bool := let n := code c in (97 <=? n) && (n <=? 122).
Definition is_cased (c : ascii) : bool := is_upper c || is_lower c.

Definition to_upper (c : ascii) : ascii :=
  if is_lower c then ascii_of_N (code c - 32) else c.
Definition to_lower (c : ascii) : ascii :=
  if is_upper c then ascii_of_N (code c + 32) else c.

Local Close Scope N_scope.

(** ** [str] methods *)

Fixpoint lstrip (s : pystr) : pystr :=
  match s with
  | [] => []
  | c :: r => if is_space c then lstrip r else s
  end.

Definition rstrip (s : pystr) : pystr := reverse (lstrip (reverse s)).

(** [s.strip()] *)
Definition strip (s : pystr) : pystr := rstrip (lstrip s).

(** [s.splitlines()]: [cur] is the current line, reversed; the last
    segment is a line only when it is not empty. *)
Fixpoint splitlines_from (cur : pystr) (s : pystr) : list pystr :=
  match s with
  | [] => match cur with [] => [] | _ => [reverse cur] end
  | c :: r =>
      if is_line_break c then
        let r' := if (code c =? 13)%N then
                    match r with
                    | c' :: r'' => if (code c' =? 10)%N then r'' else r
                    | [] => r
                    end
                  else r in
        reverse cur :: splitlines_from [] r'
      else splitlines_from (c :: cur) r
  end.

Definition splitlines (s : pystr) : list pystr := splitlines_from [] s.

(** [s.startswith(p)] *)
Definition startswith (p s : pystr) : bool := bool_decide (p `prefix_of` s).

(** [needle in hay] for two strings. *)
Fixpoint contains (needle hay : pystr) : bool :=
  startswith needle hay ||
  match hay with [] => false | _ :: r => contains needle r end.

(** [s.replace(c, r)] for a one-character [c]. *)
Definition replace_char (c : ascii) (r : pystr) (s : pystr) : pystr :=
  flat_map (fun x => if decide (x = c) then r else [x]) s.

(** [s.title()]: a letter is upper-cased after an uncased character and
    lower-cased after a cased one. *)
Fixpoint title_from (prev_cased : bool) (s : pystr) : pystr :=
  match s with
  | [] => []
  | c :: r => (if prev_cased then to_lower c else to_upper c) :: title_from (is_cased c) r
  end.

Definition title (s : pystr) : pystr := title_from false s.

(** [str(n)] for a natural number and for an integer. *)
Definition str_nat (n : nat) : pystr :=
  list_ascii_of_string (NilEmpty.string_of_uint (Nat.to_uint n)).

Definition str_Z (z : Z) : pystr :=
  if (z <? 0)%Z then "-"%char :: str_nat (Z.to_nat (- z)) else str_nat (Z.to_nat z).

(** ** Sequences *)

(** The index [i] of a slice bound, normalised as CPython does. *)
Definition slice_bound (len : nat) (i : Z) : nat :=
  if (i <? 0)%Z then Z.to_nat (Z.max 0 (Z.of_nat len + i)) else Nat.min len (Z.to_nat i).

(** [l[a:b]] *)
Definition py_slice {A} (l : list A) (a b : Z) : list A :=
  let s := slice_bound (length l) a in
  let e := slice_bound (length l) b in
  take (e - s) (drop s l).

(** [range(start, stop, step)] for a positive [step]. *)
Definition py_range (start stop step : nat) : list nat :=
  map (fun k => start + k * step) (seq 0 ((stop - start + step - 1) / step)).

(** [enumerate(l, start=1)] *)
Definition enumerate1 {A} (l : list A) : list (nat * A) := zip (seq 1 (length l)) l.

(** [s[i]] on a string, [None] when CPython raises [IndexError]. *)
Definition str_index (s : pystr) (i : Z) : option ascii :=
  if (i <? 0)%Z then s !! Z.to_nat (Z.of_nat (length s) + i)
  else s !! Z.to_nat i.

(** ** JSON values as Python sees them after [json.loads]

    Numbers are integers: fractional JSON numbers are not modelled. *)
Local Set Warnings "-register-all".
Inductive json :=
| JNull
| JBool (b : bool)
| JInt (z : Z)
| JStr (s : pystr)
| JArr (l : list json)
| JObj (kvs : list (pystr * json)).

(** In a JSON object with repeated keys the last one wins. *)
Definition obj_lookup (k : pystr) (kvs : list (pystr * json)) : option json :=
  foldl (fun acc kv => if decide (kv.1 = k) then Some kv.2 else acc) None kvs.

(** [d.get(k, default)]; [None] when [d] is not a dict and Python raises
    [AttributeError]. *)
Definition py_get (d : json) (k : pystr) (dflt : json) : option json :=
  match d with
  | JObj kvs => Some (default dflt (obj_lookup k kvs))
  | _ => None
  end.

(** [bool(v)] *)
Definition truthy (v : json) : bool :=
  match v with
  | JNull => false
  | JBool b => b
  | JInt z => negb (z =? 0)%Z
  | JStr s => negb (bool_decide (s = []))
  | JArr l => negb (bool_decide (l = []))
  | JObj kvs => negb (bool_decide (kvs = []))
  end.

(** [str(v)] and [repr(v)] of a JSON value, as CPython prints the
    Python object [json.loads] builds: strings in quotes with the
    escapes of [unicode_repr] (the quote is ["] when the text contains
    ['] and no ["]), lists and dicts with [", "] and [": "]. *)
Definition hex_digit (n : nat) : ascii :=
  match list_ascii_of_string "0123456789abcdef" !! n with Some c => c | None => "0"%char end.

Definition dquote : ascii := ascii_of_N 34.

Definition repr_char (q : ascii) (c : ascii) : pystr :=
  let n := N.to_nat (code c) in
  if bool_decide (c = q) || bool_decide (c = "\"%char) then ["\"%char; c]
  else if (n =? 9) then ⟪"\t"⟫
  else if (n =? 10) then ⟪"\n"⟫
  else if (n =? 13) then ⟪"\r"⟫
  else if (n <? 32) || ((127 <=? n) && (n <=? 160)) || (n =? 173) then
    ["\"%char; "x"%char; hex_digit (n / 16); hex_digit (n mod 16)]
  else [c].

Definition repr_str (s : pystr) : pystr :=
  let q := if bool_decide ("'"%char ∈ s) && negb (bool_decide (dquote ∈ s))
           then dquote else "'"%char in
  q :: flat_map (repr_char q) s ++ [q].

Fixpoint intercalate (sep : pystr) (l : list pystr) : pystr :=
  match l with
  | [] => []
  | [x] => x
  | x :: r => x ++ sep ++ intercalate sep r
  end.

Fixpoint py_repr (v : json) : pystr :=
  match v with
  | JNull => ⟪"None"⟫
  | JBool true => ⟪"True"⟫
  | JBool false => ⟪"False"⟫
  | JInt z => str_Z z
  | JStr s => repr_str s
  | JArr l => "["%char :: intercalate ⟪", "⟫ (map py_repr l) ++ ⟪"]"⟫
  | JObj kvs =>
      "{"%char :: intercalate ⟪", "⟫ (map (fun kv => repr_str kv.1 ++ ⟪": "⟫ ++ py_repr kv.2) kvs)
      ++ ⟪"}"⟫
  end.

Definition py_str (v : json) : pystr :=
  match v with JStr s => s | _ => py_repr v end.

(** The values [requests] sends for one field of a multipart form
    ([_encode_files]): [None] is left out, a list or a dict contributes
    one value per element (per key), every value is [str(v)]. *)
Definition form_values (v : json) : list pystr :=
  match v with
  | JNull => []
  | JArr l => map py_str (List.filter (fun x => match x with JNull => false | _ => true end) l)
  | JObj kvs => map fst kvs
  | _ => [py_str v]
  end.

(** ** [posixpath] *)

(** [p.rfind(c)], [-1] when absent. *)
Definition rfind (c : ascii) (p : pystr) : Z :=
  foldl (fun acc ic => if decide (ic.2 = c) then Z.of_nat ic.1 else acc) (-1)%Z
        (zip (seq 0 (length p)) p).

(** [os.path.join(a, b)] *)
Definition path_join (a b : pystr) : pystr :=
  if startswith ⟪"/"⟫ b then b
  else if bool_decide (a = []) || bool_decide (last a = Some "/"%char) then a ++ b
  else a ++ "/"%char :: b.

(** [s.lstrip(c)] and [s.rstrip(c)] for one character [c]. *)
Fixpoint lstrip_char (c : ascii) (s : pystr) : pystr :=
  match s with
  | [] => []
  | x :: r => if decide (x = c) then lstrip_char c r else s
  end.

Definition rstrip_char (c : ascii) (s : pystr) : pystr := reverse (lstrip_char c (reverse s)).

(** [os.path.split(p)] *)
Definition path_split (p : pystr) : pystr * pystr :=
  let i := Z.to_nat (rfind "/" p + 1) in
  let head := take i p in
  let tail := drop i p in
  if bool_decide (head <> []) && negb (forallb (fun c => bool_decide (c = "/"%char)) head)
  then (rstrip_char "/" head, tail)
  else (head, tail).

(** [os.path.splitext(p)] ([genericpath._splitext]): the extension starts
    at the last dot when that dot follows the last slash and a character
    other than a dot lies between them (the [while] loop of the source
    looks for that character). *)
Definition splitext (p : pystr) : pystr * pystr :=
  let si := rfind "/" p in
  let di := rfind "." p in
  if (si <? di)%Z && existsb (fun c => negb (bool_decide (c = "."%char))) (py_slice p (si + 1) di)
  then (take (Z.to_nat di) p, drop (Z.to_nat di) p)
  else (p, []).

(** ** Lemmas on slices and ranges *)

Lemma slice_bound_nat len (i : nat) : slice_bound len (Z.of_nat i) = Nat.min len i.
Proof. unfold slice_bound. destruct (Z.ltb_spec (Z.of_nat i) 0); [lia|]. by rewrite Nat2Z.id. Qed.

Lemma py_slice_nat {A} (l : list A) (i j : nat) :
  py_slice l (Z.of_nat i) (Z.of_nat j)
  = take (Nat.min (length l) j - Nat.min (length l) i) (drop (Nat.min (length l) i) l).
Proof. unfold py_slice. by rewrite !slice_bound_nat. Qed.

(** Slicing after the head of a list is slicing its tail. *)
Lemma py_slice_cons {A} (x : A) (l : list A) (i j : nat) :
  py_slice (x :: l) (Z.of_nat (S i)) (Z.of_nat (S j)) = py_slice l (Z.of_nat i) (Z.of_nat j).
Proof. rewrite !py_slice_nat. done. Qed.

(** [l[2:-4]] drops a 2-element head and a 4-element tail. *)
Lemma py_slice_2_m4 {A} (h m t : list A) :
  length h = 2 -> length t = 4 -> py_slice (h ++ m ++ t) 2 (-4) = m.
Proof.
  intros Hh Ht. unfold py_slice.
  replace (slice_bound (length (h ++ m ++ t)) 2) with (length h)
    by (unfold slice_bound; rewrite !length_app; simpl; lia).
  replace (slice_bound (length (h ++ m ++ t)) (-4)) with (length h + length m)
    by (unfold slice_bound; rewrite !length_app; simpl; lia).
  rewrite drop_app_length. replace (length h + length m - length h) with (length m) by lia.
  by rewrite take_app_length.
Qed.

(** [range(0, n + 3, 3)] starts with [0] and continues with
    [range(0, n, 3)] shifted by three. *)
Lemma py_range_3_cons n : py_range 0 (n + 3) 3 = 0 :: map (Nat.add 3) (py_range 0 n 3).
Proof.
  unfold py_range.
  replace ((n + 3 - 0 + 3 - 1) / 3) with (S ((n - 0 + 3 - 1) / 3)).
  - simpl. f_equal. rewrite <- seq_shift, !map_map. apply map_ext. intros; lia.
  - replace (n + 3 - 0 + 3 - 1) with ((n - 0 + 3 - 1) + 1 * 3) by lia.
    rewrite Nat.div_add by lia. lia.
Qed.

(** ** Backtracking of [re]

    A greedy quantifier tries its longest repetition first and gives
    characters back one at a time: [try_desc f k] tries [f k], [f (k-1)],
    ..., [f 0] and returns the first success. *)
Fixpoint try_desc {A} (f : nat -> option A) (k : nat) : option A :=
  match k with
  | 0 => f 0
  | S k' => match f k with Some a => Some a | None => try_desc f k' end
  end.

(** The number of leading characters matched by [\s*]. *)
Fixpoint ws_prefix (s : pystr) : nat :=
  match s with
  | c :: r => if is_space c then S (ws_prefix r) else 0
  | [] => 0
  end.

Definition is_newline (c : ascii) : bool := bool_decide (c = "010"%char).

(** Lines produced by [splitlines] contain no line boundary, in
    particular no newline. *)
Lemma splitlines_from_no_break n cur s l :
  length s <= n ->
  Forall (fun c => is_line_break c = false) cur ->
  l ∈ splitlines_from cur s -> Forall (fun c => is_line_break c = false) l.
Proof.
  revert cur s. induction n as [|n IH]; intros cur s Hn Hcur Hl.
  { destruct s; [|simpl in Hn; lia]. simpl in Hl. destruct cur; [by apply not_elem_of_nil in Hl|].
    apply list_elem_of_singleton in Hl as ->. by apply Forall_reverse. }
  destruct s as [|c s]; simpl in Hl.
  - destruct cur; [by apply not_elem_of_nil in Hl|].
    apply list_elem_of_singleton in Hl as ->. by apply Forall_reverse.
  - simpl in Hn. destruct (is_line_break c) eqn:Ec.
    + apply elem_of_cons in Hl as [->|Hl]; [by apply Forall_reverse|].
      eapply (IH []); [|constructor|exact Hl].
      destruct (code c =? 13)%N; [|lia].
      destruct s as [|c' s']; [simpl; lia|]. destruct (code c' =? 10)%N; simpl in *; lia.
    + eapply (IH (c :: cur) s); [lia|by constructor|exact Hl].
Qed.

Lemma splitlines_no_break s l :
  l ∈ splitlines s -> Forall (fun c => is_line_break c = false) l.
Proof. apply splitlines_from_no_break with (n := length s); [done|constructor]. Qed.

(** ** Lemmas on [strip] and [try_desc] *)

Abbreviation spaces := (Forall (fun c => is_space c = true)) (only parsing).

Lemma lstrip_ws_prefix s : lstrip s = drop (ws_prefix s) s.
Proof. induction s as [|c s IH]; simpl; [done|]. by destruct (is_space c). Qed.

Lemma ws_prefix_spaces s : spaces (take (ws_prefix s) s).
Proof.
  induction s as [|c s IH]; simpl; [constructor|].
  destruct (is_space c) eqn:E; simpl; [by constructor|constructor].
Qed.

Lemma ws_prefix_le s : ws_prefix s <= length s.
Proof. induction s as [|c s IH]; simpl; [lia|]. destruct (is_space c); simpl; lia. Qed.

Lemma lstrip_spaces_app ws s : spaces ws -> lstrip (ws ++ s) = lstrip s.
Proof. induction 1 as [|c ws Hc _ IH]; simpl; [done|]. by rewrite Hc. Qed.

Lemma strip_spaces_app ws s : spaces ws -> strip (ws ++ s) = strip s.
Proof. intros H. unfold strip. by rewrite lstrip_spaces_app. Qed.

Lemma strip_spaces ws : spaces ws -> strip ws = [].
Proof. intros H. rewrite <- (app_nil_r ws), strip_spaces_app by done. done. Qed.

Lemma lstrip_idem s : lstrip (lstrip s) = lstrip s.
Proof. induction s as [|c s IH]; simpl; [done|]. destruct (is_space c) eqn:E; simpl; by rewrite ?E. Qed.

Lemma strip_lstrip s : strip (lstrip s) = strip s.
Proof. unfold strip. by rewrite lstrip_idem. Qed.

Lemma try_desc_fmap {A B} (h : A -> B) (f : nat -> option A) k :
  h <$> try_desc f k = try_desc (fun i => h <$> f i) k.
Proof. induction k as [|k IH]; simpl; [done|]. destruct (f (S k)); simpl; [done|apply IH]. Qed.

(** When every shorter attempt gives the same answer [y], only the
    longest attempt and [y] matter. *)
Lemma try_desc_below {A} (f : nat -> option A) k (y : option A) :
  (forall i, i < k -> f i = y) ->
  try_desc f k = match f k with Some a => Some a | None => match k with 0 => None | S _ => y end end.
Proof.
  intros Hy. destruct k as [|k]; simpl; [by destruct (f 0)|].
  destruct (f (S k)); [done|].
  induction k as [|k IH]; simpl; [apply Hy; lia|].
  rewrite (Hy (S k)) by lia. destruct y; [done|]. apply IH. intros; apply Hy; lia.
Qed.

Lemma no_break_no_newline (s : pystr) :
  Forall (fun c => is_line_break c = false) s -> Forall (fun c => is_newline c = false) s.
Proof.
  intros H. eapply Forall_impl; [exact H|]. intros c Hc. unfold is_newline. case_bool_decide; [|done].
  subst. discriminate Hc.
Qed.

Lemma try_desc_some {A} (f : nat -> option A) k a :
  try_desc f k = Some a -> exists i, i <= k /\ f i = Some a.
Proof.
  induction k as [|k IH]; simpl; intros H; [by exists 0|].
  destruct (f (S k)) eqn:E; [injection H as <-; by exists (S k)|].
  destruct (IH H) as (i & Hi & Hf). exists i. split; [lia|done].
Qed.

Lemma obj_lookup_snoc_ne k k' v kvs :
  k' <> k -> obj_lookup k (kvs ++ [(k', v)]) = obj_lookup k kvs.
Proof. intros Hne. unfold obj_lookup. rewrite foldl_app. simpl. by rewrite decide_False. Qed.

Lemma obj_lookup_snoc_eq k v kvs : obj_lookup k (kvs ++ [(k, v)]) = Some v.
Proof. unfold obj_lookup. rewrite foldl_app. simpl. by rewrite decide_True. Qed.

Lemma length_enumerate1 {A} (l : list A) : length (enumerate1 l) = length l.
Proof. unfold enumerate1. rewrite length_zip, length_seq. lia. Qed.

(** [os.path.join] puts one separator between a non-empty directory that
    does not end with ["/"] and a relative name. *)
Lemma path_join_sep (a b : pystr) :
  a <> [] -> last a <> Some "/"%char -> head b <> Some "/"%char -> path_join a b = a ++ "/"%char :: b.
Proof.
  intros Ha Hl Hb. unfold path_join, startswith.
  rewrite bool_decide_false; [|intros [r ->]; by apply Hb].
  by rewrite bool_decide_false, bool_decide_false.
Qed.

(** The component before the first separator determines a path. *)
Lemma slash_prefix_inj (b1 b2 r1 r2 : pystr) :
  "/"%char ∉ b1 -> "/"%char ∉ b2 -> b1 ++ "/"%char :: r1 = b2 ++ "/"%char :: r2 -> b1 = b2 /\ r1 = r2.
Proof.
  revert b2. induction b1 as [|c b1 IH]; intros [|c' b2] H1 H2 E; simpl in E.
  - by injection E.
  - injection E; intros; subst. set_solver.
  - injection E; intros; subst. set_solver.
  - injection E as <- E. destruct (IH b2) as [-> ->]; [set_solver|set_solver|done|done].
Qed.

Lemma str_Z_of_nat n : str_Z (Z.of_nat n) = str_nat n.
Proof. unfold str_Z. rewrite (proj2 (Z.ltb_ge _ _)) by lia. by rewrite Nat2Z.id. Qed.

Lemma startswith_slash (b : pystr) : head b <> Some "/"%char -> startswith ⟪"/"⟫ b = false.
Proof. intros Hb. unfold startswith. apply bool_decide_false. intros [r ->]. by apply Hb. Qed.

(** Joining relative names to one directory is injective. *)
Lemma path_join_inj_r (a b1 b2 : pystr) :
  head b1 <> Some "/"%char -> head b2 <> Some "/"%char -> path_join a b1 = path_join a b2 -> b1 = b2.
Proof.
  intros H1 H2. unfold path_join. rewrite !startswith_slash by done.
  destruct (_ || _); intros E; apply app_inv_head in E; [done|by injection E].
Qed.

Lemma path_join_last (a b : pystr) : b <> [] -> last (path_join a b) = last b.
Proof.
  intros Hb. destruct b as [|c b]; [done|]. unfold path_join.
  destruct (startswith _ _); [done|]. destruct (_ || _); [apply last_app_cons|].
  rewrite last_app_cons. apply last_cons_cons.
Qed.

(** A character is not in a string literal that does not hold it. *)
Ltac not_in_lit :=
  let Hin := fresh in
  intros Hin; repeat (apply elem_of_cons in Hin as [Hin|Hin]; [discriminate Hin|]);
  by apply not_elem_of_nil in Hin.

(** [str(n)] is made of digits only. *)
Lemma str_nat_digits n : Forall (fun c => is_digit c = true) (str_nat n).
Proof.
  unfold str_nat. induction (Nat.to_uint n); cbn [NilEmpty.string_of_uint list_ascii_of_string];
    repeat constructor; done.
Qed.

Lemma str_nat_not_in c n : is_digit c = false -> c ∉ str_nat n.
Proof.
  intros Hc Hin. pose proof (str_nat_digits n) as Hd. rewrite Forall_forall in Hd.
  specialize (Hd c Hin). congruence.
Qed.

Lemma str_nat_no_slash n : "/"%char ∉ str_nat n.
Proof. by apply str_nat_not_in. Qed.

Lemma str_nat_inj n1 n2 : str_nat n1 = str_nat n2 -> n1 = n2.
Proof.
  unfold str_nat. intros E. apply (f_equal string_of_list_ascii) in E.
  rewrite !string_of_list_ascii_of_string in E. apply (f_equal NilEmpty.uint_of_string) in E.
  rewrite !NilEmpty.usu in E. injection E. apply DecimalNat.Unsigned.to_uint_inj.
Qed.

(** Two strings each followed by a separator they do not contain. *)
Lemma sep_prefix_inj (c : ascii) (b1 b2 r1 r2 : pystr) :
  c ∉ b1 -> c ∉ b2 -> b1 ++ c :: r1 = b2 ++ c :: r2 -> b1 = b2 /\ r1 = r2.
Proof.
  revert b2. induction b1 as [|x b1 IH]; intros [|x' b2] H1 H2 E; simpl in E.
  - by injection E.
  - injection E; intros; subst. set_solver.
  - injection E; intros; subst. set_solver.
  - injection E as <- E. destruct (IH b2) as [-> ->]; [set_solver|set_solver|done|done].
Qed.

Lemma rfind_none (c : ascii) k (f : pystr) acc :
  c ∉ f -> foldl (fun acc ic => if decide (ic.2 = c) then Z.of_nat ic.1 else acc) acc (zip (seq k (length f)) f) = acc.
Proof.
  revert k. induction f as [|x f IH]; intros k Hf; [done|].
  cbn [length seq zip_with foldl]. simpl. rewrite decide_False by set_solver. apply IH. set_solver.
Qed.

(** [p.rfind(c)] finds the separator before a tail without it. *)
Lemma rfind_last (c : ascii) (p f : pystr) : c ∉ f -> rfind c (p ++ c :: f) = Z.of_nat (length p).
Proof.
  intros Hf. unfold rfind. rewrite length_app. cbn [length].
  rewrite seq_app, (zip_with_app _ (seq 0 (length p)) _ p (c :: f)) by (by rewrite length_seq).
  rewrite foldl_app, Nat.add_0_l. cbn [seq zip_with foldl]. simpl. rewrite decide_True by done.
  apply rfind_none, Hf.
Qed.

(** [os.path.split] of a directory without a trailing slash and a file
    name. *)
Lemma path_split_last (d f : pystr) :
  d <> [] -> last d <> Some "/"%char -> "/"%char ∉ f -> path_split (d ++ "/"%char :: f) = (d, f).
Proof.
  intros Hd Hl Hf. destruct (last d) as [x|] eqn:Ex; [|by apply last_None in Ex].
  apply last_Some in Ex as [d' ->]. assert (Hx : x <> "/"%char) by congruence.
  unfold path_split. rewrite rfind_last by done.
  replace (Z.to_nat (Z.of_nat (length (d' ++ [x])) + 1)) with (length ((d' ++ [x]) ++ ["/"%char]))
    by (rewrite !length_app; simpl; lia).
  replace ((d' ++ [x]) ++ "/"%char :: f) with (((d' ++ [x]) ++ ["/"%char]) ++ f)
    by (by rewrite <- app_assoc).
  rewrite take_app_length, drop_app_length.
  rewrite bool_decide_true by (by destruct d').
  rewrite !forallb_app. cbn [forallb]. rewrite (bool_decide_false _ Hx).
  rewrite !andb_false_l, !andb_false_r, !andb_false_l. cbn [negb andb].
  unfold rstrip_char. rewrite !reverse_app, !reverse_singleton. cbn [app lstrip_char].
  rewrite decide_True by done. cbn [lstrip_char]. rewrite decide_False by done.
  by rewrite reverse_cons, reverse_involutive.
Qed.

(** The name part of [os.path.splitext] is a prefix. *)
Lemma splitext_prefix (f : pystr) : exists k, (splitext f).1 = take k f.
Proof. unfold splitext. destruct (_ && _); [by eexists|]. exists (length f). by rewrite take_ge. Qed.


Lemma str_nat_no_dot n : "."%char ∉ str_nat n.
Proof. by apply str_nat_not_in. Qed.

Lemma str_nat_no_space n : " "%char ∉ str_nat n.
Proof. by apply str_nat_not_in. Qed.

Lemma str_Z_pos p : (0 <= p)%Z -> str_Z p = str_nat (Z.to_nat p).
Proof. intros Hp. unfold str_Z. by rewrite (proj2 (Z.ltb_ge p 0) Hp). Qed.
