(* ===== verification/Encoder.v ===== *)
(** * Text-Encoder: [plantuml_encode] (src/Service/Uml.py, lines 43-54)

    The source compresses the UTF-8 bytes of the text with
    [zlib.compress], keeps [data[2:-4]], and walks [range(0, len(data), 3)]
    turning each 3-byte group (padded with zero bytes by [ljust]) into four
    characters of a 64-character alphabet.

    zlib is a library the code only calls: the class [Deflate] provides the
    raw DEFLATE compressor, and [zlib_compress] adds the RFC 1950 frame
    around it (the two header bytes [0x78 0x9c] of the default level and the
    big-endian Adler-32 of the input), which is what [zlib.compress] returns.

    The file holds the source's loop ([encode_loop]), a structural
    reference ([encode_groups]), the decoder the PlantUML server applies
    ([decode]), and the theorems: the loop equals the reference, the output
    uses only the alphabet and has four characters per group, no
    [IndexError] is raised, the slice leaves exactly the raw stream, and
    decoding gives the stream back (with its padding). *)

From S2P Require Import Prelude Python.
Local Open Scope py_scope.

(** ** The zlib library, as the code sees it *)

Class Deflate := {
  deflate_raw : bytes -> bytes;
  deflate_raw_bytes : forall l, bytes_ok (deflate_raw l)
}.

Definition adler32 (l : bytes) : Z :=
  let '(a, b) := foldl (fun ab x => let a' := ((ab.1 + x) mod 65521)%Z in
                                    (a', ((ab.2 + a') mod 65521)%Z)) (1%Z, 0%Z) l in
  (b * 65536 + a)%Z.

Definition be32 (v : Z) : bytes :=
  [Z.land (Z.shiftr v 24) 255; Z.land (Z.shiftr v 16) 255;
   Z.land (Z.shiftr v 8) 255; Z.land v 255]%Z.

Definition zlib_compress `{Deflate} (l : bytes) : bytes :=
  [120; 156]%Z ++ deflate_raw l ++ be32 (adler32 l).

(** [text.encode("utf-8")] for code points below 256. *)
Definition utf8_char (c : ascii) : bytes :=
  let n := Z.of_N (code c) in
  if (n <? 128)%Z then [n]
  else [Z.lor 192 (Z.shiftr n 6); Z.lor 128 (Z.land n 63)]%Z.

Definition utf8_encode (s : pystr) : bytes := flat_map utf8_char s.

(** ** The encoder *)

Definition alphabet : pystr :=
  ⟪"0123456789ABCDEFGHIJKLMNOPQRSTUVWXYZabcdefghijklmnopqrstuvwxyz-_"⟫.

(** The four alphabet indices of lines 50-53. *)
Definition sextet1 (b1 : Z) : Z := Z.shiftr b1 2.
Definition sextet2 (b1 b2 : Z) : Z := Z.lor (Z.shiftl (Z.land b1 3) 4) (Z.shiftr b2 4).
Definition sextet3 (b2 b3 : Z) : Z := Z.lor (Z.shiftl (Z.land b2 15) 2) (Z.shiftr b3 6).
Definition sextet4 (b3 : Z) : Z := Z.land b3 63.

(** Lines 50-53 for one group; [None] is the [IndexError] of
    [alphabet[...]]. *)
Definition encode_group (b1 b2 b3 : Z) : option pystr :=
  c1 ← str_index alphabet (sextet1 b1);
  c2 ← str_index alphabet (sextet2 b1 b2);
  c3 ← str_index alphabet (sextet3 b2 b3);
  c4 ← str_index alphabet (sextet4 b3);
  Some [c1; c2; c3; c4].

(** [data[i:i+3].ljust(3, b'\x00')] *)
Definition ljust3 (l : bytes) : bytes := l ++ replicate (3 - length l) 0%Z.

(** One iteration of the loop of lines 47-53; [b1,b2,b3 = chunk] fails
    unless the chunk has three bytes. *)
Definition encode_step (data : bytes) (out : option pystr) (i : nat) : option pystr :=
  o ← out;
  match ljust3 (py_slice data (Z.of_nat i) (Z.of_nat i + 3)) with
  | [b1; b2; b3] => g ← encode_group b1 b2 b3; Some (o ++ g)
  | _ => None
  end.

Definition encode_loop_from (out : option pystr) (data : bytes) : option pystr :=
  foldl (encode_step data) out (py_range 0 (length data) 3).

Definition encode_loop (data : bytes) : option pystr := encode_loop_from (Some []) data.

(** [plantuml_encode(text)] *)
Definition plantuml_encode `{Deflate} (text : pystr) : option pystr :=
  encode_loop (py_slice (zlib_compress (utf8_encode text)) 2 (-4)).

(** ** The reference: structural recursion on the groups *)

Fixpoint encode_groups (data : bytes) : option pystr :=
  match data with
  | [] => Some []
  | [b1] => encode_group b1 0 0
  | [b1; b2] => encode_group b1 b2 0
  | b1 :: b2 :: b3 :: rest =>
      g ← encode_group b1 b2 b3; r ← encode_groups rest; Some (g ++ r)
  end.

(** ** The decoder of the PlantUML server *)

Fixpoint find_index (c : ascii) (s : pystr) : option Z :=
  match s with
  | [] => None
  | x :: r => if decide (x = c) then Some 0%Z else Z.succ <$> find_index c r
  end.

Definition decode_group (v1 v2 v3 v4 : Z) : bytes :=
  [Z.lor (Z.shiftl v1 2) (Z.shiftr v2 4);
   Z.lor (Z.shiftl (Z.land v2 15) 4) (Z.shiftr v3 2);
   Z.lor (Z.shiftl (Z.land v3 3) 6) v4].

Fixpoint decode (s : pystr) : option bytes :=
  match s with
  | [] => Some []
  | c1 :: c2 :: c3 :: c4 :: r =>
      v1 ← find_index c1 alphabet; v2 ← find_index c2 alphabet;
      v3 ← find_index c3 alphabet; v4 ← find_index c4 alphabet;
      rest ← decode r; Some (decode_group v1 v2 v3 v4 ++ rest)
  | _ => None
  end.

(** The zero bytes [ljust] adds to the last group. *)
Definition padding (n : nat) : bytes := replicate ((3 - n mod 3) mod 3) 0%Z.

Definition in_alphabet (s : pystr) : Prop := Forall (fun c => c ∈ alphabet) s.

Arguments alphabet : simpl never.

(** ** The alphabet *)

Lemma length_alphabet : length alphabet = 64.
Proof. reflexivity. Qed.

Lemma alphabet_NoDup : NoDup alphabet.
Proof. apply (bool_decide_unpack _). vm_compute. reflexivity. Qed.

Lemma find_index_NoDup (s : pystr) (k : nat) (c : ascii) :
  NoDup s -> s !! k = Some c -> find_index c s = Some (Z.of_nat k).
Proof.
  revert k. induction s as [|x s IH]; intros k Hnd Hk; [done|].
  apply NoDup_cons in Hnd as [Hx Hnd]. destruct k as [|k]; simpl in Hk.
  - injection Hk as ->. simpl. by rewrite decide_True.
  - simpl. rewrite decide_False by (intros ->; apply Hx; by eapply list_elem_of_lookup_2).
    rewrite (IH k) by done. simpl. f_equal. lia.
Qed.

(** Every index below 64 names a character of the alphabet, which the
    decoder maps back to the index. *)
Lemma alphabet_char (n : Z) :
  (0 <= n < 64)%Z ->
  exists c, str_index alphabet n = Some c /\ c ∈ alphabet /\ find_index c alphabet = Some n.
Proof.
  intros Hn. unfold str_index. destruct (Z.ltb_spec n 0); [lia|].
  destruct (lookup_lt_is_Some_2 alphabet (Z.to_nat n)) as [c Hc]; [rewrite length_alphabet; lia|].
  exists c. split; [done|]. split; [by eapply list_elem_of_lookup_2|].
  rewrite (find_index_NoDup _ _ _ alphabet_NoDup Hc). f_equal. lia.
Qed.

(** ** The bit arithmetic of one group *)

Lemma sextet1_eq b1 : sextet1 b1 = (b1 / 4)%Z.
Proof. unfold sextet1. by bits_arith. Qed.

Lemma sextet2_eq b1 b2 : byte_ok b1 -> byte_ok b2 -> sextet2 b1 b2 = (b1 mod 4 * 16 + b2 / 16)%Z.
Proof. unfold byte_ok, sextet2. intros. bits_arith. zlia. Qed.

Lemma sextet3_eq b2 b3 : byte_ok b2 -> byte_ok b3 -> sextet3 b2 b3 = (b2 mod 16 * 4 + b3 / 64)%Z.
Proof. unfold byte_ok, sextet3. intros. bits_arith. zlia. Qed.

Lemma sextet4_eq b3 : sextet4 b3 = (b3 mod 64)%Z.
Proof. apply land_63. Qed.

Lemma decode_group_sextets b1 b2 b3 :
  byte_ok b1 -> byte_ok b2 -> byte_ok b3 ->
  decode_group (sextet1 b1) (sextet2 b1 b2) (sextet3 b2 b3) (sextet4 b3) = [b1; b2; b3].
Proof.
  intros H1 H2 H3. rewrite sextet1_eq, sextet2_eq, sextet3_eq, sextet4_eq by done.
  unfold byte_ok, decode_group in *. bits_arith. repeat f_equal; zlia.
Qed.

(** A group of three bytes gives four characters of the alphabet, which
    decode to the group. *)
Lemma encode_group_spec b1 b2 b3 :
  byte_ok b1 -> byte_ok b2 -> byte_ok b3 ->
  exists g, encode_group b1 b2 b3 = Some g /\ length g = 4 /\ in_alphabet g
            /\ decode g = Some [b1; b2; b3].
Proof.
  intros H1 H2 H3. pose proof (decode_group_sextets _ _ _ H1 H2 H3) as Hd.
  unfold byte_ok in *.
  destruct (alphabet_char (sextet1 b1)) as (c1 & E1 & M1 & F1); [rewrite sextet1_eq; zlia|].
  destruct (alphabet_char (sextet2 b1 b2)) as (c2 & E2 & M2 & F2); [rewrite sextet2_eq by done; zlia|].
  destruct (alphabet_char (sextet3 b2 b3)) as (c3 & E3 & M3 & F3); [rewrite sextet3_eq by done; zlia|].
  destruct (alphabet_char (sextet4 b3)) as (c4 & E4 & M4 & F4); [rewrite sextet4_eq; zlia|].
  exists [c1; c2; c3; c4]. unfold encode_group. rewrite E1, E2, E3, E4.
  split_and!; [done | done | unfold in_alphabet; by repeat apply List.Forall_cons |].
  cbn [decode]. rewrite F1, F2, F3, F4, <- Hd. simpl. by rewrite ?app_nil_r.
Qed.

Lemma decode_app (g r : pystr) :
  length g = 4 -> decode (g ++ r) = (x ← decode g; y ← decode r; Some (x ++ y)).
Proof.
  intros Hg. destruct g as [|c1 [|c2 [|c3 [|c4 [|]]]]]; try done. cbn [decode app].
  destruct (find_index c1 alphabet), (find_index c2 alphabet), (find_index c3 alphabet),
    (find_index c4 alphabet); simpl; try done.
Qed.

Lemma div3_add3 n : (n + 3 + 2) / 3 = S ((n + 2) / 3).
Proof. replace (n + 3 + 2) with (n + 2 + 1 * 3) by lia. rewrite Nat.div_add; lia. Qed.

Lemma padding_add3 n : padding (n + 3) = padding n.
Proof. unfold padding. by rewrite Nat.Div0.add_mod, Nat.Div0.mod_same, Nat.add_0_r, Nat.Div0.mod_mod. Qed.

(** ** The reference on whole streams *)

(** Every byte stream encodes: four alphabet characters per started
    group, decoding to the stream followed by the [ljust] padding. *)
Lemma encode_groups_spec (data : bytes) :
  bytes_ok data ->
  exists s, encode_groups data = Some s /\ in_alphabet s
            /\ length s = 4 * ((length data + 2) / 3)
            /\ decode s = Some (data ++ padding (length data)).
Proof.
  induction data as [|a|a b|a b c l IH] using list_triple_ind; intros Hok.
  - exists []. split_and!; [done|constructor|done|done].
  - apply Forall_cons in Hok as [Ha _].
    destruct (encode_group_spec a 0 0) as (g & Eg & Lg & Ag & Dg); [done|unfold byte_ok; lia..|].
    exists g. split_and!; by rewrite ?Lg.
  - apply Forall_cons in Hok as [Ha Hok]. apply Forall_cons in Hok as [Hb _].
    destruct (encode_group_spec a b 0) as (g & Eg & Lg & Ag & Dg); [done|done|unfold byte_ok; lia|].
    exists g. split_and!; by rewrite ?Lg.
  - apply Forall_cons in Hok as [Ha Hok]. apply Forall_cons in Hok as [Hb Hok].
    apply Forall_cons in Hok as [Hc Hok].
    destruct (encode_group_spec a b c) as (g & Eg & Lg & Ag & Dg); [done..|].
    destruct (IH Hok) as (s & Es & As & Ls & Ds).
    exists (g ++ s). split_and!.
    + simpl. by rewrite Eg, Es.
    + by apply Forall_app.
    + rewrite length_app, Lg, Ls.
      replace (length (a :: b :: c :: l) + 2) with (length l + 3 + 2) by (simpl; lia).
      rewrite div3_add3. lia.
    + replace (length (a :: b :: c :: l)) with (length l + 3) by (simpl; lia).
      rewrite padding_add3, decode_app, Dg, Ds by done. done.
Qed.

(** ** The source's index loop *)

Lemma encode_step_cons3 a b c (l : bytes) out i :
  encode_step (a :: b :: c :: l) out (3 + i) = encode_step l out i.
Proof.
  unfold encode_step.
  replace (Z.of_nat (3 + i) + 3)%Z with (Z.of_nat (S (S (S (i + 3))))) by lia.
  replace (Z.of_nat (3 + i)) with (Z.of_nat (S (S (S i)))) by lia.
  rewrite !py_slice_cons. by replace (Z.of_nat (i + 3)) with (Z.of_nat i + 3)%Z by lia.
Qed.

Lemma encode_loop_from_eq (data : bytes) (out : option pystr) :
  encode_loop_from out data = (o ← out; g ← encode_groups data; Some (o ++ g)).
Proof.
  revert out. induction data as [|a|a b|a b c l IH] using list_triple_ind; intros out;
    unfold encode_loop_from.
  - destruct out; simpl; by rewrite ?app_nil_r.
  - destruct out; simpl; [|done]. by destruct (encode_group a 0 0).
  - destruct out; simpl; [|done]. by destruct (encode_group a b 0).
  - replace (length (a :: b :: c :: l)) with (length l + 3) by (simpl; lia).
    rewrite py_range_3_cons. simpl foldl. rewrite foldl_map'.
    rewrite (foldl_ext_pointwise _ (encode_step l)) by (intros; apply encode_step_cons3).
    fold (encode_loop_from (encode_step (a :: b :: c :: l) out 0) l). rewrite IH.
    destruct out as [o|]; simpl; [|done]. rewrite Nat.min_0_r. simpl.
    destruct (encode_group a b c); simpl; [|done].
    destruct (encode_groups l); simpl; by rewrite ?app_assoc.
Qed.

(** ** The encoder on texts *)

Lemma utf8_char_bytes c : bytes_ok (utf8_char c).
Proof.
  destruct c as [[] [] [] [] [] [] [] []];
    apply (bool_decide_unpack _); vm_compute; reflexivity.
Qed.

Lemma utf8_encode_bytes (s : pystr) : bytes_ok (utf8_encode s).
Proof. apply Forall_flat_map, Forall_forall. intros c _. apply utf8_char_bytes. Qed.

#[export] Hint Resolve utf8_encode_bytes deflate_raw_bytes : docuagent.

Lemma length_be32 v : length (be32 v) = 4.
Proof. reflexivity. Qed.

Section OnDeflate.
Context `{Deflate}.

(** The raw DEFLATE stream the PlantUML server receives for [text]. *)
Definition plantuml_stream (text : pystr) : bytes := deflate_raw (utf8_encode text).

Lemma zlib_slice (l : bytes) : py_slice (zlib_compress l) 2 (-4) = deflate_raw l.
Proof. apply py_slice_2_m4; [done | apply length_be32]. Qed.

Lemma plantuml_encode_groups (text : pystr) :
  plantuml_encode text = encode_groups (plantuml_stream text).
Proof.
  unfold plantuml_encode, encode_loop. rewrite zlib_slice, encode_loop_from_eq. simpl.
  unfold plantuml_stream. by destruct (encode_groups _).
Qed.

Lemma plantuml_encode_spec (text : pystr) :
  exists out, plantuml_encode text = Some out /\ in_alphabet out
    /\ length out = 4 * ((length (plantuml_stream text) + 2) / 3)
    /\ decode out = Some (plantuml_stream text ++ padding (length (plantuml_stream text))).
Proof. rewrite plantuml_encode_groups. apply encode_groups_spec, deflate_raw_bytes. Qed.

End OnDeflate.

(** ** Theorems *)

(** C23: [plantuml_encode] never raises (no [IndexError] at
    [alphabet[...]], no failed unpacking of a group) and its output uses
    only the 64 characters [0-9A-Za-z-_], whatever zlib returns. *)
Theorem plantuml_encode_alphabet `{Deflate} (text : pystr) :
  exists out, plantuml_encode text = Some out /\ in_alphabet out.
Proof. destruct (plantuml_encode_spec text) as (out & E & A & _). eauto. Qed.

(** C3: The encoding loses nothing: the PlantUML decoder maps the output
    of [plantuml_encode] back to the raw DEFLATE stream of the text,
    followed by the zero bytes [ljust] added to the last group. *)
Theorem plantuml_encode_roundtrip `{Deflate} (text : pystr) :
  exists out, plantuml_encode text = Some out
    /\ decode out = Some (plantuml_stream text ++ padding (length (plantuml_stream text))).
Proof. destruct (plantuml_encode_spec text) as (out & E & _ & _ & D). eauto. Qed.

(** C24: The index loop of the source ([for i in range(0, len(data), 3)]
    with [data[i:i+3].ljust(3, b'\x00')]) computes exactly the structural
    encoding of the stream three bytes at a time, on every input. *)
Theorem encode_loop_reference (data : bytes) : encode_loop data = encode_groups data.
Proof.
  unfold encode_loop. rewrite encode_loop_from_eq. simpl. by destruct (encode_groups data).
Qed.

(** The output has four characters for each started group of three
    bytes of the raw stream: [4 * ceil(n / 3)] characters. *)
Theorem plantuml_encode_length `{Deflate} (text : pystr) (out : pystr) :
  plantuml_encode text = Some out ->
  length out = 4 * ((length (plantuml_stream text) + 2) / 3).
Proof.
  intros E. destruct (plantuml_encode_spec text) as (out' & E' & _ & L & _).
  rewrite E in E'. by injection E' as ->.
Qed.

(** Slicing [zlib.compress(...)[2:-4]] removes exactly the two header
    bytes and the four Adler-32 bytes: what remains is the raw DEFLATE
    stream of the input. *)
Theorem zlib_slice_raw_stream `{Deflate} (l : bytes) :
  py_slice (zlib_compress l) 2 (-4) = deflate_raw l.
Proof. apply zlib_slice. Qed.

Definition scenario_D_text : pystr := ⟪"@startuml
A->B
@enduml"⟫.

(** The raw DEFLATE stream CPython's zlib produces for [scenario_D_text]. *)
Definition scenario_D_stream : bytes :=
  [115; 40; 46; 73; 44; 42; 41; 205; 205; 225; 114; 212; 181; 115; 226; 114;
   72; 205; 75; 1; 114; 0]%Z.

(** Regression vector (spec scenario D): when zlib compresses
    ["@startuml\nA->B\n@enduml"] to the stream CPython produces, the
    encoding is ["SoWkIImgAStDuNBKjNFYSaZDIm5o0000"]. *)
Theorem plantuml_encode_scenario_D `{Deflate} :
  plantuml_stream scenario_D_text = scenario_D_stream ->
  plantuml_encode scenario_D_text = Some ⟪"SoWkIImgAStDuNBKjNFYSaZDIm5o0000"⟫.
Proof. intros E. rewrite plantuml_encode_groups, E. vm_compute. reflexivity. Qed.

(** A zlib that returns the recorded stream for the scenario's text. *)
Definition recorded_deflate (l : bytes) : bytes :=
  if decide (l = utf8_encode scenario_D_text) then scenario_D_stream else [].

Lemma recorded_deflate_bytes l : bytes_ok (recorded_deflate l).
Proof.
  unfold recorded_deflate. case_decide; [|constructor].
  apply (bool_decide_unpack _). vm_compute. reflexivity.
Qed.

Definition recorded_zlib : Deflate := {| deflate_raw := recorded_deflate;
                                         deflate_raw_bytes := recorded_deflate_bytes |}.

Lemma plantuml_encode_scenario_D_witness :
  plantuml_stream (H := recorded_zlib) scenario_D_text = scenario_D_stream
  /\ plantuml_encode (H := recorded_zlib) scenario_D_text
     = Some ⟪"SoWkIImgAStDuNBKjNFYSaZDIm5o0000"⟫.
Proof.
  split; [vm_compute; reflexivity|].
  apply (plantuml_encode_scenario_D (H := recorded_zlib)). vm_compute. reflexivity.
Defined.

Lemma plantuml_encode_length_witness :
  plantuml_encode (H := recorded_zlib) scenario_D_text
    = Some ⟪"SoWkIImgAStDuNBKjNFYSaZDIm5o0000"⟫
  /\ length ⟪"SoWkIImgAStDuNBKjNFYSaZDIm5o0000"⟫
     = 4 * ((length (plantuml_stream (H := recorded_zlib) scenario_D_text) + 2) / 3).
Proof.
  split; [vm_compute; reflexivity|].
  apply (plantuml_encode_length (H := recorded_zlib)). vm_compute. reflexivity.
Defined.
