(* ===== verification/Planner.v ===== *)
(** * Diagram Planner: phase 1 of [generate_uml_image]
      (src/Service/Uml.py, lines 67-88) and the type sanitiser (line 95)

    The language model's answer to the listing prompt is stripped, split
    into lines, and each line is matched with
    [re.match(r"[-*]\s*(.+?):\s*(.+)$", line)]; a match contributes the
    pair of its two groups, stripped.  No pair at all is the error
    [no-diagrams] (HTTP 400), a failed model call is [diagram-list-failed]
    (HTTP 500).

    [match_spec_line] is the backtracking matcher of [re] specialised to
    this pattern: [\s*] is greedy and gives characters back from the
    longest match ([try_desc]); [(.+?)] is lazy and grows one character at
    a time ([match_lazy]); [.] does not match a newline; [$] matches at the
    end or before a final newline.  [parse_line_ref] is the plain reading
    of the pattern (split at the first colon that has a character after
    it), and the theorems show that the matcher computes it on every line
    [splitlines] can produce. *)

From S2P Require Import Prelude Python.
Local Open Scope py_scope.

Definition is_bullet (c : ascii) : bool :=
  bool_decide (c = "-"%char) || bool_decide (c = "*"%char).

(** The number of leading characters [.] matches. *)
Fixpoint run_len (s : pystr) : nat :=
  match s with
  | c :: r => if is_newline c then 0 else S (run_len r)
  | [] => 0
  end.

(** [(.+)$] at [drop k u], after [\s*] took [k] characters. *)
Definition tail_at (u : pystr) (k : nat) : option pystr :=
  let v := drop k u in
  let m := run_len v in
  if bool_decide (1 <= m)
     && (bool_decide (m = length v)
         || (bool_decide (S m = length v) && bool_decide (v !! m = Some "010"%char)))
  then Some (take m v) else None.

(** [\s*(.+)$]: group 2. *)
Definition match_tail (u : pystr) : option pystr := try_desc (tail_at u) (ws_prefix u).

(** [(.+?):\s*(.+)$] with [g] already in group 1 (reversed): first try
    the rest of the pattern here, then take one more character. *)
Fixpoint match_lazy (g : pystr) (t : pystr) : option (pystr * pystr) :=
  match t with
  | [] => None
  | c :: r =>
      match (if bool_decide (c = ":"%char) then match_tail r else None) with
      | Some g2 => Some (reverse g, g2)
      | None => if is_newline c then None else match_lazy (c :: g) r
      end
  end.

(** Group 1 starts after [\s*] took [k] characters. *)
Definition group1_at (r : pystr) (k : nat) : option (pystr * pystr) :=
  match drop k r with
  | c :: t => if is_newline c then None else match_lazy [c] t
  | [] => None
  end.

(** [re.match(r"[-*]\s*(.+?):\s*(.+)$", line)], as its two groups. *)
Definition match_spec_line (line : pystr) : option (pystr * pystr) :=
  match line with
  | b :: r => if is_bullet b then try_desc (group1_at r) (ws_prefix r) else None
  | [] => None
  end.

(** Lines 84-85: [(m.group(1).strip(), m.group(2).strip())]. *)
Definition parse_line (line : pystr) : option (pystr * pystr) :=
  (fun g => (strip g.1, strip g.2)) <$> match_spec_line line.

(** Lines 81-85. *)
Definition parse_specs (list_text : pystr) : list (pystr * pystr) :=
  omap parse_line (splitlines list_text).

(** The outcome of phase 1 (lines 74-88). *)
Inductive plan_result :=
| PlanListFailed                              (** 500 [diagram-list-failed] *)
| PlanNoDiagrams                              (** 400 [no-diagrams] *)
| Planned (specs : list (pystr * pystr)).

(** [resp] is the text of the model's answer, [None] when the call (or
    reading [resp.text]) raised. *)
Definition plan_phase (resp : option pystr) : plan_result :=
  match resp with
  | None => PlanListFailed
  | Some text =>
      match parse_specs (strip text) with
      | [] => PlanNoDiagrams
      | specs => Planned specs
      end
  end.

(** ** The type sanitiser of line 95 *)

(** The class [[0-9A-Za-z _-]]. *)
Definition is_type_char (c : ascii) : bool :=
  is_digit c || is_upper c || is_lower c
  || bool_decide (c = " "%char) || bool_decide (c = "_"%char) || bool_decide (c = "-"%char).

(** [re.sub(r"[^0-9A-Za-z _-]", "", dtype).strip().replace(" ", "_")] *)
Definition clean_type (dtype : pystr) : pystr :=
  replace_char " " ⟪"_"⟫ (strip (List.filter is_type_char dtype)).

(** ** The plain reading of the pattern *)

(** The first colon of [s] that has at least one character after it. *)
Fixpoint colon_pos (s : pystr) : option nat :=
  match s with
  | [] => None
  | c :: r =>
      if bool_decide (c = ":"%char) && bool_decide (r <> []) then Some 0 else S <$> colon_pos r
  end.

Definition split_at (s : pystr) (m : nat) : pystr * pystr :=
  (strip (take m s), strip (drop (S m) s)).

(** After the bullet and its blanks, the line is split at the first colon
    that follows at least one character and precedes at least one; a
    colon right after the blanks counts only when there are blanks. *)
Definition parse_line_ref (line : pystr) : option (pystr * pystr) :=
  match line with
  | b :: r =>
      if is_bullet b then
        match lstrip r with
        | [] => None
        | c :: t =>
            match colon_pos t with
            | Some m => Some (split_at (c :: t) (S m))
            | None => if bool_decide (ws_prefix r <> 0) then split_at (c :: t) <$> colon_pos (c :: t)
                      else None
            end
        end
      else None
  | [] => None
  end.

(** ** The matcher computes the plain reading *)

Abbreviation no_newline := (Forall (fun c => is_newline c = false)) (only parsing).

Lemma run_len_no_newline s : no_newline s -> run_len s = length s.
Proof. induction 1 as [|c s Hc _ IH]; simpl; [done|]. by rewrite Hc, IH. Qed.

Lemma try_desc_hit {A} (f : nat -> option A) k a : f k = Some a -> try_desc f k = Some a.
Proof. intros H. destruct k; simpl; by rewrite ?H. Qed.

Lemma tail_at_all u k : no_newline u -> drop k u <> [] -> tail_at u k = Some (drop k u).
Proof.
  intros Hu Hne. unfold tail_at. rewrite run_len_no_newline by by apply Forall_drop.
  destruct (drop k u) as [|c v] eqn:E; [done|].
  rewrite bool_decide_true by (simpl; lia). rewrite bool_decide_true by done. simpl.
  by rewrite firstn_all.
Qed.

Lemma tail_at_end u : tail_at u (length u) = None.
Proof. unfold tail_at. by rewrite drop_all. Qed.

(** Group 2 is the text after the colon, up to the blanks [strip]
    removes; it exists exactly when that text is not empty. *)
Lemma match_tail_strip u :
  no_newline u -> strip <$> match_tail u = if bool_decide (u = []) then None else Some (strip u).
Proof.
  intros Hu. unfold match_tail.
  pose proof (ws_prefix_spaces u) as Hws. pose proof (take_drop (ws_prefix u) u) as Hsplit.
  destruct (drop (ws_prefix u) u) as [|c v] eqn:Ev.
  - assert (Hk : ws_prefix u = length u).
    { pose proof (ws_prefix_le u). pose proof (f_equal length Ev) as HL.
      rewrite length_drop in HL. simpl in HL. lia. }
    rewrite Hk, firstn_all in Hws. rewrite Hk.
    destruct u as [|x u']; [done|]. rewrite bool_decide_false by done.
    change (length (x :: u')) with (S (length u')). simpl try_desc.
    change (S (length u')) with (length (x :: u')). rewrite tail_at_end.
    rewrite (try_desc_hit _ _ (drop (length u') (x :: u'))).
    + simpl. rewrite !strip_spaces; [done|done|by apply Forall_drop].
    + apply tail_at_all; [done|]. intros Hnil.
      pose proof (f_equal length Hnil) as HL. rewrite length_drop in HL. simpl in HL. lia.
  - rewrite (try_desc_hit _ _ (c :: v)); last first.
    { rewrite tail_at_all; [by rewrite Ev|done|by rewrite Ev]. }
    rewrite bool_decide_false by (intros ->; done). simpl. f_equal.
    rewrite <- Hsplit. by rewrite strip_spaces_app.
Qed.

Definition strip2 (p : pystr * pystr) : pystr * pystr := (strip p.1, strip p.2).

(** The lazy group stops at the first colon that has text after it. *)
Lemma match_lazy_strip g t :
  no_newline t ->
  strip2 <$> match_lazy g t
  = (fun m => (strip (reverse g ++ take m t), strip (drop (S m) t))) <$> colon_pos t.
Proof.
  revert g. induction t as [|c r IH]; intros g Ht; [done|].
  apply Forall_cons in Ht as [Hc Hr]. simpl.
  destruct (decide (c = ":"%char)) as [->|Hne].
  - rewrite bool_decide_true by done. pose proof (match_tail_strip r Hr) as Ht.
    destruct (decide (r = [])) as [->|Hr0].
    + replace (match_tail []) with (@None pystr) by done. by rewrite Hc.
    + rewrite bool_decide_false in Ht by done. rewrite bool_decide_true by done.
      destruct (match_tail r) as [g2|]; [|done]. simpl in *. injection Ht as Ht.
      unfold strip2. simpl. by rewrite app_nil_r, Ht.
  - rewrite bool_decide_false by done. rewrite Hc, IH by done. simpl.
    destruct (colon_pos r); simpl; [|done]. by rewrite reverse_cons, <- app_assoc.
Qed.

Lemma colon_pos_spaces ws s :
  spaces ws -> colon_pos (ws ++ s) = Nat.add (length ws) <$> colon_pos s.
Proof.
  induction 1 as [|c ws Hc _ IH]; simpl; [by destruct (colon_pos s)|].
  rewrite bool_decide_false by (intros ->; discriminate Hc). simpl. rewrite IH.
  by destruct (colon_pos s).
Qed.

(** After fewer blanks than [\s*] can take, group 1 starts with a blank
    and the answer no longer depends on how many. *)
Lemma group1_short (ws r' : pystr) k :
  spaces ws -> no_newline ws -> no_newline r' -> k < length ws ->
  strip2 <$> group1_at (ws ++ r') k = split_at r' <$> colon_pos r'.
Proof.
  intros Hws Hwn Hr Hk. unfold group1_at.
  destruct (lookup_lt_is_Some_2 ws k Hk) as [w Hw].
  rewrite drop_app_le by lia. rewrite (drop_S _ _ _ Hw). simpl.
  assert (Hw_sp : is_space w = true) by exact (proj1 (Forall_lookup _ _) Hws k w Hw).
  assert (Hw_nl : is_newline w = false) by exact (proj1 (Forall_lookup _ _) Hwn k w Hw).
  rewrite Hw_nl, match_lazy_strip by (apply Forall_app; split; [by apply Forall_drop|done]).
  rewrite colon_pos_spaces by (by apply Forall_drop).
  destruct (colon_pos r') as [m|]; simpl; [|done]. unfold split_at, strip2. simpl. f_equal. apply (f_equal2 pair).
  - rewrite take_app_add. apply (strip_spaces_app (w :: drop (S k) ws)).
    constructor; [done|by apply Forall_drop].
  - f_equal. rewrite <- Nat.add_succ_r. by rewrite drop_app_add.
Qed.

(** On a line without newline (every line [splitlines] produces), the
    backtracking matcher and the plain reading agree. *)
Lemma parse_line_ref_eq (line : pystr) :
  no_newline line -> parse_line line = parse_line_ref line.
Proof.
  intros Hl. destruct line as [|b r]; [done|]. apply Forall_cons in Hl as [_ Hr].
  unfold parse_line, parse_line_ref, match_spec_line. destruct (is_bullet b); [|done].
  change (fun g : pystr * pystr => (strip g.1, strip g.2)) with strip2.
  rewrite try_desc_fmap, lstrip_ws_prefix.
  pose proof (take_drop (ws_prefix r) r) as Hsplit.
  pose proof (ws_prefix_spaces r) as Hws.
  pose proof (ws_prefix_le r) as Hle.
  rewrite (try_desc_below _ _ (split_at (drop (ws_prefix r) r) <$> colon_pos (drop (ws_prefix r) r))).
  2: { intros i Hi. rewrite <- Hsplit at 1. apply group1_short; [done| | |].
       - rewrite <- Hsplit in Hr. by apply Forall_app in Hr as [? _].
       - by apply Forall_drop.
       - rewrite length_take. lia. }
  unfold group1_at at 1.
  assert (Hr' : no_newline (drop (ws_prefix r) r)) by (by apply Forall_drop).
  destruct (drop (ws_prefix r) r) as [|c t]; [by destruct (ws_prefix r)|].
  apply Forall_cons in Hr' as [Hc Ht]. rewrite Hc, match_lazy_strip by done.
  destruct (colon_pos t) as [m|]; [done|]. simpl.
  by destruct (ws_prefix r).
Qed.

Lemma colon_pos_lookup s m : colon_pos s = Some m -> s !! m = Some ":"%char /\ S m < length s.
Proof.
  revert m. induction s as [|c r IH]; intros m Hm; [done|]. simpl in Hm.
  destruct (decide (c = ":"%char /\ r <> [])) as [[-> Hr]|Hn].
  - rewrite bool_decide_true in Hm by done. rewrite bool_decide_true in Hm by done.
    injection Hm as <-. split; [done|]. destruct r; [done|simpl; lia].
  - assert (E : (bool_decide (c = ":"%char) && bool_decide (r <> [])) = false).
    { destruct (bool_decide_reflect (c = ":"%char)), (bool_decide_reflect (r <> [])); naive_solver. }
    rewrite E in Hm. destruct (colon_pos r) as [m'|] eqn:Er; [|done].
    injection Hm as <-. destruct (IH m' eq_refl). simpl. split; [done|lia].
Qed.

(** The characters [clean_type] keeps: digits, ASCII letters, [_] and [-]. *)
Definition file_char (c : ascii) : bool :=
  is_digit c || is_upper c || is_lower c || bool_decide (c = "_"%char) || bool_decide (c = "-"%char).

Lemma strip_sub (P : ascii -> Prop) s : Forall P s -> Forall P (strip s).
Proof.
  intros H. unfold strip, rstrip. apply Forall_reverse.
  rewrite lstrip_ws_prefix. apply Forall_drop, Forall_reverse.
  rewrite lstrip_ws_prefix. by apply Forall_drop.
Qed.

Lemma clean_type_chars d : Forall (fun c => file_char c = true) (clean_type d).
Proof.
  unfold clean_type, replace_char. apply Forall_flat_map.
  assert (H : Forall (fun c => is_type_char c = true) (strip (List.filter is_type_char d))).
  { apply strip_sub, Forall_forall. intros x Hx.
    by apply list_elem_of_In, filter_In in Hx as [_ ?]. }
  eapply Forall_impl; [exact H|]. intros c Hc. case_decide as Hsp; [by repeat constructor|].
  constructor; [|constructor]. unfold is_type_char, file_char in *.
  rewrite (bool_decide_false (c = " "%char)) in Hc by done. by rewrite orb_false_r in Hc.
Qed.

Lemma file_char_not_space c : file_char c = true -> is_space c = false /\ c <> " "%char.
Proof. destruct c as [[] [] [] [] [] [] [] []]; vm_compute; intros H; split; congruence. Qed.

Lemma file_char_type_char c : file_char c = true -> is_type_char c = true.
Proof. destruct c as [[] [] [] [] [] [] [] []]; vm_compute; congruence. Qed.

Lemma lstrip_no_space s : Forall (fun c => is_space c = false) s -> lstrip s = s.
Proof. intros H. destruct H as [|c s Hc _]; simpl; [done|]. by rewrite Hc. Qed.

Lemma strip_no_space s : Forall (fun c => is_space c = false) s -> strip s = s.
Proof.
  intros H. unfold strip, rstrip. rewrite (lstrip_no_space s) by done.
  rewrite lstrip_no_space by by apply Forall_reverse. apply reverse_involutive.
Qed.

Lemma filter_all {A} (f : A -> bool) (l : list A) : Forall (fun x => f x = true) l -> List.filter f l = l.
Proof. induction 1 as [|x l Hx _ IH]; simpl; [done|]. by rewrite Hx, IH. Qed.

Lemma replace_char_absent c r s : Forall (fun x => x <> c) s -> replace_char c r s = s.
Proof.
  unfold replace_char. induction 1 as [|x s Hx _ IH]; simpl; [done|].
  rewrite decide_False by done. simpl. by rewrite IH.
Qed.

Lemma bullet_cases b : is_bullet b = true -> b = "-"%char \/ b = "*"%char.
Proof. unfold is_bullet. rewrite orb_true_iff, !bool_decide_eq_true. done. Qed.

(** ** Theorems *)

(** C7: The parsing of lines 81-85 equals the plain reading of the
    pattern on every answer: each line starting with [-] or [*] is split
    at the first colon with text after it (a colon just after the
    bullet's blanks counts only when there are blanks), both sides
    stripped; the other lines are dropped, in order. *)
Theorem parse_specs_reference (text : pystr) :
  parse_specs text = omap parse_line_ref (splitlines text).
Proof.
  unfold parse_specs. apply omap_ext_elem. intros line Hl.
  apply parse_line_ref_eq, no_break_no_newline. by eapply splitlines_no_break.
Qed.

(** Every planned pair comes from a line of the answer that starts
    with a bullet: the type and the description are the stripped texts on
    the two sides of one of its colons. *)
Theorem parse_specs_sound (text ty d : pystr) :
  (ty, d) ∈ parse_specs text ->
  exists b r m, b :: r ∈ splitlines text /\ is_bullet b = true
    /\ lstrip r !! m = Some ":"%char /\ (ty, d) = split_at (lstrip r) m.
Proof.
  unfold parse_specs. intros ([|b r] & Hin & Hp)%list_elem_of_omap; [done|].
  rewrite parse_line_ref_eq in Hp by (eapply no_break_no_newline, splitlines_no_break; eauto).
  exists b, r. unfold parse_line_ref in Hp. destruct (is_bullet b) eqn:Eb; [|done].
  destruct (lstrip r) as [|c t]; [done|].
  destruct (colon_pos t) as [m|] eqn:Et.
  - injection Hp as <- <-. exists (S m). apply colon_pos_lookup in Et as [Hm _]. by split_and!.
  - case_bool_decide; [|done]. destruct (colon_pos (c :: t)) as [m|] eqn:Ec; [|done].
    injection Hp as <- <-. exists m. apply colon_pos_lookup in Ec as [Hm _]. by split_and!.
Qed.

Definition scenario_A_answer : pystr := ⟪"- Class Diagram: shows classes
- garbage line
- Sequence Diagram: shows flow"⟫.

(** Spec scenario A: the garbage line is dropped and the two
    bulleted lines give the two pairs, in order. *)
Theorem plan_scenario_A :
  plan_phase (Some scenario_A_answer)
  = Planned [(⟪"Class Diagram"⟫, ⟪"shows classes"⟫); (⟪"Sequence Diagram"⟫, ⟪"shows flow"⟫)].
Proof. vm_compute. reflexivity. Qed.

Lemma parse_specs_sound_witness :
  exists b r m, b :: r ∈ splitlines scenario_A_answer /\ is_bullet b = true
    /\ lstrip r !! m = Some ":"%char /\ (⟪"Class Diagram"⟫, ⟪"shows classes"⟫) = split_at (lstrip r) m.
Proof. apply parse_specs_sound. apply (bool_decide_unpack _). vm_compute. reflexivity. Defined.

(** A bullet, a blank and a colon give a diagram type that is empty,
    while the same line without the blank is dropped: [- : x] plans the
    type [""], [-: x] plans nothing. *)
Theorem parse_line_empty_type (b : ascii) (u : pystr) :
  is_bullet b = true -> no_newline u -> u <> [] -> colon_pos u = None ->
  parse_line (b :: " "%char :: ":"%char :: u) = Some ([], strip u)
  /\ parse_line (b :: ":"%char :: u) = None.
Proof.
  intros Hb Hu Hne Hc.
  assert (Hbn : is_newline b = false) by (by destruct (bullet_cases b Hb) as [->| ->]).
  rewrite !parse_line_ref_eq by (repeat constructor; done).
  unfold parse_line_ref. rewrite Hb. simpl. rewrite Hc. simpl.
  rewrite bool_decide_true by done. done.
Qed.

Lemma parse_line_empty_type_witness :
  is_bullet "-"%char = true /\ no_newline ⟪"x"⟫ /\ ⟪"x"⟫ <> [] /\ colon_pos ⟪"x"⟫ = None
  /\ parse_line ⟪"- : x"⟫ = Some ([], ⟪"x"⟫) /\ parse_line ⟪"-: x"⟫ = None.
Proof.
  assert (Hn : no_newline ⟪"x"⟫) by (repeat constructor).
  destruct (parse_line_empty_type "-"%char ⟪"x"⟫ eq_refl Hn ltac:(discriminate) eq_refl) as [H1 H2].
  split_and!; [reflexivity|exact Hn|discriminate|reflexivity|exact H1|exact H2].
Defined.

(** Every character [clean_type] produces is a digit, an ASCII
    letter, [_] or [-], and sanitising twice changes nothing: the
    sanitised type is a safe file-name stem (no [/], no [.], no blank). *)
Theorem clean_type_safe (d : pystr) :
  Forall (fun c => file_char c = true) (clean_type d) /\ clean_type (clean_type d) = clean_type d.
Proof.
  pose proof (clean_type_chars d) as H. split; [done|].
  unfold clean_type at 1. rewrite filter_all.
  2: { eapply Forall_impl; [exact H|]. apply file_char_type_char. }
  rewrite strip_no_space by (eapply Forall_impl; [exact H|]; intros c Hc; by apply file_char_not_space).
  apply replace_char_absent. eapply Forall_impl; [exact H|]. intros c Hc. by apply file_char_not_space.
Qed.
