(* ===== verification/Ingestion.v ===== *)
(** * Ingestion endpoint: [ingest_diagram] (src/Service/Docbuilder.py,
      lines 36-41 and 82-101)

    [POST /ingest-diagram] reads the multipart form fields [build_id]
    (required and non-empty), [diagramType] (default ["diagram"]) and
    [index] (default ["1"]), the file field [image] (required; a Werkzeug
    [FileStorage] is false when its file name is empty), and saves the
    image as [{diagramType}_{index}.png] under [DIAGR_DIR/build_id].

    The class [IngestEndpoint] is what the diagram service relies on when
    it pushes an image: the only file written is the one the naming
    contract [diagram_path] gives, and a well-formed push is stored.  The
    instance [docbuilder_ingest] discharges it for [ingest_diagram].  The
    document builder's disk is the file store [fsys]; [doc_disk_ok p] says
    whether writing [p] (with the [makedirs] before it) succeeds on the
    host. *)

From S2P Require Import Prelude Python.
Local Open Scope py_scope.

(** The document builder's configuration: [os.path.dirname(__file__)] and
    the host's disk. *)
Record doc_config := {
  base_dir : pystr;
  doc_disk_ok : pystr -> bool
}.

(** Lines 37-39. *)
Definition export_dir (cfg : doc_config) : pystr := path_join (base_dir cfg) ⟪"exports"⟫.
Definition diagr_dir (cfg : doc_config) : pystr := path_join (export_dir cfg) ⟪"diagrams"⟫.

(** A multipart form as Flask parses it: [request.form.get(k)] is the
    first value sent for [k]. *)
Definition form := list (pystr * pystr).

Definition form_get (f : form) (k : pystr) : option pystr :=
  snd <$> List.find (fun kv => bool_decide (kv.1 = k)) f.

(** A file part of the request: its file name and its bytes. *)
Record upload := { up_filename : pystr; up_content : bytes }.

(** The file naming contract between the renderer, this endpoint and the
    assembly: [{diagramType}_{index}.png] under the build's directory. *)
Definition diagram_file (t i : pystr) : pystr := t ++ ⟪"_"⟫ ++ i ++ ⟪".png"⟫.

Definition diagram_path (cfg : doc_config) (b t i : pystr) : pystr :=
  path_join (path_join (diagr_dir cfg) b) (diagram_file t i).

(** The fields lines 85-90 read, when [build_id] is there and not empty. *)
Definition form_fields (f : form) : option (pystr * pystr * pystr) :=
  b ← form_get f ⟪"build_id"⟫;
  if bool_decide (b = []) then None
  else Some (b, default ⟪"diagram"⟫ (form_get f ⟪"diagramType"⟫),
             default ⟪"1"⟫ (form_get f ⟪"index"⟫)).

Inductive ingest_response :=
| IngestOk (path : pystr)          (** 200 [{"path": path}] *)
| IngestNoBuildId                  (** 400 [build_id is required] *)
| IngestNoImage.                   (** 400 [no image] *)

(** Lines 84-101; [throw] is a failed [makedirs] or [save]. *)
Definition ingest_diagram (cfg : doc_config) (f : form) (image : option upload)
    : stm fsys ingest_response :=
  match form_fields f with
  | None => mret IngestNoBuildId
  | Some (b, t, i) =>
      match image with
      | Some u =>
          if bool_decide (up_filename u = []) then mret IngestNoImage
          else
            let path := diagram_path cfg b t i in
            if doc_disk_ok cfg path then
              modify_st (fun fs : fsys => <[path := up_content u]> fs) ;; mret (IngestOk path)
            else throw
      | None => mret IngestNoImage
      end
  end.

(** ** What a pushing client may rely on *)

Class IngestEndpoint (cfg : doc_config) := {
  ingest : form -> option upload -> stm fsys ingest_response;
  (** Only the file the naming contract gives is written, with the
      pushed bytes; every other answer leaves the store as it was. *)
  ingest_effect f up fs :
    match ingest f up fs with
    | (Some (IngestOk p), fs') =>
        exists u b t i, up = Some u /\ form_fields f = Some (b, t, i)
          /\ p = diagram_path cfg b t i /\ fs' = <[p := up_content u]> fs
    | (_, fs') => fs' = fs
    end;
  (** A push with a build id, a named image and a writable target is
      stored. *)
  ingest_accepts f u fs b t i :
    form_fields f = Some (b, t, i) -> up_filename u <> [] ->
    doc_disk_ok cfg (diagram_path cfg b t i) = true ->
    ingest f (Some u) fs = (Some (IngestOk (diagram_path cfg b t i)),
                            <[diagram_path cfg b t i := up_content u]> fs)
}.

Lemma ingest_diagram_effect cfg f up fs :
  match ingest_diagram cfg f up fs with
  | (Some (IngestOk p), fs') =>
      exists u b t i, up = Some u /\ form_fields f = Some (b, t, i)
        /\ p = diagram_path cfg b t i /\ fs' = <[p := up_content u]> fs
  | (_, fs') => fs' = fs
  end.
Proof.
  unfold ingest_diagram. destruct (form_fields f) as [[[b t] i]|] eqn:Ef; [|done].
  destruct up as [u|]; [|done]. case_bool_decide; [done|].
  destruct (doc_disk_ok cfg (diagram_path cfg b t i)) eqn:Ed; [|done].
  simpl. by exists u, b, t, i.
Qed.

Lemma ingest_diagram_accepts cfg f u fs b t i :
  form_fields f = Some (b, t, i) -> up_filename u <> [] ->
  doc_disk_ok cfg (diagram_path cfg b t i) = true ->
  ingest_diagram cfg f (Some u) fs = (Some (IngestOk (diagram_path cfg b t i)),
                                      <[diagram_path cfg b t i := up_content u]> fs).
Proof.
  intros Ef Hu Hd. unfold ingest_diagram. rewrite Ef, bool_decide_false by done.
  by rewrite Hd.
Qed.

#[export] Instance docbuilder_ingest cfg : IngestEndpoint cfg := {|
  ingest := ingest_diagram cfg;
  ingest_effect := ingest_diagram_effect cfg;
  ingest_accepts := ingest_diagram_accepts cfg
|}.

(** ** Where the endpoint writes *)

(** A build id that names one directory: not empty, without a separator. *)
Definition safe_id (b : pystr) : Prop := b <> [] /\ "/"%char ∉ b.

#[export] Instance safe_id_dec b : Decision (safe_id b) := _.

Lemma diagr_dir_shape cfg : diagr_dir cfg <> [] /\ last (diagr_dir cfg) = Some "s"%char.
Proof.
  unfold diagr_dir. generalize (export_dir cfg) as a. intros a.
  assert (E : startswith ⟪"/"⟫ ⟪"diagrams"⟫ = false) by reflexivity.
  unfold path_join. rewrite E.
  destruct (_ || _); (split; [intros Hn; by apply app_eq_nil in Hn as [_ ?]|by rewrite last_app]).
Qed.

Lemma head_diagram_file t i : head t <> Some "/"%char -> head (diagram_file t i) <> Some "/"%char.
Proof. by destruct t. Qed.

Lemma diagram_path_layout cfg b t i :
  safe_id b -> head t <> Some "/"%char ->
  diagram_path cfg b t i = diagr_dir cfg ++ "/"%char :: b ++ "/"%char :: diagram_file t i.
Proof.
  intros [Hb Hs] Ht. destruct (diagr_dir_shape cfg) as [Hd Hl].
  assert (Hin : path_join (diagr_dir cfg) b = diagr_dir cfg ++ "/"%char :: b).
  { apply path_join_sep; [done|by rewrite Hl|]. destruct b as [|c b]; [done|]. intros [= ->]. set_solver. }
  unfold diagram_path. rewrite Hin, path_join_sep;
    [by rewrite <- app_assoc|by destruct (diagr_dir cfg)| |exact (head_diagram_file t i Ht)].
  rewrite last_app_cons. destruct b as [|c b]; [done|]. rewrite last_cons_cons.
  intros Hc. by apply Hs, (last_Some_elem_of (c :: b)).
Qed.

Lemma form_fields_none f :
  form_fields f = None <-> form_get f ⟪"build_id"⟫ = None \/ form_get f ⟪"build_id"⟫ = Some [].
Proof.
  unfold form_fields. destruct (form_get f ⟪"build_id"⟫) as [b|]; simpl.
  - case_bool_decide as Hb; [subst; split; [by right|done]|].
    split; [done|]. intros [?|?]; congruence.
  - split; [by left|done].
Qed.

Lemma form_fields_safe f b t i : form_fields f = Some (b, t, i) -> b <> [].
Proof.
  unfold form_fields. destruct (form_get f ⟪"build_id"⟫) as [b'|]; simpl; [|done].
  case_bool_decide; [done|]. by intros [= <- _ _].
Qed.

(** ** Theorems of the ingestion endpoint *)

(** C27: Every rejected request leaves the store as it was: no or an empty
    [build_id] gives the 400 [build_id is required], a missing image or
    one with an empty file name the 400 [no image], and a failing disk an
    exception (500). *)
Theorem ingest_diagram_errors cfg f up fs :
  ((form_get f ⟪"build_id"⟫ = None \/ form_get f ⟪"build_id"⟫ = Some []) ->
     ingest_diagram cfg f up fs = (Some IngestNoBuildId, fs))
  /\ (form_fields f <> None -> (up = None \/ exists u, up = Some u /\ up_filename u = []) ->
     ingest_diagram cfg f up fs = (Some IngestNoImage, fs))
  /\ (forall b t i u, form_fields f = Some (b, t, i) -> up = Some u -> up_filename u <> [] ->
     doc_disk_ok cfg (diagram_path cfg b t i) = false -> ingest_diagram cfg f up fs = (None, fs)).
Proof.
  unfold ingest_diagram. split_and!.
  - intros Hb. apply form_fields_none in Hb. by rewrite Hb.
  - intros Hf Hu. destruct (form_fields f) as [[[b t] i]|]; [|done].
    destruct Hu as [->|(u & -> & Hu)]; [done|]. by rewrite bool_decide_true.
  - intros b t i u -> -> Hu Hd. by rewrite bool_decide_false, Hd.
Qed.

(** C25: With a build id that names one directory and a type that is not
    an absolute path, an accepted image is written, with its bytes, to
    [DIAGR_DIR/build_id/{type}_{index}.png] and nowhere else. *)
Theorem ingest_diagram_stores cfg f u fs b t i :
  form_fields f = Some (b, t, i) -> "/"%char ∉ b -> head t <> Some "/"%char ->
  up_filename u <> [] -> doc_disk_ok cfg (diagram_path cfg b t i) = true ->
  ingest_diagram cfg f (Some u) fs
  = (Some (IngestOk (diagr_dir cfg ++ "/"%char :: b ++ "/"%char :: diagram_file t i)),
     <[diagr_dir cfg ++ "/"%char :: b ++ "/"%char :: diagram_file t i := up_content u]> fs).
Proof.
  intros Hf Hs Ht Hu Hd. rewrite <- diagram_path_layout by (split; [by eapply form_fields_safe|done] || done).
  by apply ingest_diagram_accepts.
Qed.

(** C26: Builds are kept apart: two pushes with safe build ids that land
    on the same file carry the same build id and the same file name. *)
Theorem ingest_build_separation cfg b1 b2 t1 t2 i1 i2 :
  safe_id b1 -> safe_id b2 -> head t1 <> Some "/"%char -> head t2 <> Some "/"%char ->
  diagram_path cfg b1 t1 i1 = diagram_path cfg b2 t2 i2 ->
  b1 = b2 /\ diagram_file t1 i1 = diagram_file t2 i2.
Proof.
  intros Hb1 Hb2 Ht1 Ht2. rewrite !diagram_path_layout by done.
  intros E. apply app_inv_head in E. injection E as E.
  apply slash_prefix_inj in E; [done|apply Hb1|apply Hb2].
Qed.

(** The document builder of the examples, under [/srv/docbuilder]. *)
Definition demo_doc : doc_config := {| base_dir := ⟪"/srv/docbuilder"⟫; doc_disk_ok := fun _ => true |}.

Definition demo_image : upload := {| up_filename := ⟪"x.png"⟫; up_content := [137%Z] |}.

(** C35: The build id is not checked.  For every accepted push whose
    build id is an absolute path (it starts with [/]), [os.path.join]
    drops [DIAGR_DIR]: the image is written under the directory the
    client names, the same for every configuration of the builder.  A
    build id [..] writes into [DIAGR_DIR/..], the export directory. *)
Theorem ingest_diagram_escapes cfg f u fs b t i :
  form_fields f = Some (b, t, i) -> up_filename u <> [] ->
  doc_disk_ok cfg (diagram_path cfg b t i) = true ->
  (head b = Some "/"%char ->
     ingest_diagram cfg f (Some u) fs
     = (Some (IngestOk (path_join b (diagram_file t i))), <[path_join b (diagram_file t i) := up_content u]> fs))
  /\ (b = ⟪".."⟫ -> head t <> Some "/"%char ->
     ingest_diagram cfg f (Some u) fs
     = (Some (IngestOk (diagr_dir cfg ++ ⟪"/../"⟫ ++ diagram_file t i)),
        <[diagr_dir cfg ++ ⟪"/../"⟫ ++ diagram_file t i := up_content u]> fs)).
Proof.
  intros Hf Hu Hd. rewrite (ingest_diagram_accepts cfg f u fs b t i Hf Hu Hd). split.
  - intros Hb. unfold diagram_path. f_equal; [f_equal..|]; f_equal; unfold path_join at 2;
      by destruct b as [|c b]; [|injection Hb as ->].
  - intros -> Ht. rewrite diagram_path_layout; [done|split; [done|]|done]. set_solver.
Qed.

(** Two configurations of the builder agree on where a push with an
    absolute build id lands. *)
Corollary ingest_absolute_ignores_base cfg1 cfg2 b t i :
  head b = Some "/"%char -> diagram_path cfg1 b t i = diagram_path cfg2 b t i.
Proof.
  intros Hb. unfold diagram_path, path_join at 2 4. destruct b as [|c b]; [done|]. by injection Hb as ->.
Qed.

Lemma ingest_diagram_stores_witness :
  ingest_diagram demo_doc [(⟪"build_id"⟫, ⟪"b1"⟫); (⟪"diagramType"⟫, ⟪"Class_Diagram"⟫)] (Some demo_image) ∅
  = (Some (IngestOk ⟪"/srv/docbuilder/exports/diagrams/b1/Class_Diagram_1.png"⟫),
     <[⟪"/srv/docbuilder/exports/diagrams/b1/Class_Diagram_1.png"⟫ := [137%Z]]> ∅).
Proof.
  apply (ingest_diagram_stores demo_doc _ demo_image ∅ ⟪"b1"⟫ ⟪"Class_Diagram"⟫ ⟪"1"⟫);
    [reflexivity|by apply (bool_decide_unpack _); vm_compute|discriminate|discriminate|reflexivity].
Defined.

Lemma ingest_build_separation_witness :
  ⟪"b1"⟫ = ⟪"b1"⟫ /\ diagram_file ⟪"A"⟫ ⟪"1"⟫ = diagram_file ⟪"A"⟫ ⟪"1"⟫.
Proof.
  apply (ingest_build_separation demo_doc ⟪"b1"⟫ ⟪"b1"⟫ ⟪"A"⟫ ⟪"A"⟫ ⟪"1"⟫ ⟪"1"⟫);
    [by apply (bool_decide_unpack _); vm_compute|by apply (bool_decide_unpack _); vm_compute
    |discriminate|discriminate|reflexivity].
Defined.

Lemma ingest_diagram_escapes_witness :
  ingest_diagram demo_doc [(⟪"build_id"⟫, ⟪"/tmp/x"⟫)] (Some demo_image) ∅
  = (Some (IngestOk ⟪"/tmp/x/diagram_1.png"⟫), <[⟪"/tmp/x/diagram_1.png"⟫ := [137%Z]]> ∅).
Proof.
  apply (proj1 (ingest_diagram_escapes demo_doc [(⟪"build_id"⟫, ⟪"/tmp/x"⟫)] demo_image ∅ ⟪"/tmp/x"⟫ ⟪"diagram"⟫ ⟪"1"⟫
                  eq_refl ltac:(discriminate) eq_refl)).
  reflexivity.
Defined.
