(* ===== verification/Renderer.v ===== *)
(** * Diagram Renderer: [generate_uml_image] (src/Service/Uml.py,
      lines 15-19 and 57-160)

    The handler strips the [abstract] and [instructions] fields, plans the
    diagrams (file [Planner]), then for each planned [(dtype, desc)]
    asks the model for PlantUML source, extracts every fenced block with
    [re.findall(r"```plantuml\s*(.*?)```", text, re.DOTALL)], and for each
    block: encodes it (file [Encoder]), fetches the image, keeps it only on
    status 200 with ["image"] in the content type, saves it as
    [{dtype_clean}_{j}.png] in the static directory and pushes it to the
    document builder's ingestion endpoint (file [Ingestion], through the
    class [IngestEndpoint]); every failure of one candidate skips that
    candidate only.

    The outside world is the class [UmlEnv]: the model's answer to the
    [n]-th call of a request, the outcome of the image fetch for block [j]
    of spec [idx], and whether the push of that block reaches the document
    builder.  Indexing each answer by the call that asks for it makes every
    sequence of answers expressible.  The state [uml_world] holds the two
    disks the handler writes: its own static directory and the document
    builder's store. *)

From S2P Require Import Prelude Python Encoder Planner Ingestion.
Local Open Scope py_scope.

(** ** [re.findall(r"```plantuml\s*(.*?)```", text, re.DOTALL)] *)

Definition fence_open : pystr := ⟪"```plantuml"⟫.
Definition fence_close : pystr := ⟪"```"⟫.

(** [(.*?)```] with [g] already in the group (reversed): the group and
    the text after the closing fence. *)
Fixpoint lazy_to_close (g : pystr) (t : pystr) : option (pystr * pystr) :=
  if startswith fence_close t then Some (reverse g, drop 3 t)
  else match t with
       | [] => None
       | c :: r => lazy_to_close (c :: g) r
       end.

(** The pattern at the start of [s]: the opening fence, [\s*] (greedy,
    giving blanks back on failure) and the lazy group. *)
Definition match_block_at (s : pystr) : option (pystr * pystr) :=
  if startswith fence_open s then
    let u := drop (length fence_open) s in
    try_desc (fun k => lazy_to_close [] (drop k u)) (ws_prefix u)
  else None.

(** [findall] scans left to right and resumes after each match; [fuel]
    bounds the number of scanning steps. *)
Fixpoint findall_blocks (fuel : nat) (s : pystr) : list pystr :=
  match fuel with
  | 0 => []
  | S fuel' =>
      match s with
      | [] => []
      | _ :: r =>
          match match_block_at s with
          | Some (g, rest) => g :: findall_blocks fuel' rest
          | None => findall_blocks fuel' r
          end
      end
  end.

(** Every scanning step consumes at least one character, so [length s]
    steps are enough (lemma [findall_blocks_fuel]). *)
Definition fenced_blocks (s : pystr) : list pystr := findall_blocks (length s) s.

(** ** The handler *)

(** The diagram service's configuration: [EXPORT_STATIC] (line 19) and
    whether its disk accepts a write at a path. *)
Record uml_config := {
  static_dir : pystr;
  uml_disk_ok : pystr -> bool
}.

(** Line 18. *)
Definition plantuml_server : pystr := ⟪"http://www.plantuml.com/plantuml/png"⟫.

(** The two prompts the handler sends (lines 68-73 and 98-101), by the
    values they are built from. *)
Inductive prompt :=
| ListPrompt (abstract : pystr)
| UmlPrompt (dtype desc : pystr).

(** What [requests.get(url, timeout=15)] gives: an exception, or a
    response with its status, its [Content-Type] header if any, and its
    body. *)
Inductive fetch_result :=
| FetchRaised
| FetchResponse (status : Z) (content_type : option pystr) (body : bytes).

Class UmlEnv := {
  llm : nat -> prompt -> option pystr;
  fetch : nat -> nat -> pystr -> fetch_result;
  deliver : nat -> nat -> bool
}.

(** An entry of the [diagrams] list the handler returns (lines 147-152). *)
Record diagram := {
  d_type : pystr;
  d_desc : pystr;
  d_index : nat;
  d_path : pystr
}.

Record uml_world := {
  static_fs : fsys;
  doc_fs : fsys
}.

Inductive uml_response :=
| UmlCompleted (diagrams : list diagram)   (** 200 [status: completed] *)
| UmlListFailed                            (** 500 [diagram-list-failed] *)
| UmlNoDiagrams.                           (** 400 [no-diagrams] *)

(** Line 113: the response is kept when its status is 200 and ["image"]
    occurs in its content type. *)
Definition image_ok (r : fetch_result) : option bytes :=
  match r with
  | FetchResponse status ct body =>
      if bool_decide (status = 200%Z) && contains ⟪"image"⟫ (default [] ct) then Some body else None
  | FetchRaised => None
  end.

(** Line 110. *)
Definition plantuml_url (encoded : pystr) : pystr := plantuml_server ++ "/"%char :: encoded.

(** Line 121. *)
Definition local_filename (dtype_clean : pystr) (j : nat) : pystr :=
  dtype_clean ++ ⟪"_"⟫ ++ str_nat j ++ ⟪".png"⟫.

(** The form of lines 135-141: [requests] sends the fields in the order
    of the [data] dict. *)
Definition ingest_form (bid : json) (dtype_clean desc : pystr) (j : nat) : form :=
  map (fun v => (⟪"build_id"⟫, v)) (form_values bid)
  ++ [(⟪"diagramType"⟫, dtype_clean); (⟪"description"⟫, desc); (⟪"index"⟫, str_nat j)].

(** [payload.get(k, "").strip()] (lines 61-62); a value that is not a
    string has no [strip] and raises. *)
Definition str_field (payload : json) (k : pystr) : stm uml_world pystr :=
  match py_get payload k (JStr []) with
  | Some (JStr s) => mret (strip s)
  | _ => throw
  end.

Section Handler.
Context `{Deflate} (ucfg : uml_config) (dcfg : doc_config) `{!IngestEndpoint dcfg} `{UmlEnv}.

(** Lines 132-145: the push reaches the document builder or not; either
    way the client goes on. *)
Definition push (idx j : nat) (f : form) (u : upload) : stm uml_world unit :=
  fun w =>
    if deliver idx j then
      (Some tt, {| static_fs := static_fs w; doc_fs := (ingest f (Some u) (doc_fs w)).2 |})
    else (Some tt, w).

(** Lines 109-152 for block [j] of spec [idx]. *)
Definition render_candidate (payload : json) (idx : nat) (dtype_clean desc : pystr)
    (j : nat) (uml : pystr) : stm uml_world (option diagram) :=
  match plantuml_encode uml with
  | None => throw
  | Some encoded =>
      match image_ok (fetch idx j (plantuml_url encoded)) with
      | None => mret None
      | Some content =>
          let filename := local_filename dtype_clean j in
          let filepath := path_join (static_dir ucfg) filename in
          if uml_disk_ok ucfg filepath then
            modify_st (fun w => {| static_fs := <[filepath := content]> (static_fs w);
                                   doc_fs := doc_fs w |}) ;;
            (* an exception inside the [try] of lines 132-145 is only logged *)
            (match py_get payload ⟪"build_id"⟫ (JStr ⟪"default"⟫) with
             | Some bid => push idx j (ingest_form bid dtype_clean desc j)
                                {| up_filename := filename; up_content := content |}
             | None => mret tt
             end) ;;
            mret (Some {| d_type := dtype_clean; d_desc := desc; d_index := j;
                          d_path := filepath |})
          else mret None
      end
  end.

(** Line 108: the blocks of one answer, numbered from 1. *)
Fixpoint render_blocks (payload : json) (idx : nat) (dtype_clean desc : pystr)
    (blocks : list (nat * pystr)) : stm uml_world (list diagram) :=
  match blocks with
  | [] => mret []
  | (j, uml) :: rest =>
      o ← render_candidate payload idx dtype_clean desc j uml;
      ds ← render_blocks payload idx dtype_clean desc rest;
      mret (option_list o ++ ds)
  end.

(** Lines 93-106 for spec [idx]. *)
Definition render_spec (payload : json) (idx : nat) (spec : pystr * pystr)
    : stm uml_world (list diagram) :=
  let dtype_clean := clean_type spec.1 in
  match llm idx (UmlPrompt spec.1 spec.2) with
  | None => mret []
  | Some resp => render_blocks payload idx dtype_clean spec.2 (enumerate1 (fenced_blocks resp))
  end.

(** Line 93: the specs, numbered from 1. *)
Fixpoint render_specs (payload : json) (specs : list (nat * (pystr * pystr)))
    : stm uml_world (list diagram) :=
  match specs with
  | [] => mret []
  | (idx, spec) :: rest =>
      ds ← render_spec payload idx spec;
      ds' ← render_specs payload rest;
      mret (ds ++ ds')
  end.

(** [generate_uml_image()] (lines 58-160). *)
Definition generate_uml_image (body : json) : stm uml_world uml_response :=
  let payload := if truthy body then body else JObj [] in
  abstract ← str_field payload ⟪"abstract"⟫;
  _instructions ← str_field payload ⟪"instructions"⟫;
  match plan_phase (llm 0 (ListPrompt abstract)) with
  | PlanListFailed => mret UmlListFailed
  | PlanNoDiagrams => mret UmlNoDiagrams
  | Planned specs =>
      ds ← render_specs payload (enumerate1 specs);
      mret (UmlCompleted ds)
  end.

End Handler.

(** ** The specification of the loop: which candidates succeed *)

Section Spec.
Context `{Deflate} (ucfg : uml_config) (dcfg : doc_config) `{!IngestEndpoint dcfg} `{UmlEnv}.

(** Block [j] of spec [idx] is reported when its image is fetched and
    saved; nothing else decides it. *)
Definition candidate_result (idx j : nat) (dtype_clean desc uml : pystr) : option diagram :=
  match plantuml_encode uml with
  | None => None
  | Some encoded =>
      match image_ok (fetch idx j (plantuml_url encoded)) with
      | None => None
      | Some _ =>
          let filepath := path_join (static_dir ucfg) (local_filename dtype_clean j) in
          if uml_disk_ok ucfg filepath
          then Some {| d_type := dtype_clean; d_desc := desc; d_index := j; d_path := filepath |}
          else None
      end
  end.

Definition spec_diagrams (idx : nat) (spec : pystr * pystr) : list diagram :=
  match llm idx (UmlPrompt spec.1 spec.2) with
  | None => []
  | Some resp =>
      omap (fun jb => candidate_result idx jb.1 (clean_type spec.1) spec.2 jb.2)
           (enumerate1 (fenced_blocks resp))
  end.

(** The diagrams of a plan: the successful candidates, spec by spec and
    block by block, in order. *)
Definition planned_diagrams (specs : list (pystr * pystr)) : list diagram :=
  flat_map (fun ispec => spec_diagrams ispec.1 ispec.2) (enumerate1 specs).

(** The candidates a plan attempts: every block of every answer. *)
Definition attempted (specs : list (pystr * pystr)) : nat :=
  sum_list_with (fun ispec => match llm ispec.1 (UmlPrompt ispec.2.1 ispec.2.2) with
                           | None => 0
                           | Some resp => length (fenced_blocks resp)
                           end) (enumerate1 specs).

End Spec.

Section Refinement.
Context `{Deflate} (ucfg : uml_config) (dcfg : doc_config) `{!IngestEndpoint dcfg} `{UmlEnv}.

Lemma plantuml_encode_some (uml : pystr) : exists encoded, plantuml_encode uml = Some encoded.
Proof. destruct (plantuml_encode_spec uml) as (out & E & _). eauto. Qed.

Lemma render_candidate_result payload idx t d j uml w :
  exists w', render_candidate ucfg dcfg payload idx t d j uml w
             = (Some (candidate_result ucfg idx j t d uml), w').
Proof.
  unfold render_candidate, candidate_result.
  destruct (plantuml_encode_some uml) as [enc ->].
  destruct (image_ok _) as [content|]; [|by eexists].
  destruct (uml_disk_ok ucfg _); [|by eexists].
  rewrite !stm_bind_run. simpl.
  destruct (py_get payload _ _) as [bid|]; simpl; [|by eexists].
  unfold push. destruct (deliver idx j); simpl; by eexists.
Qed.

Lemma render_blocks_result payload idx t d blocks w :
  exists w', render_blocks ucfg dcfg payload idx t d blocks w
             = (Some (omap (fun jb => candidate_result ucfg idx jb.1 t d jb.2) blocks), w').
Proof.
  revert w. induction blocks as [|[j uml] blocks IH]; intros w; simpl; [by eexists|].
  rewrite stm_bind_run. destruct (render_candidate_result payload idx t d j uml w) as [w1 ->].
  rewrite stm_bind_run. destruct (IH w1) as [w2 ->]. simpl. eexists. f_equal.
  by destruct (candidate_result ucfg idx j t d uml).
Qed.

Lemma render_specs_result payload specs w :
  exists w', render_specs ucfg dcfg payload specs w
             = (Some (flat_map (fun ispec => spec_diagrams ucfg ispec.1 ispec.2) specs), w').
Proof.
  revert w. induction specs as [|[idx spec] specs IH]; intros w; simpl; [by eexists|].
  rewrite stm_bind_run. unfold render_spec, spec_diagrams.
  destruct (llm idx _) as [resp|].
  - destruct (render_blocks_result payload idx (clean_type spec.1) spec.2
                (enumerate1 (fenced_blocks resp)) w) as [w1 ->].
    rewrite stm_bind_run. destruct (IH w1) as [w2 ->]. by eexists.
  - simpl. rewrite stm_bind_run. destruct (IH w) as [w2 ->]. by eexists.
Qed.

End Refinement.

Section Handler_spec.
Context `{Deflate} (ucfg : uml_config) (dcfg : doc_config) `{!IngestEndpoint dcfg} `{UmlEnv}.

(** The request fields the handler reads before planning; [None] when
    reading them raises. *)
Definition request_abstract (body : json) : option pystr :=
  let payload := if truthy body then body else JObj [] in
  match py_get payload ⟪"abstract"⟫ (JStr []), py_get payload ⟪"instructions"⟫ (JStr []) with
  | Some (JStr a), Some (JStr _) => Some (strip a)
  | _, _ => None
  end.

(** What the handler answers, for a stripped abstract. *)
Definition uml_spec (abstract : pystr) : uml_response :=
  match plan_phase (llm 0 (ListPrompt abstract)) with
  | PlanListFailed => UmlListFailed
  | PlanNoDiagrams => UmlNoDiagrams
  | Planned specs => UmlCompleted (planned_diagrams ucfg specs)
  end.

Lemma generate_uml_image_spec body w :
  (generate_uml_image ucfg dcfg body w).1 = uml_spec <$> request_abstract body.
Proof.
  unfold generate_uml_image, request_abstract, str_field.
  set (payload := if truthy body then body else JObj []).
  destruct (py_get payload ⟪"abstract"⟫ (JStr [])) as [[]|]; stm_simpl; try done.
  destruct (py_get payload ⟪"instructions"⟫ (JStr [])) as [[]|]; stm_simpl; try done.
  change (uml_spec <$> Some (strip s)) with (Some (uml_spec (strip s))). unfold uml_spec.
  destruct (plan_phase _) as [| |specs]; stm_simpl; try done.
  destruct (render_specs_result ucfg dcfg payload (enumerate1 specs) w) as [w' ->]. done.
Qed.

(** ** The document builder's store during a render *)

Definition doc_grows (w w' : uml_world) : Prop := dom (doc_fs w) ⊆ dom (doc_fs w').

#[export] Instance doc_grows_preorder : PreOrder doc_grows.
Proof. split; [intros w; unfold doc_grows; set_solver|intros w1 w2 w3; unfold doc_grows; set_solver]. Qed.

Lemma ingest_dom (f : form) (up : option upload) (fs : fsys) : dom fs ⊆ dom (ingest f up fs).2.
Proof.
  pose proof (ingest_effect f up fs) as He.
  destruct (ingest f up fs) as [[[p| |]|] fs']; simpl; [|by subst..].
  destruct He as (u & b & t & i & _ & _ & _ & ->). rewrite dom_insert_L. set_solver.
Qed.

Lemma render_candidate_grows payload idx t d j uml w :
  doc_grows w (render_candidate ucfg dcfg payload idx t d j uml w).2.
Proof.
  unfold render_candidate. destruct (plantuml_encode uml); [|reflexivity].
  destruct (image_ok _); [|reflexivity]. destruct (uml_disk_ok _ _); [|reflexivity].
  stm_simpl. destruct (py_get payload _ _); stm_simpl; [|by unfold doc_grows].
  unfold push. destruct (deliver idx j); simpl; [apply ingest_dom|by unfold doc_grows].
Qed.

Lemma render_blocks_grows payload idx t d blocks w :
  doc_grows w (render_blocks ucfg dcfg payload idx t d blocks w).2.
Proof.
  revert w. induction blocks as [|[j uml] blocks IH]; intros w; simpl; [reflexivity|].
  rewrite stm_bind_run. pose proof (render_candidate_grows payload idx t d j uml w) as G1.
  destruct (render_candidate _ _ _ _ _ _ _ _ w) as [[o|] w1]; [|done].
  rewrite stm_bind_run. specialize (IH w1).
  destruct (render_blocks _ _ _ _ _ _ _ w1) as [[ds|] w2]; simpl in *; by etrans.
Qed.

Lemma render_specs_grows payload specs w :
  doc_grows w (render_specs ucfg dcfg payload specs w).2.
Proof.
  revert w. induction specs as [|[idx spec] specs IH]; intros w; simpl; [reflexivity|].
  rewrite stm_bind_run.
  assert (G1 : doc_grows w (render_spec ucfg dcfg payload idx spec w).2).
  { unfold render_spec. destruct (llm idx _); [apply render_blocks_grows|reflexivity]. }
  destruct (render_spec _ _ _ _ _ w) as [[ds|] w1]; [|done].
  rewrite stm_bind_run. specialize (IH w1).
  destruct (render_specs _ _ _ _ w1) as [[ds'|] w2]; simpl in *; by etrans.
Qed.

Lemma generate_uml_image_grows body w : doc_grows w (generate_uml_image ucfg dcfg body w).2.
Proof.
  unfold generate_uml_image, str_field.
  destruct (py_get _ ⟪"abstract"⟫ _) as [[]|]; stm_simpl; try done.
  destruct (py_get _ ⟪"instructions"⟫ _) as [[]|]; stm_simpl; try done.
  destruct (plan_phase _); stm_simpl; try done.
  pose proof (render_specs_grows (if truthy body then body else JObj []) (enumerate1 specs) w).
  destruct (render_specs _ _ _ _ w) as [[ds|] w']; simpl in *; done.
Qed.

End Handler_spec.

(** ** The naming contract between the renderer and the ingestion *)

Lemma form_fields_ingest_form (b t d : pystr) j :
  b <> [] -> form_fields (ingest_form (JStr b) t d j) = Some (b, t, str_nat j).
Proof. intros Hb. unfold form_fields. simpl. by rewrite bool_decide_false. Qed.

Lemma local_filename_contract t j : local_filename t j = diagram_file t (str_nat j).
Proof. done. Qed.

Lemma local_filename_nonempty t j : local_filename t j <> [].
Proof. unfold local_filename. destruct t; discriminate. Qed.

Section Contract.
Context `{Deflate} (ucfg : uml_config) (dcfg : doc_config) `{!IngestEndpoint dcfg} `{UmlEnv}.

(** Every push is delivered and every write of the document builder
    succeeds, and the request names the build [b]. *)
Definition pushes_land (payload : json) (b : pystr) : Prop :=
  py_get payload ⟪"build_id"⟫ (JStr ⟪"default"⟫) = Some (JStr b) /\ b <> []
  /\ (forall i j, deliver i j = true) /\ (forall p, doc_disk_ok dcfg p = true).

Definition stored_for (b : pystr) (w : uml_world) (dg : diagram) : Prop :=
  is_Some (doc_fs w !! diagram_path dcfg b (d_type dg) (str_nat (d_index dg))).

Lemma stored_for_grows b w w' dg : doc_grows w w' -> stored_for b w dg -> stored_for b w' dg.
Proof.
  unfold doc_grows, stored_for. intros Hg Hs. apply elem_of_dom. apply elem_of_dom in Hs. set_solver.
Qed.

Lemma render_candidate_stored payload b idx t d j uml w o w' :
  pushes_land payload b ->
  render_candidate ucfg dcfg payload idx t d j uml w = (Some o, w') ->
  forall dg, o = Some dg -> stored_for b w' dg.
Proof.
  intros (Hb & Hne & Hdel & Hdisk) Hr dg ->. unfold render_candidate in Hr.
  destruct (plantuml_encode uml); [|done]. destruct (image_ok _) as [content|]; [|done].
  destruct (uml_disk_ok _ _); [|done]. revert Hr. stm_simpl. rewrite Hb. unfold push.
  rewrite Hdel. simpl.
  rewrite (ingest_accepts _ _ _ b t (str_nat j)); [|by apply form_fields_ingest_form
    |apply local_filename_nonempty|apply Hdisk].
  simpl. intros [= <- <-]. unfold stored_for. simpl. rewrite lookup_insert_eq. by eexists.
Qed.

Lemma render_blocks_stored payload b idx t d blocks w ds w' :
  pushes_land payload b ->
  render_blocks ucfg dcfg payload idx t d blocks w = (Some ds, w') ->
  forall dg, dg ∈ ds -> stored_for b w' dg.
Proof.
  intros Hp. revert w ds. induction blocks as [|[j uml] blocks IH]; intros w ds Hr dg Hdg.
  { simpl in Hr. injection Hr as <- <-. by apply not_elem_of_nil in Hdg. }
  simpl in Hr. rewrite stm_bind_run in Hr.
  destruct (render_candidate _ _ _ _ _ _ _ _ w) as [[o|] w1] eqn:E1; [|done].
  rewrite stm_bind_run in Hr. pose proof (render_blocks_grows ucfg dcfg payload idx t d blocks w1) as G.
  destruct (render_blocks _ _ _ _ _ _ _ w1) as [[ds'|] w2] eqn:E2; [|done].
  injection Hr as <- <-. apply elem_of_app in Hdg as [Hdg|Hdg]; [|by eapply IH].
  destruct o as [dg'|]; [|by apply not_elem_of_nil in Hdg].
  apply list_elem_of_singleton in Hdg as ->.
  eapply stored_for_grows; [exact G|]. by eapply render_candidate_stored.
Qed.

Lemma render_specs_stored payload b specs w ds w' :
  pushes_land payload b ->
  render_specs ucfg dcfg payload specs w = (Some ds, w') ->
  forall dg, dg ∈ ds -> stored_for b w' dg.
Proof.
  intros Hp. revert w ds. induction specs as [|[idx spec] specs IH]; intros w ds Hr dg Hdg.
  { simpl in Hr. injection Hr as <- <-. by apply not_elem_of_nil in Hdg. }
  simpl in Hr. rewrite stm_bind_run in Hr.
  destruct (render_spec _ _ _ _ _ w) as [[ds1|] w1] eqn:E1; [|done].
  rewrite stm_bind_run in Hr. pose proof (render_specs_grows ucfg dcfg payload specs w1) as G.
  destruct (render_specs _ _ _ _ w1) as [[ds'|] w2] eqn:E2; [|done].
  injection Hr as <- <-. apply elem_of_app in Hdg as [Hdg|Hdg]; [|by eapply IH].
  eapply stored_for_grows; [exact G|].
  unfold render_spec in E1. destruct (llm idx _).
  - by eapply render_blocks_stored.
  - injection E1 as <- <-. by apply not_elem_of_nil in Hdg.
Qed.

Lemma generate_stores body b w ds w' :
  truthy body = true -> pushes_land body b ->
  generate_uml_image ucfg dcfg body w = (Some (UmlCompleted ds), w') ->
  forall dg, dg ∈ ds -> stored_for b w' dg.
Proof.
  intros Ht Hp. unfold generate_uml_image. rewrite Ht.
  unfold str_field. destruct (py_get body ⟪"abstract"⟫ _) as [[]|]; stm_simpl; try done.
  destruct (py_get body ⟪"instructions"⟫ _) as [[]|]; stm_simpl; try done.
  destruct (plan_phase _); stm_simpl; try done.
  destruct (render_specs ucfg dcfg body _ w) as [[ds1|] w1] eqn:E; [|done].
  intros [= <- <-]. by eapply render_specs_stored.
Qed.

End Contract.

(** ** [findall] terminates within its fuel *)

Lemma lazy_to_close_shorter g t x rest : lazy_to_close g t = Some (x, rest) -> length rest < S (length t).
Proof.
  revert g. induction t as [|c t IH]; intros g H; [done|].
  simpl in H. unfold startswith in H. case_bool_decide as Hp.
  - injection H as _ <-. rewrite length_drop. simpl. lia.
  - apply IH in H. simpl. lia.
Qed.

Lemma match_block_at_shorter s g rest : match_block_at s = Some (g, rest) -> length rest < length s.
Proof.
  unfold match_block_at, startswith. case_bool_decide as Hp; [|done]. intros H.
  apply try_desc_some in H as (i & _ & H). apply lazy_to_close_shorter in H.
  rewrite !length_drop in H. apply prefix_length in Hp. unfold fence_open in *. simpl in *. lia.
Qed.

Lemma findall_blocks_enough n m s :
  length s <= n -> length s <= m -> findall_blocks n s = findall_blocks m s.
Proof.
  revert m s. induction n as [|n IH]; intros m s Hn Hm.
  { destruct s; [by destruct m|simpl in Hn; lia]. }
  destruct s as [|c r]; [by destruct m|]. destruct m as [|m]; [simpl in Hm; lia|].
  simpl. destruct (match_block_at (c :: r)) as [[g rest]|] eqn:E.
  - apply match_block_at_shorter in E. simpl in *. f_equal. apply IH; lia.
  - simpl in *. apply IH; lia.
Qed.

(** ** The payload matters only through its fields *)

Section Payload.
Context `{Deflate} (ucfg : uml_config) (dcfg : doc_config) `{!IngestEndpoint dcfg} `{UmlEnv}.

Definition same_build_id (p1 p2 : json) : Prop :=
  py_get p1 ⟪"build_id"⟫ (JStr ⟪"default"⟫) = py_get p2 ⟪"build_id"⟫ (JStr ⟪"default"⟫).

Lemma render_specs_payload p1 p2 specs :
  same_build_id p1 p2 -> render_specs ucfg dcfg p1 specs = render_specs ucfg dcfg p2 specs.
Proof.
  intros Hb.
  assert (Hc : forall idx t d j uml,
             render_candidate ucfg dcfg p1 idx t d j uml = render_candidate ucfg dcfg p2 idx t d j uml).
  { intros. unfold render_candidate. by rewrite Hb. }
  assert (Hbl : forall idx t d blocks,
             render_blocks ucfg dcfg p1 idx t d blocks = render_blocks ucfg dcfg p2 idx t d blocks).
  { intros idx t d blocks. induction blocks as [|[j uml] blocks IH]; simpl; [done|].
    by rewrite Hc, IH. }
  assert (Hs : forall idx spec, render_spec ucfg dcfg p1 idx spec = render_spec ucfg dcfg p2 idx spec).
  { intros. unfold render_spec. destruct (llm _ _); [apply Hbl|done]. }
  induction specs as [|[idx spec] specs IH]; simpl; [done|]. by rewrite Hs, IH.
Qed.

End Payload.

(** ** A concrete run used by the examples below *)

Definition demo_ucfg : uml_config := {| static_dir := ⟪"static"⟫; uml_disk_ok := fun _ => true |}.
Definition demo_dcfg : doc_config := {| base_dir := ⟪"/srv/docbuilder"⟫; doc_disk_ok := fun _ => true |}.

(** The model plans two types that sanitise to the same [Class_Diagram]. *)
Definition demo_plan : pystr := ⟪"- Class Diagram: the classes
- Class Diagram!: the classes again"⟫.

Definition demo_reply : pystr := ⟪"```plantuml
@startuml
A->B
@enduml
```"⟫.

(** The image fetched for spec [idx] is the one byte [idx]; with
    [fetch_ok = false] every fetch raises. *)
Definition demo_env (fetch_ok : bool) : UmlEnv := {|
  llm := fun _ p => match p with ListPrompt _ => Some demo_plan | UmlPrompt _ _ => Some demo_reply end;
  fetch := fun idx _ _ => if fetch_ok then FetchResponse 200 (Some ⟪"image/png"⟫) [Z.of_nat idx]
                          else FetchRaised;
  deliver := fun _ _ => true
|}.

Definition demo_body : json :=
  JObj [(⟪"build_id"⟫, JStr ⟪"b1"⟫); (⟪"abstract"⟫, JStr ⟪"an online shop"⟫)].

Definition demo_world : uml_world := {| static_fs := ∅; doc_fs := ∅ |}.

Definition demo_run (fetch_ok : bool) : option uml_response * uml_world :=
  @generate_uml_image recorded_zlib demo_ucfg demo_dcfg _ (demo_env fetch_ok) demo_body demo_world.

(** ** Where the renderer's own files go *)

Section Static.
Context `{Deflate} (ucfg : uml_config) (dcfg : doc_config) `{!IngestEndpoint dcfg} `{UmlEnv}.

Definition same_static (w1 w2 : uml_world) : Prop := static_fs w1 = static_fs w2.

Lemma render_candidate_static p1 p2 idx t d j uml :
  stm_sim same_static (render_candidate ucfg dcfg p1 idx t d j uml)
                      (render_candidate ucfg dcfg p2 idx t d j uml).
Proof.
  intros w1 w2 Hs. unfold same_static in *. unfold render_candidate.
  destruct (plantuml_encode uml); [|done]. destruct (image_ok _); [|done].
  destruct (uml_disk_ok _ _); [|done]. rewrite !stm_bind_run. simpl.
  destruct (py_get p1 _ _), (py_get p2 _ _); unfold push; destruct (deliver idx j);
    simpl; by rewrite Hs.
Qed.

Lemma render_blocks_static p1 p2 idx t d blocks :
  stm_sim same_static (render_blocks ucfg dcfg p1 idx t d blocks)
                      (render_blocks ucfg dcfg p2 idx t d blocks).
Proof.
  induction blocks as [|[j uml] blocks IH]; simpl; auto using render_candidate_static with docuagent.
Qed.

Lemma render_specs_static p1 p2 specs :
  stm_sim same_static (render_specs ucfg dcfg p1 specs) (render_specs ucfg dcfg p2 specs).
Proof.
  induction specs as [|[idx spec] specs IH]; simpl; [auto with docuagent|].
  apply stm_sim_bind; [|auto with docuagent]. unfold render_spec.
  destruct (llm _ _); auto using render_blocks_static with docuagent.
Qed.


End Static.

(** ** Counting and outages *)

Section Counting.
Context `{Deflate} (ucfg : uml_config) `{UmlEnv}.

Lemma planned_diagrams_length specs : length (planned_diagrams ucfg specs) <= attempted specs.
Proof.
  unfold planned_diagrams, attempted. induction (enumerate1 specs) as [|[idx spec] l IH]; [done|].
  simpl. rewrite length_app. unfold spec_diagrams in *. simpl in *.
  destruct (llm idx _); simpl; [|lia].
  pose proof (length_omap_le (fun jb => candidate_result ucfg idx jb.1 (clean_type spec.1) spec.2 jb.2)
                (enumerate1 (fenced_blocks l0))) as Ho.
  rewrite length_enumerate1 in Ho. lia.
Qed.

Lemma planned_diagrams_outage specs :
  (forall i j u, fetch i j u = FetchRaised) -> planned_diagrams ucfg specs = [].
Proof.
  intros Hf. unfold planned_diagrams. induction (enumerate1 specs) as [|[idx spec] l IH]; [done|].
  simpl. rewrite IH, app_nil_r. unfold spec_diagrams. destruct (llm _ _); [|done].
  apply omap_none. intros [j uml]. unfold candidate_result. simpl.
  destruct (plantuml_encode uml); [|done]. by rewrite Hf.
Qed.

End Counting.

(** ** Theorems of the diagram service *)

Section Claims.
Context `{Deflate} (ucfg : uml_config) (dcfg : doc_config) `{!IngestEndpoint dcfg} `{UmlEnv}.

Lemma str_field_sim (R : uml_world -> uml_world -> Prop) p k : stm_sim R (str_field p k) (str_field p k).
Proof. unfold str_field. destruct (py_get p k _) as [[]|]; auto with docuagent. Qed.

Lemma key_ne (k1 k2 : string) : bool_decide (list_ascii_of_string k1 = list_ascii_of_string k2) = false ->
  list_ascii_of_string k1 <> list_ascii_of_string k2.
Proof. apply bool_decide_eq_false_1. Qed.

(** C2: Refinement of the handler.  [generate_uml_image] answers exactly
    what the abstract specification [uml_spec] gives for the stripped
    abstract of the request (an exception, hence a 500, when the abstract
    or the instructions are not strings), and the document builder's store
    only gains files during a run. *)
Theorem generate_uml_image_refines body w :
  (generate_uml_image ucfg dcfg body w).1 = uml_spec ucfg <$> request_abstract body
  /\ doc_grows w (generate_uml_image ucfg dcfg body w).2.
Proof. split; [apply generate_uml_image_spec|apply generate_uml_image_grows]. Qed.

(** C6: Every diagram the service reports is in the document builder's
    store, at the path the naming contract gives for its build, type and
    index, when the build id is a non-empty string and every push lands. *)
Theorem generate_uml_image_stored body b w ds w' :
  truthy body = true -> pushes_land dcfg body b ->
  generate_uml_image ucfg dcfg body w = (Some (UmlCompleted ds), w') ->
  forall dg, dg ∈ ds -> stored_for dcfg b w' dg.
Proof. eauto using generate_stores. Qed.

(** C9: The number of diagrams reported never exceeds the number of
    fenced blocks the model's answers contain, over all planned specs. *)
Theorem generate_uml_image_count body w ds :
  (generate_uml_image ucfg dcfg body w).1 = Some (UmlCompleted ds) ->
  exists a specs, request_abstract body = Some a
    /\ plan_phase (llm 0 (ListPrompt a)) = Planned specs
    /\ ds = planned_diagrams ucfg specs /\ length ds <= attempted specs.
Proof.
  rewrite generate_uml_image_spec. destruct (request_abstract body) as [a|]; [|done].
  simpl. unfold uml_spec. destruct (plan_phase _) as [| |specs] eqn:Ep; try done.
  intros [= <-]. exists a, specs. split_and!; auto using planned_diagrams_length.
Qed.

(** C10: When the PlantUML server cannot be reached (every fetch raises),
    a well-formed request (string abstract and instructions) still gets
    an answer, without an exception, and the answer carries no diagram:
    the listing failed, no type was planned, or the list is empty. *)
Theorem generate_uml_image_outage body w a :
  (forall i j u, fetch i j u = FetchRaised) -> request_abstract body = Some a ->
  exists r, (generate_uml_image ucfg dcfg body w).1 = Some r
    /\ (r = UmlListFailed \/ r = UmlNoDiagrams \/ r = UmlCompleted []).
Proof.
  intros Hf Ha. rewrite generate_uml_image_spec, Ha. eexists; split; [reflexivity|].
  unfold uml_spec. destruct (plan_phase _); auto.
  rewrite planned_diagrams_outage by done. auto.
Qed.

(** A dict payload is read only through its [build_id], [abstract] and
    [instructions] fields. *)
Lemma generate_uml_image_fields kvs1 kvs2 w :
  same_build_id (JObj kvs1) (JObj kvs2) ->
  py_get (JObj kvs1) ⟪"abstract"⟫ (JStr []) = py_get (JObj kvs2) ⟪"abstract"⟫ (JStr []) ->
  py_get (JObj kvs1) ⟪"instructions"⟫ (JStr []) = py_get (JObj kvs2) ⟪"instructions"⟫ (JStr []) ->
  generate_uml_image ucfg dcfg (JObj kvs1) w = generate_uml_image ucfg dcfg (JObj kvs2) w.
Proof.
  intros Hb Ha Hi. unfold generate_uml_image.
  assert (Hp : forall kvs, (if truthy (JObj kvs) then JObj kvs else JObj []) = JObj kvs).
  { intros [|kv kvs]; reflexivity. }
  rewrite !Hp. unfold str_field. rewrite Ha, Hi.
  destruct (py_get (JObj kvs2) ⟪"abstract"⟫ _) as [[]|]; stm_simpl; try done.
  destruct (py_get (JObj kvs2) ⟪"instructions"⟫ _) as [[]|]; stm_simpl; try done.
  destruct (plan_phase _); stm_simpl; try done. by rewrite (render_specs_payload _ _ _ _ _ Hb).
Qed.

(** The [instructions] field is read (a non-string one raises) but
    plays no part: two requests that differ only in their instructions
    get the same answer and leave the same stores. *)
Theorem generate_uml_image_instructions_ignored kvs i1 i2 w :
  generate_uml_image ucfg dcfg (JObj (kvs ++ [(⟪"instructions"⟫, JStr i1)])) w
  = generate_uml_image ucfg dcfg (JObj (kvs ++ [(⟪"instructions"⟫, JStr i2)])) w.
Proof.
  unfold generate_uml_image. cbn [truthy].
  rewrite !bool_decide_false by (destruct kvs; discriminate). simpl negb. cbv iota.
  unfold str_field. cbn [py_get]. repeat rewrite obj_lookup_snoc_eq.
  repeat rewrite obj_lookup_snoc_ne by (apply key_ne; reflexivity).
  assert (Hb : same_build_id (JObj (kvs ++ [(⟪"instructions"⟫, JStr i1)]))
                             (JObj (kvs ++ [(⟪"instructions"⟫, JStr i2)]))).
  { unfold same_build_id. cbn [py_get]. by rewrite !obj_lookup_snoc_ne by (apply key_ne; reflexivity). }
  destruct (obj_lookup ⟪"abstract"⟫ kvs) as [[]|]; simpl default; stm_simpl; try done;
    destruct (plan_phase _); stm_simpl; try done; by rewrite (render_specs_payload ucfg dcfg _ _ _ Hb).
Qed.

(** C33: The files the service saves under its static directory, and the
    diagrams it reports, do not depend on the build id: two builds that
    differ only in their id write the same static paths (so concurrent
    builds overwrite each other's images there). *)
Theorem generate_uml_image_static_shared kvs b1 b2 w :
  (generate_uml_image ucfg dcfg (JObj (kvs ++ [(⟪"build_id"⟫, b1)])) w).1
  = (generate_uml_image ucfg dcfg (JObj (kvs ++ [(⟪"build_id"⟫, b2)])) w).1
  /\ static_fs (generate_uml_image ucfg dcfg (JObj (kvs ++ [(⟪"build_id"⟫, b1)])) w).2
     = static_fs (generate_uml_image ucfg dcfg (JObj (kvs ++ [(⟪"build_id"⟫, b2)])) w).2.
Proof.
  enough (Hs : stm_sim same_static (generate_uml_image ucfg dcfg (JObj (kvs ++ [(⟪"build_id"⟫, b1)])))
                                  (generate_uml_image ucfg dcfg (JObj (kvs ++ [(⟪"build_id"⟫, b2)]))))
    by (apply Hs; reflexivity).
  unfold generate_uml_image. cbn [truthy].
  rewrite !bool_decide_false by (destruct kvs; discriminate). simpl negb. cbv iota.
  assert (Ek : forall k, k <> ⟪"build_id"⟫ ->
            str_field (JObj (kvs ++ [(⟪"build_id"⟫, b1)])) k = str_field (JObj (kvs ++ [(⟪"build_id"⟫, b2)])) k).
  { intros k Hk. unfold str_field. cbn [py_get]. by rewrite !obj_lookup_snoc_ne by done. }
  rewrite !Ek by (apply key_ne; reflexivity).
  apply stm_sim_bind; [apply str_field_sim|intros a].
  apply stm_sim_bind; [apply str_field_sim|intros _].
  destruct (plan_phase _); auto using render_specs_static with docuagent.
Qed.

End Claims.

(** ** Concrete runs *)

Definition demo_diagrams (fetch_ok : bool) : list diagram :=
  match (demo_run fetch_ok).1 with Some (UmlCompleted ds) => ds | _ => [] end.

Lemma generate_uml_image_stored_witness :
  Forall (stored_for demo_dcfg ⟪"b1"⟫ (demo_run true).2) (demo_diagrams true).
Proof.
  apply Forall_forall.
  apply (@generate_uml_image_stored recorded_zlib demo_ucfg demo_dcfg _ (demo_env true)
           demo_body ⟪"b1"⟫ demo_world).
  - reflexivity.
  - split_and!; [reflexivity|discriminate|intros; reflexivity|intros; reflexivity].
  - rewrite (surjective_pairing (generate_uml_image _ _ _ _)). reflexivity.
Defined.

Lemma generate_uml_image_count_witness :
  length (demo_diagrams true) <= 2.
Proof.
  destruct (@generate_uml_image_count recorded_zlib demo_ucfg demo_dcfg _ (demo_env true)
              demo_body demo_world (demo_diagrams true)) as (a & specs & Ea & Ep & _ & Hl).
  - vm_compute. reflexivity.
  - vm_compute in Ea. injection Ea as <-. vm_compute in Ep. injection Ep as <-.
    vm_compute in Hl. vm_compute. exact Hl.
Defined.

Lemma generate_uml_image_outage_witness :
  exists r, (demo_run false).1 = Some r /\ (r = UmlListFailed \/ r = UmlNoDiagrams \/ r = UmlCompleted []).
Proof.
  apply (@generate_uml_image_outage recorded_zlib demo_ucfg demo_dcfg _ (demo_env false)
           demo_body demo_world ⟪"an online shop"⟫); [intros; reflexivity|vm_compute; reflexivity].
Defined.

(** The two diagrams of the concrete run. *)
Definition demo_d (desc : string) : diagram :=
  {| d_type := ⟪"Class_Diagram"⟫; d_desc := list_ascii_of_string desc; d_index := 1;
     d_path := ⟪"static/Class_Diagram_1.png"⟫ |}.

(** Two planned types that sanitise to the same name collide: the
    plan ["Class Diagram"], ["Class Diagram!"] yields two reported
    diagrams with different descriptions and the same file, and the
    document builder's store then holds a single image under
    [Class_Diagram_1.png], the second one. *)
Example generate_uml_image_same_type_collision :
  (demo_run true).1 = Some (UmlCompleted [demo_d "the classes"; demo_d "the classes again"])
  /\ doc_fs (demo_run true).2 !! diagram_path demo_dcfg ⟪"b1"⟫ ⟪"Class_Diagram"⟫ ⟪"1"⟫ = Some [2%Z]
  /\ size (doc_fs (demo_run true).2) = 1.
Proof. split_and!; vm_compute; reflexivity. Qed.

(** The content-type check of line 113 accepts exactly a 200 answer
    whose content type contains ["image"] anywhere, so a [text/html]
    answer with a parameter mentioning [image] is saved as a PNG. *)
Theorem image_ok_spec r b :
  image_ok r = Some b
  <-> exists ct, r = FetchResponse 200 ct b /\ contains ⟪"image"⟫ (default [] ct) = true.
Proof.
  split.
  - destruct r as [|st ct body]; [done|]. unfold image_ok.
    destruct (bool_decide (st = 200%Z)) eqn:Es; [|done]. apply bool_decide_eq_true in Es as ->.
    destruct (contains _ _) eqn:Ec; [|done]. intros [= <-]. by exists ct.
  - intros (ct & -> & Hc). unfold image_ok. by rewrite Hc.
Qed.

Example image_ok_html : image_ok (FetchResponse 200 (Some ⟪"text/html; profile=image"⟫) [60%Z]) = Some [60%Z].
Proof. vm_compute. reflexivity. Qed.

(** [re.findall] over the answer terminates: any fuel at least the
    length of the answer gives the same blocks as [fenced_blocks]. *)
Theorem fenced_blocks_fuel n s : length s <= n -> findall_blocks n s = fenced_blocks s.
Proof. intros Hn. unfold fenced_blocks. by apply findall_blocks_enough. Qed.

Lemma fenced_blocks_fuel_witness :
  findall_blocks 100 demo_reply = [⟪"@startuml
A->B
@enduml
"⟫].
Proof. rewrite (fenced_blocks_fuel 100 demo_reply) by (vm_compute; lia). vm_compute. reflexivity. Defined.
