(* ===== verification/Assembly.v ===== *)
(** * Document assembly of [build_document] (src/Service/Docbuilder.py,
      lines 43-56 and 173-256)

    The document builder turns the markdown of the narrative service and
    the diagram list of the diagram service into a Word document.  The
    document is modelled as the sequence of its body blocks, in the order
    the [doc.add_*] calls append them; file [Styling] gives the formatted
    paragraph of each block, the styles and the footer, and shows that
    the body determines the blocks.

    - [md_blocks] is the loop of lines 202-226 over [raw_md.splitlines()]:
      a line containing three backquotes toggles the code state and is
      dropped, a code line becomes a shaded paragraph, [# ], [## ] and
      [### ] become headings and any other non-empty line a paragraph
      without its asterisks.  [md_ref] states the same through the parity
      of the fence lines before each line, and [md_blocks_ref] proves the
      two equal.
    - [cover] is the title page of lines 173-181.
    - [spec_section] is the body of the loop of lines 232-256 for one
      diagram record: heading, description, and the picture when the file
      [{diagramType}_{index}.png] of the build directory exists and
      [sanitize_image] (lines 43-56) converts it; the class [ImageLib]
      stands for Pillow and for python-docx's [add_picture]. *)

From S2P Require Import Prelude Python Ingestion.
Local Open Scope py_scope.

(** ** The document *)

Inductive block :=
| BHeading (level : nat) (text : pystr)   (** [doc.add_heading(text, level)] *)
| BPara (text : pystr)                    (** [doc.add_paragraph(text)] *)
| BBold (text : pystr)                    (** a paragraph holding one bold run *)
| BCaption (text : pystr)                 (** a paragraph of style [Caption] *)
| BPageBreak                              (** [doc.add_page_break()] *)
| BCode (text : pystr)                    (** a shaded Courier New paragraph *)
| BPicture (image : bytes)                (** a paragraph holding a picture *)
| BNoPicture                              (** the picture paragraph left empty by a failed embed *)
| BEmpty.                                 (** [doc.add_paragraph()] *)

#[export] Instance block_eq_dec : EqDecision block.
Proof. solve_decision. Qed.

(** ** Markdown, lines 202-226 *)

Definition fence : pystr := ⟪"```"⟫.

(** One iteration: the new code state and the blocks appended. *)
Definition md_line (in_code : bool) (line : pystr) : bool * list block :=
  let clean := strip line in
  if contains fence clean then (negb in_code, [])
  else if in_code then (in_code, [BCode clean])
  else if startswith ⟪"# "⟫ clean then (in_code, [BHeading 1 (strip (drop 2 clean))])
  else if startswith ⟪"## "⟫ clean then (in_code, [BHeading 2 (strip (drop 3 clean))])
  else if startswith ⟪"### "⟫ clean then (in_code, [BHeading 3 (strip (drop 4 clean))])
  else if bool_decide (clean <> []) then (in_code, [BPara (replace_char "*" [] clean)])
  else (in_code, []).

Fixpoint md_loop (in_code : bool) (lines : list pystr) : list block :=
  match lines with
  | [] => []
  | l :: ls => let '(c, bs) := md_line in_code l in bs ++ md_loop c ls
  end.

Definition md_blocks (md : pystr) : list block := md_loop false (splitlines md).

(** The reference reading: a line is code when an odd number of fence
    lines precede it. *)
Definition is_fence (line : pystr) : bool := contains fence (strip line).

Definition fences_before (lines : list pystr) (k : nat) : nat :=
  length (List.filter is_fence (take k lines)).

Definition md_ref (md : pystr) : list block :=
  let ls := splitlines md in
  concat (imap (fun k l => (md_line (Nat.odd (fences_before ls k)) l).2) ls).

(** ** The cover page, lines 173-181 *)

(** [s.split('\n')[0]] *)
Fixpoint split_first (c : ascii) (s : pystr) : pystr :=
  match s with
  | [] => []
  | x :: r => if decide (x = c) then [] else x :: split_first c r
  end.

(** [data.get("instructions", "AI-Generated Documentation").split('\n')[0]];
    [None] when the value is not a string ([split] raises). *)
Definition project_title (data : json) : option pystr :=
  match py_get data ⟪"instructions"⟫ (JStr ⟪"AI-Generated Documentation"⟫) with
  | Some (JStr s) => Some (split_first "010"%char s)
  | _ => None
  end.

Definition cover (title today : pystr) : list block :=
  [BHeading 0 ⟪"Technical Report"⟫; BBold title; BCaption (⟪"Generated on: "⟫ ++ today); BPageBreak].

(** ** Diagrams, lines 228-256 *)

(** Pillow and python-docx: [pil_png b] is the PNG that
    [Image.open(...).convert("RGB").save(..., format="PNG")] writes for
    the file content [b] ([None] when one of them raises), [embed_ok b]
    whether [add_picture] accepts the file content [b]. *)
Class ImageLib := {
  pil_png : bytes -> option bytes;
  embed_ok : bytes -> bool
}.

(** [add_paragraph(text)]: a falsy value adds an empty paragraph; a
    string adds its text; any other value raises in python-docx's run
    appender (numbers and booleans are not iterable; the model raises for
    lists and dicts as well). *)
Definition para_text (v : json) : option pystr :=
  match v with
  | JStr s => Some s
  | _ => if truthy v then None else Some []
  end.

(** [diagram_type_raw.replace('_', ' ').replace('-', ' ').title()] *)
Definition section_title (raw : pystr) : pystr :=
  title (replace_char "-" ⟪" "⟫ (replace_char "_" ⟪" "⟫ raw)).

Section Images.
Context `{ImageLib} (cfg : doc_config).

(** The name [sanitize_image] writes to: [{name}_safe.png] beside the
    file, lines 47-50. *)
Definition safe_path (path : pystr) : pystr :=
  let '(directory, filename) := path_split path in
  let '(name, _) := splitext filename in
  path_join directory (name ++ ⟪"_safe.png"⟫).

(** [sanitize_image(path)], lines 43-56: every failure is caught and
    gives [None]; a failing [open] or conversion writes nothing. *)
Definition sanitize_image (path : pystr) : stm fsys (option pystr) :=
  fun fs =>
    match fs !! path ≫= pil_png with
    | None => (Some None, fs)
    | Some png =>
        if doc_disk_ok cfg (safe_path path) then (Some (Some (safe_path path)), <[safe_path path := png]> fs)
        else (Some None, fs)
    end.

(** Lines 245-253: the picture paragraph.  [p_img] is appended before
    [add_picture], so a failing embed leaves it, centred and with the
    empty run [add_run()] made, in the document ([BNoPicture]). *)
Definition picture_blocks (img_path : pystr) : stm fsys (list block) :=
  fun fs =>
    match fs !! img_path with
    | None => (Some [], fs)
    | Some _ =>
        match sanitize_image img_path fs with
        | (Some (Some safe), fs') =>
            match fs' !! safe with
            | Some b => (Some [if embed_ok b then BPicture b else BNoPicture], fs')
            | None => (Some [BNoPicture], fs')
            end
        | (_, fs') => (Some [], fs')
        end
    end.

(** The fields lines 233-238 read from one diagram record: the raw type,
    the description's text and the index value; [None] when one of them
    raises (a record that is not a dict, a type that is not a string, a
    description python-docx refuses). *)
Definition spec_fields (spec : json) : option (pystr * pystr * json) :=
  match py_get spec ⟪"diagramType"⟫ (JStr ⟪"Diagram"⟫), py_get spec ⟪"description"⟫ (JStr []) with
  | Some (JStr raw), Some descv =>
      match para_text descv, py_get spec ⟪"index"⟫ (JInt 1) with
      | Some desc, Some idxv => Some (raw, desc, idxv)
      | _, _ => None
      end
  | _, _ => None
  end.

(** Lines 242-243: where the record's image is looked for. *)
Definition spec_image_path (bid raw : pystr) (idxv : json) : pystr :=
  path_join (path_join (diagr_dir cfg) bid) (raw ++ ⟪"_"⟫ ++ py_str idxv ++ ⟪".png"⟫).

(** One diagram record of the list, lines 233-256. *)
Definition spec_section (bid : pystr) (spec : json) : stm fsys (list block) :=
  match spec_fields spec with
  | Some (raw, desc, idxv) =>
      pic ← picture_blocks (spec_image_path bid raw idxv);
      mret ([BHeading 2 (section_title raw); BPara desc] ++ pic ++ [BEmpty])
  | None => throw
  end.

Fixpoint spec_sections (bid : pystr) (specs : list json) : stm fsys (list block) :=
  match specs with
  | [] => mret []
  | s :: rest => bs ← spec_section bid s; bs' ← spec_sections bid rest; mret (bs ++ bs')
  end.

(** Lines 228-256. *)
Definition diagram_section (bid : pystr) (specs : list json) : stm fsys (list block) :=
  match specs with
  | [] => mret []
  | _ => bs ← spec_sections bid specs; mret (BHeading 1 ⟪"Diagrams"⟫ :: bs)
  end.

End Images.

(** ** Theorems on the markdown loop *)

(** What the markdown loop may append: headings of level 1 to 3,
    paragraphs without asterisks, and code lines. *)
Definition md_block_ok (b : block) : Prop :=
  match b with
  | BHeading n _ => 1 <= n <= 3
  | BPara t => "*"%char ∉ t
  | BCode _ => True
  | _ => False
  end.

(** The number of pictures of a block sequence. *)
Definition pictures (bs : list block) : nat :=
  length (List.filter (fun b => match b with BPicture _ => true | _ => false end) bs).

(** The level-2 headings of a block sequence, in order. *)
Definition section_headings (bs : list block) : list pystr :=
  omap (fun b => match b with BHeading 2 t => Some t | _ => None end) bs.

Lemma md_line_state c l : (md_line c l).1 = xorb c (is_fence l).
Proof.
  unfold md_line, is_fence. destruct (contains fence (strip l)); simpl; [by destruct c|].
  destruct c; [done|]. by repeat case_match.
Qed.

Lemma fences_before_cons l ls k :
  fences_before (l :: ls) (S k) = (if is_fence l then 1 else 0) + fences_before ls k.
Proof. unfold fences_before. simpl. by destruct (is_fence l). Qed.

Lemma md_loop_ref c ls :
  md_loop c ls = concat (imap (fun k l => (md_line (xorb c (Nat.odd (fences_before ls k))) l).2) ls).
Proof.
  revert c. induction ls as [|l ls IH]; intros c; [done|].
  rewrite imap_cons. simpl. rewrite xorb_false_r.
  destruct (md_line c l) as [c' bs] eqn:E. f_equal. rewrite IH.
  f_equal. apply imap_ext. intros k l' _. simpl. rewrite fences_before_cons.
  pose proof (md_line_state c l) as Hs. rewrite E in Hs. simpl in Hs. subst c'.
  destruct (is_fence l); simpl; [|by rewrite xorb_false_r].
  rewrite Nat.odd_succ, <- Nat.negb_odd. by destruct c, (Nat.odd _).
Qed.

Lemma replace_char_removes c s : c ∉ replace_char c [] s.
Proof.
  unfold replace_char. induction s as [|x s IH]; simpl; [set_solver|].
  case_decide; simpl; set_solver.
Qed.

Lemma md_line_ok c l : Forall md_block_ok (md_line c l).2.
Proof.
  unfold md_line. repeat case_match; simpl; repeat constructor; simpl; try lia.
  apply replace_char_removes.
Qed.

Lemma md_loop_ok c ls : Forall md_block_ok (md_loop c ls).
Proof.
  revert c. induction ls as [|l ls IH]; intros c; simpl; [constructor|].
  pose proof (md_line_ok c l). destruct (md_line c l). apply Forall_app; auto.
Qed.

(** ** Lemmas on the diagram section *)

Section Images_lemmas.
Context `{ImageLib} (cfg : doc_config).

Lemma picture_blocks_cases img fs :
  exists pic fs', picture_blocks cfg img fs = (Some pic, fs') /\ section_headings pic = []
    /\ dom fs ⊆ dom fs' /\ (fs !! img = None -> pic = [] /\ fs' = fs).
Proof.
  unfold picture_blocks, sanitize_image.
  destruct (fs !! img) as [b|] eqn:Ei; simpl; [|by do 2 eexists].
  destruct (pil_png b) as [png|]; simpl; [|do 2 eexists; split_and!; done].
  destruct (doc_disk_ok cfg _); [|do 2 eexists; split_and!; done].
  rewrite lookup_insert_eq. do 2 eexists. split_and!; [done| |by rewrite dom_insert_L; set_solver|done].
  by destruct (embed_ok png).
Qed.

(** [sanitize_image] writes beside the image, in the same directory. *)
Lemma safe_path_shape (d f : pystr) :
  d <> [] -> last d <> Some "/"%char -> "/"%char ∉ f ->
  safe_path (d ++ "/"%char :: f) = d ++ "/"%char :: (splitext f).1 ++ ⟪"_safe.png"⟫.
Proof.
  intros Hd Hl Hf. unfold safe_path. rewrite path_split_last by done.
  destruct (splitext_prefix f) as [k Hk]. destruct (splitext f) as [name ext]. simpl in Hk |- *. subst name.
  apply path_join_sep; [done|done|]. destruct (take k f) as [|c r] eqn:E; [done|]. intros [= ->].
  apply Hf. assert (Hin : "/"%char ∈ take k f) by (rewrite E; left).
  apply elem_of_take in Hin as (i & Hi & _). by eapply list_elem_of_lookup_2.
Qed.

Lemma picture_blocks_present img fs b png :
  fs !! img = Some b -> pil_png b = Some png -> doc_disk_ok cfg (safe_path img) = true ->
  picture_blocks cfg img fs
  = (Some [if embed_ok png then BPicture png else BNoPicture], <[safe_path img := png]> fs).
Proof.
  intros Ei Hp Hd. unfold picture_blocks, sanitize_image. rewrite Ei. simpl. rewrite Hp, Hd.
  by rewrite lookup_insert_eq.
Qed.

Lemma spec_section_headings bid spec fs bs :
  (spec_section cfg bid spec fs).1 = Some bs ->
  exists f, spec_fields spec = Some f /\ section_headings bs = [section_title f.1.1].
Proof.
  unfold spec_section. destruct (spec_fields spec) as [[[raw desc] idxv]|]; [|done].
  destruct (picture_blocks_cases (spec_image_path cfg bid raw idxv) fs) as (pic & fs' & E & Hh & _).
  rewrite stm_bind_run, E. simpl. intros [= <-]. eexists. split; [done|].
  unfold section_headings in *. csimpl. rewrite omap_app. csimpl. by rewrite Hh.
Qed.

Lemma spec_sections_headings bid specs fs bs :
  (spec_sections cfg bid specs fs).1 = Some bs ->
  exists fields, mapM spec_fields specs = Some fields
    /\ section_headings bs = map (fun f => section_title f.1.1) fields.
Proof.
  revert fs bs. induction specs as [|spec specs IH]; intros fs bs; simpl.
  { intros [= <-]. by exists []. }
  rewrite stm_bind_run. destruct (spec_section cfg bid spec fs) as [[bs1|] fs1] eqn:E1; [|done].
  rewrite stm_bind_run. destruct (spec_sections cfg bid specs fs1) as [[bs2|] fs2] eqn:E2; [|done].
  simpl. intros [= <-].
  destruct (spec_section_headings bid spec fs bs1) as (f & Ef & Hf); [by rewrite E1|].
  destruct (IH fs1 bs2) as (fields & Em & Hm); [by rewrite E2|].
  exists (f :: fields). rewrite Ef, Em. split; [done|].
  unfold section_headings in *. rewrite omap_app, Hf, Hm. done.
Qed.

(** The diagram section raises only when reading a record's fields
    does: images that are missing or refused are caught. *)
Lemma spec_sections_total bid specs fs :
  Forall (fun spec => is_Some (spec_fields spec)) specs -> is_Some (spec_sections cfg bid specs fs).1.
Proof.
  revert fs. induction specs as [|spec specs IH]; intros fs Hm; [done|].
  apply Forall_cons in Hm as [[[[raw desc] idxv] Ef] Hm].
  cbn [spec_sections]. rewrite stm_bind_run. unfold spec_section. rewrite Ef, stm_bind_run.
  destruct (picture_blocks_cases (spec_image_path cfg bid raw idxv) fs) as (pic & fs1 & -> & _).
  cbn. rewrite stm_bind_run. destruct (IH (fs1) Hm) as [bs2 E2].
  destruct (spec_sections cfg bid specs fs1) as [r fs2]. simpl in E2. by subst.
Qed.

Lemma diagram_section_total bid specs fs :
  is_Some (mapM spec_fields specs) -> is_Some (diagram_section cfg bid specs fs).1.
Proof.
  intros Hm. destruct specs as [|spec specs']; [done|]. unfold diagram_section.
  apply mapM_is_Some_1 in Hm.
  rewrite stm_bind_run. destruct (spec_sections_total bid (spec :: specs') fs Hm) as [bs E].
  destruct (spec_sections cfg bid (spec :: specs') fs). simpl in E. by subst.
Qed.

(** The records whose image file is present. *)
Definition spec_ready (bid : pystr) (fs : fsys) (spec : json) : Prop :=
  exists raw desc idxv, spec_fields spec = Some (raw, desc, idxv)
    /\ is_Some (fs !! spec_image_path cfg bid raw idxv).

Lemma spec_ready_insert bid fs k v spec : spec_ready bid fs spec -> spec_ready bid (<[k := v]> fs) spec.
Proof.
  intros (raw & desc & idxv & Ef & Hs). exists raw, desc, idxv. split; [done|].
  apply lookup_insert_is_Some'. by right.
Qed.

Section Working_libs.
Hypothesis pil_ok : forall b, is_Some (pil_png b).
Hypothesis embed_always : forall b, embed_ok b = true.
Hypothesis disk_ok : forall p, doc_disk_ok cfg p = true.

Lemma spec_section_picture bid spec fs :
  spec_ready bid fs spec ->
  exists bs fs', spec_section cfg bid spec fs = (Some bs, fs') /\ pictures bs = 1
    /\ forall spec', spec_ready bid fs spec' -> spec_ready bid fs' spec'.
Proof.
  intros (raw & desc & idxv & Ef & [b Hb]). destruct (pil_ok b) as [png Hp].
  unfold spec_section. rewrite Ef, stm_bind_run, (picture_blocks_present _ _ b png); [|done..].
  rewrite embed_always. do 2 eexists. split_and!; [done|done|]. apply spec_ready_insert.
Qed.

Lemma spec_sections_pictures bid specs fs :
  Forall (spec_ready bid fs) specs ->
  exists bs fs', spec_sections cfg bid specs fs = (Some bs, fs') /\ pictures bs = length specs.
Proof.
  revert fs. induction specs as [|spec specs IH]; intros fs Hr; simpl; [by do 2 eexists|].
  apply Forall_cons in Hr as [Hs Hr].
  destruct (spec_section_picture bid spec fs Hs) as (bs1 & fs1 & E1 & P1 & Hk).
  destruct (IH fs1) as (bs2 & fs2 & E2 & P2); [by eapply Forall_impl|].
  rewrite stm_bind_run, E1, stm_bind_run, E2. do 2 eexists. split; [done|].
  unfold pictures in *. rewrite List.filter_app, length_app. lia.
Qed.

(** With working libraries and every image present, the diagram section
    has one heading per record, in order, and one picture per record. *)
Lemma diagram_section_complete bid specs fs fields :
  Forall (spec_ready bid fs) specs -> mapM spec_fields specs = Some fields ->
  exists bs fs', diagram_section cfg bid specs fs = (Some bs, fs')
    /\ pictures bs = length specs
    /\ section_headings bs = map (fun f => section_title f.1.1) fields.
Proof.
  intros Hr Hm. destruct specs as [|spec specs'] eqn:Es.
  { simpl in Hm. injection Hm as <-. by exists [], fs. }
  rewrite <- Es in *. destruct (spec_sections_pictures bid specs fs Hr) as (bs & fs' & E & Hp).
  destruct (spec_sections_headings bid specs fs bs) as (fields' & Hm' & Hh); [by rewrite E|].
  rewrite Hm in Hm'. injection Hm' as <-.
  exists (BHeading 1 ⟪"Diagrams"⟫ :: bs), fs'. unfold diagram_section. rewrite Es in *.
  rewrite stm_bind_run, E. split_and!; [done|done|]. by rewrite <- Hh.
Qed.

End Working_libs.

End Images_lemmas.

(** ** Theorems of the assembly *)

(** C8: The markdown loop of lines 202-226 equals its reference reading:
    each line is classified with the code state given by the parity of
    the fence lines before it. *)
Theorem md_blocks_ref md : md_blocks md = md_ref md.
Proof. unfold md_blocks, md_ref. rewrite md_loop_ref. done. Qed.

(** The narrative part of the document holds only headings of level
    1 to 3, paragraphs without asterisks and code lines. *)
Theorem md_blocks_shape md : Forall md_block_ok (md_blocks md).
Proof. apply md_loop_ok. Qed.

(** The diagram section lists one level-2 heading per diagram record,
    in the order of the records, when none of them raises. *)
Theorem diagram_section_order `{ImageLib} cfg bid specs fs bs :
  (diagram_section cfg bid specs fs).1 = Some bs ->
  exists fields, mapM spec_fields specs = Some fields
    /\ section_headings bs = map (fun f => section_title f.1.1) fields.
Proof.
  unfold diagram_section. destruct specs as [|spec specs'].
  { intros [= <-]. by exists []. }
  rewrite stm_bind_run. destruct (spec_sections cfg bid (spec :: specs') fs) as [[bs1|] fs1] eqn:E; [|done].
  intros [= <-]. destruct (spec_sections_headings cfg bid (spec :: specs') fs bs1) as (fields & Hm & Hh);
    [by rewrite E|]. exists fields. by split.
Qed.

(** A record whose image file is absent still gets its heading and
    its description (the image is left out and nothing is written). *)
Theorem spec_section_missing_image `{ImageLib} cfg bid spec fs raw desc idxv :
  spec_fields spec = Some (raw, desc, idxv) -> fs !! spec_image_path cfg bid raw idxv = None ->
  spec_section cfg bid spec fs = (Some [BHeading 2 (section_title raw); BPara desc; BEmpty], fs).
Proof.
  intros Ef Hn. unfold spec_section. rewrite Ef, stm_bind_run.
  unfold picture_blocks. by rewrite Hn.
Qed.

(** ** Concrete records *)

Definition demo_record (t : string) : json :=
  JObj [(⟪"diagramType"⟫, JStr (list_ascii_of_string t)); (⟪"description"⟫, JStr ⟪"d"⟫);
        (⟪"index"⟫, JInt 1)].

Definition demo_libs : ImageLib := {| pil_png := Some; embed_ok := fun _ => true |}.

Definition demo_builder_cfg : doc_config := {| base_dir := ⟪"/srv"⟫; doc_disk_ok := fun _ => true |}.

Lemma diagram_section_order_witness :
  section_headings (default [] (@diagram_section demo_libs demo_builder_cfg ⟪"b1"⟫
                                  [demo_record "use_case"; demo_record "Class-Diagram"] ∅).1)
  = [⟪"Use Case"⟫; ⟪"Class Diagram"⟫].
Proof.
  destruct (@diagram_section_order demo_libs demo_builder_cfg ⟪"b1"⟫
              [demo_record "use_case"; demo_record "Class-Diagram"] ∅
              (default [] (@diagram_section demo_libs demo_builder_cfg ⟪"b1"⟫
                             [demo_record "use_case"; demo_record "Class-Diagram"] ∅).1))
    as (fields & Hm & Hh); [vm_compute; reflexivity|].
  rewrite Hh. vm_compute in Hm. injection Hm as <-. vm_compute. reflexivity.
Defined.

Lemma spec_section_missing_image_witness :
  @spec_section demo_libs demo_builder_cfg ⟪"b1"⟫ (demo_record "Class_Diagram") ∅
  = (Some [BHeading 2 ⟪"Class Diagram"⟫; BPara ⟪"d"⟫; BEmpty], ∅).
Proof.
  apply (@spec_section_missing_image demo_libs demo_builder_cfg ⟪"b1"⟫ _ ∅ ⟪"Class_Diagram"⟫ ⟪"d"⟫ (JInt 1));
    reflexivity.
Defined.
