(* ===== verification/Styling.v ===== *)
(** * Document styling of [build_document] (src/Service/Docbuilder.py,
      lines 58-65 and 151-256)

    The Word document python-docx builds, at the level of the objects the
    code touches: the style table ([doc.styles]), the body paragraphs
    with their style, alignment, spacing, extra paragraph properties and
    runs, and the footer.

    - [define_styles] is lines 153-169 on the template's style table;
    - [set_shading_for_paragraph] is lines 58-65;
    - [set_footer] is lines 183-197;
    - [para_of_block] gives, for each block of file [Assembly], the
      paragraph the code makes where it appends that block (the cover,
      lines 174-180; the markdown loop, lines 207-225; the diagram loop,
      lines 230-256);
    - [styled_docx] composes them in the order of the code.

    Lengths are python-docx's [Length], in EMU ([Pt(n)] is [12700 * n],
    [Inches(n)] is [914400 * n]).  Element and attribute names are kept
    in their prefixed form ([w:shd]); [qn] maps them one to one to Clark
    names, so nothing depends on the expansion.  A style named by
    [add_paragraph] or [add_heading] is looked up in the table, a
    [KeyError] when it is missing ([add_para]).  A font records the
    [w:ascii] name [font.name] writes and the [w:asciiTheme] a template
    may carry; [run_font_shown] is the font Word shows, the theme one
    superseding the name at the same level.  The theorems show when the
    document is built, that the block sequence of [Assembly] loses
    nothing of the body ([block_of_para_of_block]), which paragraphs are
    shaded, which fonts the styles give and what the footer holds. *)

From S2P Require Import Prelude Python Ingestion Assembly.
Local Open Scope py_scope.

(** ** python-docx objects *)

Inductive alignment := AlignLeft | AlignCenter | AlignRight.

#[export] Instance alignment_eq_dec : EqDecision alignment.
Proof. solve_decision. Qed.

(** [Pt(n)] and [Inches(n)] in EMU. *)
Definition Pt (n : Z) : Z := 12700 * n.
Definition emu_per_inch : Z := 914400.

(** The run properties a [Font] object reads and writes.  [font_name] is
    the [w:ascii] (and [w:hAnsi]) attribute of [w:rFonts], which the
    [font.name] setter writes; [font_theme] is its [w:asciiTheme]
    attribute, which a template may carry and python-docx leaves in
    place. *)
Record font := {
  font_name : option pystr;
  font_theme : option pystr;
  font_size : option Z;
  font_bold : option bool;
  font_rgb : option (Z * Z * Z)
}.

Definition font0 : font :=
  {| font_name := None; font_theme := None; font_size := None; font_bold := None; font_rgb := None |}.

Record style := {
  based_on : option pystr;
  style_font : font;
  style_space_after : option Z
}.

(** An element made with [OxmlElement]: its tag, attributes in order of
    creation and text. *)
Record oxml := { ox_tag : pystr; ox_attrs : list (pystr * pystr); ox_text : pystr }.

Definition OxmlElement (tag : pystr) : oxml := {| ox_tag := tag; ox_attrs := []; ox_text := [] |}.

(** [e.set(k, v)]: lxml replaces the value of an attribute that is
    there and appends a new one. *)
Definition ox_set (k v : pystr) (e : oxml) : oxml :=
  {| ox_tag := ox_tag e;
     ox_attrs := if bool_decide (k ∈ map fst (ox_attrs e))
                 then map (fun kv => if bool_decide (kv.1 = k) then (k, v) else kv) (ox_attrs e)
                 else ox_attrs e ++ [(k, v)];
     ox_text := ox_text e |}.

Record run := {
  run_text : pystr;
  run_font : font;
  run_picture : option (bytes * Z);   (** an inline picture and its width *)
  run_xml : list oxml                 (** elements appended to [run._r] *)
}.

Record paragraph := {
  para_style : option pystr;          (** [None]: the default paragraph style *)
  para_align : option alignment;
  para_space_after : option Z;
  para_ppr : list oxml;               (** elements appended to [w:pPr] *)
  para_runs : list run
}.

Abbreviation style_table := (gmap (list ascii) style) (only parsing).

Record document := {
  doc_styles : style_table;
  doc_body : list paragraph;
  doc_footer : list paragraph         (** the paragraphs of [sections[0].footer] *)
}.

(** ** python-docx's operations *)

(** [p.add_run(text)] *)
Definition new_run (text : pystr) : run :=
  {| run_text := text; run_font := font0; run_picture := None; run_xml := [] |}.

(** [add_paragraph(text, style)]: a run only when [text] is not empty. *)
Definition new_para (text : pystr) (sty : option pystr) : paragraph :=
  {| para_style := sty; para_align := None; para_space_after := None; para_ppr := [];
     para_runs := if bool_decide (text = []) then [] else [new_run text] |}.

(** [add_heading(text, level)]: style [Title] for level 0, [Heading n]
    otherwise. *)
Definition heading_style (level : nat) : pystr :=
  match level with 0 => ⟪"Title"⟫ | _ => ⟪"Heading "⟫ ++ str_nat level end.

Definition add_heading (text : pystr) (level : nat) : paragraph := new_para text (Some (heading_style level)).

Definition with_align (a : alignment) (p : paragraph) : paragraph :=
  {| para_style := para_style p; para_align := Some a; para_space_after := para_space_after p;
     para_ppr := para_ppr p; para_runs := para_runs p |}.

Definition with_space_after (n : Z) (p : paragraph) : paragraph :=
  {| para_style := para_style p; para_align := para_align p; para_space_after := Some n;
     para_ppr := para_ppr p; para_runs := para_runs p |}.

Definition with_runs (rs : list run) (p : paragraph) : paragraph :=
  {| para_style := para_style p; para_align := para_align p; para_space_after := para_space_after p;
     para_ppr := para_ppr p; para_runs := rs |}.

(** ** [set_shading_for_paragraph], lines 58-65 *)

Definition shd (fill_color : pystr) : oxml :=
  ox_set ⟪"w:fill"⟫ fill_color (ox_set ⟪"w:color"⟫ ⟪"auto"⟫ (ox_set ⟪"w:val"⟫ ⟪"clear"⟫ (OxmlElement ⟪"w:shd"⟫))).

Definition set_shading_for_paragraph (p : paragraph) (fill_color : pystr) : paragraph :=
  {| para_style := para_style p; para_align := para_align p; para_space_after := para_space_after p;
     para_ppr := para_ppr p ++ [shd fill_color]; para_runs := para_runs p |}.

(** ** The paragraph of each block *)

(** Line 180, [doc.add_page_break()]: a paragraph whose run holds a page
    break. *)
Definition page_break_para : paragraph :=
  with_runs [{| run_text := []; run_font := font0; run_picture := None;
                run_xml := [ox_set ⟪"w:type"⟫ ⟪"page"⟫ (OxmlElement ⟪"w:br"⟫)] |}] (new_para [] None).

(** Lines 207-213: a Courier New 10pt run, shaded [F1F1F1], 4pt after. *)
Definition code_para (clean_line : pystr) : paragraph :=
  let r := {| run_text := clean_line; run_picture := None; run_xml := [];
              run_font := {| font_name := Some ⟪"Courier New"⟫; font_theme := None; font_size := Some (Pt 10);
                             font_bold := None; font_rgb := None |} |} in
  with_space_after (Pt 4) (set_shading_for_paragraph (with_runs [r] (new_para [] None)) ⟪"F1F1F1"⟫).

(** Lines 222-225 and 238-240: left aligned, 8pt after. *)
Definition text_para (text : pystr) : paragraph :=
  with_space_after (Pt 8) (with_align AlignLeft (new_para text None)).

(** Lines 176-178: a centred paragraph with one bold run. *)
Definition bold_para (text : pystr) : paragraph :=
  with_align AlignCenter
    (with_runs [{| run_text := text; run_picture := None; run_xml := [];
                   run_font := {| font_name := None; font_theme := None; font_size := None;
                                  font_bold := Some true; font_rgb := None |} |}] (new_para [] None)).

(** Lines 248-250: a centred paragraph whose run holds the picture,
    [Inches(5.5)] wide; [p_img] with its empty run when [add_picture]
    raises. *)
Definition picture_para (img : option bytes) : paragraph :=
  with_align AlignCenter
    (with_runs [{| run_text := []; run_font := font0; run_xml := [];
                   run_picture := (fun b => (b, 11 * emu_per_inch / 2)%Z) <$> img |}] (new_para [] None)).

Definition para_of_block (b : block) : paragraph :=
  match b with
  | BHeading 0 t => with_align AlignCenter (add_heading t 0)     (** lines 174-175 *)
  | BHeading n t => add_heading t n
  | BPara t => text_para t
  | BBold t => bold_para t
  | BCaption t => with_align AlignCenter (new_para t (Some ⟪"Caption"⟫))   (** line 180 *)
  | BPageBreak => page_break_para
  | BCode t => code_para t
  | BPicture img => picture_para (Some img)
  | BNoPicture => picture_para None
  | BEmpty => new_para [] None                                   (** line 256 *)
  end.

(** ** The style table, lines 153-169 *)

Definition set_font (f : font -> font) (s : style) : style :=
  {| based_on := based_on s; style_font := f (style_font s); style_space_after := style_space_after s |}.

(** [font.name = n] sets [w:ascii] and [w:hAnsi] and leaves
    [w:asciiTheme] as it was. *)
Definition font_set_name (n : pystr) (f : font) : font :=
  {| font_name := Some n; font_theme := font_theme f; font_size := font_size f; font_bold := font_bold f;
     font_rgb := font_rgb f |}.
Definition font_set_size (z : Z) (f : font) : font :=
  {| font_name := font_name f; font_theme := font_theme f; font_size := Some z; font_bold := font_bold f;
     font_rgb := font_rgb f |}.
Definition font_set_bold (b : bool) (f : font) : font :=
  {| font_name := font_name f; font_theme := font_theme f; font_size := font_size f; font_bold := Some b;
     font_rgb := font_rgb f |}.
Definition font_set_rgb (c : Z * Z * Z) (f : font) : font :=
  {| font_name := font_name f; font_theme := font_theme f; font_size := font_size f; font_bold := font_bold f;
     font_rgb := Some c |}.

Definition style_set_space_after (z : Z) (s : style) : style :=
  {| based_on := based_on s; style_font := style_font s; style_space_after := Some z |}.

(** [doc.styles[name]]: [KeyError] for a style the template lacks. *)
Definition update_style (name : pystr) (f : style -> style) (sty : style_table) : option style_table :=
  s ← sty !! name; Some (<[name := f s]> sty).

(** Lines 154-157, 159-164 and 166-170. *)
Definition normal_style : style -> style := set_font (font_set_size (Pt 11) ∘ font_set_name ⟪"Poppins"⟫).

Definition h1_style : style -> style :=
  style_set_space_after (Pt 12)
  ∘ set_font (font_set_rgb (59, 75, 100)%Z ∘ font_set_bold true ∘ font_set_size (Pt 18) ∘ font_set_name ⟪"Poppins"⟫).

Definition h2_style : style -> style :=
  style_set_space_after (Pt 10) ∘ set_font (font_set_bold true ∘ font_set_size (Pt 14) ∘ font_set_name ⟪"Poppins"⟫).

Definition define_styles (sty : style_table) : option style_table :=
  sty ← update_style ⟪"Normal"⟫ normal_style sty;
  sty ← update_style ⟪"Heading 1"⟫ h1_style sty;
  update_style ⟪"Heading 2"⟫ h2_style sty.

(** ** The footer, lines 183-197 *)

(** [p.text = s]: python-docx removes the runs and adds one run of [s];
    the paragraph properties stay. *)
Definition set_para_text (s : pystr) (p : paragraph) : paragraph := with_runs [new_run s] p.

(** The run of lines 186-196: a [PAGE] field. *)
Definition page_field_run : run :=
  let fldChar1 := ox_set ⟪"w:fldCharType"⟫ ⟪"begin"⟫ (OxmlElement ⟪"w:fldChar"⟫) in
  let instrText := ox_set ⟪"xml:space"⟫ ⟪"preserve"⟫ (OxmlElement ⟪"w:instrText"⟫) in
  let instrText := {| ox_tag := ox_tag instrText; ox_attrs := ox_attrs instrText; ox_text := ⟪"PAGE"⟫ |} in
  let fldChar2 := ox_set ⟪"w:fldCharType"⟫ ⟪"end"⟫ (OxmlElement ⟪"w:fldChar"⟫) in
  {| run_text := []; run_font := font0; run_picture := None; run_xml := [fldChar1; instrText; fldChar2] |}.

Definition footer_text : pystr := ⟪" DocuAgent | Confidential"⟫ ++ ["009"%char].

Definition footer_para (p : paragraph) : paragraph :=
  let p := set_para_text footer_text p in
  with_align AlignRight (with_runs (para_runs p ++ [page_field_run]) p).

(** [footer.paragraphs[0] if footer.paragraphs else footer.add_paragraph()] *)
Definition set_footer (ps : list paragraph) : list paragraph :=
  match ps with
  | p :: rest => footer_para p :: rest
  | [] => [footer_para (new_para [] None)]
  end.

(** ** The document of lines 151-256 *)

(** [add_paragraph(..., style=s)] and [add_heading] look the style up by
    name: [KeyError] when the document has no style [s]. *)
Definition add_para (sty : style_table) (p : paragraph) : option paragraph :=
  match para_style p with
  | Some s => match sty !! s with Some _ => Some p | None => None end
  | None => Some p
  end.

Definition add_blocks (bs : list block) (d : document) : option document :=
  ps ← mapM (add_para (doc_styles d) ∘ para_of_block) bs;
  Some {| doc_styles := doc_styles d; doc_body := doc_body d ++ ps; doc_footer := doc_footer d |}.

(** [Document()] opens python-docx's template: its styles and footer, an
    empty body.  Then the styles, the cover, the footer, and the body
    blocks, in the order of the code; [None] when a style it names is
    missing ([Title], [Caption] and the heading levels included). *)
Definition styled_docx (tmpl_styles : style_table) (tmpl_footer : list paragraph)
    (title today : pystr) (body : list block) : option document :=
  sty ← define_styles tmpl_styles;
  d ← add_blocks (cover title today) {| doc_styles := sty; doc_body := []; doc_footer := tmpl_footer |};
  let d := {| doc_styles := doc_styles d; doc_body := doc_body d; doc_footer := set_footer (doc_footer d) |} in
  add_blocks body d.

(** ** Reading the document back *)

(** The font Word shows the ASCII text of a run in: a theme font or a
    named one.  At one level of the run properties a [w:asciiTheme]
    attribute supersedes [w:ascii]; the first level along the run, its
    paragraph's style and that style's [based_on] chain that gives
    either decides ([None]: the document defaults).  [fuel] bounds the
    chain. *)
Inductive shown_font := FontName (n : pystr) | FontTheme (t : pystr).

#[export] Instance shown_font_eq_dec : EqDecision shown_font.
Proof. solve_decision. Qed.

Definition level_font (f : font) : option shown_font :=
  match font_theme f with
  | Some t => Some (FontTheme t)
  | None => FontName <$> font_name f
  end.

Fixpoint style_font_shown (sty : style_table) (fuel : nat) (name : pystr) : option shown_font :=
  match fuel with
  | 0 => None
  | S n =>
      match sty !! name with
      | None => None
      | Some s =>
          match level_font (style_font s) with
          | Some f => Some f
          | None => match based_on s with Some b => style_font_shown sty n b | None => None end
          end
      end
  end.

Definition run_font_shown (sty : style_table) (p : paragraph) (r : run) : option shown_font :=
  match level_font (run_font r) with
  | Some f => Some f
  | None => style_font_shown sty (size sty) (default ⟪"Normal"⟫ (para_style p))
  end.

(** The shading elements of a paragraph. *)
Definition shadings (p : paragraph) : list oxml :=
  List.filter (fun e => bool_decide (ox_tag e = ⟪"w:shd"⟫)) (para_ppr p).

(** The inverse of [para_of_block] on the paragraphs it makes. *)
Definition block_of_para (p : paragraph) : option block :=
  match p with
  | {| para_style := Some s; para_align := a; para_runs := rs; para_ppr := [] |} =>
      let t := match rs with [r] => run_text r | _ => [] end in
      if bool_decide (s = ⟪"Caption"⟫) then Some (BCaption t)
      else if bool_decide (s = ⟪"Title"⟫) then Some (BHeading 0 t)
      else if startswith ⟪"Heading "⟫ s then
        match drop 8 s with [d] => Some (BHeading (N.to_nat (code d - 48)) t) | _ => None end
      else None
  | {| para_style := None; para_ppr := _ :: _; para_runs := [r] |} => Some (BCode (run_text r))
  | {| para_style := None; para_space_after := Some _; para_runs := rs |} =>
      Some (BPara match rs with [r] => run_text r | _ => [] end)
  | {| para_style := None; para_align := Some AlignCenter; para_runs := [r] |} =>
      match run_picture r, font_bold (run_font r) with
      | Some (b, _), _ => Some (BPicture b)
      | None, Some true => Some (BBold (run_text r))
      | None, _ => Some BNoPicture
      end
  | {| para_style := None; para_runs := [r] |} => Some BPageBreak
  | {| para_style := None; para_runs := [] |} => Some BEmpty
  | _ => None
  end.

(** ** Lemmas *)

(** The headings python-docx can name with one digit. *)
Definition block_level_ok (b : block) : Prop :=
  match b with BHeading n _ => n <= 9 | _ => True end.

Lemma block_of_para_of_block b : block_level_ok b -> block_of_para (para_of_block b) = Some b.
Proof.
  destruct b as [n t| t| t| t| | t| img| |]; simpl; intros Hn;
    try (destruct t; reflexivity); try reflexivity.
  do 10 (destruct n as [|n]; [destruct t; reflexivity|]). lia.
Qed.

Lemma define_styles_spec sty :
  define_styles sty
  = match sty !! ⟪"Normal"⟫, sty !! ⟪"Heading 1"⟫, sty !! ⟪"Heading 2"⟫ with
    | Some n, Some h1, Some h2 =>
        Some (<[⟪"Heading 2"⟫ := h2_style h2]> (<[⟪"Heading 1"⟫ := h1_style h1]> (<[⟪"Normal"⟫ := normal_style n]> sty)))
    | _, _, _ => None
    end.
Proof.
  unfold define_styles, update_style.
  destruct (sty !! ⟪"Normal"⟫) as [n|]; [|done]. cbn [mbind option_bind].
  rewrite lookup_insert_ne by done. destruct (sty !! ⟪"Heading 1"⟫) as [h1|]; cbn [mbind option_bind];
    [|by destruct (sty !! ⟪"Heading 2"⟫)].
  rewrite !lookup_insert_ne by done. by destruct (sty !! ⟪"Heading 2"⟫).
Qed.

(** A block whose paragraph names a style the table has, or none. *)
Definition style_known (sty : style_table) (b : block) : Prop :=
  match para_style (para_of_block b) with Some s => is_Some (sty !! s) | None => True end.

(** The styles the paragraphs of [bs] name, in order. *)
Definition block_styles (bs : list block) : list pystr := omap (fun b => para_style (para_of_block b)) bs.

Lemma add_para_spec sty p q :
  add_para sty p = Some q <-> q = p /\ match para_style p with Some s => is_Some (sty !! s) | None => True end.
Proof.
  unfold add_para. destruct (para_style p) as [s|]; [destruct (sty !! s) as [x|]|]; split.
  - intros [= <-]. split; [done|by eexists].
  - by intros [-> _].
  - done.
  - by intros [_ [? ?]].
  - by intros [= <-].
  - by intros [-> _].
Qed.

Lemma mapM_add_para sty bs ps :
  mapM (add_para sty ∘ para_of_block) bs = Some ps <-> Forall (style_known sty) bs /\ ps = map para_of_block bs.
Proof.
  rewrite mapM_Some. revert ps. induction bs as [|b bs IH]; intros [|q ps].
  - split; [intros _; split; [constructor|done]|constructor].
  - split; [intros H; inversion H|by intros [_ ?]].
  - split; [intros H; inversion H|by intros [_ ?]].
  - rewrite Forall2_cons, Forall_cons, IH. unfold compose. rewrite add_para_spec. unfold style_known.
    cbn [map]. naive_solver.
Qed.

Lemma mapM_add_para_none sty bs :
  Forall (style_known sty) bs -> mapM (add_para sty ∘ para_of_block) bs = Some (map para_of_block bs).
Proof. intros H. by apply mapM_add_para. Qed.

Lemma styled_docx_spec ts tf title today body d :
  styled_docx ts tf title today body = Some d <->
  exists sty, define_styles ts = Some sty /\ Forall (style_known sty) (cover title today ++ body)
    /\ d = {| doc_styles := sty; doc_body := map para_of_block (cover title today ++ body);
              doc_footer := set_footer tf |}.
Proof.
  unfold styled_docx, add_blocks. destruct (define_styles ts) as [sty|]; cbn [mbind option_bind];
    [|split; [done|by intros (? & ? & _)]].
  destruct (mapM _ (cover title today)) as [pc|] eqn:E1; cbn [mbind option_bind].
  - apply mapM_add_para in E1 as [Hc ->]. cbn [doc_styles doc_body doc_footer app].
    destruct (mapM _ body) as [pb|] eqn:E2; cbn [mbind option_bind].
    + apply mapM_add_para in E2 as [Hb ->]. rewrite map_app.
      split; [intros [= <-]; exists sty; split_and!; [done|by apply Forall_app|done]|].
      by intros (? & [= <-] & _ & ->).
    + split; [done|]. intros (? & [= <-] & Hf & _). apply Forall_app in Hf as [_ Hb].
      by rewrite mapM_add_para_none in E2.
  - split; [done|]. intros (? & [= <-] & Hf & _). apply Forall_app in Hf as [Hc _].
    by rewrite mapM_add_para_none in E1.
Qed.

Lemma define_styles_some ts :
  is_Some (define_styles ts)
  <-> is_Some (ts !! ⟪"Normal"⟫) /\ is_Some (ts !! ⟪"Heading 1"⟫) /\ is_Some (ts !! ⟪"Heading 2"⟫).
Proof. rewrite define_styles_spec. repeat case_match; naive_solver. Qed.

(** [define_styles] changes styles the template has and adds none. *)
Lemma define_styles_keys ts sty s : define_styles ts = Some sty -> is_Some (sty !! s) <-> is_Some (ts !! s).
Proof.
  rewrite define_styles_spec. repeat case_match; intros [= <-]; try done.
  rewrite !lookup_insert_is_Some'. naive_solver.
Qed.

Lemma style_known_keys ts sty bs :
  define_styles ts = Some sty ->
  Forall (style_known sty) bs <-> Forall (fun s => is_Some (ts !! s)) (block_styles bs).
Proof.
  intros Hd. induction bs as [|b bs IH]; [split; constructor|].
  assert (E : block_styles (b :: bs)
              = match para_style (para_of_block b) with Some s => s :: block_styles bs | None => block_styles bs end)
    by reflexivity.
  rewrite E, Forall_cons, IH. unfold style_known at 1.
  destruct (para_style (para_of_block b)) as [s|]; rewrite ?Forall_cons, ?(define_styles_keys ts sty _ Hd);
    naive_solver.
Qed.

(** The font a style of the table shows once it sets one itself. *)
Lemma style_font_own sty fuel name s f :
  sty !! name = Some s -> level_font (style_font s) = Some f -> style_font_shown sty (S fuel) name = Some f.
Proof. intros Hs Hf. simpl. by rewrite Hs, Hf. Qed.

(** What [font.name = 'Poppins'] shows: Poppins, unless the style keeps
    a theme font, which supersedes it. *)
Definition poppins_or_theme (s : style) : shown_font :=
  match font_theme (style_font s) with Some t => FontTheme t | None => FontName ⟪"Poppins"⟫ end.

(** After [define_styles], the default style and the first two heading
    levels show Poppins unless the template gave them a theme font. *)
Lemma define_styles_shown ts sty n h1 h2 :
  ts !! ⟪"Normal"⟫ = Some n -> ts !! ⟪"Heading 1"⟫ = Some h1 -> ts !! ⟪"Heading 2"⟫ = Some h2 ->
  define_styles ts = Some sty ->
  style_font_shown sty (size sty) ⟪"Normal"⟫ = Some (poppins_or_theme n)
  /\ style_font_shown sty (size sty) ⟪"Heading 1"⟫ = Some (poppins_or_theme h1)
  /\ style_font_shown sty (size sty) ⟪"Heading 2"⟫ = Some (poppins_or_theme h2).
Proof.
  intros En E1 E2. rewrite define_styles_spec, En, E1, E2. intros [= <-].
  destruct (size _) eqn:Hs; [apply map_size_empty_iff, insert_non_empty in Hs; done|].
  unfold poppins_or_theme. split_and!; eapply style_font_own;
    rewrite ?lookup_insert_ne by done; rewrite ?lookup_insert_eq; try reflexivity;
    unfold level_font; cbn; by destruct (font_theme _).
Qed.

(** Each block gets one shading element exactly when it is a code line. *)
Lemma shadings_para_of_block b :
  shadings (para_of_block b) = match b with BCode _ => [shd ⟪"F1F1F1"⟫] | _ => [] end.
Proof. destruct b as [[] ?| | | | | | | |]; reflexivity. Qed.

(** ** The blocks [build_document] appends name headings python-docx
    can write, and only the narrative has code lines *)

Definition dblock_ok (b : block) : Prop :=
  match b with BHeading n _ => n <= 9 | BCode _ => False | _ => True end.

Lemma dblock_ok_level b : dblock_ok b -> block_level_ok b.
Proof. by destruct b. Qed.

Lemma cover_level title today : Forall block_level_ok (cover title today).
Proof. repeat constructor. Qed.

Lemma md_blocks_level md : Forall block_level_ok (md_blocks md).
Proof.
  eapply Forall_impl; [apply md_loop_ok|]. intros [] ?; simpl in *; try done; lia.
Qed.

Section Diagram_levels.
Context `{ImageLib} (cfg : doc_config) (bid : pystr).

Lemma picture_blocks_ok img fs pic fs' :
  picture_blocks cfg img fs = (Some pic, fs') -> Forall dblock_ok pic.
Proof. unfold picture_blocks, sanitize_image. repeat case_match; stm_simpl; intros [= <- _]; repeat constructor. Qed.

Lemma spec_section_ok spec fs bs fs' :
  spec_section cfg bid spec fs = (Some bs, fs') -> Forall dblock_ok bs.
Proof.
  unfold spec_section. destruct (spec_fields spec) as [[[raw desc] idxv]|]; [|done].
  rewrite stm_bind_run. destruct (picture_blocks cfg _ fs) as [[pic|] fs1] eqn:Ep; [|done].
  apply picture_blocks_ok in Ep. stm_simpl; intros [= <- _].
  repeat (rewrite Forall_cons || rewrite Forall_app); split_and!; try done; try constructor; simpl; lia.
Qed.

Lemma spec_sections_ok specs fs bs fs' :
  spec_sections cfg bid specs fs = (Some bs, fs') -> Forall dblock_ok bs.
Proof.
  revert fs bs fs'. induction specs as [|spec specs IH]; intros fs bs fs'; simpl;
    [stm_simpl; intros [= <- _]; constructor|].
  rewrite stm_bind_run. destruct (spec_section cfg bid spec fs) as [[bs1|] fs1] eqn:E1; [|done].
  rewrite stm_bind_run. destruct (spec_sections cfg bid specs fs1) as [[bs2|] fs2] eqn:E2; [|done].
  stm_simpl; intros [= <- _]. apply Forall_app. split; [exact (spec_section_ok _ _ _ _ E1)|exact (IH _ _ _ E2)].
Qed.

Lemma diagram_section_ok specs fs bs fs' :
  diagram_section cfg bid specs fs = (Some bs, fs') -> Forall dblock_ok bs.
Proof.
  unfold diagram_section. destruct specs as [|spec specs']; [stm_simpl; intros [= <- _]; constructor|].
  rewrite stm_bind_run. destruct (spec_sections _ _ _ fs) as [[bs'|] fs1] eqn:Es; [|done].
  stm_simpl; intros [= <- _]. constructor; [simpl; lia|]. by eapply spec_sections_ok.
Qed.

End Diagram_levels.

Lemma map_block_of_para bs : Forall block_level_ok bs -> map block_of_para (map para_of_block bs) = map Some bs.
Proof. induction 1; simpl; [done|]. by rewrite block_of_para_of_block, IHForall. Qed.

Definition is_code (b : block) : bool := match b with BCode _ => true | _ => false end.

(** The code lines of the narrative, in order. *)
Definition code_lines (md : pystr) : list pystr :=
  omap (fun b => match b with BCode t => Some t | _ => None end) (md_blocks md).

Lemma filter_shaded bs :
  List.filter (fun p => bool_decide (shadings p <> [])) (map para_of_block bs)
  = map para_of_block (List.filter is_code bs).
Proof.
  induction bs as [|b bs IH]; [done|]. simpl. rewrite shadings_para_of_block.
  destruct b; simpl; rewrite ?IH; reflexivity.
Qed.

Lemma filter_code_none bs : Forall dblock_ok bs -> List.filter is_code bs = [].
Proof. induction 1 as [|[] ? ? ? IH]; simpl; by rewrite ?IH. Qed.

Lemma code_lines_paras bs :
  map para_of_block (List.filter is_code bs)
  = map code_para (omap (fun b => match b with BCode t => Some t | _ => None end) bs).
Proof. induction bs as [|[] bs IH]; simpl; by rewrite ?IH. Qed.

(** The font a run of a narrative block is shown in, given the
    template's [Normal], [Heading 1] and [Heading 2] styles: code in
    Courier New; text and the first two heading levels in Poppins unless
    the template's style has a theme font; a level-3 heading in the font
    the template's [Heading 3] sets, which the code does not change. *)
Definition md_run_font (ts sty : style_table) (n h1 h2 : style) (b : block) (r : run) : Prop :=
  match b with
  | BCode _ => run_font_shown sty (para_of_block b) r = Some (FontName ⟪"Courier New"⟫)
  | BHeading 1 _ => run_font_shown sty (para_of_block b) r = Some (poppins_or_theme h1)
  | BHeading 2 _ => run_font_shown sty (para_of_block b) r = Some (poppins_or_theme h2)
  | BHeading 3 _ => forall h3 f, ts !! ⟪"Heading 3"⟫ = Some h3 -> level_font (style_font h3) = Some f ->
                    run_font_shown sty (para_of_block b) r = Some f
  | _ => run_font_shown sty (para_of_block b) r = Some (poppins_or_theme n)
  end.

Lemma define_styles_other ts sty s :
  define_styles ts = Some sty -> s ∉ [⟪"Normal"⟫; ⟪"Heading 1"⟫; ⟪"Heading 2"⟫] -> sty !! s = ts !! s.
Proof.
  rewrite define_styles_spec. repeat case_match; intros [= <-]; try done.
  intros Hs. rewrite !lookup_insert_ne; [done|set_solver..].
Qed.

Lemma size_pos_of_lookup (sty : style_table) s x : sty !! s = Some x -> exists k, size sty = S k.
Proof.
  intros Hs. destruct (size sty) eqn:E; [|by eexists]. apply map_size_empty_iff in E. subst.
  by rewrite lookup_empty in Hs.
Qed.

Lemma md_block_fonts ts sty n h1 h2 b :
  ts !! ⟪"Normal"⟫ = Some n -> ts !! ⟪"Heading 1"⟫ = Some h1 -> ts !! ⟪"Heading 2"⟫ = Some h2 ->
  define_styles ts = Some sty -> md_block_ok b ->
  Forall (md_run_font ts sty n h1 h2 b) (para_runs (para_of_block b)).
Proof.
  intros En E1 E2 Hd Hb. destruct (define_styles_shown ts sty n h1 h2 En E1 E2 Hd) as (Sn & S1 & S2).
  apply Forall_forall. intros r Hr.
  destruct b as [k t|t| | | |t| | |]; try done; simpl in Hb.
  - destruct k as [|[|[|[|k]]]]; try lia; simpl in Hr |- *;
      case_bool_decide; (try by apply not_elem_of_nil in Hr);
      apply list_elem_of_singleton in Hr as ->; unfold run_font_shown; cbn [run_font new_run level_font font0];
      try done.
    intros h3 f E3 Hf. cbn [default]. rewrite <- (define_styles_other ts sty) in E3 by (by apply Hd || set_solver).
    destruct (size_pos_of_lookup _ _ _ E3) as [m ->]. by eapply style_font_own.
  - simpl in Hr. case_bool_decide; [by apply not_elem_of_nil in Hr|].
    by apply list_elem_of_singleton in Hr as ->.
  - simpl in Hr. by apply list_elem_of_singleton in Hr as ->.
Qed.

(** The footer's first paragraph after lines 183-197. *)
Lemma set_footer_spec ps :
  exists p rest, set_footer ps = p :: rest /\ rest = tail ps
    /\ para_runs p = [new_run footer_text; page_field_run] /\ para_align p = Some AlignRight
    /\ para_style p = match ps with q :: _ => para_style q | [] => None end.
Proof. destruct ps as [|q ps]; do 2 eexists; split_and!; reflexivity. Qed.

(** ** Theorems *)

Section Styled.
Context `{ImageLib} (cfg : doc_config) (bid : pystr).

Lemma styled_blocks_level title today md dblocks :
  Forall dblock_ok dblocks -> Forall block_level_ok (cover title today ++ md_blocks md ++ dblocks).
Proof.
  intros Hok. apply Forall_app; split; [apply cover_level|]. apply Forall_app; split; [apply md_blocks_level|].
  eapply Forall_impl; [exact Hok|apply dblock_ok_level].
Qed.

(** C19: The styled document refines the block sequence of [Assembly].
    It is built exactly when the template has [Normal], [Heading 1] and
    [Heading 2] (lines 153-170) and every style a paragraph names:
    [Title] and [Caption] for the cover (lines 175 and 180) and
    [Heading n] for each heading of the narrative and the diagram section
    (lines 218-222, 230, 236); otherwise [doc.styles[...]] or the style
    lookup of [add_paragraph] raises [KeyError].  When it is built, its
    body holds one paragraph per block of the cover, the narrative and
    the diagram section, in order, from which the block reads back. *)
Theorem styled_docx_blocks specs fs fs' dblocks ts tf title today md :
  diagram_section cfg bid specs fs = (Some dblocks, fs') ->
  (is_Some (styled_docx ts tf title today (md_blocks md ++ dblocks))
   <-> Forall (fun s => is_Some (ts !! s))
         (⟪"Normal"⟫ :: ⟪"Heading 1"⟫ :: ⟪"Heading 2"⟫ :: block_styles (cover title today ++ md_blocks md ++ dblocks)))
  /\ (forall d, styled_docx ts tf title today (md_blocks md ++ dblocks) = Some d ->
      map block_of_para (doc_body d) = map Some (cover title today ++ md_blocks md ++ dblocks)).
Proof.
  intros Hds. pose proof (diagram_section_ok _ _ _ _ _ _ Hds) as Hok. rewrite !Forall_cons. split.
  - split.
    + intros [d (sty & Hd & Hk & _)%styled_docx_spec].
      destruct (proj1 (define_styles_some ts) (mk_is_Some _ _ Hd)) as (? & ? & ?).
      rewrite <- (style_known_keys ts sty) by done. done.
    + intros (Hn & H1 & H2 & Hk). destruct (proj2 (define_styles_some ts) (conj Hn (conj H1 H2))) as [sty Hd].
      rewrite <- (style_known_keys ts sty) in Hk by done.
      eexists. apply styled_docx_spec. exists sty. split_and!; done.
  - intros d (sty & _ & _ & ->)%styled_docx_spec. cbn [doc_body].
    by apply map_block_of_para, styled_blocks_level.
Qed.

(** C21: Shading: every paragraph of the styled document carries at most
    one [w:shd] element, the one [set_shading_for_paragraph] makes with
    fill [F1F1F1], exactly when it is a code line; and the shaded
    paragraphs are the code lines of the narrative, in order, each a
    Courier New 10pt paragraph. *)
Theorem styled_docx_shading specs fs fs' dblocks ts tf title today md d :
  diagram_section cfg bid specs fs = (Some dblocks, fs') ->
  styled_docx ts tf title today (md_blocks md ++ dblocks) = Some d ->
  Forall (fun p => shadings p = match block_of_para p with Some (BCode _) => [shd ⟪"F1F1F1"⟫] | _ => [] end)
         (doc_body d)
  /\ List.filter (fun p => bool_decide (shadings p <> [])) (doc_body d) = map code_para (code_lines md).
Proof.
  intros Hds E. pose proof (diagram_section_ok _ _ _ _ _ _ Hds) as Hok.
  apply styled_docx_spec in E as (sty & _ & _ & ->). cbn [doc_body]. split.
  - apply Forall_map, Forall_forall. intros b Hb. rewrite block_of_para_of_block, shadings_para_of_block.
    + by destruct b.
    + revert Hb. apply Forall_forall. by apply styled_blocks_level.
  - rewrite filter_shaded, !List.filter_app, (filter_code_none dblocks Hok), app_nil_r.
    rewrite (filter_code_none (cover title today)) by repeat constructor. apply code_lines_paras.
Qed.

End Styled.

(** C22: Fonts, as Word shows them.  In the styled document every code
    line of the narrative is in Courier New; its text paragraphs and its
    headings of levels 1 and 2 are in Poppins only when the template's
    [Normal], [Heading 1] and [Heading 2] styles carry no theme font:
    [font.name = 'Poppins'] writes [w:ascii] and leaves a template's
    [w:asciiTheme], which supersedes it, so such a style keeps its theme
    font; a level-3 heading shows the font the template's [Heading 3]
    sets, which the code never changes. *)
Theorem styled_docx_fonts ts tf title today md body d n h1 h2 :
  ts !! ⟪"Normal"⟫ = Some n -> ts !! ⟪"Heading 1"⟫ = Some h1 -> ts !! ⟪"Heading 2"⟫ = Some h2 ->
  styled_docx ts tf title today (md_blocks md ++ body) = Some d ->
  Forall (fun b => Forall (md_run_font ts (doc_styles d) n h1 h2 b) (para_runs (para_of_block b))) (md_blocks md).
Proof.
  intros En E1 E2 E. apply styled_docx_spec in E as (sty & Hd & _ & ->). cbn [doc_styles].
  eapply Forall_impl; [apply md_loop_ok|]. intros b Hb. by apply (md_block_fonts ts).
Qed.

(** ** Concrete documents *)

(** A template in the manner of python-docx's default one: the headings
    and the title take the theme's heading font ([w:asciiTheme]
    [majorHAnsi]), [Normal] sets no font. *)
Definition theme_font (t : pystr) : font :=
  {| font_name := None; font_theme := Some t; font_size := None; font_bold := None; font_rgb := None |}.

Definition demo_template : style_table :=
  list_to_map [(⟪"Normal"⟫, {| based_on := None; style_font := font0; style_space_after := None |});
               (⟪"Heading 1"⟫, {| based_on := Some ⟪"Normal"⟫; style_font := theme_font ⟪"majorHAnsi"⟫;
                                 style_space_after := None |});
               (⟪"Heading 2"⟫, {| based_on := Some ⟪"Normal"⟫; style_font := theme_font ⟪"majorHAnsi"⟫;
                                 style_space_after := None |});
               (⟪"Heading 3"⟫, {| based_on := Some ⟪"Normal"⟫; style_font := theme_font ⟪"majorHAnsi"⟫;
                                 style_space_after := None |});
               (⟪"Title"⟫, {| based_on := Some ⟪"Normal"⟫; style_font := theme_font ⟪"majorHAnsi"⟫;
                             style_space_after := None |});
               (⟪"Caption"⟫, {| based_on := Some ⟪"Normal"⟫; style_font := font0; style_space_after := None |})].

(** The same template without the [Caption] style. *)
Definition demo_template_no_caption : style_table := delete ⟪"Caption"⟫ demo_template.

Definition demo_styled_md : pystr := ⟪"# Intro
```
x = 1
```
### Scope
Some *text*"⟫.

Lemma styled_docx_blocks_witness :
  styled_docx demo_template_no_caption [] ⟪"Shop"⟫ ⟪"today"⟫ (md_blocks demo_styled_md ++ []) = None
  /\ exists d, styled_docx demo_template [] ⟪"Shop"⟫ ⟪"today"⟫ (md_blocks demo_styled_md ++ []) = Some d
    /\ map block_of_para (doc_body d) = map Some (cover ⟪"Shop"⟫ ⟪"today"⟫ ++ md_blocks demo_styled_md ++ []).
Proof.
  destruct (@styled_docx_blocks demo_libs demo_builder_cfg ⟪"b1"⟫ [] ∅ ∅ [] demo_template_no_caption [] ⟪"Shop"⟫
              ⟪"today"⟫ demo_styled_md eq_refl) as [Hn _].
  destruct (@styled_docx_blocks demo_libs demo_builder_cfg ⟪"b1"⟫ [] ∅ ∅ [] demo_template [] ⟪"Shop"⟫
              ⟪"today"⟫ demo_styled_md eq_refl) as [Hs Hb].
  split.
  - destruct (styled_docx demo_template_no_caption _ _ _ _) eqn:E; [|done].
    exfalso. pose proof (proj1 Hn (mk_is_Some _ d eq_refl)) as Hk. apply (bool_decide_pack _) in Hk.
    vm_compute in Hk. destruct Hk.
  - destruct (proj2 Hs) as [d Hd]; [by apply (bool_decide_unpack _); vm_compute|].
    exists d. split; [done|]. by apply Hb.
Defined.

Lemma styled_docx_shading_witness :
  exists d, styled_docx demo_template [] ⟪"Shop"⟫ ⟪"today"⟫ (md_blocks demo_styled_md ++ []) = Some d
    /\ Forall (fun p => shadings p = match block_of_para p with Some (BCode _) => [shd ⟪"F1F1F1"⟫] | _ => [] end)
              (doc_body d)
    /\ List.filter (fun p => bool_decide (shadings p <> [])) (doc_body d) = map code_para (code_lines demo_styled_md).
Proof.
  eexists. split; [reflexivity|].
  apply (@styled_docx_shading demo_libs demo_builder_cfg ⟪"b1"⟫ [] ∅ ∅ [] demo_template [] ⟪"Shop"⟫ ⟪"today"⟫
           demo_styled_md); reflexivity.
Defined.

Definition demo_normal : style := {| based_on := None; style_font := font0; style_space_after := None |}.
Definition demo_heading : style :=
  {| based_on := Some ⟪"Normal"⟫; style_font := theme_font ⟪"majorHAnsi"⟫; style_space_after := None |}.

Lemma styled_docx_fonts_witness :
  exists d, styled_docx demo_template [] ⟪"Shop"⟫ ⟪"today"⟫ (md_blocks demo_styled_md ++ []) = Some d
    /\ Forall (fun b => Forall (md_run_font demo_template (doc_styles d) demo_normal demo_heading demo_heading b)
                               (para_runs (para_of_block b)))
              (md_blocks demo_styled_md).
Proof.
  eexists. split; [reflexivity|]. apply (styled_docx_fonts demo_template [] ⟪"Shop"⟫ ⟪"today"⟫ _ []);
    reflexivity.
Defined.

(** With such a template the cover title and every heading of the
    narrative keep the theme's heading font, the text is in Poppins and
    the code line in Courier New. *)
Example heading_theme_fonts :
  option_map (fun d => map (fun p => run_font_shown (doc_styles d) p <$> head (para_runs p)) (doc_body d))
    (styled_docx demo_template [] ⟪"Shop"⟫ ⟪"today"⟫ (md_blocks demo_styled_md))
  = Some [Some (Some (FontTheme ⟪"majorHAnsi"⟫)); Some (Some (FontName ⟪"Poppins"⟫));
          Some (Some (FontName ⟪"Poppins"⟫)); Some (Some (FontName ⟪"Poppins"⟫));
          Some (Some (FontTheme ⟪"majorHAnsi"⟫)); Some (Some (FontName ⟪"Courier New"⟫));
          Some (Some (FontTheme ⟪"majorHAnsi"⟫)); Some (Some (FontName ⟪"Poppins"⟫))].
Proof. vm_compute. reflexivity. Qed.
