(* ===== verification/Builder.v ===== *)
(** * Build orchestration: [build_document] (src/Service/Docbuilder.py,
      lines 104-297)

    [POST /build-document] draws a fresh build id, asks the narrative
    service for markdown (a failure or an empty text ends the build with
    500), asks the diagram service to plan and render the diagrams of the
    build (any failure there leaves the build without diagrams), assembles
    the document (file [Assembly]) from the markdown and the diagram
    records the diagram service reported, reading the images the diagram
    service pushed to the ingestion endpoint under the build id, saves the
    DOCX, tries the PDF conversion and the empty PPTX, and answers with the
    diagram count and the names of the export files that exist.

    The two services are reached over HTTP and are classes here:
    [NarrativeService] answers a [/generate-doc] request, and
    [UmlService] runs a [/generate-uml-image] request on the shared state
    [uml_world], whose [doc_fs] is the document builder's own disk: the
    diagram service's pushes land there during the call.  The instance
    [renderer_service] is the diagram service of file [Renderer]; theorems
    proved against it are about the composed system.  The class
    [ExportLib] stands for python-docx's serialisation, [docx2pdf] and
    python-pptx.  The build id ([uuid.uuid4()]), the second of the save
    ([int(time.time())]) and the date on the cover are arguments. *)

From S2P Require Import Prelude Python Encoder Planner Ingestion Renderer Assembly.
Local Open Scope py_scope.

(** ** The collaborators *)

(** The outcome of the [/generate-doc] request: an exception of
    [requests] (connection, timeout) or a status and the body text as
    [md_resp.text] gives it (line 124), that is decoded with the charset
    of the answer; [Narrative.gen_http] gives it for AiAgent.py. *)
Inductive doc_reply :=
| DocRaised
| DocReply (status : Z) (text : pystr).

Class NarrativeService := {
  generate_doc_call : json -> doc_reply
}.

(** The outcome of the [/generate-uml-image] request; the body is [None]
    when it is not JSON (Flask's page for an uncaught exception). *)
Inductive uml_reply :=
| UmlRaised
| UmlReply (status : Z) (body : option json).

Class UmlService := {
  uml_call : json -> stm uml_world uml_reply
}.

(** [python-docx]'s [doc.save], [docx2pdf.convert] ([None] when it
    raises) and the bytes of an empty [Presentation()]. *)
Class ExportLib := {
  docx_bytes : list block -> bytes;
  docx_to_pdf : bytes -> option bytes;
  empty_pptx : bytes
}.

(** [resp.raise_for_status()] raises on a client or server error. *)
Definition http_error (status : Z) : bool := (400 <=? status)%Z && (status <? 600)%Z.

(** ** The diagram service as a [UmlService] *)

(** One record of the [diagrams] list, lines 147-152 of Uml.py. *)
Definition diagram_json (d : diagram) : json :=
  JObj [(⟪"diagramType"⟫, JStr (d_type d)); (⟪"description"⟫, JStr (d_desc d));
        (⟪"index"⟫, JInt (Z.of_nat (d_index d))); (⟪"path_local"⟫, JStr (d_path d))].

(** The HTTP answer of [generate_uml_image] (lines 79, 88, 156-160 of
    Uml.py; the float [duration] is left out, the builder never reads
    it); an uncaught exception is Flask's 500 page. *)
Definition uml_http (r : option uml_response) : uml_reply :=
  match r with
  | Some (UmlCompleted ds) =>
      UmlReply 200 (Some (JObj [(⟪"status"⟫, JStr ⟪"completed"⟫); (⟪"diagrams"⟫, JArr (map diagram_json ds))]))
  | Some UmlListFailed => UmlReply 500 (Some (JObj [(⟪"error"⟫, JStr ⟪"diagram-list-failed"⟫)]))
  | Some UmlNoDiagrams => UmlReply 400 (Some (JObj [(⟪"error"⟫, JStr ⟪"no-diagrams"⟫)]))
  | None => UmlReply 500 None
  end.

#[export] Instance renderer_service `{Deflate} (ucfg : uml_config) (dcfg : doc_config)
    `{!IngestEndpoint dcfg} `{UmlEnv} : UmlService := {|
  uml_call := fun body w => let '(r, w') := generate_uml_image ucfg dcfg body w in (Some (uml_http r), w')
|}.

(** ** The handler *)

Inductive build_response :=
| BuildContentFailed                   (** 500 [Failed to generate document content] *)
| BuildEmptyMarkdown                   (** 500 [Empty markdown response] *)
| BuildDocxFailed                      (** 500 [DOCX save failed] *)
| BuildOk (diagrams_count : nat) (docx pdf pptx : option pystr).   (** 200 *)

(** The body of the [/generate-doc] request, lines 115-121; [None] when
    [data] is not a dict ([data.get] raises). *)
Definition md_request (data : json) : option json :=
  code ← py_get data ⟪"code"⟫ JNull;
  info ← py_get data ⟪"project_info"⟫ JNull;
  instr ← py_get data ⟪"instructions"⟫ JNull;
  pages ← py_get data ⟪"pages"⟫ (JInt 1);
  Some (JObj [(⟪"code"⟫, code); (⟪"project_info"⟫, info); (⟪"instructions"⟫, instr);
              (⟪"pages"⟫, pages); (⟪"return_format"⟫, JStr ⟪"markdown"⟫)]).

(** Lines 112-129: the markdown, or the answer that ends the build. *)
Definition fetch_markdown `{NarrativeService} (data : json) : build_response + pystr :=
  match md_request data with
  | None => inl BuildContentFailed
  | Some req =>
      match generate_doc_call req with
      | DocRaised => inl BuildContentFailed
      | DocReply status text =>
          if http_error status then inl BuildContentFailed
          else if bool_decide (strip text = []) then inl BuildEmptyMarkdown
          else inr text
      end
  end.

(** The body of the [/generate-uml-image] request, lines 138-142. *)
Definition uml_request (data : json) (bid : pystr) : json :=
  JObj [(⟪"build_id"⟫, JStr bid);
        (⟪"abstract"⟫, default (JStr []) (py_get data ⟪"abstract"⟫ (JStr [])));
        (⟪"instructions"⟫, default (JStr []) (py_get data ⟪"uml_instructions"⟫ (JStr [])))].

(** [len(v)] succeeds and [for spec in v] iterates: a list gives its
    elements, a string its characters, a dict its keys. *)
Definition iter_json (v : json) : option (list json) :=
  match v with
  | JArr l => Some l
  | JStr s => Some (map (fun c => JStr [c]) s)
  | JObj kvs => Some (map (fun kv => JStr kv.1) kvs)
  | _ => None
  end.

(** Lines 144-149: the diagram records; every failure gives [[]]. *)
Definition diagram_specs (r : uml_reply) : list json :=
  match r with
  | UmlReply status (Some body) =>
      if http_error status then []
      else default [] (py_get body ⟪"diagrams"⟫ (JArr []) ≫= iter_json)
  | _ => []
  end.

Definition export_path (cfg : doc_config) (name : pystr) : pystr := path_join (export_dir cfg) name.

(** Lines 259-266: [combined_{ts}.docx] and its siblings. *)
Definition export_name (ts : nat) (ext : pystr) : pystr := ⟪"combined_"⟫ ++ str_nat ts ++ ext.

(** Run a computation on the document builder's disk. *)
Definition on_doc {A} (m : stm fsys A) : stm uml_world A :=
  fun w => let '(r, fs') := m (doc_fs w) in (r, {| static_fs := static_fs w; doc_fs := fs' |}).

(** Write [b] at [p] when the disk accepts it; report whether it did. *)
Definition try_write (cfg : doc_config) (p : pystr) (b : bytes) : stm uml_world bool :=
  fun w =>
    if doc_disk_ok cfg p then (Some true, {| static_fs := static_fs w; doc_fs := <[p := b]> (doc_fs w) |})
    else (Some false, w).

(** [os.path.exists(p)] *)
Definition exists_file (p : pystr) : stm uml_world bool :=
  fun w => (Some (bool_decide (is_Some (doc_fs w !! p))), w).

(** Lines 275-280: the PDF conversion, whose failures are only logged. *)
Definition convert_pdf `{ExportLib} (cfg : doc_config) (pdf_path : pystr) (content : bytes)
    : stm uml_world unit :=
  if 1000 <? length content then
    match docx_to_pdf content with
    | Some pdf => _ ← try_write cfg pdf_path pdf; mret tt
    | None => mret tt
    end
  else mret tt.

(** Lines 268-297: save the exports and answer. *)
Definition save_exports `{ExportLib} (cfg : doc_config) (ts : nat) (doc : list block)
    (count : nat) : stm uml_world build_response :=
  let docx_file := export_name ts ⟪".docx"⟫ in
  let pdf_file := export_name ts ⟪".pdf"⟫ in
  let pptx_file := export_name ts ⟪".pptx"⟫ in
  let content := docx_bytes doc in
  ok ← try_write cfg (export_path cfg docx_file) content;
  if negb ok then mret BuildDocxFailed else
  convert_pdf cfg (export_path cfg pdf_file) content ;;
  _ ← try_write cfg (export_path cfg pptx_file) empty_pptx;
  e1 ← exists_file (export_path cfg docx_file);
  e2 ← exists_file (export_path cfg pdf_file);
  e3 ← exists_file (export_path cfg pptx_file);
  mret (BuildOk count (if e1 : bool then Some docx_file else None)
                      (if e2 : bool then Some pdf_file else None)
                      (if e3 : bool then Some pptx_file else None)).

Section Handler.
Context `{NarrativeService} `{UmlService} `{ImageLib} `{ExportLib} (cfg : doc_config).

(** [build_document()] for the build id [bid], the save second [ts] and
    the date [today]. *)
Definition build_document (data : json) (bid : pystr) (ts : nat) (today : pystr)
    : stm uml_world build_response :=
  match fetch_markdown data with
  | inl r => mret r
  | inr raw_md =>
      let build_dir := path_join (diagr_dir cfg) bid in
      if negb (doc_disk_ok cfg build_dir) then throw else
      reply ← uml_call (uml_request data bid);
      let specs := diagram_specs reply in
      match project_title data with
      | None => throw
      | Some title =>
          dblocks ← on_doc (diagram_section cfg bid specs);
          save_exports cfg ts (cover title today ++ md_blocks raw_md ++ dblocks) (length specs)
      end
  end.

End Handler.

(** The diagrams a diagram-service answer reports. *)
Definition reported (r : option uml_response) : list diagram :=
  match r with Some (UmlCompleted ds) => ds | _ => [] end.

(** ** Lemmas *)

Lemma diagram_specs_http r : diagram_specs (uml_http r) = map diagram_json (reported r).
Proof. by destruct r as [[ds| |]|]. Qed.

Lemma spec_fields_diagram_json d :
  spec_fields (diagram_json d) = Some (d_type d, d_desc d, JInt (Z.of_nat (d_index d))).
Proof. reflexivity. Qed.

Lemma mapM_spec_fields ds :
  mapM spec_fields (map diagram_json ds)
  = Some (map (fun d => (d_type d, d_desc d, JInt (Z.of_nat (d_index d)))) ds).
Proof. induction ds as [|d ds IH]; [done|]. simpl. by rewrite IH. Qed.

Lemma spec_image_path_diagram cfg bid d :
  spec_image_path cfg bid (d_type d) (JInt (Z.of_nat (d_index d)))
  = diagram_path cfg bid (d_type d) (str_nat (d_index d)).
Proof. unfold spec_image_path, diagram_path, diagram_file. simpl py_str. by rewrite str_Z_of_nat. Qed.

Lemma ready_of_stored cfg bid w d : stored_for cfg bid w d -> spec_ready cfg bid (doc_fs w) (diagram_json d).
Proof.
  intros Hs. exists (d_type d), (d_desc d), (JInt (Z.of_nat (d_index d))).
  rewrite spec_fields_diagram_json, spec_image_path_diagram. by split.
Qed.

Lemma head_export_name ts ext : head (export_name ts ext) <> Some "/"%char.
Proof. done. Qed.

Lemma export_path_ne cfg ts e1 e2 :
  e1 <> e2 -> export_path cfg (export_name ts e1) <> export_path cfg (export_name ts e2).
Proof.
  intros Hne E. apply path_join_inj_r in E; [|apply head_export_name..].
  unfold export_name in E. by apply app_inv_head, app_inv_head in E.
Qed.

Lemma pictures_app bs1 bs2 : pictures (bs1 ++ bs2) = pictures bs1 + pictures bs2.
Proof. unfold pictures. by rewrite List.filter_app, length_app. Qed.

Lemma pictures_md md : pictures (md_blocks md) = 0.
Proof.
  pose proof (md_loop_ok false (splitlines md)) as Hok. unfold md_blocks, pictures.
  induction (md_loop false (splitlines md)) as [|b bs IH]; [done|].
  apply Forall_cons in Hok as [Hb Hok]. destruct b; try done; simpl; by apply IH.
Qed.

Section Saving.
Context `{ExportLib} (cfg : doc_config).
Hypothesis disk_ok : forall p, doc_disk_ok cfg p = true.

Lemma try_write_ok p b w :
  try_write cfg p b w = (Some true, {| static_fs := static_fs w; doc_fs := <[p := b]> (doc_fs w) |}).
Proof. unfold try_write. by rewrite disk_ok. Qed.

Lemma convert_pdf_keeps p content w :
  exists w', convert_pdf cfg p content w = (Some tt, w')
    /\ static_fs w' = static_fs w /\ (forall q, q <> p -> doc_fs w' !! q = doc_fs w !! q).
Proof.
  unfold convert_pdf. destruct (1000 <? length content); [|by eexists].
  destruct (docx_to_pdf content); [|by eexists]. rewrite stm_bind_run, try_write_ok.
  eexists. split_and!; [done|done|]. intros q Hq. simpl. by rewrite lookup_insert_ne.
Qed.

(** With a writable disk the exports are written and the DOCX holds the
    document. *)
Lemma save_exports_ok ts doc n w :
  exists w' pdf, save_exports cfg ts doc n w
    = (Some (BuildOk n (Some (export_name ts ⟪".docx"⟫)) pdf (Some (export_name ts ⟪".pptx"⟫))), w')
    /\ doc_fs w' !! export_path cfg (export_name ts ⟪".docx"⟫) = Some (docx_bytes doc).
Proof.
  unfold save_exports.
  set (pd := export_path cfg (export_name ts ⟪".docx"⟫)).
  set (pp := export_path cfg (export_name ts ⟪".pdf"⟫)).
  set (px := export_path cfg (export_name ts ⟪".pptx"⟫)).
  assert (Hdx : px <> pd) by (by apply export_path_ne).
  assert (Hdp : pd <> pp) by (by apply export_path_ne).
  rewrite stm_bind_run, try_write_ok. cbn [negb]. rewrite stm_bind_run.
  destruct (convert_pdf_keeps pp (docx_bytes doc)
              {| static_fs := static_fs w; doc_fs := <[pd := docx_bytes doc]> (doc_fs w) |})
    as (w1 & -> & _ & Hk).
  assert (Hd : doc_fs w1 !! pd = Some (docx_bytes doc)) by (rewrite Hk by done; apply lookup_insert_eq).
  rewrite stm_bind_run, try_write_ok. unfold exists_file. stm_simpl. cbn [doc_fs].
  rewrite lookup_insert_eq, lookup_insert_ne, Hd by done.
  rewrite !bool_decide_true by by eexists.
  do 2 eexists. split; [reflexivity|]. cbn [doc_fs]. by rewrite lookup_insert_ne.
Qed.

End Saving.

(** ** Theorems of the build *)

Section Build_claims.
Context `{NarrativeService} `{ImageLib} `{ExportLib} (cfg : doc_config).

(** C5: When the narrative phase yields no markdown (the data is not a
    dict, the request raises, the status is an error, or the text is
    blank) the build answers 500 at once: nothing is written and the
    diagram service is never called, whatever it is. *)
Theorem build_document_narrative_failure `{UmlService} data bid ts today w :
  (forall md, fetch_markdown data <> inr md) ->
  exists r, build_document cfg data bid ts today w = (Some r, w)
    /\ (r = BuildContentFailed \/ r = BuildEmptyMarkdown).
Proof.
  intros Hm. unfold build_document, fetch_markdown in *.
  destruct (md_request data) as [req|]; [|by eauto].
  destruct (generate_doc_call req) as [|st t]; [by eauto|].
  destruct (http_error st); [by eauto|]. case_bool_decide; [by eauto|].
  by destruct (Hm t).
Qed.

Hypothesis disk_ok : forall p, doc_disk_ok cfg p = true.

(** C4: Failure isolation, against any diagram service: when its answer
    yields no diagram record (it raised, answered an error status, sent
    no JSON or no [diagrams] list), the build still completes with a DOCX
    holding the cover and the narrative, and reports zero diagrams. *)
Theorem build_document_uml_isolation `{UmlService} data bid ts today w md title reply w1 :
  fetch_markdown data = inr md -> project_title data = Some title ->
  uml_call (uml_request data bid) w = (Some reply, w1) -> diagram_specs reply = [] ->
  exists w' pdf, build_document cfg data bid ts today w
    = (Some (BuildOk 0 (Some (export_name ts ⟪".docx"⟫)) pdf (Some (export_name ts ⟪".pptx"⟫))), w')
    /\ doc_fs w' !! export_path cfg (export_name ts ⟪".docx"⟫)
       = Some (docx_bytes (cover title today ++ md_blocks md)).
Proof.
  intros Hm Ht Hu Hs. unfold build_document. rewrite Hm, disk_ok. cbn [negb].
  rewrite stm_bind_run, Hu, Hs, Ht, stm_bind_run. unfold on_doc, diagram_section. stm_simpl.
  cbn [length].
  destruct (save_exports_ok cfg disk_ok ts (cover title today ++ md_blocks md ++ []) 0
              {| static_fs := static_fs w1; doc_fs := doc_fs w1 |}) as (w' & pdf & E & Hd).
  rewrite E. rewrite app_nil_r in Hd. eauto.
Qed.

End Build_claims.

(** ** The composed system: the builder with the diagram service *)

Section System.
Context `{Deflate} (ucfg : uml_config) (dcfg : doc_config) `{!IngestEndpoint dcfg} `{UmlEnv}
        `{NarrativeService} `{ImageLib} `{ExportLib}.

Lemma renderer_call body w :
  @uml_call (renderer_service ucfg dcfg) body w
  = (Some (uml_http (generate_uml_image ucfg dcfg body w).1), (generate_uml_image ucfg dcfg body w).2).
Proof. simpl. by destruct (generate_uml_image ucfg dcfg body w). Qed.

Lemma uml_request_pushes data bid :
  bid <> [] -> (forall i j, deliver i j = true) -> (forall p, doc_disk_ok dcfg p = true) ->
  truthy (uml_request data bid) = true /\ pushes_land dcfg (uml_request data bid) bid.
Proof. intros. split; [reflexivity|]. split_and!; [reflexivity|done..]. Qed.

(** Every diagram the service reports for the build is ready for the
    assembly when its pushes land. *)
Lemma reported_ready data bid w :
  bid <> [] -> (forall i j, deliver i j = true) -> (forall p, doc_disk_ok dcfg p = true) ->
  Forall (spec_ready dcfg bid (doc_fs (generate_uml_image ucfg dcfg (uml_request data bid) w).2))
         (map diagram_json (reported (generate_uml_image ucfg dcfg (uml_request data bid) w).1)).
Proof.
  intros Hb Hd Hk. destruct (uml_request_pushes data bid Hb Hd Hk) as [Ht Hp].
  destruct (generate_uml_image ucfg dcfg (uml_request data bid) w) as [r w1] eqn:Eg.
  destruct r as [[ds| |]|]; simpl; try constructor.
  apply List.Forall_map, Forall_forall. intros d Hd'. apply ready_of_stored.
  by eapply (generate_stores ucfg dcfg).
Qed.

(** C1: Build correlation, end to end.  With the diagram service of
    [Renderer] behind the [/generate-uml-image] call, a writable disk,
    pushes that land and working image libraries, a build whose narrative
    phase succeeds completes; it reports as many diagrams as the diagram
    service rendered for its build id, and the DOCX it saves is the cover,
    the narrative, and a diagram section with one heading per rendered
    diagram, in the service's order, and one embedded picture each: the
    images pushed under the build id are exactly the ones the assembly
    finds. *)
Theorem build_document_system data bid ts today w md title :
  fetch_markdown data = inr md -> project_title data = Some title -> bid <> [] ->
  (forall p, doc_disk_ok dcfg p = true) -> (forall i j, deliver i j = true) ->
  (forall b, is_Some (pil_png b)) -> (forall b, embed_ok b = true) ->
  let ds := reported (generate_uml_image ucfg dcfg (uml_request data bid) w).1 in
  exists w' pdf dblocks,
    @build_document _ (renderer_service ucfg dcfg) _ _ dcfg data bid ts today w
      = (Some (BuildOk (length ds) (Some (export_name ts ⟪".docx"⟫)) pdf (Some (export_name ts ⟪".pptx"⟫))), w')
    /\ doc_fs w' !! export_path dcfg (export_name ts ⟪".docx"⟫)
       = Some (docx_bytes (cover title today ++ md_blocks md ++ dblocks))
    /\ pictures dblocks = length ds
    /\ section_headings dblocks = map (fun d => section_title (d_type d)) ds.
Proof.
  intros Hm Ht Hb Hk Hd Hpil Hemb ds.
  pose proof (reported_ready data bid w Hb Hd Hk) as Hr.
  unfold build_document. rewrite Hm, Hk. cbn [negb]. rewrite stm_bind_run, renderer_call.
  rewrite diagram_specs_http, Ht, stm_bind_run. fold ds. fold ds in Hr.
  set (w1 := (generate_uml_image ucfg dcfg (uml_request data bid) w).2) in *.
  destruct (diagram_section_complete dcfg Hpil Hemb Hk bid (map diagram_json ds) (doc_fs w1) _ Hr
              (mapM_spec_fields ds)) as (bs & fs' & E & Hp & Hh).
  unfold on_doc. rewrite E.
  destruct (save_exports_ok dcfg Hk ts (cover title today ++ md_blocks md ++ bs) (length (map diagram_json ds))
              {| static_fs := static_fs w1; doc_fs := fs' |}) as (w' & pdf & Es & Hs).
  rewrite Es, length_map. exists w', pdf, bs. split_and!; [done|done|by rewrite Hp, length_map|].
  by rewrite Hh, map_map.
Qed.

End System.

(** ** Findings of the build *)

Section Findings.
Context `{NarrativeService} `{ImageLib} `{ExportLib} (cfg : doc_config).
Hypothesis disk_ok : forall p, doc_disk_ok cfg p = true.

(** A request whose [instructions] is not a string (JSON [null], a
    number, ...) passes the narrative phase, makes the diagram service
    plan, render and push the build's images, and only then fails with
    500 on the cover title ([None.split]); the pushed images stay on
    disk. *)
Theorem build_document_title_crash `{UmlService} data bid ts today w md reply w1 :
  fetch_markdown data = inr md -> project_title data = None ->
  uml_call (uml_request data bid) w = (Some reply, w1) ->
  build_document cfg data bid ts today w = (None, w1).
Proof.
  intros Hm Ht Hu. unfold build_document. rewrite Hm, disk_ok. cbn [negb].
  by rewrite stm_bind_run, Hu, Ht.
Qed.

(** C34: Export names are per second, not per build: when a file
    [combined_{ts}.pdf] exists already (an earlier build in the same
    second) and this build's conversion fails or is skipped, the answer
    still names that PDF, which holds the other build's document. *)
Theorem save_exports_stale_pdf ts doc n w old :
  doc_fs w !! export_path cfg (export_name ts ⟪".pdf"⟫) = Some old ->
  (docx_to_pdf (docx_bytes doc) = None \/ length (docx_bytes doc) <= 1000) ->
  exists w', save_exports cfg ts doc n w
    = (Some (BuildOk n (Some (export_name ts ⟪".docx"⟫)) (Some (export_name ts ⟪".pdf"⟫))
                     (Some (export_name ts ⟪".pptx"⟫))), w')
    /\ doc_fs w' !! export_path cfg (export_name ts ⟪".pdf"⟫) = Some old.
Proof.
  intros Hold Hc. unfold save_exports.
  set (pd := export_path cfg (export_name ts ⟪".docx"⟫)).
  set (pp := export_path cfg (export_name ts ⟪".pdf"⟫)) in *.
  set (px := export_path cfg (export_name ts ⟪".pptx"⟫)).
  assert (Hdx : px <> pd) by (by apply export_path_ne).
  assert (Hdp : pd <> pp) by (by apply export_path_ne).
  assert (Hxp : px <> pp) by (by apply export_path_ne).
  rewrite stm_bind_run, try_write_ok by done. cbn [negb]. rewrite stm_bind_run.
  assert (Hconv : forall w0, convert_pdf cfg pp (docx_bytes doc) w0 = (Some tt, w0)).
  { intros w0. unfold convert_pdf. destruct Hc as [Hn|Hl].
    - rewrite Hn. by destruct (_ <? _).
    - by rewrite (proj2 (Nat.ltb_ge _ _)) by done. }
  rewrite Hconv, stm_bind_run, try_write_ok by done. unfold exists_file. stm_simpl. cbn [doc_fs].
  rewrite lookup_insert_eq, (lookup_insert_ne _ px pd), lookup_insert_eq by done.
  rewrite (lookup_insert_ne _ px pp), (lookup_insert_ne _ pd pp), Hold by done.
  rewrite !bool_decide_true by by eexists.
  eexists. split; [reflexivity|]. cbn [doc_fs].
  by rewrite (lookup_insert_ne _ px pp), (lookup_insert_ne _ pd pp) by done.
Qed.

End Findings.

(** ** Concrete builds *)

Definition demo_md : pystr := ⟪"# Intro
Some *text*"⟫.

(** A narrative service that answers [demo_md], or raises. *)
Definition demo_narrative (up : bool) : NarrativeService :=
  {| generate_doc_call := fun _ => if up then DocReply 200 demo_md else DocRaised |}.

(** A serialisation that writes one byte per block; the PDF conversion
    raises. *)
Definition demo_exports : ExportLib :=
  {| docx_bytes := fun doc => [Z.of_nat (length doc)]; docx_to_pdf := fun _ => None; empty_pptx := [0%Z] |}.

(** A diagram service that cannot be reached. *)
Definition demo_uml_down : UmlService := {| uml_call := fun _ w => (Some UmlRaised, w) |}.

Definition demo_data (instructions : json) : json :=
  JObj [(⟪"code"⟫, JStr ⟪"print(1)"⟫); (⟪"project_info"⟫, JStr ⟪"a shop"⟫);
        (⟪"instructions"⟫, instructions); (⟪"abstract"⟫, JStr ⟪"an online shop"⟫)].

Definition demo_title : json := JStr ⟪"Shop
details"⟫.

Lemma build_document_narrative_failure_witness :
  exists r, @build_document (demo_narrative false) demo_uml_down demo_libs demo_exports demo_dcfg
              (demo_data demo_title) ⟪"b1"⟫ 7 ⟪"today"⟫ demo_world = (Some r, demo_world)
    /\ (r = BuildContentFailed \/ r = BuildEmptyMarkdown).
Proof.
  apply (@build_document_narrative_failure (demo_narrative false) demo_libs demo_exports demo_dcfg demo_uml_down).
  intros md. vm_compute. discriminate.
Defined.

Lemma build_document_uml_isolation_witness :
  exists w' pdf, @build_document (demo_narrative true) demo_uml_down demo_libs demo_exports demo_dcfg
                   (demo_data demo_title) ⟪"b1"⟫ 7 ⟪"today"⟫ demo_world
    = (Some (BuildOk 0 (Some (export_name 7 ⟪".docx"⟫)) pdf (Some (export_name 7 ⟪".pptx"⟫))), w')
    /\ doc_fs w' !! export_path demo_dcfg (export_name 7 ⟪".docx"⟫)
       = Some (docx_bytes (ExportLib := demo_exports) (cover ⟪"Shop"⟫ ⟪"today"⟫ ++ md_blocks demo_md)).
Proof.
  apply (@build_document_uml_isolation (demo_narrative true) demo_libs demo_exports demo_dcfg
           (fun _ => eq_refl) demo_uml_down _ _ _ _ demo_world demo_md ⟪"Shop"⟫ UmlRaised demo_world);
    reflexivity.
Defined.

Lemma build_document_system_witness :
  exists w' pdf dblocks,
    @build_document (demo_narrative true) (renderer_service (H := recorded_zlib) (H0 := demo_env true) demo_ucfg demo_dcfg)
      demo_libs demo_exports demo_dcfg (demo_data demo_title) ⟪"b1"⟫ 7 ⟪"today"⟫ demo_world
      = (Some (BuildOk 2 (Some (export_name 7 ⟪".docx"⟫)) pdf (Some (export_name 7 ⟪".pptx"⟫))), w')
    /\ pictures dblocks = 2.
Proof.
  destruct (@build_document_system recorded_zlib demo_ucfg demo_dcfg _ (demo_env true)
              (demo_narrative true) demo_libs demo_exports (demo_data demo_title) ⟪"b1"⟫ 7 ⟪"today"⟫
              demo_world demo_md ⟪"Shop"⟫)
    as (w' & pdf & bl & E & _ & Hp & _);
    [reflexivity|reflexivity|discriminate|intros; reflexivity|intros; reflexivity
    |intros; by eexists|intros; reflexivity|].
  assert (Hn : length (reported (@generate_uml_image recorded_zlib demo_ucfg demo_dcfg _ (demo_env true)
                                   (uml_request (demo_data demo_title) ⟪"b1"⟫) demo_world).1) = 2)
    by (vm_compute; reflexivity).
  rewrite Hn in E, Hp. exists w', pdf, bl. split; [exact E|exact Hp].
Defined.

Lemma build_document_title_crash_witness :
  @build_document (demo_narrative true) demo_uml_down demo_libs demo_exports demo_dcfg
    (demo_data JNull) ⟪"b1"⟫ 7 ⟪"today"⟫ demo_world = (None, demo_world).
Proof.
  apply (@build_document_title_crash (demo_narrative true) demo_libs demo_exports demo_dcfg
           (fun _ => eq_refl) demo_uml_down _ _ _ _ demo_world demo_md UmlRaised); reflexivity.
Defined.

Lemma save_exports_stale_pdf_witness :
  exists w', save_exports (H := demo_exports) demo_dcfg 7 [] 0
               {| static_fs := ∅; doc_fs := {[export_path demo_dcfg (export_name 7 ⟪".pdf"⟫) := [9%Z]]} |}
    = (Some (BuildOk 0 (Some (export_name 7 ⟪".docx"⟫)) (Some (export_name 7 ⟪".pdf"⟫))
                     (Some (export_name 7 ⟪".pptx"⟫))), w')
    /\ doc_fs w' !! export_path demo_dcfg (export_name 7 ⟪".pdf"⟫) = Some [9%Z].
Proof.
  apply (@save_exports_stale_pdf demo_exports demo_dcfg (fun _ => eq_refl)); [|by left].
  apply lookup_singleton_eq.
Defined.
