(* ===== verification/Narrative.v ===== *)
(** * Narrative service: [generate_doc] (src/Service/AiAgent.py, lines
      85-235)

    [POST /generate-doc] reads the request fields, coerces [pages] to an
    integer of at least 1, optionally loads the code from [file_path],
    rejects a request without code or project description, rejects Python
    code that does not parse, asks the model for markdown and returns it
    as markdown, as a PDF laid out line by line, as a DOCX, or as a text
    file saved under [saved_docs].

    The model ([call_gemini]) and Python's parser ([ast.parse]) are the
    class [NarrativeEnv], which receives the prompt of lines 106-119
    ([full_prompt]).  The service's own disk holds text files,
    [agent_fs].  [aiagent_service] makes the handler the
    [NarrativeService] of file [Builder], which is how the document
    builder's request meets this code. *)

From S2P Require Import Prelude Python Encoder Planner Ingestion Renderer Assembly Builder.
Local Open Scope py_scope.

(** ** [int()] on a JSON value *)

(** The digits of an integer literal: at least one digit, single
    underscores only between digits ([Objects/longobject.c]). *)
Fixpoint digits_from (acc : Z) (after_us : bool) (s : pystr) : option Z :=
  match s with
  | [] => if after_us then None else Some acc
  | c :: r =>
      if is_digit c then digits_from (10 * acc + Z.of_N (code c - 48))%Z false r
      else if bool_decide (c = "_"%char) && negb after_us then
        match r with [] => None | _ => digits_from acc true r end
      else None
  end.

Definition parse_digits (s : pystr) : option Z :=
  match s with
  | c :: _ => if is_digit c then digits_from 0 false s else None
  | [] => None
  end.

(** [int(s)] for a string: surrounding white space, a sign, digits. *)
Definition int_of_str (s : pystr) : option Z :=
  match strip s with
  | "+"%char :: r => parse_digits r
  | "-"%char :: r => Z.opp <$> parse_digits r
  | r => parse_digits r
  end.

(** [int(v)]; [None] when it raises (JSON values carry no floats here). *)
Definition py_int (v : json) : option Z :=
  match v with
  | JInt z => Some z
  | JBool b => Some (if b then 1%Z else 0%Z)
  | JStr s => int_of_str s
  | _ => None
  end.

(** Lines 170-175. *)
Definition pages_of (v : json) : Z :=
  match py_int v with Some z => Z.max 1 z | None => 1%Z end.

(** [s.lower()], compared only with ASCII literals below. *)
Definition lower (s : pystr) : pystr := map to_lower s.

(** ** The PDF layout, lines 125-139 *)

(** [y] is kept as its integer part: [A4] is 841.8897637795275 points
    high, [y] starts at [height - 40] and moves by whole points, so its
    fractional part stays .8897637795275 and [y < 50] holds exactly when
    the integer part is below 50. *)
Definition pdf_top : Z := 801.

(** One line: [showPage] first when [y < 50], then [drawString] at [y]. *)
Definition pdf_line (st : list (list (Z * pystr)) * list (Z * pystr) * Z) (line : pystr)
    : list (list (Z * pystr)) * list (Z * pystr) * Z :=
  let '(done_pages, page, y) := st in
  let '(done_pages, page, y) :=
    if (y <? 50)%Z then (done_pages ++ [page], [], pdf_top) else (done_pages, page, y) in
  (done_pages, page ++ [(y, strip line)], (y - 15)%Z).

(** The pages [showPage] closed and the page [c.save()] finishes. *)
Definition pdf_layout (text : pystr) : list (list (Z * pystr)) * list (Z * pystr) :=
  let '(ps, p, _) := foldl pdf_line ([], [], pdf_top) (splitlines text) in (ps, p).

(** [generate_docx_from_text], lines 141-156: headings keep the rest of
    the line as it is, every other line, blank ones too, is a paragraph. *)
Definition docx_line (line : pystr) : block :=
  if startswith ⟪"# "⟫ line then BHeading 1 (drop 2 line)
  else if startswith ⟪"## "⟫ line then BHeading 2 (drop 3 line)
  else if startswith ⟪"### "⟫ line then BHeading 3 (drop 4 line)
  else BPara line.

Definition docx_of_text (text : pystr) : list block := map docx_line (splitlines text).

(** ** The handler *)

(** The model and the parser: [gemini prompt] is [response.text] for
    the prompt ([None] when the call raises); [py_parses code] is
    [Some true] when [ast.parse(code)] succeeds, [Some false] when it
    raises [SyntaxError] and [None] when it raises anything else. *)
Class NarrativeEnv := {
  gemini : pystr -> option pystr;
  py_parses : pystr -> option bool
}.

(** ** The prompt, lines 106-119 *)

Definition nl : ascii := "010"%char.
Definition tq : pystr := [dquote; dquote; dquote].

(** The end of one triple-quoted field and the start of the next. *)
Definition delim (label : pystr) : pystr := tq ++ nl :: nl :: label ++ nl :: tq.

Definition prompt_head (pages : Z) : pystr :=
  nl :: ⟪"Use the following to generate a **Markdown** technical report of approximately "⟫
  ++ str_Z pages ++ ⟪" page"⟫ ++ (if (1 <? pages)%Z then ⟪"s"⟫ else [])
  ++ ":"%char :: nl :: nl :: ⟪"**Project Description:**"⟫ ++ nl :: tq.

Definition prompt_tail : pystr :=
  tq ++ nl :: nl
  :: ⟪"Produce only the final well-structured Markdown text with bolded headings, numbered sections, and consistent formatting."⟫
  ++ [nl].

(** [full_prompt]: the f-string with [str(pages)], [str(project_info)],
    the stripped instructions and the code. *)
Definition full_prompt (code project_info instructions : pystr) (pages : Z) : pystr :=
  prompt_head pages ++ project_info ++ delim ⟪"**User Instructions:**"⟫ ++ instructions
  ++ delim ⟪"**Source Code (for context):**"⟫ ++ code ++ prompt_tail.

Record agent_config := {
  default_instructions : pystr;     (** [DEFAULT_INSTRUCTIONS], lines 32-82 *)
  stamp : pystr;                    (** [datetime.now().strftime("%Y%m%d_%H%M%S")] *)
  agent_disk_ok : pystr -> bool
}.

Abbreviation agent_fs := (gmap (list ascii) (list ascii)) (only parsing).

Inductive gen_response :=
| GenMarkdown (text : pystr)                                    (** 200 text/markdown *)
| GenPdf (pages : list (list (Z * pystr))) (last : list (Z * pystr))  (** 200 PDF *)
| GenDocx (doc : list block)                                    (** 200 DOCX *)
| GenText (filename text : pystr)                               (** 200 saved text file *)
| GenFileNotFound                                               (** 400 *)
| GenMissingFields                                              (** 400 *)
| GenInvalidSyntax                                              (** 400 *)
| GenUnsupported.                                               (** 400 *)

Section Handler.
Context `{NarrativeEnv} (acfg : agent_config).

(** Lines 190-192 with [parse_code] (lines 85-100) on code that is a
    string: [Some false] for a syntax error, [None] when it raises. *)
Definition code_ok (code ext : pystr) : option bool :=
  if bool_decide (ext = ⟪".py"⟫) then py_parses code else Some true.

(** [call_gemini] (lines 103-122): [instructions.strip()] is evaluated
    while the prompt is built, before the call; the answer is stripped. *)
Definition call_gemini (code : pystr) (info instructions : json) (pages : Z) : option pystr :=
  match instructions with
  | JStr i => strip <$> gemini (full_prompt code (py_str info) (strip i) pages)
  | _ => None
  end.

(** The output of lines 196-235 for the markdown text. *)
Definition render_output (fmt md : pystr) : stm agent_fs gen_response :=
  if bool_decide (fmt = ⟪"markdown"⟫) then mret (GenMarkdown md)
  else if bool_decide (fmt = ⟪"pdf"⟫) then let '(ps, p) := pdf_layout md in mret (GenPdf ps p)
  else if bool_decide (fmt = ⟪"docx"⟫) then mret (GenDocx (docx_of_text md))
  else if bool_decide (fmt = ⟪"text"⟫) then
    let filename := ⟪"documentation_"⟫ ++ stamp acfg ++ ⟪".txt"⟫ in
    let path := path_join ⟪"saved_docs"⟫ filename in
    if agent_disk_ok acfg path then modify_st (fun fs : agent_fs => <[path := md]> fs) ;; mret (GenText filename md)
    else throw
  else mret GenUnsupported.

(** The code to document: the file at [file_path] when it is given
    (lines 177-184), else the [code] field.  A path that is not a string
    raises in the model ([os.path.isfile] raises for lists and dicts; an
    integer, which it would take for a file descriptor, is outside the
    model). *)
Definition load_code (file_path code : json) (ext : pystr)
    : stm agent_fs (gen_response + (json * pystr)) :=
  fun fs =>
    if truthy file_path then
      match file_path with
      | JStr p =>
          match fs !! p with
          | Some text => (Some (inr (JStr text, lower (splitext p).2)), fs)
          | None => (Some (inl GenFileNotFound), fs)
          end
      | _ => (None, fs)
      end
    else (Some (inr (code, ext)), fs).

(** [generate_doc()], lines 159-235. *)
Definition generate_doc (data : json) : stm agent_fs gen_response :=
  match data with
  | JObj _ =>
      match py_get data ⟪"extension"⟫ (JStr ⟪".txt"⟫), py_get data ⟪"return_format"⟫ (JStr ⟪"pdf"⟫) with
      | Some (JStr ext), Some (JStr fmt) =>
          let file_path := default JNull (py_get data ⟪"file_path"⟫ JNull) in
          let code := default JNull (py_get data ⟪"code"⟫ JNull) in
          let info := default JNull (py_get data ⟪"project_info"⟫ JNull) in
          let instructions :=
            default JNull (py_get data ⟪"instructions"⟫ (JStr (default_instructions acfg))) in
          let pages := pages_of (default JNull (py_get data ⟪"pages"⟫ (JInt 1))) in
          loaded ← load_code file_path code (lower ext);
          match loaded with
          | inl r => mret r
          | inr (code, ext) =>
              if negb (truthy code) || negb (truthy info) then mret GenMissingFields else
              match code with
              | JStr c =>
                  match code_ok c ext with
                  | None => throw
                  | Some false => mret GenInvalidSyntax
                  | Some true =>
                      match call_gemini c info instructions pages with
                      | Some md => render_output (lower fmt) md
                      | None => throw
                      end
                  end
              | _ => throw
              end
          end
      | _, _ => throw
      end
  | _ => throw
  end.

End Handler.

(** ** The service the document builder calls *)

(** [jsonify({"error": msg})] as Flask writes it. *)
Definition error_body (msg : pystr) : pystr :=
  "{"%char :: dquote :: ⟪"error"⟫ ++ dquote :: ":"%char :: dquote :: msg ++ [dquote; "}"%char; "010"%char].

(** [md_resp.text] (Docbuilder.py line 124): for a [text/*] answer that
    names no charset, requests decodes the body as ISO-8859-1, each byte
    becoming the character of the same code. *)
Definition latin1_decode (b : bytes) : pystr := map (fun z => ascii_of_N (Z.to_N z)) b.

(** The markdown of lines 196-204 as the document builder reads it:
    Flask encodes the [str] body as UTF-8, and the [Content-Type] the
    code sets, [text/markdown], names no charset. *)
Definition markdown_transfer (md : pystr) : pystr := latin1_decode (utf8_encode md).

(** The HTTP answer to a request asking for markdown; the other formats
    are binary bodies the builder does not ask for, and the body of the
    unsupported-format error (which the builder never reads) is left
    empty. *)
Definition gen_http (r : option gen_response) : doc_reply :=
  match r with
  | Some (GenMarkdown t) => DocReply 200 (markdown_transfer t)
  | Some GenFileNotFound => DocReply 400 (error_body ⟪"File not found"⟫)
  | Some GenMissingFields => DocReply 400 (error_body ⟪"Missing code or project_info"⟫)
  | Some GenInvalidSyntax => DocReply 400 (error_body ⟪"Invalid Python syntax"⟫)
  | Some GenUnsupported => DocReply 400 []
  | Some (GenPdf _ _) | Some (GenDocx _) | Some (GenText _ _) => DocReply 200 []
  | None => DocReply 500 []
  end.

#[export] Instance aiagent_service `{NarrativeEnv} (acfg : agent_config) (fs : agent_fs)
    : NarrativeService := {|
  generate_doc_call := fun req => gen_http (generate_doc acfg req fs).1
|}.

(** ** Lemmas *)

(** The layout invariant: closed pages hold 51 lines, [y] is the next
    free line of the open page, and every line is drawn inside the
    margins. *)
Definition pdf_inv (st : list (list (Z * pystr)) * list (Z * pystr) * Z) : Prop :=
  let '(ps, p, y) := st in
  Forall (fun pg => length pg = 51) ps /\ y = (pdf_top - 15 * Z.of_nat (length p))%Z
  /\ length p <= 51 /\ Forall (Forall (fun yl => 50 <= yl.1 <= pdf_top)%Z) (ps ++ [p]).

Definition pdf_text (st : list (list (Z * pystr)) * list (Z * pystr) * Z) : list pystr :=
  let '(ps, p, _) := st in map snd (concat ps ++ p).

Lemma pdf_line_inv st l : pdf_inv st -> pdf_inv (pdf_line st l).
Proof.
  destruct st as [[ps p] y]. unfold pdf_inv, pdf_line, pdf_top. intros (Hps & -> & Hlen & Hy).
  destruct (_ <? 50)%Z eqn:E.
  - apply Z.ltb_lt in E. rewrite Forall_app in Hy. destruct Hy as [Hy1 Hy2].
    simpl. split_and!; [apply Forall_app; split; [done|]; constructor; [lia|done]|lia|lia|].
    rewrite Forall_app. split; [apply Forall_app; by split|]. repeat constructor; simpl; lia.
  - apply Z.ltb_ge in E. rewrite length_app. simpl.
    split_and!; [done|lia|lia|].
    rewrite Forall_app in Hy |- *. destruct Hy as [Hy1 Hy2]. split; [done|].
    apply Forall_cons in Hy2 as [Hy2 _]. constructor; [|done].
    apply Forall_app. split; [done|]. constructor; [simpl; lia|done].
Qed.

Lemma pdf_line_text st l : pdf_text (pdf_line st l) = pdf_text st ++ [strip l].
Proof.
  destruct st as [[ps p] y]. unfold pdf_line, pdf_text.
  destruct (_ <? 50)%Z; rewrite ?concat_app, ?map_app; simpl; rewrite ?app_nil_r, ?map_app; simpl;
    by rewrite ?app_assoc.
Qed.

(** ** The prompt determines its fields *)

(** A field that does not contain three quotes, followed by a delimiter
    that starts with three quotes and a newline, ends where the
    delimiter starts. *)
Lemma tq_field_inj (x1 x2 d r1 r2 : pystr) :
  contains tq x1 = false -> contains tq x2 = false ->
  x1 ++ (tq ++ nl :: d) ++ r1 = x2 ++ (tq ++ nl :: d) ++ r2 -> x1 = x2 /\ r1 = r2.
Proof.
  revert x2. induction x1 as [|c1 x1 IH]; intros [|c2 x2] H1 H2 E.
  - split; [done|]. exact (app_inv_head (tq ++ nl :: d) r1 r2 E).
  - exfalso. destruct x2 as [|a [|b x2]]; cbv [tq nl dquote] in E; simpl in E; try discriminate.
    injection E; intros; subst. revert H2. vm_compute. done.
  - exfalso. destruct x1 as [|a [|b x1]]; cbv [tq nl dquote] in E; simpl in E; try discriminate.
    injection E; intros; subst. revert H1. vm_compute. done.
  - injection E as <- E. cbn [contains] in H1, H2. apply orb_false_iff in H1 as [_ H1], H2 as [_ H2].
    by destruct (IH x2) as [-> ->].
Qed.

(** [str(pages)] is followed by a space it does not contain. *)
Lemma prompt_head_inj p1 p2 x1 x2 :
  (1 <= p1)%Z -> (1 <= p2)%Z -> prompt_head p1 ++ x1 = prompt_head p2 ++ x2 -> p1 = p2 /\ x1 = x2.
Proof.
  intros Hp1 Hp2 E. unfold prompt_head in E. rewrite !str_Z_pos in E by lia.
  injection E as E. rewrite <- !app_assoc in E.
  apply (sep_prefix_inj " "%char) in E as [Ep E]; [|apply str_nat_no_space..].
  apply str_nat_inj in Ep. assert (p1 = p2) as <- by lia. split; [done|].
  destruct (1 <? p1)%Z; by injection E.
Qed.

(** The request body the document builder sends (lines 113-119 of
    Docbuilder.py). *)
Definition builder_request (code info instructions pages : json) : json :=
  JObj [(⟪"code"⟫, code); (⟪"project_info"⟫, info); (⟪"instructions"⟫, instructions);
        (⟪"pages"⟫, pages); (⟪"return_format"⟫, JStr ⟪"markdown"⟫)].

Lemma md_request_builder data :
  md_request data <> None ->
  exists code info instructions pages, md_request data = Some (builder_request code info instructions pages)
    /\ py_get data ⟪"instructions"⟫ JNull = Some instructions.
Proof.
  unfold md_request. destruct data; try done. intros _. simpl. by do 4 eexists.
Qed.

Section Builder_request.
Context `{NarrativeEnv}.

Lemma generate_doc_builder acfg code info instructions pages fs :
  generate_doc acfg (builder_request code info instructions pages) fs
  = if negb (truthy code) || negb (truthy info) then (Some GenMissingFields, fs) else
    match code with
    | JStr c =>
        match call_gemini c info instructions (pages_of pages) with
        | Some md => (Some (GenMarkdown md), fs)
        | None => (None, fs)
        end
    | _ => (None, fs)
    end.
Proof.
  set (req := builder_request code info instructions pages).
  assert (E1 : py_get req ⟪"extension"⟫ (JStr ⟪".txt"⟫) = Some (JStr ⟪".txt"⟫)) by reflexivity.
  assert (E2 : py_get req ⟪"return_format"⟫ (JStr ⟪"pdf"⟫) = Some (JStr ⟪"markdown"⟫)) by reflexivity.
  assert (E3 : py_get req ⟪"file_path"⟫ JNull = Some JNull) by reflexivity.
  assert (E4 : py_get req ⟪"code"⟫ JNull = Some code) by reflexivity.
  assert (E5 : py_get req ⟪"project_info"⟫ JNull = Some info) by reflexivity.
  assert (E6 : py_get req ⟪"instructions"⟫ (JStr (default_instructions acfg)) = Some instructions)
    by reflexivity.
  assert (E7 : py_get req ⟪"pages"⟫ (JInt 1) = Some pages) by reflexivity.
  unfold generate_doc. subst req. unfold builder_request at 1.
  fold (builder_request code info instructions pages).
  rewrite E1, E2, E3, E4, E5, E6, E7. stm_simpl. unfold load_code. simpl truthy. cbv iota.
  destruct (_ || _); [done|].
  destruct code; try done. unfold code_ok. rewrite bool_decide_false by done.
  simpl. destruct (call_gemini _ _ _ _); reflexivity.
Qed.

End Builder_request.

(** ** Theorems of the narrative service *)

(** C31: The PDF layout of lines 125-139 puts 51 lines on every page it
    closes and at most 51 on the last one, draws every line between the
    bottom margin (50) and the top line (801), and draws the stripped
    lines of the text, all of them, in order. *)
Theorem pdf_layout_correct text :
  let '(ps, p) := pdf_layout text in
  Forall (fun pg => length pg = 51) ps /\ length p <= 51
  /\ Forall (Forall (fun yl => 50 <= yl.1 <= pdf_top)%Z) (ps ++ [p])
  /\ map snd (concat ps ++ p) = map strip (splitlines text).
Proof.
  unfold pdf_layout.
  pose proof (foldl_invariant pdf_inv pdf_line ([], [], pdf_top) (splitlines text) pdf_line_inv) as Hi.
  pose proof (foldl_trace pdf_text strip pdf_line ([], [], pdf_top) (splitlines text) pdf_line_text) as Ht.
  destruct (foldl pdf_line ([], [], pdf_top) (splitlines text)) as [[ps p] y].
  destruct Hi as (Hps & _ & Hlen & Hy); [split_and!; simpl; try constructor; try lia; repeat constructor|].
  simpl in Ht. split_and!; done.
Qed.

(** [pages] is coerced to an integer of at least 1: a value [int()]
    reads as [z >= 1] is kept, anything else gives at least 1. *)
Theorem pages_of_bounds v : (1 <= pages_of v)%Z /\ forall z, py_int v = Some z -> (1 <= z)%Z -> pages_of v = z.
Proof.
  unfold pages_of. split.
  - destruct (py_int v); lia.
  - intros z -> Hz. lia.
Qed.

(** C20: The prompt of [call_gemini] determines its fields when the
    project description and the instructions do not contain three
    quotes: two prompts that are equal come from the same page count
    (of at least 1, as [pages_of] makes it), project description,
    stripped instructions and code; the code needs no condition, being
    the last field. *)
Theorem full_prompt_fields c1 c2 i1 i2 s1 s2 p1 p2 :
  (1 <= p1)%Z -> (1 <= p2)%Z ->
  contains tq i1 = false -> contains tq i2 = false -> contains tq s1 = false -> contains tq s2 = false ->
  full_prompt c1 i1 s1 p1 = full_prompt c2 i2 s2 p2 -> p1 = p2 /\ i1 = i2 /\ s1 = s2 /\ c1 = c2.
Proof.
  intros Hp1 Hp2 Hi1 Hi2 Hs1 Hs2 E. unfold full_prompt in E.
  apply prompt_head_inj in E as [-> E]; [|done..]. split; [done|]. unfold delim in E.
  apply tq_field_inj in E as [-> E]; [|done..]. split; [done|].
  apply tq_field_inj in E as [-> E]; [|done..]. split; [done|].
  by apply app_inv_tail in E.
Qed.

(** The fields are not escaped: a project description or instructions
    holding the delimiter give the model the same prompt as another
    split of the same text between the two fields. *)
Example call_gemini_ambiguous `{NarrativeEnv} code pages :
  call_gemini code (JStr ⟪"a"⟫) (JStr (⟪"x"⟫ ++ delim ⟪"**User Instructions:**"⟫ ++ ⟪"y"⟫)) pages
  = call_gemini code (JStr (⟪"a"⟫ ++ delim ⟪"**User Instructions:**"⟫ ++ ⟪"x"⟫)) (JStr ⟪"y"⟫) pages.
Proof. reflexivity. Qed.

(** A request that names a file: [file_path], the project description
    and the markdown format. *)
Definition file_request (path info : pystr) : json :=
  JObj [(⟪"file_path"⟫, JStr path); (⟪"project_info"⟫, JStr info); (⟪"return_format"⟫, JStr ⟪"markdown"⟫)].

Section File_request.
Context `{NarrativeEnv}.

(** C30: Any file of the service's disk that a client names, under any path
    ([os.path.isfile] and [open] accept absolute paths and [..]), is read
    and sent to the model as the code of the prompt; nothing restricts
    [file_path] to a project directory.  (Non-Python files need no
    parse; a [.py] file must parse.) *)
Theorem generate_doc_reads_file acfg path text info fs :
  fs !! path = Some text -> path <> [] -> text <> [] -> info <> [] ->
  code_ok text (lower (splitext path).2) = Some true ->
  generate_doc acfg (file_request path info) fs
  = (match gemini (full_prompt text info (strip (default_instructions acfg)) 1) with
     | Some md => Some (GenMarkdown (strip md))
     | None => None
     end, fs).
Proof.
  intros Hf Hp Ht Hi Hc. set (req := file_request path info).
  assert (E1 : py_get req ⟪"extension"⟫ (JStr ⟪".txt"⟫) = Some (JStr ⟪".txt"⟫)) by reflexivity.
  assert (E2 : py_get req ⟪"return_format"⟫ (JStr ⟪"pdf"⟫) = Some (JStr ⟪"markdown"⟫)) by reflexivity.
  assert (E3 : py_get req ⟪"file_path"⟫ JNull = Some (JStr path)) by reflexivity.
  assert (E4 : py_get req ⟪"code"⟫ JNull = Some JNull) by reflexivity.
  assert (E5 : py_get req ⟪"project_info"⟫ JNull = Some (JStr info)) by reflexivity.
  assert (E6 : py_get req ⟪"instructions"⟫ (JStr (default_instructions acfg))
               = Some (JStr (default_instructions acfg))) by reflexivity.
  assert (E7 : py_get req ⟪"pages"⟫ (JInt 1) = Some (JInt 1)) by reflexivity.
  unfold generate_doc. subst req. unfold file_request at 1. fold (file_request path info).
  rewrite E1, E2, E3, E4, E5, E6, E7. stm_simpl. cbn [default]. unfold load_code, id. cbn [truthy].
  rewrite (bool_decide_false (path = [])) by done. cbn [negb]. rewrite Hf. cbv beta iota zeta.
  cbn [truthy]. rewrite !bool_decide_false by done. cbn [negb orb]. rewrite Hc.
  unfold call_gemini. cbn [py_str]. destruct (gemini _); reflexivity.
Qed.

End File_request.

(** Text exports are named by the second ([documentation_{timestamp}.txt],
    lines 218-224): two text answers within one second name the same
    file, the second [open(file_path, "w")] replaces the first text, and
    only the second is left on the disk. *)
Theorem render_text_same_second acfg md1 md2 fs :
  let fname := ⟪"documentation_"⟫ ++ stamp acfg ++ ⟪".txt"⟫ in
  let path := path_join ⟪"saved_docs"⟫ fname in
  agent_disk_ok acfg path = true ->
  (render_output acfg ⟪"text"⟫ md1 ;; render_output acfg ⟪"text"⟫ md2) fs
  = (Some (GenText fname md2), <[path := md2]> fs)
  /\ (render_output acfg ⟪"text"⟫ md1 fs).1 = Some (GenText fname md1).
Proof.
  intros fname path Hd. unfold render_output. rewrite !bool_decide_false by done.
  rewrite bool_decide_true by done. fold fname path. rewrite Hd. stm_simpl.
  by rewrite insert_insert_eq.
Qed.

(** ** The markdown as the document builder reads it *)

Lemma markdown_transfer_cons c md :
  markdown_transfer (c :: md) = latin1_decode (utf8_char c) ++ markdown_transfer md.
Proof. unfold markdown_transfer, latin1_decode, utf8_encode. cbn [flat_map]. by rewrite map_app. Qed.

Lemma latin1_utf8_ascii c : (code c < 128)%N -> latin1_decode (utf8_char c) = [c].
Proof.
  intros Hc. unfold utf8_char, latin1_decode.
  rewrite (proj2 (Z.ltb_lt _ _)) by lia. cbn [map]. by rewrite N2Z.id, ascii_N_embedding.
Qed.

Lemma latin1_utf8_high c : (128 <= code c)%N -> length (latin1_decode (utf8_char c)) = 2.
Proof. intros Hc. unfold utf8_char, latin1_decode. by rewrite (proj2 (Z.ltb_ge _ _)) by lia. Qed.

Lemma latin1_utf8_length c : 1 <= length (latin1_decode (utf8_char c)).
Proof. unfold utf8_char, latin1_decode. destruct (_ <? _)%Z; simpl; lia. Qed.

Lemma markdown_transfer_length md : length md <= length (markdown_transfer md).
Proof.
  induction md as [|c md IH]; [done|]. rewrite markdown_transfer_cons, length_app.
  pose proof (latin1_utf8_length c). simpl. lia.
Qed.

(** C29: The document builder gets the narrative unchanged exactly when
    it is ASCII: each character from 128 to 255 of the model's answer
    reaches the builder as two characters (an [é] as [Ã©]), since the
    answer is sent as UTF-8 and read as ISO-8859-1. *)
Theorem markdown_transfer_ascii md :
  markdown_transfer md = md <-> Forall (fun c => (code c < 128)%N) md.
Proof.
  split.
  - induction md as [|c md IH]; intros E; [constructor|]. rewrite markdown_transfer_cons in E.
    destruct (decide (code c < 128)%N) as [Hc|Hc].
    + rewrite latin1_utf8_ascii in E by done. injection E as E. constructor; auto.
    + exfalso. apply (f_equal length) in E. rewrite length_app, latin1_utf8_high in E by lia.
      pose proof (markdown_transfer_length md). simpl in E. lia.
  - induction 1 as [|c md Hc _ IH]; [done|]. by rewrite markdown_transfer_cons, latin1_utf8_ascii, IH.
Qed.

Example markdown_transfer_e_acute : markdown_transfer ["233"%char] = ["195"%char; "169"%char].
Proof. reflexivity. Qed.

Section Composition.
Context `{NarrativeEnv} (acfg : agent_config) (afs : agent_fs).

(** C28: The narrative phase of the document builder against this
    service: a request without code or project description, code that is
    not a string, or a failing model call ends the build with 500; a
    blank answer with the empty-markdown 500; otherwise the build's
    markdown is the stripped answer of the model as the builder decodes
    it, its UTF-8 bytes read as ISO-8859-1 ([markdown_transfer]). *)
Theorem narrative_phase_aiagent data code info instructions pages :
  md_request data = Some (builder_request code info instructions pages) ->
  @fetch_markdown (aiagent_service acfg afs) data
  = if negb (truthy code) || negb (truthy info) then inl BuildContentFailed else
    match code with
    | JStr c =>
        match call_gemini c info instructions (pages_of pages) with
        | Some md =>
            if bool_decide (strip (markdown_transfer md) = []) then inl BuildEmptyMarkdown
            else inr (markdown_transfer md)
        | None => inl BuildContentFailed
        end
    | _ => inl BuildContentFailed
    end.
Proof.
  intros Hm. unfold fetch_markdown. rewrite Hm. cbn [generate_doc_call aiagent_service].
  rewrite generate_doc_builder.
  destruct (_ || _); [done|]. destruct code; try done. by destruct (call_gemini _ _ _ _).
Qed.

(** C32: The builder forwards [instructions] as it got it, [None] when the
    client left it out, and [call_gemini] strips it: a build request
    whose [instructions] is missing or not a string always fails with
    500, whatever the diagram service does, although the interface makes
    the field optional. *)
Theorem build_document_needs_instructions `{UmlService} `{ImageLib} `{ExportLib} cfg data bid ts today w :
  (forall i, py_get data ⟪"instructions"⟫ JNull <> Some (JStr i)) ->
  @build_document (aiagent_service acfg afs) _ _ _ cfg data bid ts today w = (Some BuildContentFailed, w).
Proof.
  intros Hi. unfold build_document.
  destruct (md_request data) eqn:Em.
  2:{ unfold fetch_markdown. by rewrite Em. }
  destruct (md_request_builder data) as (code & info & instr & pages & Eb & Ei); [by rewrite Em|].
  assert (Hf : @fetch_markdown (aiagent_service acfg afs) data = inl BuildContentFailed).
  { unfold fetch_markdown. rewrite Eb. cbn [generate_doc_call aiagent_service].
    rewrite generate_doc_builder.
    destruct (_ || _); [done|]. destruct code; try done. unfold call_gemini.
    destruct instr; try done. by destruct (Hi _ Ei). }
  by rewrite Hf.
Qed.

End Composition.

(** ** Concrete requests *)

Definition demo_llm : NarrativeEnv :=
  {| gemini := fun _ => Some ⟪" # Intro
Text "⟫; py_parses := fun _ => Some true |}.

Definition demo_agent : agent_config :=
  {| default_instructions := ⟪"Write a report."⟫; stamp := ⟪"20260101_000000"⟫;
     agent_disk_ok := fun _ => true |}.

Lemma narrative_phase_aiagent_witness :
  @fetch_markdown (@aiagent_service demo_llm demo_agent ∅) (demo_data demo_title) = inr ⟪"# Intro
Text"⟫.
Proof.
  rewrite (@narrative_phase_aiagent demo_llm demo_agent ∅ (demo_data demo_title) (JStr ⟪"print(1)"⟫)
             (JStr ⟪"a shop"⟫) demo_title (JInt 1)) by reflexivity.
  vm_compute. reflexivity.
Defined.

Lemma build_document_needs_instructions_witness :
  @build_document (@aiagent_service demo_llm demo_agent ∅) demo_uml_down demo_libs demo_exports demo_dcfg
    (demo_data JNull) ⟪"b1"⟫ 7 ⟪"today"⟫ demo_world = (Some BuildContentFailed, demo_world).
Proof.
  apply (@build_document_needs_instructions demo_llm demo_agent ∅ demo_uml_down demo_libs demo_exports).
  intros i. vm_compute. discriminate.
Defined.

Lemma full_prompt_fields_witness :
  (2 = 2)%Z /\ ⟪"a shop"⟫ = ⟪"a shop"⟫ /\ ⟪"Write a report."⟫ = ⟪"Write a report."⟫ /\ ⟪"print(1)"⟫ = ⟪"print(1)"⟫.
Proof.
  apply (full_prompt_fields ⟪"print(1)"⟫ ⟪"print(1)"⟫ ⟪"a shop"⟫ ⟪"a shop"⟫ ⟪"Write a report."⟫
           ⟪"Write a report."⟫ 2 2); (lia || reflexivity).
Defined.

Lemma generate_doc_reads_file_witness :
  @generate_doc demo_llm demo_agent (file_request ⟪"/etc/passwd"⟫ ⟪"a shop"⟫) {[⟪"/etc/passwd"⟫ := ⟪"root:x:0:0"⟫]}
  = (Some (GenMarkdown ⟪"# Intro
Text"⟫), {[⟪"/etc/passwd"⟫ := ⟪"root:x:0:0"⟫]}).
Proof.
  rewrite (@generate_doc_reads_file demo_llm demo_agent ⟪"/etc/passwd"⟫ ⟪"root:x:0:0"⟫);
    [|apply lookup_singleton_eq|discriminate|discriminate|discriminate|reflexivity].
  reflexivity.
Defined.

Lemma render_text_same_second_witness :
  (render_output demo_agent ⟪"text"⟫ ⟪"first"⟫ ;; render_output demo_agent ⟪"text"⟫ ⟪"second"⟫) ∅
  = (Some (GenText ⟪"documentation_20260101_000000.txt"⟫ ⟪"second"⟫),
     {[⟪"saved_docs/documentation_20260101_000000.txt"⟫ := ⟪"second"⟫]}).
Proof. apply (proj1 (render_text_same_second demo_agent ⟪"first"⟫ ⟪"second"⟫ ∅ eq_refl)). Defined.
