(* ===== verification/Instructions.v ===== *)
(** * The default instructions of the narrative service
      (src/Service/AiAgent.py, lines 32-82)

    [DEFAULT_INSTRUCTIONS] is the value of [instructions] when a request
    to [/generate-doc] leaves the field out (line 167); [call_gemini]
    strips it into the prompt.  The text is the source's, line by line.
    Two of its characters are outside Latin-1, the range of the model's
    strings: the en dash of line 35 (U+2013) and the em space (U+2003)
    that indents each subsection line of the table of contents.  They are
    the parameters [en_dash] and [em_space]: the text is given for any
    representation of these two characters (UTF-8, the encoding the
    prompt is sent in, is [utf8_en_dash] and [utf8_em_space]).

    The theorems: the prompt receives the text without its first and
    last newline, whatever the representation; a request without
    instructions sends it; and the table of contents numbers the
    subsections of section 4 as 4.1, 4.2, 4.4 ([toc_gaps]). *)

From S2P Require Import Prelude Python Encoder Planner Ingestion Renderer Assembly Builder Narrative.
Local Open Scope py_scope.

(** Lines joined by newlines, each one ended by a newline: the layout of a
    triple-quoted literal whose first and last lines are empty. *)
Definition unlines (ls : list pystr) : pystr := concat (map (fun l => l ++ [nl]) ls).

(** Lines 37-81: the indentation depth in em spaces and the text. *)
Definition toc_entries : list (nat * pystr) := [
  (0, ⟪"### Table of Contents"⟫);
  (0, ⟪"1. **Introduction**"⟫);
  (1, ⟪"1.1 Motivation"⟫);
  (1, ⟪"1.2 Problem Definition"⟫);
  (1, ⟪"1.3 Objectives"⟫);
  (1, ⟪"1.4 Scope & Limitations"⟫);
  (0, []);
  (0, ⟪"2. **Literature Survey**"⟫);
  (1, ⟪"2.1 Overview of Related Work"⟫);
  (1, ⟪"2.2 Existing Systems & Their Drawbacks"⟫);
  (1, ⟪"2.3 Proposed System & Innovations"⟫);
  (1, ⟪"2.4 Feasibility Analysis"⟫);
  (1, ⟪"2.5 Key Features"⟫);
  (1, ⟪"2.6 Required Technologies"⟫);
  (0, []);
  (0, ⟪"3. **Analysis**"⟫);
  (1, ⟪"3.1 Analytical Overview"⟫);
  (1, ⟪"3.2 Requirements Specification"⟫);
  (2, ⟪"3.2.1 Functional Requirements"⟫);
  (2, ⟪"3.2.2 Non-functional Requirements"⟫);
  (2, ⟪"3.2.3 Software & Hardware Specifications"⟫);
  (0, []);
  (0, ⟪"4. **Design**"⟫);
  (1, ⟪"4.1 Architectural Overview"⟫);
  (1, ⟪"4.2 System Architecture Diagram"⟫);
  (1, ⟪"4.4 Module Organization & Interfaces"⟫);
  (0, []);
  (0, ⟪"5. **Implementation**"⟫);
  (1, ⟪"5.1 Implementation Strategy"⟫);
  (1, ⟪"5.2 Core Functional Modules"⟫);
  (1, ⟪"5.3 Representative Code Snippets"⟫);
  (1, ⟪"5.4 Deployment & Execution"⟫);
  (2, ⟪"5.4.1 Results Analysis"⟫);
  (2, ⟪"5.4.2 Sample Output Screens"⟫);
  (0, []);
  (0, ⟪"6. **Testing, Validation & Results**"⟫);
  (1, ⟪"6.1 Testing Overview"⟫);
  (1, ⟪"6.2 Test Methodologies"⟫);
  (1, ⟪"6.3 Test Case Design & Scenarios"⟫);
  (1, ⟪"6.4 Validation of Outcomes"⟫);
  (0, []);
  (0, ⟪"7. **Conclusion & Future Work**"⟫);
  (1, ⟪"7.1 Summary of Achievements"⟫);
  (1, ⟪"7.2 Limitations & Lessons Learned"⟫);
  (1, ⟪"7.3 Recommendations for Future Enhancements"⟫)
].

Section Default_instructions.
Variables en_dash em_space : pystr.

Definition toc_line (e : nat * pystr) : pystr := concat (replicate e.1 em_space) ++ e.2.

(** Lines 32-82. *)
Definition DEFAULT_INSTRUCTIONS : pystr :=
  unlines ([[];
            ⟪"You are an expert technical documentation agent tasked with generating"⟫ ++
            ⟪" professional, concise, and academically styled project reports for software"⟫ ++
            ⟪" engineering deliverables (e.g., AI systems, mobile apps, web applications)."⟫;
            [];
            ⟪"For **each** section below, produce **3"⟫ ++ en_dash ++
            ⟪"5 formal paragraphs** (at least **15 lines**) in clear academic English. Use"⟫ ++
            ⟪" **bolded** section titles, **numbered** subheadings, consistent indentation,"⟫ ++
            ⟪" and realistic examples or technical explanations wherever relevant. Ensure"⟫ ++
            ⟪" coherence, clarity, and logical flow across sections."⟫;
            []] ++ map toc_line toc_entries).

End Default_instructions.

(** U+2013 and U+2003 in UTF-8. *)
Definition utf8_en_dash : pystr := map ascii_of_nat [226; 128; 147].
Definition utf8_em_space : pystr := map ascii_of_nat [226; 128; 131].

(** The configuration of the narrative service at import. *)
Definition aiagent_config (en_dash em_space stamp : pystr) (disk : pystr -> bool) : agent_config :=
  {| default_instructions := DEFAULT_INSTRUCTIONS en_dash em_space; stamp := stamp; agent_disk_ok := disk |}.

(** A request to [/generate-doc] that gives the code and the project
    description and asks for markdown, without instructions. *)
Definition direct_request (code info : pystr) : json :=
  JObj [(⟪"code"⟫, JStr code); (⟪"project_info"⟫, JStr info); (⟪"return_format"⟫, JStr ⟪"markdown"⟫)].

(** The subsection lines whose number does not follow the previous one
    of their section: [sec] counts the numbered section lines, [k] the
    subsections seen in the current one. *)
Fixpoint toc_gaps_from (sec k : nat) (es : list (nat * pystr)) : list pystr :=
  match es with
  | [] => []
  | (0, t) :: r =>
      if (match t with c :: _ => is_digit c | [] => false end) then toc_gaps_from (S sec) 0 r
      else toc_gaps_from sec k r
  | (1, t) :: r =>
      (if startswith (str_nat sec ++ "."%char :: str_nat (S k) ++ [" "%char]) t then [] else [t])
      ++ toc_gaps_from sec (S k) r
  | _ :: r => toc_gaps_from sec k r
  end.

Definition toc_gaps (es : list (nat * pystr)) : list pystr := toc_gaps_from 0 0 es.

(** ** Theorems *)

Section Default_request.
Context `{NarrativeEnv}.

(** A request without instructions sends the model the default
    instructions without their first and last newline, whatever the
    representation of their two non-Latin-1 characters, and answers the
    stripped reply as markdown. *)
Theorem generate_doc_default_instructions en_dash em_space st disk code info fs :
  code <> [] -> info <> [] ->
  generate_doc (aiagent_config en_dash em_space st disk) (direct_request code info) fs
  = (match gemini (full_prompt code info (strip (DEFAULT_INSTRUCTIONS en_dash em_space)) 1) with
     | Some md => Some (GenMarkdown (strip md))
     | None => None
     end, fs).
Proof.
  intros Hc Hi. set (acfg := aiagent_config en_dash em_space st disk). set (req := direct_request code info).
  assert (E1 : py_get req ⟪"extension"⟫ (JStr ⟪".txt"⟫) = Some (JStr ⟪".txt"⟫)) by reflexivity.
  assert (E2 : py_get req ⟪"return_format"⟫ (JStr ⟪"pdf"⟫) = Some (JStr ⟪"markdown"⟫)) by reflexivity.
  assert (E3 : py_get req ⟪"file_path"⟫ JNull = Some JNull) by reflexivity.
  assert (E4 : py_get req ⟪"code"⟫ JNull = Some (JStr code)) by reflexivity.
  assert (E5 : py_get req ⟪"project_info"⟫ JNull = Some (JStr info)) by reflexivity.
  assert (E6 : py_get req ⟪"instructions"⟫ (JStr (default_instructions acfg))
               = Some (JStr (DEFAULT_INSTRUCTIONS en_dash em_space))) by reflexivity.
  assert (E7 : py_get req ⟪"pages"⟫ (JInt 1) = Some (JInt 1)) by reflexivity.
  unfold generate_doc. subst req. unfold direct_request at 1. fold (direct_request code info).
  rewrite E1, E2, E3, E4, E5, E6, E7. stm_simpl. cbn [default]. unfold load_code, id. cbn [truthy].
  cbv beta iota zeta. rewrite !bool_decide_false by done. cbn [negb orb].
  replace (code_ok code (lower ⟪".txt"⟫)) with (Some true) by reflexivity.
  unfold call_gemini. cbn [py_str]. destruct (gemini _); reflexivity.
Qed.

End Default_request.

(** Every subsection of the table of contents follows the previous one
    of its section, except [4.4], which follows [4.2]: the report asked
    for has no section 4.3. *)
Example toc_numbering : toc_gaps toc_entries = [⟪"4.4 Module Organization & Interfaces"⟫].
Proof. vm_compute. reflexivity. Qed.

(** With UTF-8 for the two characters, the prompt receives the text
    without its first and last newline. *)
Example default_instructions_utf8_strip :
  strip (DEFAULT_INSTRUCTIONS utf8_en_dash utf8_em_space)
  = removelast (tail (DEFAULT_INSTRUCTIONS utf8_en_dash utf8_em_space)).
Proof. vm_compute. reflexivity. Qed.

Lemma generate_doc_default_instructions_witness :
  @generate_doc demo_llm (aiagent_config utf8_en_dash utf8_em_space ⟪"20260101_000000"⟫ (fun _ => true))
    (direct_request ⟪"print(1)"⟫ ⟪"a shop"⟫) ∅
  = (Some (GenMarkdown ⟪"# Intro
Text"⟫), ∅).
Proof.
  rewrite (@generate_doc_default_instructions demo_llm); [|discriminate|discriminate].
  vm_compute. reflexivity.
Defined.
