(* ===== verification/Lifecycle.v ===== *)
(** * The build lifecycle: [build_document] as a state machine
      (src/Service/Docbuilder.py, lines 104-297)

    The specification describes each build as a machine over phases
    ([Created -> NarrativeRequested -> NarrativeReady | NarrativeFailed],
    [NarrativeReady -> DiagramsRequested -> DiagramsReady -> Assembling ->
    Completed | AssemblyFailed]); the code has no phase marker, the phases
    are the points between the blocks of the handler.  This file holds

    - the specification's machine: [phase] and the step relation
      [lc_step] (an [Inductive], one constructor per arrow);
    - the handler cut at those points: [bstate] carries what the handler
      holds at each point, [bd_next] runs the block of the handler that
      leaves that point (each block is the code of [build_document] in
      file [Builder]), and [bd_step] is its graph on states with the
      shared store [uml_world];
    - the theorems: the machine computes [build_document]; it reaches a
      final state from every state within six steps; each step is an
      arrow of the specification or an uncaught exception, and those
      exits only happen after the narrative phase; a build whose narrative
      failed never touched a store; with the diagram service of file
      [Renderer] the diagram phase always succeeds and a build whose
      narrative succeeded never crashes. *)

From S2P Require Import Prelude Python Encoder Ingestion Renderer Assembly Builder.
Local Open Scope py_scope.

(** ** The specification's machine (section 4.4 of the specification) *)

Inductive phase :=
| Created | NarrativeRequested | NarrativeReady | NarrativeFailed
| DiagramsRequested | DiagramsReady | Assembling | Completed | AssemblyFailed.

#[export] Instance phase_eq_dec : EqDecision phase.
Proof. solve_decision. Defined.

Inductive lc_step : relation phase :=
| lc_request : lc_step Created NarrativeRequested
| lc_narrative_ready : lc_step NarrativeRequested NarrativeReady
| lc_narrative_failed : lc_step NarrativeRequested NarrativeFailed
| lc_diagrams : lc_step NarrativeReady DiagramsRequested
| lc_diagrams_ready : lc_step DiagramsRequested DiagramsReady
| lc_assemble : lc_step DiagramsReady Assembling
| lc_completed : lc_step Assembling Completed
| lc_assembly_failed : lc_step Assembling AssemblyFailed.

#[export] Hint Constructors lc_step : docuagent.

Definition lc_terminal (p : phase) : bool :=
  match p with NarrativeFailed | Completed | AssemblyFailed => true | _ => false end.

(** ** The handler as a machine *)

(** What the handler holds between its blocks.  [BCrashed] is an
    uncaught exception (Flask's 500), a way out the specification's
    machine does not have. *)
Inductive bstate :=
| BCreated (data : json)                                  (** line 108 *)
| BNarrativeRequested (data : json)                       (** line 112 *)
| BNarrativeReady (data : json) (md : pystr)              (** line 130 *)
| BNarrativeFailed (r : build_response)                   (** lines 126, 129 *)
| BDiagramsRequested (data : json) (md : pystr)           (** line 134 *)
| BDiagramsReady (data : json) (md : pystr) (specs : list json)   (** line 150 *)
| BAssembling (doc : list block) (count : nat)            (** line 253 *)
| BCompleted (r : build_response)                         (** line 297 *)
| BAssemblyFailed                                         (** line 267 *)
| BCrashed.

Definition phase_of (s : bstate) : option phase :=
  match s with
  | BCreated _ => Some Created
  | BNarrativeRequested _ => Some NarrativeRequested
  | BNarrativeReady _ _ => Some NarrativeReady
  | BNarrativeFailed _ => Some NarrativeFailed
  | BDiagramsRequested _ _ => Some DiagramsRequested
  | BDiagramsReady _ _ _ => Some DiagramsReady
  | BAssembling _ _ => Some Assembling
  | BCompleted _ => Some Completed
  | BAssemblyFailed => Some AssemblyFailed
  | BCrashed => None
  end.

Definition bd_final (s : bstate) : bool :=
  match s with BNarrativeFailed _ | BCompleted _ | BAssemblyFailed | BCrashed => true | _ => false end.

(** The answer of a final state: [None] is the uncaught exception. *)
Definition bd_outcome (s : bstate) : option build_response :=
  match s with
  | BNarrativeFailed r | BCompleted r => Some r
  | BAssemblyFailed => Some BuildDocxFailed
  | _ => None
  end.

(** Continue with [k] on a result, or crash on an exception. *)
Definition crash_or {A} (k : A -> bstate) (r : option A * uml_world) : bstate * uml_world :=
  match r with (Some a, w') => (k a, w') | (None, w') => (BCrashed, w') end.

Section Machine.
Context `{NarrativeService} `{UmlService} `{ImageLib} `{ExportLib} (cfg : doc_config)
        (bid : pystr) (ts : nat) (today : pystr).

(** One block of [build_document] for the build id [bid], the save
    second [ts] and the date [today]; [None] on a final state. *)
Definition bd_next (s : bstate) (w : uml_world) : option (bstate * uml_world) :=
  match s with
  | BCreated data => Some (BNarrativeRequested data, w)
  | BNarrativeRequested data =>
      Some (match fetch_markdown data with
            | inl r => BNarrativeFailed r
            | inr md => BNarrativeReady data md
            end, w)
  | BNarrativeReady data md =>
      Some (if doc_disk_ok cfg (path_join (diagr_dir cfg) bid) then BDiagramsRequested data md
            else BCrashed, w)
  | BDiagramsRequested data md =>
      Some (crash_or (fun reply => BDiagramsReady data md (diagram_specs reply))
                     (uml_call (uml_request data bid) w))
  | BDiagramsReady data md specs =>
      Some (match project_title data with
            | None => (BCrashed, w)
            | Some title =>
                crash_or (fun dblocks => BAssembling (cover title today ++ md_blocks md ++ dblocks)
                                                     (length specs))
                         (on_doc (diagram_section cfg bid specs) w)
            end)
  | BAssembling doc n =>
      Some (crash_or (fun r => match r with BuildDocxFailed => BAssemblyFailed | _ => BCompleted r end)
                     (save_exports cfg ts doc n w))
  | _ => None
  end.

Definition bd_step : relation (bstate * uml_world) := fun x y => bd_next x.1 x.2 = Some y.

(** Run the machine for at most [fuel] steps. *)
Fixpoint bd_run (fuel : nat) (s : bstate) (w : uml_world) : bstate * uml_world :=
  match fuel with
  | O => (s, w)
  | S fuel' => match bd_next s w with Some (s', w') => bd_run fuel' s' w' | None => (s, w) end
  end.

End Machine.

(** The number of blocks left before a final state. *)
Definition bd_rank (s : bstate) : nat :=
  match s with
  | BCreated _ => 6
  | BNarrativeRequested _ => 5
  | BNarrativeReady _ _ => 4
  | BDiagramsRequested _ _ => 3
  | BDiagramsReady _ _ _ => 2
  | BAssembling _ _ => 1
  | _ => 0
  end.

(** ** The specification's machine *)

#[export] Hint Constructors rtc : docuagent.

(** The terminal phases are exactly the ones without an arrow out. *)
Lemma lc_terminal_nf p : lc_terminal p = true <-> nf lc_step p.
Proof.
  split.
  - intros Ht [q Hs]. by inversion Hs; subst.
  - destruct p; try done; intros Hnf; destruct Hnf; eexists; constructor.
Qed.

(** ** Steps of the handler *)

Section Steps.
Context `{NarrativeService} `{UmlService} `{ImageLib} `{ExportLib} (cfg : doc_config)
        (bid : pystr) (ts : nat) (today : pystr).

Local Abbreviation next := (bd_next cfg bid ts today).
Local Abbreviation step := (bd_step cfg bid ts today).

Lemma bd_final_rank s : bd_final s = true <-> bd_rank s = 0.
Proof. by destruct s. Qed.

Lemma bd_next_final s w : bd_final s = true -> next s w = None.
Proof. by destruct s. Qed.

Lemma crash_or_rank {A} (k : A -> bstate) r n :
  (forall a, bd_rank (k a) < n) -> 0 < n -> bd_rank (crash_or k r).1 < n.
Proof. destruct r as [[a|] w]; simpl; auto. Qed.

(** Every block of the handler moves towards a final state. *)
Lemma bd_next_rank s w y : next s w = Some y -> bd_rank y.1 < bd_rank s.
Proof.
  destruct s; simpl; try done; intros E; injection E as <-; repeat case_match; simpl; try lia;
    apply crash_or_rank; try lia; intros; repeat case_match; simpl; lia.
Qed.

(** Where a step leads: a block of the handler ends in the next state,
    or, from the narrative-ready state on, in an exception. *)
Lemma bd_next_cases s w y :
  next s w = Some y ->
  match phase_of y.1 with
  | Some p' => exists p, phase_of s = Some p /\ lc_step p p'
  | None => exists p, phase_of s = Some p /\ rtc lc_step NarrativeReady p /\ lc_terminal p = false
  end.
Proof.
  destruct s; simpl; try done; intros E; injection E as <-; unfold crash_or;
    repeat case_match; simplify_eq/=; eauto 10 with docuagent.
Qed.

(** The blocks before the diagram call. *)
Definition pre_uml (s : bstate) : bool :=
  match s with BCreated _ | BNarrativeRequested _ | BNarrativeReady _ _ | BNarrativeFailed _ => true | _ => false end.

Lemma bd_next_pre_uml s w y :
  next s w = Some y -> pre_uml y.1 = true -> pre_uml s = true /\ y.2 = w.
Proof.
  destruct s; simpl; try done; intros E; injection E as <-; unfold crash_or;
    repeat case_match; simplify_eq/=; done.
Qed.

Lemma bd_next_progress s w : bd_final s = false -> is_Some (next s w).
Proof. by destruct s. Qed.

Lemma bd_run_final fuel s w : bd_final s = true -> bd_run cfg bid ts today fuel s w = (s, w).
Proof. intros Hf. destruct fuel; simpl; [done|]. by rewrite bd_next_final. Qed.

(** A final state reached by the steps is what [bd_run] computes with
    fuel at least the rank: the machine is deterministic. *)
Lemma bd_run_rtc fuel x y :
  rtc step x y -> bd_final y.1 = true -> bd_rank x.1 <= fuel ->
  bd_run cfg bid ts today fuel x.1 x.2 = y.
Proof.
  intros Hr. revert fuel. induction Hr as [[s w]|[s w] z y Hs Hr IH]; intros fuel Hf Hle.
  - by apply bd_run_final.
  - pose proof (bd_next_rank s w z Hs) as Hlt. destruct fuel as [|fuel]; [simpl in *; lia|].
    simpl. unfold bd_step in Hs. simpl in Hs. rewrite Hs. destruct z as [s' w']. apply IH; [done|simpl in *; lia].
Qed.

Lemma bd_run_steps fuel s w : rtc step (s, w) (bd_run cfg bid ts today fuel s w).
Proof.
  revert s w. induction fuel as [|fuel IH]; intros s w; simpl; [done|].
  destruct (next s w) as [[s' w']|] eqn:E; [|done]. eapply rtc_l; [exact E|apply IH].
Qed.

(** The machine run from a new request computes the handler. *)
Lemma bd_run_build data w :
  let y := bd_run cfg bid ts today 6 (BCreated data) w in
  bd_final y.1 = true /\ build_document cfg data bid ts today w = (bd_outcome y.1, y.2).
Proof.
  unfold build_document. cbn [bd_run bd_next].
  destruct (fetch_markdown data) as [r|md]; cbn [bd_run bd_next]; [by rewrite ?bd_run_final|].
  destruct (doc_disk_ok _ _); cbn [bd_run bd_next negb]; [|by rewrite ?bd_run_final].
  rewrite stm_bind_run. destruct (uml_call _ w) as [[reply|] w1]; cbn [bd_run bd_next crash_or];
    [|by rewrite ?bd_run_final].
  destruct (project_title data) as [title|]; cbn [bd_run bd_next crash_or]; [|by rewrite ?bd_run_final].
  rewrite stm_bind_run. destruct (on_doc _ w1) as [[dblocks|] w2]; cbn [bd_run bd_next crash_or];
    [|by rewrite ?bd_run_final].
  destruct (save_exports _ _ _ _ w2) as [[[]|] w3]; cbn [bd_run bd_next crash_or]; by rewrite ?bd_run_final.
Qed.

End Steps.

(** ** Theorems of the lifecycle *)

Section Lifecycle_claims.
Context `{NarrativeService} `{UmlService} `{ImageLib} `{ExportLib} (cfg : doc_config)
        (bid : pystr) (ts : nat) (today : pystr).

(** The machine implements the handler: any final state the steps
    reach from a new request carries exactly the answer and the stores
    that [build_document] gives for that request. *)
Theorem build_document_lifecycle data w s w' :
  rtc (bd_step cfg bid ts today) (BCreated data, w) (s, w') -> bd_final s = true ->
  build_document cfg data bid ts today w = (bd_outcome s, w').
Proof.
  intros Hr Hf. destruct (bd_run_build cfg bid ts today data w) as [_ ->].
  pose proof (bd_run_rtc cfg bid ts today 6 _ _ Hr Hf (Nat.le_refl 6)) as E. cbn [fst snd] in E.
  by rewrite E.
Qed.

(** Liveness: from every state of a build the handler reaches a
    final state (an answer or an uncaught exception), within as many
    steps as the state's rank, at most six. *)
Theorem bd_terminates s w :
  exists n y, n <= bd_rank s /\ nsteps (bd_step cfg bid ts today) n (s, w) y /\ bd_final y.1 = true.
Proof.
  remember (bd_rank s) as k eqn:Ek. revert s w Ek.
  induction k as [k IH] using lt_wf_ind. intros s w ->.
  destruct (bd_final s) eqn:Ef; [exists 0, (s, w); split_and!; [lia|constructor|done]|].
  destruct (bd_next_progress cfg bid ts today s w Ef) as [[s' w'] E].
  pose proof (bd_next_rank cfg bid ts today s w _ E) as Hlt.
  destruct (IH (bd_rank s') Hlt s' w' eq_refl) as (n & y & Hn & Hs & Hy).
  exists (S n), y. split_and!; [simpl in *; lia|econstructor; [exact E|done]|done].
Qed.

(** Every phase a build passes through is reachable from [Created]
    in the specification's machine. *)
Theorem bd_reachable_phase data w s w' p :
  rtc (bd_step cfg bid ts today) (BCreated data, w) (s, w') -> phase_of s = Some p -> rtc lc_step Created p.
Proof.
  intros Hr. revert p. change s with (s, w').1. revert Hr. generalize (s, w'). clear s w'.
  apply (rtc_ind_r (fun y => forall p, phase_of y.1 = Some p -> rtc lc_step Created p)).
  - intros p [= <-]. constructor.
  - intros [s1 w1] [s2 w2] _ Hs IH p2 Hp2. pose proof (bd_next_cases cfg bid ts today s1 w1 (s2, w2) Hs) as Hc.
    simpl in *. rewrite Hp2 in Hc. destruct Hc as (p1 & Hp1 & Hl). by eapply rtc_r, Hl; apply IH.
Qed.

(** A build whose narrative phase failed has touched neither the
    diagram service's nor the builder's store: no diagram was attempted. *)
Theorem bd_narrative_failed_untouched data w r w' :
  rtc (bd_step cfg bid ts today) (BCreated data, w) (BNarrativeFailed r, w') -> w' = w.
Proof.
  intros Hr. change w' with (BNarrativeFailed r, w').2.
  assert (Hpre : pre_uml (BNarrativeFailed r, w').1 = true) by done.
  revert Hpre. revert Hr. generalize (BNarrativeFailed r, w'). clear r w'.
  apply (rtc_ind_r (fun y => pre_uml y.1 = true -> y.2 = w)); [done|].
  intros [s1 w1] [s2 w2] _ Hs IH Hpre.
  destruct (bd_next_pre_uml cfg bid ts today s1 w1 (s2, w2) Hs Hpre) as [Hp1 ->]. by apply IH.
Qed.

End Lifecycle_claims.

(** ** The lifecycle of the composed system *)

Section Exports_total.
Context `{ExportLib} (cfg : doc_config).

Lemma try_write_some p b w : exists ok w', try_write cfg p b w = (Some ok, w').
Proof. unfold try_write. case_match; eauto. Qed.

Lemma convert_pdf_some p content w : exists w', convert_pdf cfg p content w = (Some tt, w').
Proof.
  unfold convert_pdf. destruct (_ <? _); [|by eexists]. destruct (docx_to_pdf content) as [pdf|]; [|by eexists].
  rewrite stm_bind_run. destruct (try_write_some p pdf w) as (ok & w' & ->). by eexists.
Qed.

(** Saving the exports never raises: each failure is caught. *)
Lemma save_exports_some ts doc n w : is_Some (save_exports cfg ts doc n w).1.
Proof.
  unfold save_exports. rewrite stm_bind_run.
  destruct (try_write_some (export_path cfg (export_name ts ⟪".docx"⟫)) (docx_bytes doc) w)
    as ([] & w1 & ->); cbn [negb]; [|done].
  rewrite stm_bind_run. destruct (convert_pdf_some (export_path cfg (export_name ts ⟪".pdf"⟫)) (docx_bytes doc) w1)
    as (w2 & ->).
  rewrite stm_bind_run. destruct (try_write_some (export_path cfg (export_name ts ⟪".pptx"⟫)) empty_pptx w2)
    as (ok & w3 & ->).
  unfold exists_file. stm_simpl. done.
Qed.

End Exports_total.

Section System_lifecycle.
Context `{Deflate} (ucfg : uml_config) (dcfg : doc_config) `{!IngestEndpoint dcfg} `{UmlEnv}
        {NS : NarrativeService} {IL : ImageLib} {EL : ExportLib} (bid : pystr) (ts : nat) (today : pystr).

Local Abbreviation sstep := (@bd_step NS (renderer_service ucfg dcfg) IL EL dcfg bid ts today).

(** C12: With the diagram service of [Renderer], a build whose narrative
    is ready, whose build directory the disk accepts and whose cover
    title is a string never crashes: the diagram phase always succeeds,
    reaching [DiagramsReady] with the diagrams the service reported (none
    at all when every render failed), and the build ends [Completed] or
    [AssemblyFailed]. *)
Theorem bd_system_completes data md w :
  doc_disk_ok dcfg (path_join (diagr_dir dcfg) bid) = true -> is_Some (project_title data) ->
  let g := generate_uml_image ucfg dcfg (uml_request data bid) w in
  exists s w', rtc sstep (BNarrativeReady data md, w) (BDiagramsReady data md (map diagram_json (reported g.1)), g.2)
    /\ rtc sstep (BDiagramsReady data md (map diagram_json (reported g.1)), g.2) (s, w')
    /\ (phase_of s = Some Completed \/ phase_of s = Some AssemblyFailed).
Proof.
  intros Hd [title Ht] g. set (specs := map diagram_json (reported g.1)).
  destruct (diagram_section_total dcfg bid specs (doc_fs g.2)) as [dblocks Eds];
    [unfold specs; rewrite mapM_spec_fields; by eexists|].
  destruct (diagram_section dcfg bid specs (doc_fs g.2)) as [r fs2] eqn:E2; cbn [fst] in Eds; subst r.
  set (w2 := {| static_fs := static_fs g.2; doc_fs := fs2 |}).
  set (doc := cover title today ++ md_blocks md ++ dblocks).
  destruct (save_exports_some dcfg ts doc (length specs) w2) as [r Er].
  destruct (save_exports dcfg ts doc (length specs) w2) as [ro w3] eqn:E3; cbn [fst] in Er; subst ro.
  exists (match r with BuildDocxFailed => BAssemblyFailed | _ => BCompleted r end), w3. split_and!.
  - eapply rtc_l; [unfold bd_step; cbn [bd_next fst snd]; rewrite Hd; reflexivity|].
    apply rtc_once. unfold bd_step. cbn [bd_next fst snd]. rewrite renderer_call.
    cbn [crash_or]. by rewrite diagram_specs_http.
  - apply (rtc_l _ _ (BAssembling doc (length specs), w2)).
    + unfold bd_step. cbn [bd_next fst snd]. rewrite Ht. unfold on_doc. by rewrite E2.
    + apply rtc_once. unfold bd_step. cbn [bd_next fst snd]. by rewrite E3.
  - destruct r; auto.
Qed.

(** C11: With the diagram service of Uml.py, every step of the handler
    is an arrow of the specification's machine, except an uncaught
    exception (Flask's 500), which leaves only from three phases: from
    NarrativeReady (the disk refuses the build directory, line 133),
    from DiagramsReady (the cover title or a diagram record raises,
    lines 174-256) or from Assembling (a save raises, lines 258-297).
    The diagram request, inside its try block (lines 135-149), never
    ends the build. *)
Theorem bd_step_spec s w s' w' :
  sstep (s, w) (s', w') ->
  match phase_of s' with
  | Some p' => exists p, phase_of s = Some p /\ lc_step p p'
  | None => phase_of s = Some NarrativeReady \/ phase_of s = Some DiagramsReady \/ phase_of s = Some Assembling
  end.
Proof.
  intros Hs. pose proof (bd_next_cases dcfg bid ts today s w (s', w') Hs) as Hc. cbn [fst] in Hc.
  destruct (phase_of s') eqn:Ep; [done|]. unfold bd_step in Hs. cbn [fst snd] in Hs.
  destruct s; cbn [phase_of]; auto; exfalso; cbn [bd_next] in Hs; rewrite ?renderer_call in Hs;
    unfold crash_or in Hs; repeat case_match; simplify_eq/=.
Qed.

End System_lifecycle.

(** ** Concrete builds *)

Lemma build_document_lifecycle_witness :
  exists w', rtc (@bd_step (demo_narrative true) demo_uml_down demo_libs demo_exports demo_dcfg ⟪"b1"⟫ 7 ⟪"today"⟫)
                 (BCreated (demo_data demo_title), demo_world)
                 (BCompleted (BuildOk 0 (Some (export_name 7 ⟪".docx"⟫)) None (Some (export_name 7 ⟪".pptx"⟫))), w')
    /\ @build_document (demo_narrative true) demo_uml_down demo_libs demo_exports demo_dcfg
         (demo_data demo_title) ⟪"b1"⟫ 7 ⟪"today"⟫ demo_world
       = (Some (BuildOk 0 (Some (export_name 7 ⟪".docx"⟫)) None (Some (export_name 7 ⟪".pptx"⟫))), w').
Proof.
  pose proof (@bd_run_steps (demo_narrative true) demo_uml_down demo_libs demo_exports demo_dcfg ⟪"b1"⟫ 7
                ⟪"today"⟫ 6 (BCreated (demo_data demo_title)) demo_world) as Hr.
  destruct (bd_run _ _ _ _ _ _ _) as [s w'] eqn:E. apply (f_equal fst) in E. vm_compute in E. subst s.
  exists w'. split; [exact Hr|]. exact (build_document_lifecycle _ _ _ _ _ _ _ _ Hr eq_refl).
Defined.

Lemma bd_step_spec_witness :
  phase_of (BDiagramsReady (demo_data JNull) demo_md []) = Some NarrativeReady
  \/ phase_of (BDiagramsReady (demo_data JNull) demo_md []) = Some DiagramsReady
  \/ phase_of (BDiagramsReady (demo_data JNull) demo_md []) = Some Assembling.
Proof.
  exact (@bd_step_spec recorded_zlib demo_ucfg demo_dcfg _ (demo_env true) (demo_narrative true)
           demo_libs demo_exports ⟪"b1"⟫ 7 ⟪"today"⟫ (BDiagramsReady (demo_data JNull) demo_md []) demo_world
           BCrashed demo_world eq_refl).
Defined.

Lemma bd_reachable_phase_witness : rtc lc_step Created Assembling.
Proof.
  pose proof (@bd_run_steps (demo_narrative true) demo_uml_down demo_libs demo_exports demo_dcfg ⟪"b1"⟫ 7
                ⟪"today"⟫ 5 (BCreated (demo_data demo_title)) demo_world) as Hr.
  destruct (bd_run _ _ _ _ _ _ _) as [s w'] eqn:E. apply (f_equal fst) in E. vm_compute in E. subst s.
  exact (bd_reachable_phase _ _ _ _ _ _ _ _ _ Hr eq_refl).
Defined.

Lemma bd_narrative_failed_untouched_witness :
  (@bd_run (demo_narrative false) demo_uml_down demo_libs demo_exports demo_dcfg ⟪"b1"⟫ 7 ⟪"today"⟫ 6
     (BCreated (demo_data demo_title)) demo_world).2 = demo_world.
Proof.
  pose proof (@bd_run_steps (demo_narrative false) demo_uml_down demo_libs demo_exports demo_dcfg ⟪"b1"⟫ 7
                ⟪"today"⟫ 6 (BCreated (demo_data demo_title)) demo_world) as Hr.
  destruct (bd_run _ _ _ _ _ _ _) as [s w'] eqn:E. apply (f_equal fst) in E. vm_compute in E. subst s.
  exact (bd_narrative_failed_untouched _ _ _ _ _ _ _ _ Hr).
Defined.

Lemma bd_system_completes_witness :
  exists s w', rtc (@bd_step (demo_narrative true) (renderer_service (H := recorded_zlib) (H0 := demo_env true)
                               demo_ucfg demo_dcfg) demo_libs demo_exports demo_dcfg ⟪"b1"⟫ 7 ⟪"today"⟫)
                   (BNarrativeReady (demo_data demo_title) demo_md, demo_world) (s, w')
    /\ (phase_of s = Some Completed \/ phase_of s = Some AssemblyFailed).
Proof.
  destruct (@bd_system_completes recorded_zlib demo_ucfg demo_dcfg _ (demo_env true) (demo_narrative true)
              demo_libs demo_exports ⟪"b1"⟫ 7 ⟪"today"⟫ (demo_data demo_title) demo_md demo_world
              eq_refl (ex_intro _ _ eq_refl)) as (s & w' & H1 & H2 & H3).
  exists s, w'. split; [exact (rtc_trans _ _ _ H1 H2)|exact H3].
Defined.
