(* ===== verification/Endpoints.v ===== *)
(** * The document builder's other endpoints (src/Service/Docbuilder.py,
      lines 67-80 and 299-305)

    - [proxy_uml] is [POST /generate-uml]: it rebuilds a request of the
      three fields [build_id] (default ["default"]), [abstract] and
      [instructions] from the caller's JSON, forwards it to the diagram
      service's [/generate-uml-image] and answers that service's JSON and
      status.  The diagram service is the class [UmlService] of file
      [Builder]; with [renderer_service] the theorems are about the
      composed system.
    - [download_file] is [GET /download/<filetype>/<filename>]: the file
      [EXPORT_DIR/filename] when it exists, else 404.  [download_route]
      adds the routing of Flask's default URL converter, which matches a
      non-empty path segment without a slash; a URL it does not match is
      Flask's own 404.

    The theorems: the proxy is transparent (it answers and does what a
    direct call with the same JSON would); a proxied request without a
    build id pushes its images under the shared build id [default];
    every file a completed build names can be downloaded at once, with
    the bytes the build stored; a download reads the one file named,
    directly in the export directory, and changes nothing. *)

From S2P Require Import Prelude Python Encoder Ingestion Renderer Assembly Builder Lifecycle.
Local Open Scope py_scope.

(** ** [proxy_uml], lines 67-80 *)

(** The JSON the proxy forwards; [None] when the caller's JSON is not a
    dict ([payload.get] raises). *)
Definition proxy_request (payload : json) : option json :=
  b ← py_get payload ⟪"build_id"⟫ (JStr ⟪"default"⟫);
  a ← py_get payload ⟪"abstract"⟫ (JStr []);
  i ← py_get payload ⟪"instructions"⟫ (JStr []);
  Some (JObj [(⟪"build_id"⟫, b); (⟪"abstract"⟫, a); (⟪"instructions"⟫, i)]).

(** The answer: the service's status and JSON.  A request that raises
    ([requests] exceptions are not caught) or an answer that is not JSON
    ([resp.json()] raises) is an uncaught exception. *)
Definition proxy_uml `{UmlService} (payload : json) : stm uml_world (Z * json) :=
  match proxy_request payload with
  | None => throw
  | Some body =>
      r ← uml_call body;
      match r with
      | UmlReply status (Some b) => mret (status, b)
      | _ => throw
      end
  end.

(** ** [download_file], lines 299-305 *)

Inductive download_response :=
| DownloadFile (name : pystr) (content : bytes)   (** [send_file(full_path, as_attachment=True)] *)
| DownloadNotFound.                               (** 404 *)

(** Flask's default converter: a non-empty segment without a slash. *)
Definition url_segment (s : pystr) : bool :=
  bool_decide (s <> []) && bool_decide ("/"%char ∉ s).

Definition download_file (cfg : doc_config) (filetype filename : pystr) : stm uml_world download_response :=
  fun w =>
    match doc_fs w !! path_join (export_dir cfg) filename with
    | Some b => (Some (DownloadFile filename b), w)
    | None => (Some DownloadNotFound, w)
    end.

(** Line 300: the route, for a URL whose two last segments are given. *)
Definition download_route (cfg : doc_config) (filetype filename : pystr) : stm uml_world download_response :=
  if url_segment filetype && url_segment filename then download_file cfg filetype filename
  else mret DownloadNotFound.

(** The file names of a build's answer, lines 292-295. *)
Definition answer_files (r : build_response) : list pystr :=
  match r with
  | BuildOk _ docx pdf pptx => option_list docx ++ option_list pdf ++ option_list pptx
  | _ => []
  end.

(** ** Lemmas *)

Lemma proxy_request_dict kvs :
  proxy_request (JObj kvs)
  = Some (JObj [(⟪"build_id"⟫, default (JStr ⟪"default"⟫) (obj_lookup ⟪"build_id"⟫ kvs));
                (⟪"abstract"⟫, default (JStr []) (obj_lookup ⟪"abstract"⟫ kvs));
                (⟪"instructions"⟫, default (JStr []) (obj_lookup ⟪"instructions"⟫ kvs))]).
Proof. reflexivity. Qed.

Section Proxy.
Context `{Deflate} (ucfg : uml_config) (dcfg : doc_config) `{!IngestEndpoint dcfg} `{UmlEnv}.

Local Abbreviation proxy := (@proxy_uml (renderer_service ucfg dcfg)).

(** The forwarded JSON carries the caller's three fields. *)
Lemma proxy_uml_dict kvs w :
  proxy (JObj kvs) w
  = (match uml_http (generate_uml_image ucfg dcfg (JObj kvs) w).1 with
     | UmlReply st (Some b) => Some (st, b)
     | _ => None
     end, (generate_uml_image ucfg dcfg (JObj kvs) w).2).
Proof.
  unfold proxy_uml. rewrite proxy_request_dict, stm_bind_run, renderer_call.
  rewrite (generate_uml_image_fields ucfg dcfg _ kvs w) by reflexivity.
  by destruct (uml_http _) as [|st [b|]].
Qed.

End Proxy.

Lemma export_dir_last cfg : last (export_dir cfg) = Some "s"%char.
Proof. unfold export_dir. by rewrite path_join_last. Qed.

Lemma url_segment_path cfg f :
  url_segment f = true -> path_join (export_dir cfg) f = export_dir cfg ++ "/"%char :: f.
Proof.
  unfold url_segment. intros [_ Hf%bool_decide_eq_true_1]%andb_prop.
  pose proof (export_dir_last cfg) as Hl.
  apply path_join_sep; [by intros E; rewrite E in Hl|by rewrite Hl|].
  destruct f as [|c f]; [done|]. intros [= ->]. apply Hf. left.
Qed.

Lemma url_segment_export_name ts ext : "/"%char ∉ ext -> url_segment (export_name ts ext) = true.
Proof.
  intros He. unfold url_segment, export_name. rewrite bool_decide_true by done.
  apply bool_decide_true. rewrite !elem_of_app. pose proof (str_nat_no_slash ts). intros [Hc|[?|?]]; [|done|done].
  revert Hc. not_in_lit.
Qed.

(** The answer of [build_document] that names files comes from
    [save_exports]. *)
Lemma build_document_saved `{NarrativeService} `{UmlService} `{ImageLib} `{ExportLib} cfg data bid ts today w r w' :
  build_document cfg data bid ts today w = (Some r, w') ->
  answer_files r = [] \/ exists doc n w1, save_exports cfg ts doc n w1 = (Some r, w').
Proof.
  unfold build_document, fetch_markdown.
  destruct (md_request data) as [req|]; [|intros [= <- _]; by left].
  destruct (generate_doc_call req) as [|st t]; [intros [= <- _]; by left|].
  destruct (http_error st); [intros [= <- _]; by left|]. case_bool_decide; [intros [= <- _]; by left|].
  destruct (doc_disk_ok _ _); cbn [negb]; [|done].
  rewrite stm_bind_run. destruct (uml_call _ w) as [[reply|] w1]; [|done].
  destruct (project_title data); [|done]. rewrite stm_bind_run.
  destruct (on_doc _ w1) as [[dblocks|] w2]; [|done]. eauto.
Qed.

(** Every file the answer names is one of the three exports and exists
    when the answer is given. *)
Lemma save_exports_files `{ExportLib} cfg ts doc n w r w' :
  save_exports cfg ts doc n w = (Some r, w') ->
  Forall (fun f => (f = export_name ts ⟪".docx"⟫ \/ f = export_name ts ⟪".pdf"⟫ \/ f = export_name ts ⟪".pptx"⟫)
                   /\ is_Some (doc_fs w' !! export_path cfg f)) (answer_files r).
Proof.
  unfold save_exports. rewrite stm_bind_run.
  destruct (try_write_some cfg (export_path cfg (export_name ts ⟪".docx"⟫)) (docx_bytes doc) w)
    as ([] & w1 & ->); cbn [negb]; [|intros [= <- _]; constructor].
  rewrite stm_bind_run. destruct (convert_pdf_some cfg (export_path cfg (export_name ts ⟪".pdf"⟫)) (docx_bytes doc) w1)
    as (w2 & ->).
  rewrite stm_bind_run. destruct (try_write_some cfg (export_path cfg (export_name ts ⟪".pptx"⟫)) empty_pptx w2)
    as (ok & w3 & ->).
  unfold exists_file. stm_simpl. intros [= <- <-]. cbn [answer_files].
  repeat case_bool_decide; cbn [option_list option_rect app];
    repeat (apply Forall_cons; split; [split; [auto|assumption]|]); constructor.
Qed.

(** ** Theorems *)

Section Proxy_claims.
Context `{Deflate} (ucfg : uml_config) (dcfg : doc_config) `{!IngestEndpoint dcfg} `{UmlEnv}.

(** C15: The proxy is transparent: for a dict it answers the status and
    JSON that the diagram service answers to a direct call with the same
    JSON, with the same effect on both stores, and raises when that
    answer is Flask's error page; for any other JSON it raises before
    calling the service, changing nothing. *)
Theorem proxy_uml_transparent payload w :
  @proxy_uml (renderer_service ucfg dcfg) payload w
  = match payload with
    | JObj _ =>
        (match uml_http (generate_uml_image ucfg dcfg payload w).1 with
         | UmlReply st (Some b) => Some (st, b)
         | _ => None
         end, (generate_uml_image ucfg dcfg payload w).2)
    | _ => (None, w)
    end.
Proof. destruct payload; try reflexivity. apply proxy_uml_dict. Qed.

(** C18: A proxied request without a [build_id] renders under the build
    id [default]: every diagram the service reports is pushed to
    [DIAGR_DIR/default], the directory every other such request shares,
    when pushes land. *)
Theorem proxy_uml_default_build kvs w :
  obj_lookup ⟪"build_id"⟫ kvs = None -> (forall i j, deliver i j = true) ->
  (forall p, doc_disk_ok dcfg p = true) ->
  Forall (stored_for dcfg ⟪"default"⟫ (@proxy_uml (renderer_service ucfg dcfg) (JObj kvs) w).2)
         (reported (generate_uml_image ucfg dcfg (JObj kvs) w).1).
Proof.
  intros Hb Hd Hk. rewrite proxy_uml_dict. cbn [snd].
  set (body := [(⟪"build_id"⟫, JStr ⟪"default"⟫);
                (⟪"abstract"⟫, default (JStr []) (obj_lookup ⟪"abstract"⟫ kvs));
                (⟪"instructions"⟫, default (JStr []) (obj_lookup ⟪"instructions"⟫ kvs))]).
  rewrite <- (generate_uml_image_fields ucfg dcfg body kvs w)
    by (try (unfold same_build_id; cbn [py_get]; rewrite Hb); reflexivity).
  destruct (generate_uml_image ucfg dcfg (JObj body) w) as [[[ds| |]|] w'] eqn:E; try constructor.
  apply Forall_forall. intros d Hin. eapply (generate_stores ucfg dcfg (JObj body)); [reflexivity| |exact E|exact Hin].
  split_and!; [reflexivity|discriminate|done|done].
Qed.

End Proxy_claims.

(** C16: A download answers the file [EXPORT_DIR/filename] when it
    exists and 404 otherwise, whatever the [filetype] segment says; a
    name with a slash never reaches the handler, so no file of a
    subdirectory (the diagrams, another build's images) is served; and
    nothing is written. *)
Theorem download_route_spec cfg ft f w :
  download_route cfg ft f w
  = (Some (if url_segment ft && url_segment f then
             match doc_fs w !! (export_dir cfg ++ "/"%char :: f) with
             | Some b => DownloadFile f b
             | None => DownloadNotFound
             end
           else DownloadNotFound), w).
Proof.
  unfold download_route. destruct (url_segment ft), (url_segment f) eqn:Ef; try reflexivity.
  unfold download_file. rewrite url_segment_path by done. cbn [andb]. by destruct (doc_fs w !! _).
Qed.

(** C14: Round trip of a build and a download: every file a build's
    answer names can be downloaded right after it (under any file-type
    segment), and the download gives the bytes the build stored. *)
Theorem build_document_download `{NarrativeService} `{UmlService} `{ImageLib} `{ExportLib}
    cfg data bid ts today w r w' ft :
  build_document cfg data bid ts today w = (Some r, w') -> url_segment ft = true ->
  Forall (fun f => exists b, doc_fs w' !! export_path cfg f = Some b
                     /\ download_route cfg ft f w' = (Some (DownloadFile f b), w')) (answer_files r).
Proof.
  intros Hb Ht. destruct (build_document_saved cfg data bid ts today w r w' Hb) as [->|(doc & n & w1 & Hs)];
    [constructor|].
  eapply Forall_impl; [exact (save_exports_files cfg ts doc n w1 r w' Hs)|].
  intros f [Hf [b Eb]]. exists b. split; [done|].
  assert (Hu : url_segment f = true)
    by (destruct Hf as [->|[->| ->]]; apply url_segment_export_name, (bool_decide_unpack _); by vm_compute).
  unfold download_route. rewrite Ht, Hu. unfold download_file. cbn [andb]. unfold export_path in Eb. by rewrite Eb.
Qed.

(** ** Concrete requests *)

Lemma proxy_uml_default_build_witness :
  Forall (stored_for demo_dcfg ⟪"default"⟫
            (@proxy_uml (renderer_service (H := recorded_zlib) (H0 := demo_env true) demo_ucfg demo_dcfg)
               (JObj [(⟪"abstract"⟫, JStr ⟪"an online shop"⟫)]) demo_world).2)
         (reported (@generate_uml_image recorded_zlib demo_ucfg demo_dcfg _ (demo_env true)
                      (JObj [(⟪"abstract"⟫, JStr ⟪"an online shop"⟫)]) demo_world).1)
  /\ length (reported (@generate_uml_image recorded_zlib demo_ucfg demo_dcfg _ (demo_env true)
                        (JObj [(⟪"abstract"⟫, JStr ⟪"an online shop"⟫)]) demo_world).1) = 2.
Proof.
  split; [|vm_compute; reflexivity].
  apply (@proxy_uml_default_build recorded_zlib demo_ucfg demo_dcfg _ (demo_env true));
    [reflexivity|intros; reflexivity|intros; reflexivity].
Defined.

Lemma build_document_download_witness :
  match @build_document (demo_narrative true) demo_uml_down demo_libs demo_exports demo_dcfg
          (demo_data demo_title) ⟪"b1"⟫ 7 ⟪"today"⟫ demo_world with
  | (Some r, w') =>
      answer_files r = [export_name 7 ⟪".docx"⟫; export_name 7 ⟪".pptx"⟫]
      /\ Forall (fun f => exists b, doc_fs w' !! export_path demo_dcfg f = Some b
                    /\ download_route demo_dcfg ⟪"docx"⟫ f w' = (Some (DownloadFile f b), w')) (answer_files r)
  | _ => False
  end.
Proof.
  assert (Hr : (@build_document (demo_narrative true) demo_uml_down demo_libs demo_exports demo_dcfg
                  (demo_data demo_title) ⟪"b1"⟫ 7 ⟪"today"⟫ demo_world).1
               = Some (BuildOk 0 (Some (export_name 7 ⟪".docx"⟫)) None (Some (export_name 7 ⟪".pptx"⟫))))
    by (vm_compute; reflexivity).
  destruct (build_document _ _ _ _ _ _) as [[r|] w'] eqn:E; cbn [fst] in Hr; [|discriminate].
  injection Hr as ->. split; [reflexivity|].
  exact (build_document_download demo_dcfg _ _ _ _ _ _ _ ⟪"docx"⟫ E eq_refl).
Defined.
