(* ===== verification/Concurrency.v ===== *)
(** * Concurrent builds (section 5 of the specification)

    Two [POST /build-document] requests may run at the same time in the
    document builder, and their diagram services push into the same
    disk.  The specification promises that builds are isolated by their
    build id.  Here two builds are run as two instances of the machine of
    file [Lifecycle] over one shared pair of stores, interleaved step by
    step in any order ([inter_step]), with the diagram service of file
    [Renderer] and the ingestion endpoint of file [Ingestion].
    Against any services, every interleaving stops: each step lowers the
    sum of the two ranks of [Lifecycle] ([inter_terminates]).

    A build with id [bid] saving in second [ts] owns the files under
    [DIAGR_DIR/bid/] and the three exports [combined_{ts}.*] ([owned]).
    Each block of the handler writes only files it owns ([bd_next_frame])
    and reads only files it owns ([bd_next_local]); two builds with
    distinct ids that are one path segment each, saving in distinct
    seconds, own disjoint files ([owned_disjoint]).  Hence
    [concurrent_builds]: whatever the interleaving, each build answers
    what it answers alone, and its files at the end are the ones it
    writes alone.  The condition on the seconds cannot be dropped: the
    export names are per second (finding of [save_exports_stale_pdf]);
    nor the one on the ids, which [build_document] draws with
    [uuid.uuid4()]. *)

From S2P Require Import Prelude Python Encoder Planner Ingestion Renderer Assembly Builder Lifecycle Endpoints.
Local Open Scope py_scope.

(** ** The files a build owns *)

Definition export_exts : list pystr := [⟪".docx"⟫; ⟪".pdf"⟫; ⟪".pptx"⟫].

Definition owned (cfg : doc_config) (bid : pystr) (ts : nat) (p : pystr) : Prop :=
  (exists r, p = diagr_dir cfg ++ "/"%char :: bid ++ "/"%char :: r)
  \/ (exists e, e ∈ export_exts /\ p = export_path cfg (export_name ts e)).

(** Two disks agree on the files of [X]. *)
Definition agree_fs (X : pystr -> Prop) (fs1 fs2 : fsys) : Prop := forall p, X p -> fs1 !! p = fs2 !! p.

Definition agree (X : pystr -> Prop) (w1 w2 : uml_world) : Prop := agree_fs X (doc_fs w1) (doc_fs w2).

(** Going from [w] to [w'] changed no file outside [X]. *)
Definition frame_fs (X : pystr -> Prop) (fs fs' : fsys) : Prop := forall p, ~ X p -> fs' !! p = fs !! p.

Definition frame (X : pystr -> Prop) (w w' : uml_world) : Prop := frame_fs X (doc_fs w) (doc_fs w').

(** The diagram records a build may hold: those of the diagram service,
    whose types carry no slash. *)
Definition spec_clean (spec : json) : Prop :=
  exists d, spec = diagram_json d /\ "/"%char ∉ d_type d.

Definition state_ok (s : bstate) : Prop :=
  match s with BDiagramsReady _ _ specs => Forall spec_clean specs | _ => True end.

(** ** Two builds interleaved *)

Section Interleaving.
Context `{NarrativeService} `{UmlService} `{ImageLib} `{ExportLib} (cfg : doc_config)
        (today : pystr) (bid1 bid2 : pystr) (ts1 ts2 : nat).

Inductive inter_step : relation ((bstate * bstate) * uml_world) :=
| inter_left s1 s1' s2 w w' :
    bd_step cfg bid1 ts1 today (s1, w) (s1', w') -> inter_step ((s1, s2), w) ((s1', s2), w')
| inter_right s1 s2 s2' w w' :
    bd_step cfg bid2 ts2 today (s2, w) (s2', w') -> inter_step ((s1, s2), w) ((s1, s2'), w').

End Interleaving.

(** ** Every interleaving stops *)

Section Interleaving_termination.
Context `{NarrativeService} `{UmlService} `{ImageLib} `{ExportLib} (cfg : doc_config)
        (today : pystr) (bid1 bid2 : pystr) (ts1 ts2 : nat).

Local Abbreviation istep := (inter_step cfg today bid1 bid2 ts1 ts2).

Definition pair_rank (x : (bstate * bstate) * uml_world) : nat := bd_rank x.1.1 + bd_rank x.1.2.

Lemma inter_step_rank x y : istep x y -> pair_rank y < pair_rank x.
Proof.
  destruct 1 as [s1 s1' s2 w w' Hs|s1 s2 s2' w w' Hs]; apply bd_next_rank in Hs; unfold pair_rank; simpl in *; lia.
Qed.

Lemma inter_nsteps_rank n x y : nsteps istep n x y -> n + pair_rank y <= pair_rank x.
Proof. induction 1 as [|n x z y Hs _ IH]; [lia|]. apply inter_step_rank in Hs. lia. Qed.

Lemma inter_nf_final x : nf istep x -> bd_final x.1.1 = true /\ bd_final x.1.2 = true.
Proof.
  destruct x as [[s1 s2] w]. simpl. intros Hnf.
  destruct (bd_final s1) eqn:E1.
  2:{ destruct (bd_next_progress cfg bid1 ts1 today s1 w E1) as [[s' w'] E].
      destruct Hnf. eexists. by apply inter_left. }
  destruct (bd_final s2) eqn:E2; [done|].
  destruct (bd_next_progress cfg bid2 ts2 today s2 w E2) as [[s' w'] E].
  destruct Hnf. eexists. by apply inter_right.
Qed.

Lemma inter_final_nf x : bd_final x.1.1 = true -> bd_final x.1.2 = true -> nf istep x.
Proof.
  intros Hf1 Hf2 [y Hs]. destruct Hs as [s1 s1' s2 w w' Hs|s1 s2 s2' w w' Hs]; simpl in *;
    unfold bd_step in Hs; simpl in Hs; by rewrite bd_next_final in Hs.
Qed.

Lemma inter_reaches_nf x : exists y, rtc istep x y /\ nf istep y.
Proof.
  remember (pair_rank x) as k eqn:Ek. revert x Ek. induction k as [k IH] using lt_wf_ind. intros x ->.
  destruct (bd_final x.1.1) eqn:E1, (bd_final x.1.2) eqn:E2;
    [exists x; split; [constructor|by apply inter_final_nf]| | |].
  all: destruct x as [[s1 s2] w]; simpl in *.
  all: first [ destruct (bd_next_progress cfg bid2 ts2 today s2 w E2) as [[s' w'] E];
               assert (Hs : istep ((s1, s2), w) ((s1, s'), w')) by (by apply inter_right)
             | destruct (bd_next_progress cfg bid1 ts1 today s1 w E1) as [[s' w'] E];
               assert (Hs : istep ((s1, s2), w) ((s', s2), w')) by (by apply inter_left) ].
  all: destruct (IH _ (inter_step_rank _ _ Hs) _ eq_refl) as (y & Hr & Hy);
       exists y; split; [eapply rtc_l; [exact Hs|exact Hr]|exact Hy].
Qed.

End Interleaving_termination.

(** ** Regions *)

Section Regions.
Context (X : pystr -> Prop).

#[export] Instance agree_fs_equiv : Equivalence (agree_fs X).
Proof.
  split; [by intros fs p|intros fs1 fs2 H p Hp; by rewrite H|].
  intros fs1 fs2 fs3 H12 H23 p Hp. by rewrite H12, H23.
Qed.

#[export] Instance frame_fs_preorder : PreOrder (frame_fs X).
Proof. split; [by intros fs p|]. intros fs1 fs2 fs3 H12 H23 p Hp. by rewrite H23, H12. Qed.

#[export] Instance agree_equiv : Equivalence (agree X).
Proof.
  unfold agree. split; [intros w; reflexivity|intros w1 w2 H; by symmetry|].
  intros w1 w2 w3 H12 H23. by etrans.
Qed.

#[export] Instance frame_preorder : PreOrder (frame X).
Proof. unfold frame. split; [intros w; reflexivity|intros w1 w2 w3 H12 H23; by etrans]. Qed.

Lemma agree_fs_insert p v fs1 fs2 : agree_fs X fs1 fs2 -> agree_fs X (<[p := v]> fs1) (<[p := v]> fs2).
Proof.
  intros H q Hq. destruct (decide (p = q)) as [->|Hne].
  - by rewrite !lookup_insert_eq.
  - rewrite !lookup_insert_ne by done. by apply H.
Qed.

Lemma frame_fs_insert p v fs : X p -> frame_fs X fs (<[p := v]> fs).
Proof. intros Hp q Hq. rewrite lookup_insert_ne; [done|]. intros ->. by apply Hq. Qed.

(** A build's view survives the other build's writes. *)
Lemma agree_frame (Y : pystr -> Prop) w1 w w' :
  (forall p, X p -> Y p -> False) -> agree X w1 w -> frame Y w w' -> agree X w1 w'.
Proof. intros Hd Ha Hf p Hp. rewrite Ha by done. symmetry. apply Hf. intros Hy. by apply (Hd p). Qed.

(** Running on the builder's disk. *)
Lemma on_doc_sim {A} (m : stm fsys A) : stm_sim (agree_fs X) m m -> stm_sim (agree X) (on_doc m) (on_doc m).
Proof.
  intros Hm w1 w2 Hw. unfold on_doc. destruct (Hm (doc_fs w1) (doc_fs w2) Hw) as [E1 E2].
  destruct (m (doc_fs w1)), (m (doc_fs w2)). simpl in *. by subst.
Qed.

Lemma on_doc_keeps {A} (m : stm fsys A) : stm_keeps (frame_fs X) m -> stm_keeps (frame X) (on_doc m).
Proof. intros Hm w. unfold on_doc. specialize (Hm (doc_fs w)). by destruct (m (doc_fs w)). Qed.

End Regions.

Lemma clean_type_no_slash t : "/"%char ∉ clean_type t.
Proof.
  intros Hin. pose proof (clean_type_chars t) as Hc. rewrite Forall_forall in Hc.
  by specialize (Hc _ Hin).
Qed.

Lemma planned_types `{Deflate} (ucfg : uml_config) `{UmlEnv} specs :
  Forall (fun d => "/"%char ∉ d_type d) (planned_diagrams ucfg specs).
Proof.
  unfold planned_diagrams. apply Forall_flat_map, Forall_forall. intros [idx spec] _.
  unfold spec_diagrams. destruct (llm _ _); [|constructor].
  apply Forall_forall. intros d Hd. apply list_elem_of_omap in Hd as ([j uml] & _ & Hc).
  unfold candidate_result in Hc. repeat case_match; simplify_eq/=. apply clean_type_no_slash.
Qed.

(** ** The assembly reads and writes the build's own files *)

Section Assembly_regions.
Context `{ImageLib} (cfg : doc_config) (X : pystr -> Prop).

Lemma picture_blocks_sim img :
  X img -> X (safe_path img) -> stm_sim (agree_fs X) (picture_blocks cfg img) (picture_blocks cfg img).
Proof.
  intros Hi Hs fs1 fs2 Ha. unfold picture_blocks, sanitize_image. rewrite (Ha img Hi).
  destruct (fs2 !! img) as [b|]; [|done]. cbn [mbind option_bind].
  destruct (pil_png b) as [png|]; [|done]. destruct (doc_disk_ok cfg (safe_path img)); [|done].
  rewrite !lookup_insert_eq. split; [done|]. by apply agree_fs_insert.
Qed.

Lemma picture_blocks_keeps img : X (safe_path img) -> stm_keeps (frame_fs X) (picture_blocks cfg img).
Proof.
  intros Hs fs. unfold picture_blocks, sanitize_image.
  destruct (fs !! img) as [b|]; [|done]. cbn [mbind option_bind].
  destruct (pil_png b) as [png|]; [|done]. destruct (doc_disk_ok cfg (safe_path img)); [|done].
  destruct (<[_ := _]> fs !! _); by apply frame_fs_insert.
Qed.

Variable bid : pystr.

(** The records whose image and sanitised copy are in [X]. *)
Definition spec_in (spec : json) : Prop :=
  forall raw desc idxv, spec_fields spec = Some (raw, desc, idxv) ->
    X (spec_image_path cfg bid raw idxv) /\ X (safe_path (spec_image_path cfg bid raw idxv)).

Lemma spec_section_sim spec : spec_in spec -> stm_sim (agree_fs X) (spec_section cfg bid spec) (spec_section cfg bid spec).
Proof.
  intros Hin. unfold spec_section. destruct (spec_fields spec) as [[[raw desc] idxv]|] eqn:E;
    [|apply stm_sim_throw].
  destruct (Hin raw desc idxv E). apply stm_sim_bind; [by apply picture_blocks_sim|auto with docuagent].
Qed.

Lemma spec_section_keeps spec : spec_in spec -> stm_keeps (frame_fs X) (spec_section cfg bid spec).
Proof.
  intros Hin. unfold spec_section. destruct (spec_fields spec) as [[[raw desc] idxv]|] eqn:E;
    [|apply stm_keeps_throw; apply _].
  destruct (Hin raw desc idxv E). apply stm_keeps_bind; [apply _|by apply picture_blocks_keeps|].
  intros. apply stm_keeps_ret, _.
Qed.

Lemma diagram_section_sim specs :
  Forall spec_in specs -> stm_sim (agree_fs X) (diagram_section cfg bid specs) (diagram_section cfg bid specs).
Proof.
  intros Hs. assert (Hss : stm_sim (agree_fs X) (spec_sections cfg bid specs) (spec_sections cfg bid specs)).
  { induction Hs as [|spec specs Hspec Hs IH]; simpl; [auto with docuagent|].
    apply stm_sim_bind; [by apply spec_section_sim|intros; auto with docuagent]. }
  unfold diagram_section. destruct specs; auto with docuagent.
Qed.

Lemma diagram_section_keeps specs :
  Forall spec_in specs -> stm_keeps (frame_fs X) (diagram_section cfg bid specs).
Proof.
  intros Hs. assert (Hss : stm_keeps (frame_fs X) (spec_sections cfg bid specs)).
  { induction Hs as [|spec specs Hspec Hs IH]; simpl; [apply stm_keeps_ret, _|].
    apply stm_keeps_bind; [apply _|by apply spec_section_keeps|intros].
    apply stm_keeps_bind; [apply _|done|intros]. apply stm_keeps_ret, _. }
  unfold diagram_section. destruct specs; [apply stm_keeps_ret, _|].
  apply stm_keeps_bind; [apply _|done|intros]. apply stm_keeps_ret, _.
Qed.

End Assembly_regions.

(** ** Saving reads and writes the build's own exports *)

Section Export_regions.
Context `{ExportLib} (cfg : doc_config) (X : pystr -> Prop) (ts : nat).
Hypothesis Hx : forall e, e ∈ export_exts -> X (export_path cfg (export_name ts e)).

Lemma try_write_sim p b : stm_sim (agree X) (try_write cfg p b) (try_write cfg p b).
Proof.
  intros w1 w2 Ha. unfold try_write. destruct (doc_disk_ok cfg p); [|done].
  split; [done|]. by apply agree_fs_insert.
Qed.

Lemma try_write_keeps p b : X p -> stm_keeps (frame X) (try_write cfg p b).
Proof. intros Hp w. unfold try_write. destruct (doc_disk_ok cfg p); [|done]. by apply frame_fs_insert. Qed.

Lemma exists_file_sim p : X p -> stm_sim (agree X) (exists_file p) (exists_file p).
Proof. intros Hp w1 w2 Ha. unfold exists_file. simpl. by rewrite (Ha p Hp). Qed.

Lemma convert_pdf_sim p content : stm_sim (agree X) (convert_pdf cfg p content) (convert_pdf cfg p content).
Proof.
  unfold convert_pdf. destruct (_ <? _); [|auto with docuagent].
  destruct (docx_to_pdf content); [|auto with docuagent].
  apply stm_sim_bind; [apply try_write_sim|auto with docuagent].
Qed.

Lemma convert_pdf_keeps_frame p content : X p -> stm_keeps (frame X) (convert_pdf cfg p content).
Proof.
  intros Hp. unfold convert_pdf. destruct (_ <? _); [|apply stm_keeps_ret, _].
  destruct (docx_to_pdf content); [|apply stm_keeps_ret, _].
  apply stm_keeps_bind; [apply _|by apply try_write_keeps|intros; apply stm_keeps_ret, _].
Qed.

Lemma export_in e : e ∈ export_exts -> X (export_path cfg (export_name ts e)).
Proof. apply Hx. Qed.

Lemma save_exports_sim doc n : stm_sim (agree X) (save_exports cfg ts doc n) (save_exports cfg ts doc n).
Proof.
  unfold save_exports. apply stm_sim_bind; [apply try_write_sim|intros [|]; cbn [negb]]; [|auto with docuagent].
  apply stm_sim_bind; [apply convert_pdf_sim|intros _].
  apply stm_sim_bind; [apply try_write_sim|intros _].
  repeat (apply stm_sim_bind; [apply exists_file_sim, export_in; repeat constructor|intros ?]).
  auto with docuagent.
Qed.

Lemma save_exports_keeps doc n : stm_keeps (frame X) (save_exports cfg ts doc n).
Proof.
  unfold save_exports. apply stm_keeps_bind; [apply _|apply try_write_keeps, export_in; repeat constructor|].
  intros [|]; [|apply stm_keeps_ret, _]. cbn [negb].
  apply stm_keeps_bind; [apply _|apply convert_pdf_keeps_frame, export_in; repeat constructor|intros _].
  apply stm_keeps_bind; [apply _|apply try_write_keeps, export_in; repeat constructor|intros _].
  unfold exists_file. repeat (apply stm_keeps_bind; [apply _|intros w; simpl; reflexivity|intros ?]).
  apply stm_keeps_ret, _.
Qed.

End Export_regions.

(** ** The diagram service writes only under the build's directory *)

Lemma ingest_diagram_agree cfg X f up fs1 fs2 :
  agree_fs X fs1 fs2 -> agree_fs X (ingest_diagram cfg f up fs1).2 (ingest_diagram cfg f up fs2).2.
Proof.
  intros Ha. unfold ingest_diagram. destruct (form_fields f) as [[[b t] i]|]; [|done].
  destruct up as [u|]; [|done]. case_bool_decide; [done|].
  destruct (doc_disk_ok cfg _); [|done]. by apply agree_fs_insert.
Qed.

Lemma ingest_diagram_frame cfg X f up fs :
  (forall b t i, form_fields f = Some (b, t, i) -> X (diagram_path cfg b t i)) ->
  frame_fs X fs (ingest_diagram cfg f up fs).2.
Proof.
  intros Hx. pose proof (ingest_diagram_effect cfg f up fs) as He.
  destruct (ingest_diagram cfg f up fs) as [[[p| |]|] fs'];
    try (simpl; rewrite He; reflexivity).
  destruct He as (u & b & t & i & _ & Ef & -> & ->). by apply frame_fs_insert, Hx.
Qed.

Section Renderer_regions.
Context `{Deflate} (ucfg : uml_config) (dcfg : doc_config) `{UmlEnv} (X : pystr -> Prop).

Lemma push_sim idx j f u : stm_sim (agree X) (push dcfg idx j f u) (push dcfg idx j f u).
Proof.
  intros w1 w2 Ha. unfold push. destruct (deliver idx j); [|done].
  split; [done|]. by apply ingest_diagram_agree.
Qed.

Lemma render_candidate_sim p idx t d j uml :
  stm_sim (agree X) (render_candidate ucfg dcfg p idx t d j uml) (render_candidate ucfg dcfg p idx t d j uml).
Proof.
  unfold render_candidate. destruct (plantuml_encode uml); [|auto with docuagent].
  destruct (image_ok _); [|auto with docuagent]. destruct (uml_disk_ok _ _); [|auto with docuagent].
  apply stm_sim_bind; [by intros w1 w2 Ha|intros _].
  apply stm_sim_bind; [destruct (py_get _ _ _); [apply push_sim|auto with docuagent]|auto with docuagent].
Qed.

Lemma render_specs_sim p specs :
  stm_sim (agree X) (render_specs ucfg dcfg p specs) (render_specs ucfg dcfg p specs).
Proof.
  induction specs as [|[idx spec] specs IH]; simpl; [auto with docuagent|].
  apply stm_sim_bind; [|auto with docuagent]. unfold render_spec. destruct (llm _ _) as [resp|]; [|auto with docuagent].
  generalize (enumerate1 (fenced_blocks resp)). intros blocks.
  induction blocks as [|[j uml] blocks IHb]; simpl; [auto with docuagent|].
  apply stm_sim_bind; [apply render_candidate_sim|auto with docuagent].
Qed.

Lemma generate_uml_image_sim body :
  stm_sim (agree X) (generate_uml_image ucfg dcfg body) (generate_uml_image ucfg dcfg body).
Proof.
  unfold generate_uml_image. apply stm_sim_bind; [apply str_field_sim|intros a].
  apply stm_sim_bind; [apply str_field_sim|intros _].
  destruct (plan_phase _); auto using render_specs_sim with docuagent.
Qed.

Variable bid : pystr.
Hypothesis Hbid : bid <> [].
Hypothesis HX : forall s j, X (diagram_path dcfg bid (clean_type s) (str_nat j)).

Lemma render_candidate_keeps p idx s d j uml :
  py_get p ⟪"build_id"⟫ (JStr ⟪"default"⟫) = Some (JStr bid) ->
  stm_keeps (frame X) (render_candidate ucfg dcfg p idx (clean_type s) d j uml).
Proof.
  intros Hp. unfold render_candidate. destruct (plantuml_encode uml); [|apply stm_keeps_throw, _].
  destruct (image_ok _); [|apply stm_keeps_ret, _]. destruct (uml_disk_ok _ _); [|apply stm_keeps_ret, _].
  apply stm_keeps_bind; [apply _|intros w q _; reflexivity|intros _]. rewrite Hp.
  apply stm_keeps_bind; [apply _| |intros _; apply stm_keeps_ret, _].
  intros w. unfold push. destruct (deliver idx j); [|reflexivity]. apply ingest_diagram_frame.
  intros b t i. rewrite form_fields_ingest_form by done. intros [= <- <- <-]. apply HX.
Qed.

Lemma render_specs_keeps p specs :
  py_get p ⟪"build_id"⟫ (JStr ⟪"default"⟫) = Some (JStr bid) ->
  stm_keeps (frame X) (render_specs ucfg dcfg p specs).
Proof.
  intros Hp. induction specs as [|[idx spec] specs IH]; simpl; [apply stm_keeps_ret, _|].
  apply stm_keeps_bind; [apply _| |intros; apply stm_keeps_bind; [apply _|done|intros; apply stm_keeps_ret, _]].
  unfold render_spec. destruct (llm _ _) as [resp|]; [|apply stm_keeps_ret, _].
  generalize (enumerate1 (fenced_blocks resp)). intros blocks.
  induction blocks as [|[j uml] blocks IHb]; simpl; [apply stm_keeps_ret, _|].
  apply stm_keeps_bind; [apply _|by apply render_candidate_keeps|intros].
  apply stm_keeps_bind; [apply _|done|intros; apply stm_keeps_ret, _].
Qed.

Lemma generate_uml_image_keeps data :
  stm_keeps (frame X) (generate_uml_image ucfg dcfg (uml_request data bid)).
Proof.
  unfold generate_uml_image. assert (Ht : truthy (uml_request data bid) = true) by reflexivity. rewrite Ht.
  apply stm_keeps_bind; [apply _|intros w; unfold str_field; by destruct (py_get _ _ _) as [[]|]|intros a].
  apply stm_keeps_bind; [apply _|intros w; unfold str_field; by destruct (py_get _ _ _) as [[]|]|intros _].
  destruct (plan_phase _); [apply stm_keeps_ret, _|apply stm_keeps_ret, _|].
  apply stm_keeps_bind; [apply _|by apply render_specs_keeps|intros; apply stm_keeps_ret, _].
Qed.

End Renderer_regions.

(** ** The files of one build *)

Section Owned.
Context (cfg : doc_config) (bid : pystr) (ts : nat).
Hypothesis Hbid : safe_id bid.

Lemma owned_diagram_path t i : "/"%char ∉ t -> owned cfg bid ts (diagram_path cfg bid t i).
Proof.
  intros Ht. rewrite diagram_path_layout by (done || (destruct t; [done|]; intros [= ->]; apply Ht; left)).
  left. by eexists.
Qed.

Lemma diagram_file_no_slash t i : "/"%char ∉ t -> "/"%char ∉ i -> "/"%char ∉ diagram_file t i.
Proof.
  intros Ht Hi. unfold diagram_file. rewrite !elem_of_app. intros [?|[Hu|[?|Hp]]]; [done| |done|];
    revert Hu || revert Hp; not_in_lit.
Qed.

Lemma build_dir_last : diagr_dir cfg ++ "/"%char :: bid <> [] /\ last (diagr_dir cfg ++ "/"%char :: bid) <> Some "/"%char.
Proof.
  destruct Hbid as [Hne Hs]. split; [by destruct (diagr_dir cfg)|].
  rewrite last_app_cons, last_cons. destruct (last bid) as [x|] eqn:E; [|by apply last_None in E].
  apply last_Some in E as [b' ->]. intros [= ->]. apply Hs. set_solver.
Qed.

Lemma owned_spec spec : spec_clean spec -> spec_in cfg (owned cfg bid ts) bid spec.
Proof.
  intros (d & -> & Hd) raw desc idxv E. rewrite spec_fields_diagram_json in E. injection E as <- <- <-.
  rewrite spec_image_path_diagram. split; [by apply owned_diagram_path|].
  rewrite diagram_path_layout by (done || (destruct (d_type d); [done|]; intros [= ->]; apply Hd; left)).
  replace (diagr_dir cfg ++ "/"%char :: bid ++ "/"%char :: diagram_file (d_type d) (str_nat (d_index d)))
    with ((diagr_dir cfg ++ "/"%char :: bid) ++ "/"%char :: diagram_file (d_type d) (str_nat (d_index d)))
    by (by rewrite <- app_assoc).
  destruct build_dir_last as [H1 H2].
  rewrite safe_path_shape by (done || apply diagram_file_no_slash, str_nat_no_slash; done).
  left. eexists. by rewrite <- app_assoc.
Qed.

Lemma owned_export e : e ∈ export_exts -> owned cfg bid ts (export_path cfg (export_name ts e)).
Proof. intros He. right. eauto. Qed.

End Owned.

(** ** One build's steps are local *)

Lemma crash_or_snd {A} (k : A -> bstate) r : (crash_or k r).2 = r.2.
Proof. by destruct r as [[]]. Qed.

Lemma crash_or_sim {A} (R : uml_world -> uml_world -> Prop) (m : stm uml_world A) k w1 w2 :
  stm_sim R m m -> R w1 w2 ->
  (crash_or k (m w1)).1 = (crash_or k (m w2)).1 /\ R (crash_or k (m w1)).2 (crash_or k (m w2)).2.
Proof.
  intros Hm Hw. destruct (Hm w1 w2 Hw) as [E1 E2].
  destruct (m w1) as [r1 w1'], (m w2) as [r2 w2']. simpl in *. subst. by destruct r2.
Qed.

Lemma reported_clean `{Deflate} (ucfg : uml_config) (dcfg : doc_config) `{UmlEnv} body w :
  Forall (fun d => "/"%char ∉ d_type d) (reported (generate_uml_image ucfg dcfg body w).1).
Proof.
  rewrite generate_uml_image_spec. destruct (request_abstract body); simpl; [|constructor].
  unfold uml_spec. destruct (plan_phase _); simpl; [constructor|constructor|apply planned_types].
Qed.

Section Local_steps.
Context `{Deflate} (ucfg : uml_config) (dcfg : doc_config) `{UmlEnv}
        {NS : NarrativeService} {IL : ImageLib} {EL : ExportLib} (today bid : pystr) (ts : nat).
Hypothesis Hbid : safe_id bid.

Local Abbreviation next := (@bd_next NS (renderer_service ucfg dcfg) IL EL dcfg bid ts today).
Local Abbreviation own := (owned dcfg bid ts).

Lemma bd_next_state_ok s w y : next s w = Some y -> state_ok y.1.
Proof.
  destruct s; cbn [bd_next]; try done; intros E; apply Some_inj in E; subst.
  - done.
  - by destruct (fetch_markdown data).
  - by destruct (doc_disk_ok _ _).
  - rewrite renderer_call. cbn [crash_or fst]. rewrite diagram_specs_http.
    apply Forall_map. eapply Forall_impl; [apply reported_clean|]. intros d Hd. by exists d.
  - destruct (project_title data); [|done]. unfold crash_or. by destruct (on_doc _ _) as [[]].
  - unfold crash_or. by destruct (save_exports _ _ _ _ _) as [[[]|] ?].
Qed.

Lemma bd_next_frame s w y : state_ok s -> next s w = Some y -> frame own w y.2.
Proof.
  intros Hs. destruct s; cbn [bd_next]; try done; intros E; apply Some_inj in E; subst; try reflexivity.
  - rewrite crash_or_snd, renderer_call. cbn [snd].
    apply (generate_uml_image_keeps ucfg dcfg own bid); [apply Hbid|].
    intros t j. apply owned_diagram_path; [done|apply clean_type_no_slash].
  - destruct (project_title data); [|reflexivity]. rewrite crash_or_snd.
    apply on_doc_keeps, diagram_section_keeps. eapply Forall_impl; [exact Hs|]. intros. by apply owned_spec.
  - rewrite crash_or_snd. apply save_exports_keeps. intros. by apply owned_export.
Qed.

Lemma bd_next_local s w1 w2 y1 :
  state_ok s -> agree own w1 w2 -> next s w1 = Some y1 ->
  exists y2, next s w2 = Some y2 /\ y2.1 = y1.1 /\ agree own y1.2 y2.2.
Proof.
  intros Hs Ha. destruct s; cbn [bd_next]; try done; intros E; apply Some_inj in E; subst; eexists; split_and!;
    try reflexivity; try (cbn [snd]; exact Ha).
  - symmetry. apply (crash_or_sim (agree own)); [|done].
    intros v1 v2 Hv. rewrite !renderer_call. cbn [fst snd].
    destruct (generate_uml_image_sim ucfg dcfg own (uml_request data bid) v1 v2 Hv) as [E1 E2].
    by rewrite E1.
  - apply (crash_or_sim (agree own)); [|done].
    intros v1 v2 Hv. rewrite !renderer_call. cbn [fst snd].
    destruct (generate_uml_image_sim ucfg dcfg own (uml_request data bid) v1 v2 Hv) as [E1 E2].
    by rewrite E1.
  - destruct (project_title data); [|done]. symmetry. apply (crash_or_sim (agree own)); [|done].
    apply on_doc_sim, diagram_section_sim. eapply Forall_impl; [exact Hs|]. intros. by apply owned_spec.
  - destruct (project_title data); [|done]. apply (crash_or_sim (agree own)); [|done].
    apply on_doc_sim, diagram_section_sim. eapply Forall_impl; [exact Hs|]. intros. by apply owned_spec.
  - symmetry. apply (crash_or_sim (agree own)); [|done]. apply save_exports_sim. intros. by apply owned_export.
  - apply (crash_or_sim (agree own)); [|done]. apply save_exports_sim. intros. by apply owned_export.
Qed.

End Local_steps.

(** ** Two builds own disjoint files *)

Lemma diagr_dir_export cfg : diagr_dir cfg = export_dir cfg ++ "/"%char :: ⟪"diagrams"⟫.
Proof.
  unfold diagr_dir. apply path_join_sep; [|by rewrite export_dir_last|done].
  intros E. pose proof (export_dir_last cfg) as Hl. by rewrite E in Hl.
Qed.

Lemma export_path_shape cfg ts e : export_path cfg (export_name ts e) = export_dir cfg ++ "/"%char :: export_name ts e.
Proof.
  unfold export_path. apply path_join_sep; [|by rewrite export_dir_last|apply head_export_name].
  intros E. pose proof (export_dir_last cfg) as Hl. by rewrite E in Hl.
Qed.

Lemma export_name_inj ts1 ts2 e1 e2 :
  e1 ∈ export_exts -> e2 ∈ export_exts -> export_name ts1 e1 = export_name ts2 e2 -> ts1 = ts2.
Proof.
  intros H1 H2 E. unfold export_name in E. apply app_inv_head in E.
  assert (Hd : forall e, e ∈ export_exts -> exists e', e = "."%char :: e').
  { intros e He. repeat (apply elem_of_cons in He as [->|He]; [eexists; reflexivity|]). by apply not_elem_of_nil in He. }
  destruct (Hd e1 H1) as [e1' ->], (Hd e2 H2) as [e2' ->].
  apply sep_prefix_inj in E as [E _]; [by apply str_nat_inj|apply str_nat_no_dot..].
Qed.

Lemma owned_disjoint cfg b1 b2 ts1 ts2 p :
  safe_id b1 -> safe_id b2 -> b1 <> b2 -> ts1 <> ts2 ->
  owned cfg b1 ts1 p -> owned cfg b2 ts2 p -> False.
Proof.
  intros Hb1 Hb2 Hb Ht [[r1 ->]|(e1 & He1 & ->)] [[r2 E]|(e2 & He2 & E)].
  - apply app_inv_head in E. injection E as E. apply slash_prefix_inj in E as [E _]; [done|apply Hb1|apply Hb2].
  - rewrite export_path_shape, diagr_dir_export, <- app_assoc in E. apply app_inv_head in E. discriminate E.
  - rewrite export_path_shape, diagr_dir_export, <- app_assoc in E. apply app_inv_head in E. discriminate E.
  - apply Ht. unfold export_path in E. apply path_join_inj_r in E; [|apply head_export_name..].
    exact (export_name_inj _ _ _ _ He1 He2 E).
Qed.

(** ** Interleaving *)

Section Concurrent.
Context `{Deflate} (ucfg : uml_config) (dcfg : doc_config) `{UmlEnv}
        {NS : NarrativeService} {IL : ImageLib} {EL : ExportLib} (today : pystr).

Local Abbreviation step b t := (@bd_step NS (renderer_service ucfg dcfg) IL EL dcfg b t today).
Local Abbreviation build := (@build_document NS (renderer_service ucfg dcfg) IL EL dcfg).

(** Where a build stands in the interleaving: its solo run from [w0]
    reaches the same state, with the same files it owns. *)
Definition tracked (b : pystr) (t : nat) (w0 : uml_world) (d : json) (s : bstate) (w : uml_world) : Prop :=
  exists ws, rtc (step b t) (BCreated d, w0) (s, ws) /\ state_ok s /\ agree (owned dcfg b t) ws w.

Lemma tracked_start b t w0 d : tracked b t w0 d (BCreated d) w0.
Proof. exists w0. split_and!; [constructor|done|reflexivity]. Qed.

(** A step of the build itself keeps it tracked and writes only its
    files. *)
Lemma tracked_step b t w0 d s w s' w' :
  safe_id b -> tracked b t w0 d s w -> step b t (s, w) (s', w') ->
  tracked b t w0 d s' w' /\ frame (owned dcfg b t) w w'.
Proof.
  intros Hb (ws & Hr & Hs & Ha) Hst. unfold bd_step in Hst. cbn [fst snd] in Hst.
  split; [|exact (bd_next_frame ucfg dcfg today b t Hb s w (s', w') Hs Hst)].
  destruct (bd_next_local ucfg dcfg today b t Hb s w ws (s', w') Hs (symmetry Ha) Hst)
    as ([s2 ws'] & E & E1 & Ha'). cbn [fst snd] in E1, Ha'. subst s2.
  exists ws'. split_and!; [eapply rtc_r; [exact Hr|exact E]| |by symmetry].
  exact (bd_next_state_ok ucfg dcfg today b t s ws (s', ws') E).
Qed.

(** A step of the other build keeps it tracked. *)
Lemma tracked_other b t b' t' w0 d s w w' :
  safe_id b -> safe_id b' -> b <> b' -> t <> t' ->
  tracked b t w0 d s w -> frame (owned dcfg b' t') w w' -> tracked b t w0 d s w'.
Proof.
  intros Hb Hb' Hne Ht (ws & Hr & Hs & Ha) Hf. exists ws. split_and!; [done|done|].
  eapply agree_frame; [|exact Ha|exact Hf]. intros p. by apply owned_disjoint.
Qed.

(** The answer of a tracked final state is the build's answer alone. *)
Lemma tracked_final b t w0 d s w :
  tracked b t w0 d s w -> bd_final s = true ->
  (build d b t today w0).1 = bd_outcome s /\ agree (owned dcfg b t) (build d b t today w0).2 w.
Proof.
  intros (ws & Hr & _ & Ha) Hf.
  destruct (@bd_run_build NS (renderer_service ucfg dcfg) IL EL dcfg b t today d w0) as [_ ->].
  pose proof (@bd_run_rtc NS (renderer_service ucfg dcfg) IL EL dcfg b t today 6 _ _ Hr Hf (Nat.le_refl 6)) as E.
  cbn [fst snd] in E.
  rewrite E. by split.
Qed.

Lemma rtc_inter_left b1 b2 t1 t2 s1 s2 w y :
  rtc (step b1 t1) (s1, w) y ->
  rtc (@inter_step NS (renderer_service ucfg dcfg) IL EL dcfg today b1 b2 t1 t2) ((s1, s2), w) ((y.1, s2), y.2).
Proof.
  intros Hr. remember (s1, w) as x eqn:Ex. revert s1 w Ex.
  induction Hr as [x|x z y Hs Hr IH]; intros s1 w ->; [constructor|].
  destruct z as [s' w']. eapply rtc_l; [by constructor|]. by apply IH.
Qed.

Lemma rtc_inter_right b1 b2 t1 t2 s1 s2 w y :
  rtc (step b2 t2) (s2, w) y ->
  rtc (@inter_step NS (renderer_service ucfg dcfg) IL EL dcfg today b1 b2 t1 t2) ((s1, s2), w) ((s1, y.1), y.2).
Proof.
  intros Hr. remember (s2, w) as x eqn:Ex. revert s2 w Ex.
  induction Hr as [x|x z y Hs Hr IH]; intros s2 w ->; [constructor|].
  destruct z as [s' w']. eapply rtc_l; [by constructor|]. by apply IH.
Qed.

Lemma inter_tracked b1 b2 t1 t2 w0 d1 d2 x y :
  safe_id b1 -> safe_id b2 -> b1 <> b2 -> t1 <> t2 ->
  rtc (@inter_step NS (renderer_service ucfg dcfg) IL EL dcfg today b1 b2 t1 t2) x y ->
  tracked b1 t1 w0 d1 x.1.1 x.2 /\ tracked b2 t2 w0 d2 x.1.2 x.2 ->
  tracked b1 t1 w0 d1 y.1.1 y.2 /\ tracked b2 t2 w0 d2 y.1.2 y.2.
Proof.
  intros Hb1 Hb2 Hne Ht Hr. induction Hr as [x|x z y Hs Hr IH]; [done|]. intros [T1 T2]. apply IH.
  destruct Hs as [s1 s1' s2 w w' Hs|s1 s2 s2' w w' Hs]; cbn [fst snd] in *.
  - destruct (tracked_step _ _ _ _ _ _ _ _ Hb1 T1 Hs) as [T1' Hf]. split; [done|].
    by eapply tracked_other; [| | |exact (not_eq_sym Ht)| |exact Hf].
  - destruct (tracked_step _ _ _ _ _ _ _ _ Hb2 T2 Hs) as [T2' Hf]. split; [|done].
    by eapply tracked_other; [| | |exact Ht| |exact Hf].
Qed.

End Concurrent.

(** ** The theorem *)

Section Termination_claims.
Context `{NarrativeService} `{UmlService} `{ImageLib} `{ExportLib} (cfg : doc_config)
        (today : pystr) (bid1 bid2 : pystr) (ts1 ts2 : nat).

(** Two builds interleaved over the shared stores, against any
    services, always stop: every step lowers the sum of the two ranks,
    so no interleaving has more than [bd_rank s1 + bd_rank s2] steps
    (twelve from two new requests); an interleaving can stop only when
    both builds are final; and from every pair of states such a stop is
    reached. *)
Theorem inter_terminates s1 s2 w :
  (forall n y, nsteps (inter_step cfg today bid1 bid2 ts1 ts2) n ((s1, s2), w) y -> n <= bd_rank s1 + bd_rank s2)
  /\ (forall y, nf (inter_step cfg today bid1 bid2 ts1 ts2) y -> bd_final y.1.1 = true /\ bd_final y.1.2 = true)
  /\ exists y, rtc (inter_step cfg today bid1 bid2 ts1 ts2) ((s1, s2), w) y
             /\ bd_final y.1.1 = true /\ bd_final y.1.2 = true.
Proof.
  split_and!.
  - intros n y Hn. apply (inter_nsteps_rank cfg today bid1 bid2 ts1 ts2) in Hn.
    unfold pair_rank in Hn. simpl in Hn. lia.
  - apply (inter_nf_final cfg today bid1 bid2 ts1 ts2).
  - destruct (inter_reaches_nf cfg today bid1 bid2 ts1 ts2 ((s1, s2), w)) as (y & Hr & Hy).
    exists y. split; [done|]. by apply (inter_nf_final cfg today bid1 bid2 ts1 ts2).
Qed.

End Termination_claims.

Section Concurrent_claims.
Context `{Deflate} (ucfg : uml_config) (dcfg : doc_config) `{UmlEnv}
        {NS : NarrativeService} {IL : ImageLib} {EL : ExportLib} (today : pystr).

Local Abbreviation build := (@build_document NS (renderer_service ucfg dcfg) IL EL dcfg).

(** C13: Build isolation under interleaving.  Two builds with distinct
    ids that are one path segment each, saving in distinct seconds, run
    interleaved step by step in any order over the shared stores, with
    the diagram service of [Renderer]: when both have finished, each has
    the answer it has when run alone from the same stores, and the files
    it owns (its diagram directory and its exports) hold what its solo
    run leaves there. *)
Theorem concurrent_builds bid1 bid2 ts1 ts2 d1 d2 w s1 s2 w' :
  safe_id bid1 -> safe_id bid2 -> bid1 <> bid2 -> ts1 <> ts2 ->
  rtc (@inter_step NS (renderer_service ucfg dcfg) IL EL dcfg today bid1 bid2 ts1 ts2)
      ((BCreated d1, BCreated d2), w) ((s1, s2), w') ->
  bd_final s1 = true -> bd_final s2 = true ->
  (build d1 bid1 ts1 today w).1 = bd_outcome s1 /\ (build d2 bid2 ts2 today w).1 = bd_outcome s2
  /\ agree (owned dcfg bid1 ts1) (build d1 bid1 ts1 today w).2 w'
  /\ agree (owned dcfg bid2 ts2) (build d2 bid2 ts2 today w).2 w'.
Proof.
  intros Hb1 Hb2 Hne Ht Hr Hf1 Hf2.
  destruct (inter_tracked ucfg dcfg today bid1 bid2 ts1 ts2 w d1 d2 _ _ Hb1 Hb2 Hne Ht Hr
              (conj (tracked_start ucfg dcfg today bid1 ts1 w d1) (tracked_start ucfg dcfg today bid2 ts2 w d2)))
    as [T1 T2]. cbn [fst snd] in T1, T2.
  destruct (tracked_final ucfg dcfg today bid1 ts1 w d1 s1 w' T1 Hf1) as [E1 A1].
  destruct (tracked_final ucfg dcfg today bid2 ts2 w d2 s2 w' T2 Hf2) as [E2 A2].
  done.
Qed.

End Concurrent_claims.

(** ** Two concurrent builds *)

(** Build [b1] runs up to its diagram request, build [b2] runs to its
    end, then [b1] finishes. *)
Definition demo_U : UmlService := renderer_service (H := recorded_zlib) (H0 := demo_env true) demo_ucfg demo_dcfg.
Definition demo_D : json := demo_data demo_title.

Definition demo_r1 : bstate * uml_world :=
  @bd_run (demo_narrative true) demo_U demo_libs demo_exports demo_dcfg ⟪"b1"⟫ 7 ⟪"today"⟫ 3 (BCreated demo_D) demo_world.
Definition demo_r2 : bstate * uml_world :=
  @bd_run (demo_narrative true) demo_U demo_libs demo_exports demo_dcfg ⟪"b2"⟫ 8 ⟪"today"⟫ 6 (BCreated demo_D) demo_r1.2.
Definition demo_r3 : bstate * uml_world :=
  @bd_run (demo_narrative true) demo_U demo_libs demo_exports demo_dcfg ⟪"b1"⟫ 7 ⟪"today"⟫ 3 demo_r1.1 demo_r2.2.

Lemma concurrent_builds_witness :
  bd_final demo_r3.1 = true /\ bd_final demo_r2.1 = true
  /\ (@build_document (demo_narrative true) demo_U demo_libs demo_exports demo_dcfg demo_D ⟪"b1"⟫ 7 ⟪"today"⟫
        demo_world).1 = bd_outcome demo_r3.1
  /\ (@build_document (demo_narrative true) demo_U demo_libs demo_exports demo_dcfg demo_D ⟪"b2"⟫ 8 ⟪"today"⟫
        demo_world).1 = bd_outcome demo_r2.1.
Proof.
  assert (Hf3 : bd_final demo_r3.1 = true) by (vm_compute; reflexivity).
  assert (Hf2 : bd_final demo_r2.1 = true) by (vm_compute; reflexivity).
  assert (Hr : rtc (@inter_step (demo_narrative true) demo_U demo_libs demo_exports demo_dcfg ⟪"today"⟫
                      ⟪"b1"⟫ ⟪"b2"⟫ 7 8) ((BCreated demo_D, BCreated demo_D), demo_world)
                   ((demo_r3.1, demo_r2.1), demo_r3.2)).
  { eapply rtc_trans; [apply rtc_inter_left, bd_run_steps|].
    eapply rtc_trans; [apply rtc_inter_right, bd_run_steps|].
    apply rtc_inter_left, bd_run_steps. }
  destruct (@concurrent_builds recorded_zlib demo_ucfg demo_dcfg (demo_env true) (demo_narrative true) demo_libs
              demo_exports ⟪"today"⟫ ⟪"b1"⟫ ⟪"b2"⟫ 7 8 demo_D demo_D demo_world
              demo_r3.1 demo_r2.1 demo_r3.2) as (E1 & E2 & _ & _);
    [split; [discriminate|by apply (bool_decide_unpack _); vm_compute]
    |split; [discriminate|by apply (bool_decide_unpack _); vm_compute]
    |discriminate|lia|exact Hr|exact Hf3|exact Hf2|].
  split_and!; [exact Hf3|exact Hf2|exact E1|exact E2].
Defined.
