(* ===== verification/Startup.v ===== *)
(** * Process start-up of the three services

    What each module does when it is imported and run as a script, from
    the process environment [os.environ]:

    - Uml.py (lines 16-21, 36-40, 163-164): [DOCBUILDER_URL] (default
      [http://localhost:5002]) and [STATIC_DIR] (default [static]), the
      [makedirs] of the static directory, then [RuntimeError] when
      [GEMINI_API_KEY] is unset or empty; the service listens on port
      5001.  Python stops at line 42 ([// Send data in chunks], a
      SyntaxError) before any of this runs; [uml_startup] is what the
      module does once that line is a comment, and the theorems that
      use it ([uml_startup_some], [default_wiring] and, in [Routing],
      [default_routes]) describe the module so fixed.
    - Docbuilder.py (lines 23, 37-41, 73, 114, 137, 310-311): [PORT] read
      with [int()] (default 5002), the export and diagram directories
      created, and the two service URLs [PARENT_AGENT_URL] and
      [UML_AGENT_URL] with their hosted defaults.
    - AiAgent.py (lines 25-28, 237-239): [RuntimeError] without a
      [GEMINI_API_KEY]; the port is [int(os.environ["PORT"])], a
      [KeyError] when [PORT] is unset.

    Each module first calls [load_dotenv()] (Uml.py 13, AiAgent.py 20,
    Docbuilder.py 22): [load_dotenv] puts the entries of the [.env] file
    under the process environment, and [uml_boot], [builder_boot] and
    [agent_boot] run the start-up on the result.  [genai.configure]
    (Uml.py 39-40, AiAgent.py 28) is kept as the key the process
    configures, with the diagram service's model name.  The logging
    set-up and the Flask and CORS objects have no effect the handlers
    read, and are not modelled.  A failed start is [None].  The theorems
    say when each service starts and with what configuration, which of
    the process environment and [.env] wins, and show that the default
    URLs do not connect a locally run set of services. *)

From S2P Require Import Prelude Python Ingestion Renderer Narrative.
Local Open Scope py_scope.

(** [os.environ] *)
Abbreviation env := (gmap (list ascii) (list ascii)) (only parsing).

(** [not GEMINI_API_KEY]: unset or empty. *)
Definition key_ok (e : env) : bool :=
  match e !! ⟪"GEMINI_API_KEY"⟫ with Some k => bool_decide (k <> []) | None => false end.

(** ** The diagram service *)

(** The state [genai.configure] and [genai.GenerativeModel] leave: the
    key every later [generate_content] call is made with, and the model. *)
Record genai_client := {
  api_key : pystr;
  model_name : pystr
}.

(** Uml.py lines 39-40: the module-level [model]. *)
Definition uml_genai (k : pystr) : genai_client :=
  {| api_key := k; model_name := ⟪"models/gemini-1.5-flash"⟫ |}.

Record uml_process := {
  uml_push_base : pystr;     (** [DOCBUILDER_URL] *)
  uml_cfg : uml_config;
  uml_client : genai_client;
  uml_port : Z
}.

(** Lines 16-19: the push base and the static directory. *)
Definition uml_env (e : env) : pystr * pystr :=
  (default ⟪"http://localhost:5002"⟫ (e !! ⟪"DOCBUILDER_URL"⟫), default ⟪"static"⟫ (e !! ⟪"STATIC_DIR"⟫)).

(** Lines 21 and 36-40: [makedirs], then the key check and
    [genai.configure] with [GEMINI_API_KEY = os.getenv(...)] (line 17). *)
Definition uml_startup (e : env) (disk : pystr -> bool) : option uml_process :=
  let '(url, static) := uml_env e in
  if negb (disk static) then None
  else if negb (key_ok e) then None
  else Some {| uml_push_base := url; uml_cfg := {| static_dir := static; uml_disk_ok := disk |};
               uml_client := uml_genai (default [] (e !! ⟪"GEMINI_API_KEY"⟫));
               uml_port := 5001 |}.

(** Line 133: where the pushes go. *)
Definition push_url (u : uml_process) : pystr := uml_push_base u ++ ⟪"/ingest-diagram"⟫.

(** ** The document builder *)

Record builder_process := {
  builder_port : Z;
  builder_cfg : doc_config;
  parent_url : pystr;        (** the [/generate-doc] URL, line 114 *)
  uml_agent_url : pystr      (** the [/generate-uml-image] URL, lines 73 and 137 *)
}.

(** Line 23: [int(os.getenv("PORT", 5002))]. *)
Definition builder_port_of (e : env) : option Z :=
  match e !! ⟪"PORT"⟫ with None => Some 5002%Z | Some s => int_of_str s end.

(** Lines 23 and 37-41, with the URLs of lines 73, 114 and 137. *)
Definition builder_startup (e : env) (base : pystr) (disk : pystr -> bool) : option builder_process :=
  port ← builder_port_of e;
  let cfg := {| base_dir := base; doc_disk_ok := disk |} in
  if disk (export_dir cfg) && disk (diagr_dir cfg) then
    Some {| builder_port := port; builder_cfg := cfg;
            parent_url := default ⟪"https://aiagent-xyq4.onrender.com"⟫ (e !! ⟪"PARENT_AGENT_URL"⟫)
                          ++ ⟪"/generate-doc"⟫;
            uml_agent_url := default ⟪"https://umlgenerator.onrender.com"⟫ (e !! ⟪"UML_AGENT_URL"⟫)
                             ++ ⟪"/generate-uml-image"⟫ |}
  else None.

(** ** The narrative service: its key and port *)

Record agent_process := {
  agent_key : pystr;         (** [genai.configure(api_key=...)], line 28 *)
  agent_port : Z
}.

(** Lines 25-28, then [int(os.environ["PORT"])] of line 238. *)
Definition agent_startup (e : env) : option agent_process :=
  if negb (key_ok e) then None
  else match e !! ⟪"PORT"⟫ with
       | Some s => (fun p => {| agent_key := default [] (e !! ⟪"GEMINI_API_KEY"⟫); agent_port := p |})
                   <$> int_of_str s
       | None => None
       end.

(** ** [load_dotenv()]

    Each module calls [load_dotenv()] before it reads the environment
    (Uml.py 13, AiAgent.py 20, Docbuilder.py 22).  python-dotenv reads
    the first [.env] file found from the module's directory upwards and
    sets each entry with a value, with [override=False]: a variable the
    process already has keeps its value.  [dotenv] is the parsed and
    interpolated file, empty when there is none. *)
Definition load_dotenv (dotenv e : env) : env := e ∪ dotenv.

Definition uml_boot (dotenv e : env) (disk : pystr -> bool) : option uml_process :=
  uml_startup (load_dotenv dotenv e) disk.

Definition builder_boot (dotenv e : env) (base : pystr) (disk : pystr -> bool) : option builder_process :=
  builder_startup (load_dotenv dotenv e) base disk.

Definition agent_boot (dotenv e : env) : option agent_process :=
  agent_startup (load_dotenv dotenv e).

(** The URL of a service listening on [port] of [host]. *)
Definition local_url (host : pystr) (port : Z) : pystr := ⟪"http://"⟫ ++ host ++ ":"%char :: str_Z port.

(** ** Theorems *)

(** The diagram service starts exactly when its static directory can be
    made and the key is set and not empty. *)
Theorem uml_startup_some e disk :
  is_Some (uml_startup e disk) <-> disk (default ⟪"static"⟫ (e !! ⟪"STATIC_DIR"⟫)) = true /\ key_ok e = true.
Proof.
  unfold uml_startup, uml_env. destruct (disk _), (key_ok e); cbn [negb];
    split; intros H; destruct H; try done; by eexists.
Qed.

(** The document builder starts exactly when [int()] reads its [PORT]
    (or it is unset) and both directories can be made. *)
Theorem builder_startup_some e base disk :
  is_Some (builder_startup e base disk)
  <-> (e !! ⟪"PORT"⟫ = None \/ exists s, e !! ⟪"PORT"⟫ = Some s /\ is_Some (int_of_str s))
      /\ disk (export_dir {| base_dir := base; doc_disk_ok := disk |}) = true
      /\ disk (diagr_dir {| base_dir := base; doc_disk_ok := disk |}) = true.
Proof.
  unfold builder_startup, builder_port_of. destruct (e !! ⟪"PORT"⟫) as [s|] eqn:Ep.
  - destruct (int_of_str s) as [z|] eqn:Ei; cbn [mbind option_bind].
    + destruct (disk _) eqn:D1, (disk (diagr_dir _)) eqn:D2; cbn [andb];
        (split; [intros [? H]; try done|intros (_ & ? & ?); try done; by eexists]).
      split_and!; try done. right. eauto.
    + split; [intros [? H]; done|]. intros ([?|(s' & [= <-] & [? ?])] & _); congruence.
  - cbn [mbind option_bind]. destruct (disk _) eqn:D1, (disk (diagr_dir _)) eqn:D2; cbn [andb];
      (split; [intros [? H]; try done|intros (_ & ? & ?); try done; by eexists]).
    split_and!; auto.
Qed.

(** Started from one environment, the narrative service and the
    document builder read the same [PORT] and bind the same port; with
    [PORT] unset the narrative service does not start at all. *)
Theorem shared_port e base disk a b :
  agent_startup e = Some a -> builder_startup e base disk = Some b -> builder_port b = agent_port a.
Proof.
  unfold agent_startup, builder_startup, builder_port_of. destruct (key_ok e); [|done]. cbn [negb].
  destruct (e !! ⟪"PORT"⟫) as [s|]; [|done]. destruct (int_of_str s); [|done]. intros [= <-].
  cbn [mbind option_bind]. destruct (_ && _); [|done]. by intros [= <-].
Qed.

(** With only the key set, the diagram service pushes to the builder's
    local port, but the builder asks the hosted diagram service, not the
    local one on port 5001, and the narrative service does not start:
    the default URLs do not connect three locally run services. *)
Theorem default_wiring k base disk u b :
  k <> [] -> uml_startup {[⟪"GEMINI_API_KEY"⟫ := k]} disk = Some u ->
  builder_startup {[⟪"GEMINI_API_KEY"⟫ := k]} base disk = Some b ->
  push_url u = local_url ⟪"localhost"⟫ (builder_port b) ++ ⟪"/ingest-diagram"⟫
  /\ uml_agent_url b <> local_url ⟪"localhost"⟫ (uml_port u) ++ ⟪"/generate-uml-image"⟫
  /\ agent_startup {[⟪"GEMINI_API_KEY"⟫ := k]} = None.
Proof.
  intros Hk. unfold uml_startup, uml_env, builder_startup, builder_port_of, agent_startup, key_ok.
  rewrite !lookup_singleton_ne by done. rewrite lookup_singleton_eq, bool_decide_true by done.
  cbn [default negb mbind option_bind].
  destruct (disk _); [|done]. intros [= <-]. destruct (_ && _); [|done]. intros [= <-].
  split_and!; [reflexivity|discriminate|reflexivity].
Qed.

(** ** The environment after [load_dotenv()] *)

(** A variable set in the process keeps its value; one the process
    lacks takes the [.env] value, if any. *)
Lemma lookup_load_dotenv d e k :
  load_dotenv d e !! k = match e !! k with Some v => Some v | None => d !! k end.
Proof. unfold load_dotenv. rewrite lookup_union. by destruct (e !! k), (d !! k). Qed.

(** The value a service reads for [k]: the process value when the
    process has [k], the [.env] value otherwise. *)
Definition env_reads (d e : env) (k v : pystr) : Prop :=
  e !! k = Some v \/ e !! k = None /\ d !! k = Some v.

Lemma env_reads_lookup d e k v : env_reads d e k v -> load_dotenv d e !! k = Some v.
Proof. rewrite lookup_load_dotenv. by intros [-> | [-> ->]]. Qed.

Lemma key_ok_reads d e k :
  env_reads d e ⟪"GEMINI_API_KEY"⟫ k -> key_ok (load_dotenv d e) = bool_decide (k <> []).
Proof. unfold key_ok. by intros ->%env_reads_lookup. Qed.

(** C17: The narrative service (AiAgent.py, which imports; Uml.py stops
    at its line 42) reads its Gemini key and its port after
    [load_dotenv()]: each is the process's value when the process has
    the variable and the [.env] file's otherwise.  It starts exactly when
    that key is not empty and that [PORT] is read by [int()], and it
    configures genai with that key; so an empty GEMINI_API_KEY exported
    in the shell stops it whatever key [.env] holds. *)
Theorem agent_boot_key d e k :
  env_reads d e ⟪"GEMINI_API_KEY"⟫ k ->
  (is_Some (agent_boot d e)
   <-> k <> [] /\ exists s, load_dotenv d e !! ⟪"PORT"⟫ = Some s /\ is_Some (int_of_str s))
  /\ (forall a, agent_boot d e = Some a -> agent_key a = k).
Proof.
  intros Hk. pose proof (key_ok_reads _ _ _ Hk) as Hok. apply env_reads_lookup in Hk.
  unfold agent_boot, agent_startup. rewrite Hok, Hk. cbn [default].
  destruct (bool_decide (k <> [])) eqn:Eb; cbn [negb].
  - apply bool_decide_eq_true in Eb. destruct (_ !! ⟪"PORT"⟫) as [s|] eqn:Ep.
    + destruct (int_of_str s) eqn:Ei; cbn [fmap option_fmap option_map].
      * split; [|by intros a [= <-]]. split; [intros _; split; [done|]; exists s; by rewrite Ei|by eexists].
      * split; [|done]. split; [by intros []|]. intros (_ & s' & [= <-] & Hs). by rewrite Ei in Hs.
    + split; [|done]. split; [by intros []|]. by intros (_ & s' & ? & _).
  - apply bool_decide_eq_false in Eb. split; [|done]. split; [by intros []|]. by intros [? _].
Qed.

Lemma agent_boot_key_witness :
  env_reads {[⟪"GEMINI_API_KEY"⟫ := ⟪"k1"⟫; ⟪"PORT"⟫ := ⟪"5000"⟫]} {[⟪"GEMINI_API_KEY"⟫ := []]} ⟪"GEMINI_API_KEY"⟫ []
  /\ agent_boot {[⟪"GEMINI_API_KEY"⟫ := ⟪"k1"⟫; ⟪"PORT"⟫ := ⟪"5000"⟫]} {[⟪"GEMINI_API_KEY"⟫ := []]} = None.
Proof.
  assert (H : env_reads {[⟪"GEMINI_API_KEY"⟫ := ⟪"k1"⟫; ⟪"PORT"⟫ := ⟪"5000"⟫]} {[⟪"GEMINI_API_KEY"⟫ := []]}
                ⟪"GEMINI_API_KEY"⟫ []) by (left; reflexivity).
  split; [exact H|].
  destruct (proj1 (agent_boot_key _ _ _ H)) as [Hs _].
  destruct (agent_boot _ _) as [a|]; [|reflexivity].
  exfalso. destruct (Hs (mk_is_Some _ _ eq_refl)) as [Hne _]. exact (Hne eq_refl).
Defined.

Lemma builder_startup_port e base disk b :
  builder_startup e base disk = Some b -> builder_port_of e = Some (builder_port b).
Proof.
  unfold builder_startup. destruct (builder_port_of e); cbn [mbind option_bind]; [|done].
  destruct (_ && _); [|done]. by intros [= <-].
Qed.

(** The document builder's port: [PORT] of the process, else of [.env],
    read by [int()], else 5002. *)
Theorem builder_boot_port d e base disk b :
  builder_boot d e base disk = Some b ->
  (forall s, env_reads d e ⟪"PORT"⟫ s -> int_of_str s = Some (builder_port b))
  /\ (e !! ⟪"PORT"⟫ = None -> d !! ⟪"PORT"⟫ = None -> builder_port b = 5002%Z).
Proof.
  intros Hb%builder_startup_port. unfold builder_port_of in Hb. rewrite lookup_load_dotenv in Hb.
  split; [intros s [E|[E E']]|intros E E']; rewrite ?E, ?E' in Hb; congruence.
Qed.
