(* ===== verification/Routing.v ===== *)
(** * URL routing of the three Flask applications

    Each service registers its handlers with [@app.route]: the diagram
    service [POST /generate-uml-image] (Uml.py line 57), the narrative
    service [POST /generate-doc] (AiAgent.py line 159), the document
    builder [POST /generate-uml], [POST /ingest-diagram], [POST
    /build-document] and [GET /download/<filetype>/<filename>]
    (Docbuilder.py lines 68, 83, 104 and 300), and each listens with
    [app.run] (Uml.py 163-164, AiAgent.py 237-239, Docbuilder.py
    309-310).

    [route] is Werkzeug's matching of a request path against a URL map:
    the path is cut at slashes; a literal part matches itself, a
    [<name>] part (the default [string] converter) a non-empty segment;
    no rule with a matching path is a 404, a matching path whose rule
    does not allow the method a 405.  Flask adds [OPTIONS] to every rule
    and Werkzeug [HEAD] to a rule with [GET].  [url_split] cuts an
    absolute URL into its origin and path.

    The theorems: routing a download URL is the [download_route] of file
    [Endpoints]; and the URLs the services call each other with are
    routed to the handlers meant, while, with the default environment,
    only the diagram service's push reaches a locally run service. *)

From S2P Require Import Prelude Python Encoder Planner Ingestion Renderer Assembly Builder Narrative Lifecycle Endpoints Startup.
Local Open Scope py_scope.

(** ** URL maps *)

Inductive endpoint :=
| GenerateUmlImage | GenerateDoc | GenerateUml | IngestDiagram | BuildDocument | DownloadFileEp.

#[export] Instance endpoint_eq_dec : EqDecision endpoint.
Proof. solve_decision. Qed.

Inductive segment := SLit (s : pystr) | SVar (name : pystr).

Record rule := mk_rule { rule_methods : list pystr; rule_path : list segment; rule_endpoint : endpoint }.

(** Uml.py line 57. *)
Definition uml_url_map : list rule :=
  [mk_rule [⟪"POST"⟫] [SLit ⟪"generate-uml-image"⟫] GenerateUmlImage].

(** AiAgent.py line 159. *)
Definition agent_url_map : list rule :=
  [mk_rule [⟪"POST"⟫] [SLit ⟪"generate-doc"⟫] GenerateDoc].

(** Docbuilder.py lines 68, 83, 104 and 300. *)
Definition generate_uml_rule : rule := mk_rule [⟪"POST"⟫] [SLit ⟪"generate-uml"⟫] GenerateUml.
Definition ingest_rule : rule := mk_rule [⟪"POST"⟫] [SLit ⟪"ingest-diagram"⟫] IngestDiagram.
Definition build_rule : rule := mk_rule [⟪"POST"⟫] [SLit ⟪"build-document"⟫] BuildDocument.
Definition download_rule : rule :=
  mk_rule [⟪"GET"⟫] [SLit ⟪"download"⟫; SVar ⟪"filetype"⟫; SVar ⟪"filename"⟫] DownloadFileEp.

Definition builder_url_map : list rule := [generate_uml_rule; ingest_rule; build_rule; download_rule].

(** ** Matching *)

(** [s.split(c)] *)
Fixpoint split_from (c : ascii) (cur : pystr) (s : pystr) : list pystr :=
  match s with
  | [] => [reverse cur]
  | x :: r => if decide (x = c) then reverse cur :: split_from c [] r else split_from c (x :: cur) r
  end.

Definition split_on (c : ascii) (s : pystr) : list pystr := split_from c [] s.

(** The segments of a path, which starts with a slash. *)
Definition path_segments (p : pystr) : option (list pystr) :=
  match p with "/"%char :: r => Some (split_on "/"%char r) | _ => None end.

(** The values of the [<name>] parts when the segments match the rule. *)
Fixpoint match_rule (ps : list segment) (ss : list pystr) : option (list pystr) :=
  match ps, ss with
  | [], [] => Some []
  | SLit l :: ps', s :: ss' => if bool_decide (s = l) then match_rule ps' ss' else None
  | SVar _ :: ps', s :: ss' => if bool_decide (s <> []) then cons s <$> match_rule ps' ss' else None
  | _, _ => None
  end.

(** The methods a rule answers: its own, [OPTIONS], and [HEAD] with
    [GET]. *)
Definition allowed_methods (r : rule) : list pystr :=
  rule_methods r ++ [⟪"OPTIONS"⟫] ++ (if bool_decide (⟪"GET"⟫ ∈ rule_methods r) then [⟪"HEAD"⟫] else []).

Inductive route_result :=
| Routed (e : endpoint) (args : list pystr)
| NotFound                    (** 404 *)
| MethodNotAllowed.           (** 405 *)

Definition route (m : list rule) (meth path : pystr) : route_result :=
  match path_segments path with
  | None => NotFound
  | Some ss =>
      let hits := omap (fun r => (fun args => (r, args)) <$> match_rule (rule_path r) ss) m in
      match List.find (fun ra => bool_decide (meth ∈ allowed_methods ra.1)) hits with
      | Some (r, args) => Routed (rule_endpoint r) args
      | None => if bool_decide (hits = []) then NotFound else MethodNotAllowed
      end
  end.

(** An absolute [http] or [https] URL: its origin ([scheme://netloc])
    and its path (from the first slash after the network location). *)
Definition url_split (u : pystr) : option (pystr * pystr) :=
  let split_rest (scheme rest : pystr) :=
    let netloc := split_first "/"%char rest in
    Some (scheme ++ netloc, drop (length netloc) rest) in
  if startswith ⟪"http://"⟫ u then split_rest ⟪"http://"⟫ (drop 7 u)
  else if startswith ⟪"https://"⟫ u then split_rest ⟪"https://"⟫ (drop 8 u)
  else None.

(** ** [app.run] *)

(** Uml.py 163-164: [host="0.0.0.0", port=5001]. *)
Definition uml_listen (u : uml_process) : pystr * Z := (⟪"0.0.0.0"⟫, uml_port u).

(** Docbuilder.py 309-310: the port read at line 23. *)
Definition builder_listen (b : builder_process) : pystr * Z := (⟪"0.0.0.0"⟫, builder_port b).

(** AiAgent.py 237-239: the port [int(os.environ["PORT"])]. *)
Definition agent_listen (port : Z) : pystr * Z := (⟪"0.0.0.0"⟫, port).

(** A service listening on all interfaces of the local host is reached by
    [http://localhost:port]. *)
Definition local_origin (l : pystr * Z) : pystr := ⟪"http://localhost:"⟫ ++ str_Z l.2.

(** The document builder's answer to [GET path] when the path starts
    with [/download/]: the view function of the rule that matches, else
    Flask's 404. *)
Definition get_download (cfg : doc_config) (path : pystr) : stm uml_world download_response :=
  match route builder_url_map ⟪"GET"⟫ path with
  | Routed DownloadFileEp [ft; fn] => download_file cfg ft fn
  | _ => mret DownloadNotFound
  end.

(** ** Lemmas *)

Lemma split_from_no_sep c cur s : c ∉ s -> split_from c cur s = [reverse cur ++ s].
Proof.
  revert cur. induction s as [|x s IH]; intros cur Hs; simpl; [by rewrite app_nil_r|].
  rewrite decide_False by set_solver. rewrite IH by set_solver.
  by rewrite reverse_cons, <- app_assoc.
Qed.

Lemma split_from_app c cur s t :
  c ∉ s -> split_from c cur (s ++ c :: t) = (reverse cur ++ s) :: split_from c [] t.
Proof.
  revert cur. induction s as [|x s IH]; intros cur Hs; simpl.
  - rewrite decide_True by done. by rewrite app_nil_r.
  - rewrite decide_False by set_solver. rewrite IH by set_solver. by rewrite reverse_cons, <- app_assoc.
Qed.

Lemma split_from_nonempty c cur s : split_from c cur s <> [].
Proof. revert cur. induction s as [|x s IH]; intros cur; simpl; [done|]. by case_decide. Qed.

Lemma split_from_sep c cur s : c ∈ s -> 2 <= length (split_from c cur s).
Proof.
  intros Hs. destruct (list_elem_of_split_l _ _ Hs) as (s1 & s2 & -> & Hn).
  rewrite split_from_app by done. simpl. pose proof (split_from_nonempty c [] s2).
  destruct (split_from c [] s2); [done|]. simpl. lia.
Qed.

Lemma match_rule_length ps ss a : match_rule ps ss = Some a -> length ps = length ss.
Proof.
  revert ss a. induction ps as [|[l|n] ps IH]; intros [|s ss] a; simpl; try done.
  - case_bool_decide; [|done]. intros E. by rewrite (IH _ _ E).
  - case_bool_decide; [|done]. destruct (match_rule ps ss) eqn:E; [|done]. intros _. by rewrite (IH _ _ E).
Qed.

(** No rule of the map has as many parts as the path has segments. *)
Lemma route_no_match m meth p ss :
  path_segments p = Some ss -> Forall (fun r => length (rule_path r) <> length ss) m -> route m meth p = NotFound.
Proof.
  intros Hp Hm. unfold route. rewrite Hp.
  assert (Hh : omap (fun r => (fun args => (r, args)) <$> match_rule (rule_path r) ss) m = []).
  { induction Hm as [|r m Hr _ IH]; [done|]. simpl.
    destruct (match_rule (rule_path r) ss) eqn:E; [by apply match_rule_length in E|]. exact IH. }
  rewrite Hh. reflexivity.
Qed.

Lemma path_segments_download ft fn :
  path_segments (⟪"/download/"⟫ ++ ft ++ "/"%char :: fn)
  = Some (⟪"download"⟫ :: split_from "/"%char [] (ft ++ "/"%char :: fn)).
Proof.
  change (⟪"/download/"⟫ ++ ft ++ "/"%char :: fn) with ("/"%char :: ⟪"download"⟫ ++ "/"%char :: ft ++ "/"%char :: fn).
  unfold path_segments, split_on. rewrite split_from_app by not_in_lit. done.
Qed.

Lemma split_from_two_sep c s t : c ∈ s -> 3 <= length (split_from c [] (s ++ c :: t)).
Proof.
  intros Hs. destruct (list_elem_of_split_l _ _ Hs) as (a & b & -> & Ha).
  rewrite <- app_assoc. cbn [app]. rewrite split_from_app by done. cbn [length].
  assert (2 <= length (split_from c [] (b ++ c :: t))); [|lia].
  apply split_from_sep. apply elem_of_app. right. left.
Qed.

(** ** Theorems *)

(** Werkzeug routes [GET /download/<filetype>/<filename>] to the
    download handler exactly when both parts are non-empty segments
    without a slash, the condition of [download_route]; any other such
    path is a 404. *)
Theorem route_download ft fn :
  route builder_url_map ⟪"GET"⟫ (⟪"/download/"⟫ ++ ft ++ "/"%char :: fn)
  = if url_segment ft && url_segment fn then Routed DownloadFileEp [ft; fn] else NotFound.
Proof.
  pose proof (path_segments_download ft fn) as Hp.
  unfold url_segment. destruct (decide ("/"%char ∈ ft)) as [Hft|Hft].
  - rewrite (bool_decide_false (_ ∉ ft)) by tauto. rewrite andb_false_r. cbn [andb].
    eapply route_no_match; [exact Hp|]. pose proof (split_from_two_sep "/"%char ft fn Hft).
    repeat constructor; simpl; lia.
  - rewrite split_from_app in Hp by done. rewrite reverse_nil, app_nil_l in Hp.
    destruct (decide ("/"%char ∈ fn)) as [Hfn|Hfn].
    + rewrite (bool_decide_false (_ ∉ fn)) by tauto. rewrite !andb_false_r.
      eapply route_no_match; [exact Hp|]. pose proof (split_from_sep "/"%char [] fn Hfn).
      repeat constructor; simpl; lia.
    + rewrite split_from_no_sep in Hp by done. rewrite reverse_nil, app_nil_l in Hp.
      rewrite !(bool_decide_true (_ ∉ _)) by done. rewrite !andb_true_r.
      unfold route. rewrite Hp. destruct ft, fn; vm_compute; reflexivity.
Qed.

(** Flask's dispatch of a download URL through the document
    builder's URL map is the [download_route] of file [Endpoints], on
    which the download theorems are stated: the handler with the two
    path segments when both are non-empty and hold no slash, Flask's 404
    otherwise. *)
Corollary get_download_route cfg ft fn :
  get_download cfg (⟪"/download/"⟫ ++ ft ++ "/"%char :: fn) = download_route cfg ft fn.
Proof.
  unfold get_download, download_route. rewrite route_download.
  by destruct (url_segment ft && url_segment fn).
Qed.

(** With only the key set, the diagram service's push URL is the
    document builder's local origin with the path its URL map routes to
    [ingest_diagram]; the builder's two outbound URLs have the paths the
    other services route to their handlers, but hosted origins. *)
Theorem default_routes k base disk u b :
  k <> [] -> uml_startup {[⟪"GEMINI_API_KEY"⟫ := k]} disk = Some u ->
  builder_startup {[⟪"GEMINI_API_KEY"⟫ := k]} base disk = Some b ->
  url_split (push_url u) = Some (local_origin (builder_listen b), ⟪"/ingest-diagram"⟫)
  /\ route builder_url_map ⟪"POST"⟫ ⟪"/ingest-diagram"⟫ = Routed IngestDiagram []
  /\ url_split (uml_agent_url b) = Some (⟪"https://umlgenerator.onrender.com"⟫, ⟪"/generate-uml-image"⟫)
  /\ route uml_url_map ⟪"POST"⟫ ⟪"/generate-uml-image"⟫ = Routed GenerateUmlImage []
  /\ url_split (parent_url b) = Some (⟪"https://aiagent-xyq4.onrender.com"⟫, ⟪"/generate-doc"⟫)
  /\ route agent_url_map ⟪"POST"⟫ ⟪"/generate-doc"⟫ = Routed GenerateDoc [].
Proof.
  intros Hk. unfold uml_startup, uml_env, builder_startup, builder_port_of.
  rewrite !lookup_singleton_ne by done. cbn [default mbind option_bind].
  destruct (disk _), (key_ok _); cbn [negb]; try done. intros [= <-].
  destruct (_ && _); [|done]. intros [= <-].
  split_and!; vm_compute; reflexivity.
Qed.

Lemma default_routes_witness :
  url_split (push_url {| uml_push_base := ⟪"http://localhost:5002"⟫;
                         uml_cfg := {| static_dir := ⟪"static"⟫; uml_disk_ok := fun _ => true |};
                         uml_client := uml_genai ⟪"k"⟫; uml_port := 5001 |})
  = Some (⟪"http://localhost:5002"⟫, ⟪"/ingest-diagram"⟫).
Proof.
  destruct (default_routes ⟪"k"⟫ ⟪"srv"⟫ (fun _ => true)
              {| uml_push_base := ⟪"http://localhost:5002"⟫;
                 uml_cfg := {| static_dir := ⟪"static"⟫; uml_disk_ok := fun _ => true |}; uml_client := uml_genai ⟪"k"⟫; uml_port := 5001 |}
              {| builder_port := 5002; builder_cfg := {| base_dir := ⟪"srv"⟫; doc_disk_ok := fun _ => true |};
                 parent_url := ⟪"https://aiagent-xyq4.onrender.com/generate-doc"⟫;
                 uml_agent_url := ⟪"https://umlgenerator.onrender.com/generate-uml-image"⟫ |})
    as [E _]; [discriminate|reflexivity|reflexivity|].
  rewrite E. reflexivity.
Defined.
